(** * SimpleChatting: the group, member and permission model of [server.py]

    A shallow embedding of the server's classes ([Permissions], [Group],
    [User], [Client]) and of its command dispatcher ([broadcast],
    [handle]), followed by the properties of the specification.

    Python objects are mutable and shared by reference, so the embedding
    keeps an explicit store: every [Permissions] and every [Client] object
    lives at an address, and slots hold addresses.  Methods are state
    transformers that may raise; the state reached when an exception is
    raised is kept, as in Python. *)

From Stdlib Require Import ZArith String Ascii List Lia Bool.
From Stdlib Require Import DecimalString.
From stdpp Require Import base decidable option list gmap sets.

Local Open Scope string_scope.
Local Open Scope list_scope.
Local Open Scope nat_scope.

(* ================================================================== *)
(** ** Exceptions and the method monad *)
(* ================================================================== *)

(** The exceptions the server code raises or can run into.  [Forbidden] is
    the server's own class (derived from [OperationFailed]); the others are
    Python's.  [Stuck] is not a Python exception: it marks a read through an
    address that is not in the store, which no state built by the
    constructors below produces.  [Diverge] is not one either: it marks a
    loop whose iteration bound ran out, shown below never to happen. *)
Inductive exn : Type :=
| TypeError
| ValueError
| AttributeError
| IndexError
| Forbidden
| Stuck
| Diverge.

#[global] Instance exn_eq_dec : EqDecision exn.
Proof. solve_decision. Defined.

Inductive res (A : Type) : Type :=
| Ok (a : A)
| Raise (e : exn).
Arguments Ok {A} a.
Arguments Raise {A} e.

(** Addresses of objects in the store, and socket objects.  Sockets are
    compared by identity in Python; a socket is modelled by its identity. *)
Abbreviation loc := nat (only parsing).
Abbreviation sock := nat (only parsing).

(* ================================================================== *)
(** ** Objects *)
(* ================================================================== *)

(** [class PermissionValues] *)
Module PermissionValues.
Definition READ_MESSAGES : Z := 1.
Definition SEND_MESSAGES : Z := 2.
Definition KICK_MEMBERS : Z := 4.
Definition BAN_MEMBERS : Z := 8.
Definition CHANGE_NICKNAME : Z := 16.
Definition MANAGE_NICKNAMES : Z := 32.
Definition CHANGE_SETTINGS : Z := 64.
Definition UPDATE_PERMISSIONS : Z := 128.
Definition ALL : Z := 255.
End PermissionValues.

(** A [Permissions] object: the single slot [_value]. *)
Record Permissions : Type := mkPermissions { value : Z }.

(** A [User] object: slots [_name], [_id], [_socket]. *)
Record User : Type := mkUser {
  u_name : string;
  u_id : Z;
  u_socket : sock
}.

(** The model follows one [Group] object; a [Client]'s [_group] slot is
    either [None] or a reference to it. *)
Variant group_ref : Type := the_group.

(** A [Client] object: the [User] slots and [_group], [_permissions],
    [_nickname].  [_permissions] holds the address of a [Permissions]
    object, which may be shared with other holders. *)
Record Client : Type := mkClient {
  c_name : string;
  c_id : Z;
  c_socket : sock;
  c_group : option group_ref;
  c_permissions : option loc;
  c_nickname : option string
}.

(** The [Group] object: slots [_name], [_owner], [_clients], [_bans],
    [_default_perms], [_is_public], [_id].  [_owner] and the entries of
    [_clients] are addresses of [Client] objects. *)
Record Group : Type := mkGroup {
  g_name : option string;
  g_owner : option loc;
  g_clients : list loc;
  g_bans : gset Z;
  g_default_perms : option loc;
  g_is_public : bool;
  g_id : Z
}.

(** Values a method may be handed where the code tests the class of its
    argument with [isinstance]. *)
Inductive pyobj : Type :=
| PNone
| PPerm (p : loc)
| PUser (u : User)
| PClient (c : loc).

(** The program state.
    - [perm_objs], [client_objs]: the stores of [Permissions] and [Client]
      objects; an address is an index, objects are never freed;
    - [group]: the slots of the [Group] object (blank before
      [Group.__init__] has run);
    - [group_bound]: whether the module global [group] refers to the
      [Group] object ([true]) or is [None];
    - [uuid_src], [uuid_drawn]: the results of the successive calls of
      [uuid4().int], and how many were made;
    - [sent]: the calls of [socket.send], oldest first. *)
Record State : Type := mkState {
  perm_objs : list Permissions;
  client_objs : list Client;
  group : Group;
  group_bound : bool;
  uuid_src : nat -> Z;
  uuid_drawn : nat;
  sent : list (sock * string)
}.

Definition set_perm_objs (f : list Permissions -> list Permissions) (s : State) : State :=
  mkState (f (perm_objs s)) (client_objs s) (group s) (group_bound s)
          (uuid_src s) (uuid_drawn s) (sent s).

Definition set_client_objs (f : list Client -> list Client) (s : State) : State :=
  mkState (perm_objs s) (f (client_objs s)) (group s) (group_bound s)
          (uuid_src s) (uuid_drawn s) (sent s).

Definition set_group (f : Group -> Group) (s : State) : State :=
  mkState (perm_objs s) (client_objs s) (f (group s)) (group_bound s)
          (uuid_src s) (uuid_drawn s) (sent s).

Definition set_group_bound (b : bool) (s : State) : State :=
  mkState (perm_objs s) (client_objs s) (group s) b
          (uuid_src s) (uuid_drawn s) (sent s).

Definition set_uuid_drawn (n : nat) (s : State) : State :=
  mkState (perm_objs s) (client_objs s) (group s) (group_bound s)
          (uuid_src s) n (sent s).

Definition set_sent (f : list (sock * string) -> list (sock * string)) (s : State) : State :=
  mkState (perm_objs s) (client_objs s) (group s) (group_bound s)
          (uuid_src s) (uuid_drawn s) (f (sent s)).

(** Slot updates of the [Group] object. *)
Definition g_set_name (v : option string) (g : Group) : Group :=
  mkGroup v (g_owner g) (g_clients g) (g_bans g) (g_default_perms g) (g_is_public g) (g_id g).
Definition g_set_owner (v : option loc) (g : Group) : Group :=
  mkGroup (g_name g) v (g_clients g) (g_bans g) (g_default_perms g) (g_is_public g) (g_id g).
Definition g_set_clients (v : list loc) (g : Group) : Group :=
  mkGroup (g_name g) (g_owner g) v (g_bans g) (g_default_perms g) (g_is_public g) (g_id g).
Definition g_set_bans (v : gset Z) (g : Group) : Group :=
  mkGroup (g_name g) (g_owner g) (g_clients g) v (g_default_perms g) (g_is_public g) (g_id g).
Definition g_set_default_perms (v : option loc) (g : Group) : Group :=
  mkGroup (g_name g) (g_owner g) (g_clients g) (g_bans g) v (g_is_public g) (g_id g).
Definition g_set_is_public (v : bool) (g : Group) : Group :=
  mkGroup (g_name g) (g_owner g) (g_clients g) (g_bans g) (g_default_perms g) v (g_id g).
Definition g_set_id (v : Z) (g : Group) : Group :=
  mkGroup (g_name g) (g_owner g) (g_clients g) (g_bans g) (g_default_perms g) (g_is_public g) v.

(** Slot updates of a [Client] object. *)
Definition c_set_group (v : option group_ref) (c : Client) : Client :=
  mkClient (c_name c) (c_id c) (c_socket c) v (c_permissions c) (c_nickname c).
Definition c_set_permissions (v : option loc) (c : Client) : Client :=
  mkClient (c_name c) (c_id c) (c_socket c) (c_group c) v (c_nickname c).
Definition c_set_nickname (v : option string) (c : Client) : Client :=
  mkClient (c_name c) (c_id c) (c_socket c) (c_group c) (c_permissions c) v.

(** Methods: state transformers with a result or an exception. *)
Definition M (A : Type) : Type := State -> res A * State.

Definition ret {A} (a : A) : M A := fun s => (Ok a, s).
Definition raise {A} (e : exn) : M A := fun s => (Raise e, s).
Definition bind {A B} (m : M A) (k : A -> M B) : M B :=
  fun s => match m s with
           | (Ok a, s') => k a s'
           | (Raise e, s') => (Raise e, s')
           end.
Definition get : M State := fun s => (Ok s, s).
Definition modify (f : State -> State) : M unit := fun s => (Ok tt, f s).

(** [try: m  except e: h] for one exception class. *)
Definition try_except {A} (m : M A) (e : exn) (h : M A) : M A :=
  fun s => match m s with
           | (Raise e', s') => if decide (e' = e) then h s' else (Raise e', s')
           | r => r
           end.

Declare Scope py_scope.
Delimit Scope py_scope with py.
Notation "x <- m ;; k" := (bind m (fun x => k))
  (at level 100, m at next level, right associativity) : py_scope.
Notation "m ;;; k" := (bind m (fun _ => k))
  (at level 100, right associativity) : py_scope.
Local Open Scope py_scope.

(* ================================================================== *)
(** ** Python text *)
(* ================================================================== *)

(** A [str] is modelled by a [string] whose characters are the code points
    below 256; the functions below are Python's on that range.  A message
    on a socket is modelled by its text: [encode] and [decode] are the
    transport's and are left out. *)

(** [str.isspace] for one character: TAB..CR, FS..US, SPACE, NEL, NBSP. *)
Definition isspace (c : ascii) : bool :=
  let n := nat_of_ascii c in
  ((9 <=? n) && (n <=? 13)) || ((28 <=? n) && (n <=? 32))
  || (n =? 133) || (n =? 160).

Fixpoint lstrip (s : string) : string :=
  match s with
  | EmptyString => EmptyString
  | String c r => if isspace c then lstrip r else s
  end.

Fixpoint rstrip (s : string) : string :=
  match s with
  | EmptyString => EmptyString
  | String c r =>
      match rstrip r with
      | EmptyString => if isspace c then EmptyString else String c EmptyString
      | r' => String c r'
      end
  end.

(** [s.strip()] *)
Definition strip (s : string) : string := rstrip (lstrip s).

(** [str.lower] for one character: A..Z and the capital letters of the
    Latin-1 block (all of 192..222 but the multiplication sign). *)
Definition lower_char (c : ascii) : ascii :=
  let n := nat_of_ascii c in
  if ((65 <=? n) && (n <=? 90))
     || ((192 <=? n) && (n <=? 222) && negb (n =? 215))
  then ascii_of_nat (n + 32) else c.

(** [s.lower()] *)
Fixpoint lower (s : string) : string :=
  match s with
  | EmptyString => EmptyString
  | String c r => String (lower_char c) (lower r)
  end.

(** [s.startswith(p)] *)
Fixpoint startswith (p s : string) : bool :=
  match p, s with
  | EmptyString, _ => true
  | String a p', String b s' => Ascii.eqb a b && startswith p' s'
  | String _ _, EmptyString => false
  end.

(** [s[n:]] *)
Fixpoint slice_from (n : nat) (s : string) : string :=
  match n, s with
  | O, _ => s
  | S n', String _ r => slice_from n' r
  | S _, EmptyString => EmptyString
  end.

(** [s.split()]: the maximal runs of characters that are not whitespace.
    [cur] is the run being read, if one is open. *)
Fixpoint split_from (cur : option string) (s : string) : list string :=
  match s with
  | EmptyString => match cur with Some w => [w] | None => [] end
  | String c r =>
      if isspace c
      then match cur with
           | Some w => w :: split_from None r
           | None => split_from None r
           end
      else split_from (Some (match cur with
                             | Some w => (w ++ String c EmptyString)%string
                             | None => String c EmptyString
                             end)) r
  end.

Definition split (s : string) : list string := split_from None s.

Definition digit_of (c : ascii) : option Z :=
  let n := nat_of_ascii c in
  if (48 <=? n) && (n <=? 57) then Some (Z.of_nat (n - 48)) else None.

(** The digits of an [int(...)] argument: decimal digits, where single
    underscores may stand between two digits.  [prev] tells whether the
    character just read was a digit. *)
Fixpoint int_digits (acc : Z) (prev : bool) (s : string) : option Z :=
  match s with
  | EmptyString => if prev then Some acc else None
  | String c r =>
      match digit_of c with
      | Some d => int_digits (10 * acc + d) true r
      | None => if Ascii.eqb c "_" && prev then int_digits acc false r else None
      end
  end.

(** [int(s)] for a [str]: [None] stands for [ValueError]. *)
Definition py_int (s : string) : option Z :=
  match strip s with
  | String "+" r => int_digits 0 false r
  | String "-" r => option_map Z.opp (int_digits 0 false r)
  | t => int_digits 0 false t
  end.

(** [str(n)] for an [int]. *)
Definition py_str (n : Z) : string := NilZero.string_of_int (Z.to_int n).

(** [len(s)] *)
Definition len (s : string) : nat := String.length s.

(** Every character of [s] is whitespace. *)
Fixpoint all_space (s : string) : bool :=
  match s with
  | EmptyString => true
  | String c r => isspace c && all_space r
  end.

(** No character of [s] is whitespace. *)
Fixpoint no_space (s : string) : bool :=
  match s with
  | EmptyString => true
  | String c r => negb (isspace c) && no_space r
  end.

(** A numeric token of [/setperms] that the dispatcher handles as meant:
    a word that [int] reads as [v] and that is as long as [str(v)]. *)
Definition plain_token (t : string) (v : Z) : Prop :=
  no_space t = true /\ t <> "" /\ py_int t = Some v /\ len t = len (py_str v).

(* ================================================================== *)
(** ** Store access *)
(* ================================================================== *)

Definition perm_at (p : loc) : M Permissions :=
  fun s => match perm_objs s !! p with
           | Some x => (Ok x, s)
           | None => (Raise Stuck, s)
           end.

Definition client_at (c : loc) : M Client :=
  fun s => match client_objs s !! c with
           | Some x => (Ok x, s)
           | None => (Raise Stuck, s)
           end.

Definition new_perm (x : Permissions) : M loc :=
  fun s => (Ok (length (perm_objs s)), set_perm_objs (fun l => l ++ [x]) s).

Definition new_client (x : Client) : M loc :=
  fun s => (Ok (length (client_objs s)), set_client_objs (fun l => l ++ [x]) s).

Definition write_perm (p : loc) (x : Permissions) : M unit :=
  modify (set_perm_objs (fun l => <[p := x]> l)).

Definition update_client (c : loc) (f : Client -> Client) : M unit :=
  modify (set_client_objs (fun l => alter f c l)).

Definition get_group : M Group := fun s => (Ok (group s), s).

Definition update_group (f : Group -> Group) : M unit := modify (set_group f).

(** [uuid4().int]: the next value of the source. *)
Definition uuid4 : M Z :=
  fun s => (Ok (uuid_src s (uuid_drawn s)), set_uuid_drawn (S (uuid_drawn s)) s).

(** [socket.send(message)]: recorded; the transport is taken not to fail. *)
Definition socket_send (k : sock) (message : string) : M unit :=
  modify (set_sent (fun l => l ++ [(k, message)])).

(* ================================================================== *)
(** ** class Permissions *)
(* ================================================================== *)

(** [Permissions.__init__(value)] *)
Definition Permissions_init (v : Z) : M loc :=
  if (v <? 0)%Z then raise ValueError
  else if (v >? PermissionValues.ALL)%Z then raise ValueError
  else new_perm (mkPermissions v).

Definition Permissions_none : M loc := Permissions_init 0.
Definition Permissions_all : M loc := Permissions_init PermissionValues.ALL.
Definition Permissions_default : M loc := Permissions_init 19.
Definition Permissions_moderator : M loc := Permissions_init 63.

(** [bool(self._value >> n & 1)] *)
Definition flag (n : Z) (p : Permissions) : bool :=
  negb (Z.land (Z.shiftr (value p) n) 1 =? 0)%Z.

Definition read_messages : Permissions -> bool := flag 0.
Definition send_messages : Permissions -> bool := flag 1.
Definition kick_members : Permissions -> bool := flag 2.
Definition ban_members : Permissions -> bool := flag 3.
Definition change_nickname : Permissions -> bool := flag 4.
Definition manage_nicknames : Permissions -> bool := flag 5.
Definition change_settings : Permissions -> bool := flag 6.
Definition update_permissions : Permissions -> bool := flag 7.
Definition all_permissions (p : Permissions) : bool :=
  (value p =? PermissionValues.ALL)%Z.

(** [Permissions.update(permission_value)] *)
Definition Permissions_update (self : loc) (permission_value : Z) : M unit :=
  if (permission_value <? 0)%Z then raise ValueError
  else if (permission_value >? PermissionValues.ALL)%Z then raise ValueError
  else (_ <- perm_at self ;; write_perm self (mkPermissions permission_value)).

(** The comparisons on two [Permissions] objects, as the bodies compute
    them once the class test has passed. *)
Definition le (a b : Permissions) : bool := (Z.land (value a) (value b) =? value a)%Z.
Definition ge (a b : Permissions) : bool := (Z.lor (value a) (value b) =? value a)%Z.
Definition lt (a b : Permissions) : bool := le a b && negb (value a =? value b)%Z.
Definition gt (a b : Permissions) : bool := ge a b && negb (value a =? value b)%Z.

(** [Permissions.__eq__(other)] *)
Definition Permissions_eq (self : loc) (other : pyobj) : M bool :=
  match other with
  | PPerm q => a <- perm_at self ;; b <- perm_at q ;; ret (value a =? value b)%Z
  | _ => ret false
  end.

(** [Permissions.__le__(other)] *)
Definition Permissions_le (self : loc) (other : pyobj) : M bool :=
  match other with
  | PPerm q => a <- perm_at self ;; b <- perm_at q ;; ret (le a b)
  | _ => raise TypeError
  end.

(** [Permissions.__ge__(other)] *)
Definition Permissions_ge (self : loc) (other : pyobj) : M bool :=
  match other with
  | PPerm q => a <- perm_at self ;; b <- perm_at q ;; ret (ge a b)
  | _ => raise TypeError
  end.

(** [Permissions.__lt__(other)] *)
Definition Permissions_lt (self : loc) (other : pyobj) : M bool :=
  match other with
  | PPerm q => a <- perm_at self ;; b <- perm_at q ;; ret (lt a b)
  | _ => raise TypeError
  end.

(** [Permissions.__gt__(other)] *)
Definition Permissions_gt (self : loc) (other : pyobj) : M bool :=
  match other with
  | PPerm q => a <- perm_at self ;; b <- perm_at q ;; ret (gt a b)
  | _ => raise TypeError
  end.

(** A slot holding a [Permissions] object or [None], as an operand. *)
Definition perm_operand (o : option loc) : pyobj :=
  match o with Some p => PPerm p | None => PNone end.

(** [a <= b] on two slots: with [None] on the left the comparison falls to
    the reflected [__ge__] of the right operand, and raises [TypeError] in
    every case where one side is [None]. *)
Definition slot_le (a b : option loc) : M bool :=
  match a with
  | Some p => Permissions_le p (perm_operand b)
  | None => raise TypeError
  end.

(** [a < b] on two slots. *)
Definition slot_lt (a b : option loc) : M bool :=
  match a with
  | Some p => Permissions_lt p (perm_operand b)
  | None => raise TypeError
  end.

(* ================================================================== *)
(** ** class User *)
(* ================================================================== *)

(** [User.__init__(name, socket)] *)
Definition User_init (name : string) (socket : sock) : M User :=
  if String.eqb name "" then raise ValueError
  else (i <- uuid4 ;; ret (mkUser name i socket)).

(** [User.__eq__(other)], inherited by [Client]: [self] is given by its
    [_socket]. *)
Definition User_eq (self_socket : sock) (other : pyobj) : M bool :=
  match other with
  | PUser u => ret (self_socket =? u_socket u)
  | PClient c => o <- client_at c ;; ret (self_socket =? c_socket o)
  | _ => ret false
  end.

(** [a == b] where [a] is a slot holding a [Client] or [None]: [None]
    compares unequal to every [User] and [Client]. *)
Definition slot_eq (a : option loc) (other : pyobj) : M bool :=
  match a with
  | Some c => o <- client_at c ;; User_eq (c_socket o) other
  | None => ret false
  end.

(* ================================================================== *)
(** ** class Client *)
(* ================================================================== *)

(** [Client.__init__(name, socket, group, base_permissions)]; [group] is
    the [Group] object in every call of the program. *)
Definition Client_init (name : string) (socket : sock) (base_permissions : option loc) : M loc :=
  match base_permissions with
  | None => raise TypeError
  | Some p =>
      u <- User_init name socket ;;
      new_client (mkClient (u_name u) (u_id u) (u_socket u)
                           (Some the_group) (Some p) (Some (u_name u)))
  end.

(** [Client.is_owner] *)
Definition Client_is_owner (self : loc) : M bool :=
  me <- client_at self ;;
  match c_group me with
  | None => raise AttributeError
  | Some _ => g <- get_group ;; slot_eq (g_owner g) (PClient self)
  end.

(** [Client.set_permissions(new_value)] *)
Definition Client_set_permissions (self : loc) (new_value : Z) : M unit :=
  me <- client_at self ;;
  match c_permissions me with
  | None => raise AttributeError
  | Some p =>
      cur <- perm_at p ;;
      if (new_value =? value cur)%Z then ret tt
      else
        own <- Client_is_owner self ;;
        if own then raise Forbidden
        else Permissions_update p new_value
  end.

(** [Client.reset_permissions()] *)
Definition Client_reset_permissions (self : loc) : M unit :=
  me <- client_at self ;;
  match c_group me with
  | None => raise AttributeError
  | Some _ =>
      g <- get_group ;;
      same <- match c_permissions me, g_default_perms g with
              | Some p, d => Permissions_eq p (perm_operand d)
              | None, Some _ => ret false
              | None, None => ret true
              end ;;
      if same then ret tt
      else
        own <- Client_is_owner self ;;
        if own then raise Forbidden
        else update_client self (c_set_permissions (g_default_perms g))
  end.

(** The loop of [set_nickname]: is [value] the nickname of an entry? *)
Fixpoint nickname_taken (value : string) (l : list loc) : M bool :=
  match l with
  | [] => ret false
  | u :: r =>
      o <- client_at u ;;
      if decide (c_nickname o = Some value) then ret true
      else nickname_taken value r
  end.

(** [Client.set_nickname(value)] *)
Definition Client_set_nickname (self : loc) (value : string) : M unit :=
  if String.eqb value "" then raise ValueError
  else
    me <- client_at self ;;
    if decide (c_nickname me = Some value) then ret tt
    else
      match c_group me with
      | None => raise AttributeError
      | Some _ =>
          g <- get_group ;;
          taken <- nickname_taken value (g_clients g) ;;
          if taken then raise Forbidden
          else update_client self (c_set_nickname (Some value))
      end.

(** [Client.reset_nickname()] *)
Definition Client_reset_nickname (self : loc) : M unit :=
  me <- client_at self ;;
  if decide (c_nickname me = Some (c_name me)) then ret tt
  else update_client self (c_set_nickname (Some (c_name me))).

(** [list.remove(x)] on a list of [Client]s: drops the first entry equal
    to [x] under [__eq__] (the same socket), [ValueError] if there is
    none. *)
Fixpoint list_remove (self_socket : sock) (l : list loc) : M (list loc) :=
  match l with
  | [] => raise ValueError
  | m :: r =>
      o <- client_at m ;;
      if c_socket o =? self_socket then ret r
      else (r' <- list_remove self_socket r ;; ret (m :: r'))
  end.

(** [Client._kill()] *)
Definition Client_kill (self : loc) : M unit :=
  me <- client_at self ;;
  match c_group me with
  | None => raise AttributeError
  | Some _ =>
      g <- get_group ;;
      l <- list_remove (c_socket me) (g_clients g) ;;
      update_group (g_set_clients l) ;;;
      update_client self (c_set_group None) ;;;
      update_client self (c_set_permissions None) ;;;
      update_client self (c_set_nickname None)
  end.

(** [Client.kick()] *)
Definition Client_kick (self : loc) : M unit :=
  own <- Client_is_owner self ;;
  if own then raise Forbidden else Client_kill self.

(** [Client.ban()] *)
Definition Client_ban (self : loc) : M unit :=
  me <- client_at self ;;
  Client_kick self ;;;
  match c_group me with
  | None => raise AttributeError
  | Some _ => update_group (fun g => g_set_bans ({[ c_id me ]} ∪ g_bans g) g)
  end.

(** [Client.send(message)] *)
Definition Client_send (self : loc) (message : string) : M unit :=
  if String.eqb (strip message) "" then ret tt
  else (me <- client_at self ;; socket_send (c_socket me) message).

(* ================================================================== *)
(** ** class Group *)
(* ================================================================== *)

(** The slots of a [Group] object on which [__init__] has not run. *)
Definition blank_group : Group :=
  mkGroup None None [] ∅ None false 0.

(** [Group.__init__(name, owner)] *)
Definition Group_init (name : string) (owner : pyobj) : M unit :=
  if String.eqb name "" then raise ValueError
  else
    match owner with
    | PUser u =>
        p <- Permissions_all ;;
        _owner <- Client_init (u_name u) (u_socket u) (Some p) ;;
        update_group (g_set_name (Some name)) ;;;
        update_group (g_set_owner (Some _owner)) ;;;
        update_group (g_set_clients [_owner]) ;;;
        update_group (g_set_bans ∅) ;;;
        d <- Permissions_default ;;
        update_group (g_set_default_perms (Some d)) ;;;
        update_group (g_set_is_public true) ;;;
        i <- uuid4 ;;
        update_group (g_set_id i)
    | _ => raise TypeError
    end.

(** The loop of [get_index_of]. *)
Fixpoint index_of_socket (socket : sock) (index : nat) (l : list loc) : M (option nat) :=
  match l with
  | [] => ret None
  | cl :: r =>
      o <- client_at cl ;;
      if c_socket o =? socket then ret (Some index)
      else index_of_socket socket (S index) r
  end.

(** [Group.get_index_of(socket)] *)
Definition Group_get_index_of (socket : sock) : M (option nat) :=
  g <- get_group ;; index_of_socket socket 0 (g_clients g).

(** The loop of [add]: the first member equal to [user]. *)
Fixpoint member_equal_to (user : pyobj) (l : list loc) : M (option loc) :=
  match l with
  | [] => ret None
  | member :: r =>
      o <- client_at member ;;
      same <- User_eq (c_socket o) user ;;
      if same then ret (Some member) else member_equal_to user r
  end.

(** [Group.add(user)] *)
Definition Group_add (user : pyobj) : M loc :=
  match user with
  | PClient c => ret c
  | PUser u =>
      g <- get_group ;;
      found <- member_equal_to user (g_clients g) ;;
      match found with
      | Some member => ret member
      | None =>
          if decide (u_id u ∈ g_bans g) then raise Forbidden
          else
            member <- Client_init (u_name u) (u_socket u) (g_default_perms g) ;;
            update_group (fun g => g_set_clients (g_clients g ++ [member]) g) ;;;
            ret member
      end
  | _ => raise TypeError
  end.

(** The loop of [search_member]. *)
Fixpoint search_from (string : string) (index : Z) (l : list loc) : M (Z * option loc) :=
  match l with
  | [] => ret ((-1)%Z, None)
  | member :: r =>
      o <- client_at member ;;
      if decide (c_nickname o = Some string) then ret (index, Some member)
      else search_from string (index + 1)%Z r
  end.

(** [Group.search_member(string)] *)
Definition Group_search_member (string : string) : M (Z * option loc) :=
  g <- get_group ;; search_from string 0 (g_clients g).

(** [Group.change_name(new_name)] *)
Definition Group_change_name (new_name : string) : M unit :=
  g <- get_group ;;
  if decide (Some new_name = g_name g) then ret tt
  else if String.eqb new_name "" then raise ValueError
  else update_group (g_set_name (Some new_name)).

(** [Group.change_default_permissions(new_value)] *)
Definition Group_change_default_permissions (new_value : Z) : M unit :=
  g <- get_group ;;
  match g_default_perms g with
  | None => raise AttributeError
  | Some d =>
      cur <- perm_at d ;;
      if (new_value =? value cur)%Z then ret tt
      else Permissions_update d new_value
  end.

(** [Group.make_public()] *)
Definition Group_make_public : M unit :=
  g <- get_group ;;
  if negb (g_is_public g) then update_group (g_set_is_public true) else ret tt.

(** [Group.make_private()] *)
Definition Group_make_private : M unit :=
  g <- get_group ;;
  if g_is_public g then update_group (g_set_is_public false) else ret tt.

(** [Group.transfer_ownership(new_owner)] *)
Definition Group_transfer_ownership (new_owner : pyobj) : M unit :=
  match new_owner with
  | PClient c =>
      g <- get_group ;;
      same <- slot_eq (g_owner g) new_owner ;;
      if same then ret tt
      else
        p <- Permissions_all ;;
        _ <- client_at c ;;
        update_client c (c_set_permissions (Some p)) ;;;
        update_group (g_set_owner (Some c))
  | _ => raise TypeError
  end.

(** The [for member in self._clients: member._kill()] of [delete].  The
    list iterator keeps an index into the list itself, which [_kill]
    shortens while the loop runs: each round reads the entry at [index]
    of the list as it is then, and the loop ends when [index] is past the
    end.  [bound] limits the number of rounds. *)
Fixpoint kill_loop (bound : nat) (index : nat) : M unit :=
  fun s =>
    match g_clients (group s) !! index with
    | None => (Ok tt, s)
    | Some member =>
        match bound with
        | O => (Raise Diverge, s)
        | S bound' => (Client_kill member ;;; kill_loop bound' (S index)) s
        end
    end.

(** [Group.delete()] *)
Definition Group_delete : M unit :=
  update_group (g_set_is_public false) ;;;
  update_group (g_set_id 0) ;;;
  update_group (g_set_name None) ;;;
  update_group (g_set_default_perms None) ;;;
  update_group (g_set_owner None) ;;;
  g <- get_group ;;
  kill_loop (length (g_clients g)) 0 ;;;
  update_group (g_set_clients []) ;;;
  update_group (g_set_bans ∅).

(* ================================================================== *)
(** ** Reading the state *)
(* ================================================================== *)

(** [group.clients], the roster. *)
Definition roster (s : State) : list loc := g_clients (group s).

(** [member.permissions.value], when the member and its [Permissions]
    object are there. *)
Definition permission_value (s : State) (member : loc) : option Z :=
  o ← client_objs s !! member;
  p ← c_permissions o;
  x ← perm_objs s !! p;
  Some (value x).

(** A [Client] after [_kill]: [_group], [_permissions] and [_nickname]
    are [None]. *)
Definition destroyed (s : State) (member : loc) : Prop :=
  exists o, client_objs s !! member = Some o
            /\ c_group o = None /\ c_permissions o = None /\ c_nickname o = None.

(** The state before anything ran: empty stores, no [Group] object, the
    global [group] unbound. *)
Definition boot (src : nat -> Z) : State :=
  mkState [] [] blank_group false src 0 [].

(** Running a method for its final state, or for its result. *)
Definition exec {A} (m : M A) (s : State) : State := snd (m s).
Definition result {A} (m : M A) (s : State) : res A := fst (m s).

(* ================================================================== *)
(** ** The server: broadcast and the command dispatcher *)
(* ================================================================== *)

(** An access to the module global [group]: [AttributeError] on [None]. *)
Definition on_group {A} (m : M A) : M A :=
  fun s => if group_bound s then m s else (Raise AttributeError, s).

(** [x.permissions.<flag>] and the like: the [Permissions] object of a
    member, [AttributeError] when the slot is [None]. *)
Definition permissions_of (member : loc) : M Permissions :=
  o <- client_at member ;;
  match c_permissions o with
  | Some p => perm_at p
  | None => raise AttributeError
  end.

(** [x.permissions], the slot itself. *)
Definition permissions_slot (member : loc) : M (option loc) :=
  o <- client_at member ;; ret (c_permissions o).

(** [x.nickname], the slot itself. *)
Definition nickname_slot (member : loc) : M (option string) :=
  o <- client_at member ;; ret (c_nickname o).

(** A nickname slot as [str.format] prints it. *)
Definition fmt (nickname : option string) : string :=
  match nickname with Some n => n | None => "None" end.

(** The loop of [broadcast]. *)
Fixpoint broadcast_loop (message : string) (exc : option loc) (l : list loc) : M unit :=
  match l with
  | [] => ret tt
  | client :: r =>
      p <- permissions_of client ;;
      go <- (if read_messages p
             then match exc with
                  | None => ret true
                  | Some e =>
                      same <- slot_eq (Some e) (PClient client) ;;
                      ret (negb same)
                  end
             else ret false) ;;
      (if go then Client_send client message else ret tt) ;;;
      broadcast_loop message exc r
  end.

(** [broadcast(message, exc=None)] *)
Definition broadcast (message : string) (exc : option loc) : M unit :=
  on_group (g <- get_group ;; broadcast_loop message exc (g_clients g)).

(** How a round of the [while True] loop of [handle] ends. *)
Variant ctl : Type := Continue | Break.

(** The terminal codes of the [sty] package used by the server, and the
    two roster marks of [/info], whose characters lie outside the range of
    the text model. *)
Record Sty : Type := mkSty {
  fg_red : string;
  fg_green : string;
  fg_yellow : string;
  fg_blue : string;
  fg_rs : string;
  ef_bold : string;
  ef_rs : string;
  crown : string;
  star : string
}.

Section Dispatcher.

Variable sty : Sty.

Local Open Scope string_scope.

Definition red (t : string) : string := fg_red sty ++ t ++ fg_rs sty.
Definition red_bold (t : string) : string :=
  fg_red sty ++ ef_bold sty ++ t ++ ef_rs sty ++ fg_rs sty.
Definition blue_bold (t : string) : string :=
  fg_blue sty ++ ef_bold sty ++ t ++ ef_rs sty ++ fg_rs sty.
Definition green_bold (t : string) : string :=
  fg_green sty ++ ef_bold sty ++ t ++ ef_rs sty ++ fg_rs sty.
Definition bold (t : string) : string := ef_bold sty ++ t ++ ef_rs sty.

(** [client.send(...); continue] *)
Definition reply (client : loc) (t : string) : M ctl :=
  Client_send client t ;;; ret Continue.

(** [lowered == cmd or lowered.startswith(cmd + " ")] *)
Definition is_command (cmd lowered : string) : bool :=
  String.eqb lowered cmd || startswith (cmd ++ " ") lowered.

(** The roster lines of [/info]. *)
Fixpoint info_lines (client : loc) (l : list loc) : M unit :=
  match l with
  | [] => ret tt
  | cl_member :: r =>
      own <- Client_is_owner cl_member ;;
      prefix <- (if own then ret (crown sty)
                 else
                   g <- on_group get_group ;;
                   ps <- permissions_slot cl_member ;;
                   above <- slot_lt (g_default_perms g) ps ;;
                   ret (if above then star sty else "      ")) ;;
      nick <- nickname_slot cl_member ;;
      match nick with
      | None => raise TypeError
      | Some n =>
          Client_send client (prefix ++ ef_bold sty ++ n ++ ef_rs sty ++ String "010" "") ;;;
          info_lines client r
      end
  end.

(** The target checks shared by [/kick] and [/ban]; [None] when they
    pass, else the reply. *)
Definition target_checks (client member : loc) (self_msg owner_msg rank_msg : string)
  : M (option string) :=
  me <- client_at client ;;
  same <- User_eq (c_socket me) (PClient member) ;;
  if same then ret (Some self_msg)
  else
    own <- Client_is_owner member ;;
    if own then ret (Some owner_msg)
    else
      mp <- permissions_slot member ;;
      cp <- permissions_slot client ;;
      below <- slot_le mp cp ;;
      if negb below then ret (Some rank_msg) else ret None.

(** The [/setperms <value> <nickname>] branch. *)
Definition do_setperms (client : loc) (decoded : string) : M ctl :=
  p <- permissions_of client ;;
  if negb (update_permissions p) then reply client (red "Permission denied!")
  else
    match split (slice_from 10 decoded) with
    | [] => reply client (red "No number specified!")
    | number :: _ =>
        match py_int number with
        | None => reply client (red "Permission value not recognised!")
        | Some number =>
            if (number <? 0)%Z || (number >? PermissionValues.ALL)%Z
            then reply client (red "Permission value not recognised!")
            else
              cp <- permissions_slot client ;;
              q <- Permissions_init number ;;
              above <- match cp with
                       | Some c => Permissions_ge c (PPerm q)
                       | None => raise TypeError
                       end ;;
              if negb above
              then reply client (red "Cannot change permissions you do not have!")
              else
                found <- on_group (Group_search_member
                           (slice_from (11 + len (py_str number)) decoded)) ;;
                match snd found with
                | None => reply client (red "User not found!")
                | Some member =>
                    r <- target_checks client member
                           "You cannot change yourself permissions!"
                           "Owner cannot be changed permissions!"
                           "Cannot set these permissions for member as they have permissions you do not have!" ;;
                    match r with
                    | Some t => reply client (red t)
                    | None =>
                        Client_set_permissions member number ;;;
                        nick <- nickname_slot member ;;
                        broadcast (green_bold (fmt nick ++ " now has permissions value "
                                               ++ py_str number ++ "!")) None ;;;
                        ret Continue
                    end
                end
        end
    end.

(** The [/kick <nickname>] branch. *)
Definition do_kick (client : loc) (decoded : string) : M ctl :=
  p <- permissions_of client ;;
  if negb (kick_members p) then reply client (red "Permission denied!")
  else
    found <- on_group (Group_search_member (slice_from 6 decoded)) ;;
    match snd found with
    | None => reply client (red "Member not found!")
    | Some member =>
        r <- target_checks client member
               "You cannot kick yourself! Please use /quit to quit the group."
               "Cannot kick user as they own the group!"
               "Cannot kick user as they have permissions you do not have!" ;;
        match r with
        | Some t => reply client (red t)
        | None =>
            nickname <- nickname_slot member ;;
            Client_send member "/kick" ;;;
            Client_kick member ;;;
            actor <- nickname_slot client ;;
            broadcast (red_bold (fmt nickname ++ " was kicked by " ++ fmt actor ++ ".")) None ;;;
            ret Continue
        end
    end.

(** The [/ban <nickname>] branch. *)
Definition do_ban (client : loc) (decoded : string) : M ctl :=
  p <- permissions_of client ;;
  if negb (ban_members p) then reply client (red "Permission denied!")
  else
    found <- on_group (Group_search_member (slice_from 5 decoded)) ;;
    match snd found with
    | None => reply client (red "Member not found!")
    | Some member =>
        r <- target_checks client member
               "You cannot ban yourself!"
               "Cannot ban user as they own the group!"
               "Cannot ban user as they have permissions you do not have!" ;;
        match r with
        | Some t => reply client (red t)
        | None =>
            nickname <- nickname_slot member ;;
            Client_send member "/ban" ;;;
            Client_ban member ;;;
            actor <- nickname_slot client ;;
            broadcast (red_bold (fmt nickname ++ " was banned by " ++ fmt actor ++ ".")) None ;;;
            ret Continue
        end
    end.

(** The [/nick <newnick>] branch. *)
Definition do_nick (client : loc) (decoded : string) : M ctl :=
  p <- permissions_of client ;;
  if negb (change_nickname p) then reply client (red "Permission denied!")
  else
    old_nickname <- nickname_slot client ;;
    let new_nickname := slice_from 6 decoded in
    if String.eqb new_nickname "" then reply client (red "Nickname cannot be empty!")
    else
      changed <- try_except (Client_set_nickname client new_nickname ;;; ret true)
                            Forbidden (ret false) ;;
      if negb changed
      then reply client (red "Nickname is already taken by someone else!")
      else
        broadcast (blue_bold (fmt old_nickname ++ " has now changed his nickname to "
                              ++ new_nickname ++ ".")) (Some client) ;;;
        reply client (blue_bold ("You have changed your nickname to "
                                 ++ new_nickname ++ ".")).

(** The [/setowner <nickname>] branch. *)
Definition do_setowner (client : loc) (decoded : string) : M ctl :=
  own <- Client_is_owner client ;;
  if negb own then reply client (red "Permission denied!")
  else
    found <- on_group (Group_search_member (slice_from 10 decoded)) ;;
    match snd found with
    | None => reply client (red "Member not found!")
    | Some member =>
        me <- client_at client ;;
        same <- User_eq (c_socket me) (PClient member) ;;
        if same then reply client (red "Cannot transfer ownership to yourself!")
        else
          on_group (Group_transfer_ownership (PClient member)) ;;;
          nick <- nickname_slot member ;;
          broadcast (blue_bold (fmt nick ++ " is now the new group owner!")) (Some member) ;;;
          Client_send member (blue_bold "You are now the group owner!") ;;;
          ret Continue
    end.

(** A bare command word: the permission test, then the complaint. *)
Definition bare (client : loc) (allowed : M bool) (complaint : string) : M ctl :=
  ok <- allowed ;;
  if negb ok then reply client (red "Permission denied!")
  else reply client (red complaint).

(** The body of the [try] of [handle], from the received [message] on. *)
Definition handle_body (client : loc) (message : string) : M ctl :=
  let decoded := strip message in
  if String.eqb decoded "" then ret Continue
  else
    let lowered := lower decoded in
    if is_command "/id" lowered then
      me <- client_at client ;;
      reply client (bold ("Your id is " ++ py_str (c_id me) ++ "."))
    else if is_command "/info" lowered then
      Client_send client ("===============" ++ String "010" "") ;;;
      g <- on_group get_group ;;
      info_lines client (g_clients g) ;;;
      reply client ("===============" ++ String "010" (String "010" ""))
    else if is_command "/quit" lowered then
      own <- Client_is_owner client ;;
      if own
      then reply client (red "You cannot quit the group as you are the owner! Please transfer ownership before quitting.")
      else
        nickname <- nickname_slot client ;;
        Client_send client "/quit" ;;;
        Client_kill client ;;;
        broadcast (red_bold (fmt nickname ++ " left the chat!")) None ;;;
        ret Break
    else if is_command "/delete" lowered then
      own <- Client_is_owner client ;;
      if negb own then reply client (red "Permission denied!")
      else
        broadcast "/delete" None ;;;
        on_group Group_delete ;;;
        modify (set_group_bound false) ;;;
        ret Break
    else if String.eqb lowered "/nick" then
      bare client (p <- permissions_of client ;; ret (change_nickname p)) "Nickname cannot be empty!"
    else if String.eqb lowered "/kick" then
      bare client (p <- permissions_of client ;; ret (kick_members p)) "Nickname cannot be empty!"
    else if String.eqb lowered "/ban" then
      bare client (p <- permissions_of client ;; ret (ban_members p)) "Nickname cannot be empty!"
    else if String.eqb lowered "/setperms" then
      bare client (p <- permissions_of client ;; ret (update_permissions p)) "Number must be provided!"
    else if String.eqb lowered "/setowner" then
      bare client (Client_is_owner client) "Nickname cannot be empty!"
    else if startswith "/nick " lowered then do_nick client decoded
    else if startswith "/kick " lowered then do_kick client decoded
    else if startswith "/ban " lowered then do_ban client decoded
    else if startswith "/setperms " lowered then do_setperms client decoded
    else if startswith "/setowner " lowered then do_setowner client decoded
    else if startswith "/" lowered && negb (String.eqb lowered "/") then
      reply client (red "Unknown command!")
    else
      p <- permissions_of client ;;
      if send_messages p then
        nick <- nickname_slot client ;;
        match nick with
        | None => raise TypeError
        | Some n =>
            broadcast (fg_blue sty ++ ef_bold sty ++ n ++ ef_rs sty ++ fg_rs sty
                       ++ ": " ++ message) (Some client) ;;;
            ret Continue
        end
      else reply client (red "No permission to send messages!").

(** The [except:] clause of [handle].  Its [finally: break] ends the loop
    whatever happens inside, an exception included. *)
Definition handle_except (client : loc) : M ctl :=
  fun s =>
    (Ok Break,
     exec (nickname <- nickname_slot client ;;
           own <- Client_is_owner client ;;
           if own then
             broadcast "/delete" None ;;;
             on_group Group_delete ;;;
             modify (set_group_bound false)
           else
             Client_kill client ;;;
             broadcast (red_bold (fmt nickname ++ " left the chat!")) None) s).

(** One round of the [while True] loop of [handle(socket)].  [received] is
    what [socket.recv(1024)] gives in this round: a message, or [None]
    when it raises. *)
Definition handle_round (socket : sock) (received : option string) : M ctl :=
  fun s =>
    if negb (group_bound s) then (Ok Break, s)
    else
      match Group_get_index_of socket s with
      | (Raise e, s1) => (Raise e, s1)
      | (Ok None, s1) => (Ok Break, s1)
      | (Ok (Some index), s1) =>
          match g_clients (group s1) !! index with
          | None => (Raise IndexError, s1)
          | Some client =>
              match received with
              | None => handle_except client s1
              | Some message =>
                  match handle_body client message s1 with
                  | (Ok c, s2) => (Ok c, s2)
                  | (Raise _, s2) => handle_except client s2
                  end
              end
          end
      end.

End Dispatcher.

(* ================================================================== *)
(** ** Well-formed states and sample runs *)
(* ================================================================== *)

(** A member as the roster holds it: the object is in the store, bound to
    the group, with a [Permissions] object and a nickname. *)
Definition live (s : State) (c : loc) : Prop :=
  exists o p x n,
    client_objs s !! c = Some o /\ c_group o = Some the_group
    /\ c_permissions o = Some p /\ perm_objs s !! p = Some x
    /\ c_nickname o = Some n.

(** The [_socket] of the [Client] at an address. *)
Definition socket_of (s : State) (c : loc) : option sock :=
  c_socket <$> client_objs s !! c.

(** The states of a running group: every roster entry is a live member,
    no two entries have the same socket, the default permissions are a
    [Permissions] object, and the owner is in the roster. *)
Record wf (s : State) : Prop := mk_wf {
  wf_live : forall c, c ∈ roster s -> live s c;
  wf_sockets : NoDup (socket_of s <$> roster s);
  wf_default : exists d x,
      g_default_perms (group s) = Some d /\ perm_objs s !! d = Some x;
  wf_owner : exists o, g_owner (group s) = Some o /\ o ∈ roster s
}.

(** What [_kill] needs of the roster: every entry is a [Client] object
    bound to the group, and no two entries have the same socket. *)
Definition roster_bound (s : State) : Prop :=
  (forall c, c ∈ roster s ->
             exists o, client_objs s !! c = Some o /\ c_group o = Some the_group)
  /\ NoDup (socket_of s <$> roster s).

(** What [_kill] leaves of a [Client] object. *)
Definition killed (o : Client) : Client :=
  c_set_nickname None (c_set_permissions None (c_set_group None o)).

(** The state after [_kill] has removed the roster entry at index [i],
    which is the member at address [m]. *)
Definition after_kill (i : nat) (m : loc) (s : State) : State :=
  set_client_objs (fun l => alter killed m l)
    (set_group (g_set_clients (delete i (roster s))) s).

(** The state after [add] has made a member of the user [u]. *)
Definition after_add (u : User) (s : State) : State :=
  set_group (fun g => g_set_clients (g_clients g ++ [length (client_objs s)]) g)
    (set_client_objs
       (fun l => l ++ [mkClient (u_name u) (uuid_src s (uuid_drawn s)) (u_socket u)
                                (Some the_group) (g_default_perms (group s))
                                (Some (u_name u))])
       (set_uuid_drawn (S (uuid_drawn s)) s)).

(** Whether [broadcast] with the excluded sender [exc] sends to the
    member [c]: the [read_messages] bit is set, and [c] does not compare
    equal to [exc] (the comparison is on sockets). *)
Definition receives (s : State) (exc : option loc) (c : loc) : bool :=
  match permission_value s c with
  | Some v => read_messages (mkPermissions v)
  | None => false
  end
  && match exc with
     | None => true
     | Some e => negb (bool_decide (socket_of s e = socket_of s c))
     end.

(** The members a broadcast reaches, in roster order. *)
Definition recipients (s : State) (exc : option loc) : list loc :=
  List.filter (receives s exc) (roster s).

(** The [socket.send] calls of a broadcast of [message]. *)
Definition deliveries (s : State) (message : string) (exc : option loc)
  : list (sock * string) :=
  omap (fun c => (fun k => (k, message)) <$> socket_of s c) (recipients s exc).

(** A round that answers the actor, on socket [k], with a complaint and
    leaves the roster and every member's permission value as they were. *)
Definition rejected (sty : Sty) (s s' : State) (k : sock) : Prop :=
  exists msg,
    all_space msg = false
    /\ sent s' = sent s ++ [(k, red sty msg)]
    /\ roster s' = roster s
    /\ forall c, c ∈ roster s -> permission_value s' c = permission_value s c.

(** The tests of the [/setperms] branch, as the code makes them: the
    actor [client] may set the value [v] on [target] with the line
    [decoded]. *)
Definition setperms_accepts (s : State) (client : loc) (decoded : string)
           (v : Z) (target : loc) : Prop :=
  exists cv tok rest idx tv,
    permission_value s client = Some cv
    /\ update_permissions (mkPermissions cv) = true
    /\ split (slice_from 10 decoded) = tok :: rest
    /\ py_int tok = Some v /\ (0 <= v <= 255)%Z
    /\ ge (mkPermissions cv) (mkPermissions v) = true
    /\ Group_search_member (slice_from (11 + len (py_str v)) decoded) s
       = (Ok (idx, Some target), s)
    /\ target <> client
    /\ Client_is_owner target s = (Ok false, s)
    /\ permission_value s target = Some tv
    /\ le (mkPermissions tv) (mkPermissions cv) = true.

(** Total correctness of a method: from every state that satisfies [P] it
    returns normally, with a result and a final state that satisfy [Q]. *)
Definition total {A} (P : State -> Prop) (m : M A) (Q : A -> State -> Prop) : Prop :=
  forall s, P s -> exists a s', m s = (Ok a, s') /\ Q a s'.

(** The invariant of a running group: the state is well formed, the global
    [group] is bound, and the bans in [B] are still recorded. *)
Definition running (B : gset Z) (s : State) : Prop :=
  wf s /\ group_bound s = true /\ B ⊆ g_bans (group s).

(** The invariant of a handler thread while it serves the member [c]. *)
Definition serving (B : gset Z) (c : loc) (s : State) : Prop :=
  running B s /\ c ∈ roster s.

(** The same, once a command has a target [m] that passed the checks:
    another member than the actor, and not the owner. *)
Definition targeting (B : gset Z) (c m : loc) (s : State) : Prop :=
  serving B c s /\ m ∈ roster s /\ m <> c /\ Client_is_owner m s = (Ok false, s).

(** The values [uuid4] has given so far. *)
Definition drawn (s : State) (i : Z) : Prop :=
  exists k, k < uuid_drawn s /\ uuid_src s k = i.

Module Sample.

(** A source of identifiers without repetition. *)
Definition uuids (n : nat) : Z := 1000 + Z.of_nat n.

(** [receive()] for the first connection: alice, on socket 1, founds the
    group. *)
Definition found : M unit :=
  a <- User_init "alice" 1 ;;
  Group_init "Default" (PUser a) ;;;
  modify (set_group_bound true).

(** [receive()] for a later connection: bob joins on socket 2. *)
Definition join_bob : M loc :=
  b <- User_init "bob" 2 ;; Group_add (PUser b).

(** carol joins on socket 3. *)
Definition join_carol : M loc :=
  c <- User_init "carol" 3 ;; Group_add (PUser c).

Definition founded : State := exec found (boot uuids).
Definition joined : State := exec join_bob founded.

(** bob's connection once [User(nickname, client)] is built, before
    [add]. *)
Definition connected : State := exec (User_init "bob" 2) founded.
Definition bob_user : User := mkUser "bob" 1003 2.
Definition three : State := exec join_carol joined.

(** The addresses of the three members. *)
Definition alice : loc := 0.
Definition bob : loc := 1.
Definition carol : loc := 2.

(** Terminal codes as ANSI escape sequences, and ASCII roster marks. *)
Definition esc (code : string) : string := String (ascii_of_nat 27) code.
Definition ansi : Sty :=
  mkSty (esc "[31m") (esc "[32m") (esc "[33m") (esc "[34m") (esc "[39m")
        (esc "[1m") (esc "[22m") "  @  " "  *  ".

End Sample.

(* ================================================================== *)
(** ** The rest of the classes, and the server loops *)
(* ================================================================== *)

(** [member.nickname], when the member is in the store. *)
Definition nickname_of (s : State) (member : loc) : option string :=
  o ← client_objs s !! member; c_nickname o.

(** No two entries of the roster hold the same nickname. *)
Definition nick_unique (s : State) : Prop :=
  forall i j c d n,
    roster s !! i = Some c -> roster s !! j = Some d ->
    nickname_of s c = Some n -> nickname_of s d = Some n -> i = j.

(** Every [Permissions] object holds a value in [0..ALL]. *)
Definition perms_in_range (s : State) : Prop :=
  forall p x, perm_objs s !! p = Some x -> (0 <= value x <= PermissionValues.ALL)%Z.

Section Server.

Variable sty : Sty.

Local Open Scope string_scope.

Definition yellow_bold (t : string) : string :=
  fg_yellow sty ++ ef_bold sty ++ t ++ ef_rs sty ++ fg_rs sty.

(** The [try] statement of [handle] for the member [client] that the round
    has looked up: the body on the received message, and the [except]
    clause when [recv] or the body raises. *)
Definition handle_try (client : loc) (received : option string) : M ctl :=
  fun s =>
    match received with
    | None => handle_except sty client s
    | Some message =>
        match handle_body sty client message s with
        | (Ok c, s') => (Ok c, s')
        | (Raise _, s') => handle_except sty client s'
        end
    end.

(** The inner loop of [receive] for a later connection: nicknames are read
    until one is neither blank nor the nickname of a member.  [inputs] are
    the texts [recv] gives; [None] is the answer when they run out. *)
Fixpoint ask_nickname (client : sock) (inputs : list string) : M (option string) :=
  match inputs with
  | [] => ret None
  | nickname :: rest =>
      if String.eqb (strip nickname) "" then
        socket_send client (red sty "Nickname cannot be empty! Please retry!") ;;;
        ask_nickname client rest
      else
        found <- on_group (Group_search_member nickname) ;;
        match snd found with
        | None => ret (Some nickname)
        | Some _ =>
            socket_send client
              (red sty "Nickname already chosen! Please choose a different nickname!") ;;;
            ask_nickname client rest
        end
  end.

(** How a round of the loop of [receive] ends: a handler thread is started
    for the connection, whose member is [curr_client]; the connection is
    turned away ([continue] after [Forbidden]); or [recv] is left
    waiting. *)
Variant accepted : Type :=
| Started (curr_client : option loc)
| Turned_away
| Waiting.

(** The first part of a round of [receive], up to the member made for the
    connection. *)
Variant greeted : Type :=
| Member (nickname : string) (curr_client : option loc)
| Banned
| Silent.

(** [group = Group("Default", User(nickname, client))] and
    [curr_client = group.owner], when the global [group] is [None]. *)
Definition found_group (client : sock) (inputs : list string) : M greeted :=
  match inputs with
  | [] => ret Silent
  | nickname :: _ =>
      u <- User_init nickname client ;;
      Group_init "Default" (PUser u) ;;;
      modify (set_group_bound true) ;;;
      g <- on_group get_group ;;
      ret (Member nickname (g_owner g))
  end.

(** The [else] branch: a nickname is asked for, then [group.add]. *)
Definition join_group (client : sock) (inputs : list string) : M greeted :=
  nick <- ask_nickname client inputs ;;
  match nick with
  | None => ret Silent
  | Some nickname =>
      try_except
        (u <- User_init nickname client ;;
         member <- on_group (Group_add (PUser u)) ;;
         ret (Member nickname (Some member)))
        Forbidden
        (socket_send client
           (red_bold sty "You have been banned from this group and cannot rejoin it!") ;;;
         ret Banned)
  end.

(** One round of the [while True] loop of [receive()], for the connection
    [client] that [accept] returned; the [print] calls are left out. *)
Definition receive_round (client : sock) (inputs : list string) : M accepted :=
  socket_send client "/nick" ;;;
  s <- get ;;
  who <- (if negb (group_bound s) then found_group client inputs
          else join_group client inputs) ;;
  match who with
  | Silent => ret Waiting
  | Banned => ret Turned_away
  | Member nickname curr_client =>
      broadcast (yellow_bold (nickname ++ " joined the chat!")) curr_client ;;;
      socket_send client (green_bold sty "Connected to the server!") ;;;
      ret (Started curr_client)
  end.

End Server.

(* ================================================================== *)
(** ** The tests of the commands *)
(* ================================================================== *)

(** The tests of a [/kick] or [/ban] line, as the code makes them: the
    actor [client] holds the permission [flag], and [target], at index [i],
    is the first member of the roster with the nickname [nick]; it is
    neither the actor nor the owner, and its permissions are below the
    actor's. *)
Definition removal_accepted (flag : Permissions -> bool) (s : State)
           (client : loc) (nick : string) (i : nat) (target : loc) : Prop :=
  exists cv tv,
    permission_value s client = Some cv
    /\ flag (mkPermissions cv) = true
    /\ roster s !! i = Some target
    /\ nickname_of s target = Some nick
    /\ (forall j c, j < i -> roster s !! j = Some c -> nickname_of s c <> Some nick)
    /\ target <> client
    /\ g_owner (group s) <> Some target
    /\ permission_value s target = Some tv
    /\ le (mkPermissions tv) (mkPermissions cv) = true.

(** A round that does nothing but answer the actor, on socket [k], with a
    complaint. *)
Definition complained (sty : Sty) (s s' : State) (k : sock) : Prop :=
  exists msg, all_space msg = false
              /\ s' = set_sent (fun l => l ++ [(k, red sty msg)]) s.

(** The tests of a [/nick] line, as the code makes them: the actor holds
    [change_nickname], the new nickname is not empty, and it is the actor's
    own or the nickname of no member. *)
Definition rename_accepted (s : State) (client : loc) (new_nickname : string) : Prop :=
  exists cv,
    permission_value s client = Some cv
    /\ change_nickname (mkPermissions cv) = true
    /\ new_nickname <> ""
    /\ (nickname_of s client = Some new_nickname
        \/ forall d, d ∈ roster s -> nickname_of s d <> Some new_nickname).

(** The tests of a [/setowner] line, as the code makes them: the actor is
    the owner, and [target], at index [i], is the first member of the
    roster with the nickname [nick], and is not the actor. *)
Definition handover_accepted (s : State) (client : loc) (nick : string)
           (i : nat) (target : loc) : Prop :=
  g_owner (group s) = Some client
  /\ roster s !! i = Some target
  /\ nickname_of s target = Some nick
  /\ (forall j c, j < i -> roster s !! j = Some c -> nickname_of s c <> Some nick)
  /\ target <> client.

(** The state after [transfer_ownership] has made the member at [m] the
    owner: a new all-bits [Permissions] object is in [m]'s slot. *)
Definition after_transfer (m : loc) (s : State) : State :=
  set_group (g_set_owner (Some m))
    (set_client_objs
       (fun l => alter (c_set_permissions (Some (length (perm_objs s)))) m l)
       (set_perm_objs (fun l => l ++ [mkPermissions PermissionValues.ALL]) s)).

(** [group.default_perms.value], when the default permissions are there. *)
Definition default_value (s : State) : option Z :=
  d ← g_default_perms (group s);
  x ← perm_objs s !! d;
  Some (value x).

(** The line of [/info] for the member [m]: the crown for the owner, the
    star for a member whose permissions are strictly above the default
    ones, blanks otherwise; then the nickname in bold and a newline. *)
Definition info_line (sty : Sty) (s : State) (m : loc) : string :=
  ((if bool_decide (g_owner (group s) = Some m) then crown sty
    else match default_value s, permission_value s m with
         | Some d, Some v =>
             if lt (mkPermissions d) (mkPermissions v) then star sty else "      "
         | _, _ => "      "
         end)
   ++ ef_bold sty ++ fmt (nickname_of s m) ++ ef_rs sty ++ String "010" "")%string.

(* ================================================================== *)
(** ** Invariants *)
(* ================================================================== *)

(** A method keeps [I]: from a state where [I] holds it ends, normally or
    with an exception, in a state where [I] holds. *)
Definition keeps {A} (I : State -> Prop) (m : M A) : Prop :=
  forall s, I s -> I (snd (m s)).

(** The roster has no entry twice, and no two entries hold the same
    nickname. *)
Definition nicknames_apart (s : State) : Prop :=
  NoDup (roster s) /\ nick_unique s.

(** The [Client] objects of [s0] are still there in [s], with the [_id],
    [_socket] and [_name] they had. *)
Definition same_identities (s0 s : State) : Prop :=
  forall c o, client_objs s0 !! c = Some o ->
              exists o', client_objs s !! c = Some o'
                         /\ c_id o' = c_id o /\ c_socket o' = c_socket o
                         /\ c_name o' = c_name o.

(** Every identity in a [Client] object or in the ban set is a value that
    [uuid4] has given. *)
Definition ids_drawn (s : State) : Prop :=
  (forall c o, client_objs s !! c = Some o -> drawn s (c_id o))
  /\ (forall i, i ∈ g_bans (group s) -> drawn s i).

(** The state after [Group.__init__(name, u)]: the all-bits [Permissions]
    object of the owner and the default one are new, the owner is a new
    [Client] made for the user [u], and two values of [uuid4] are drawn,
    for the owner and for the group. *)
Definition after_init (name : string) (u : User) (s : State) : State :=
  mkState ((perm_objs s ++ [mkPermissions PermissionValues.ALL]) ++ [mkPermissions 19])
          (client_objs s
           ++ [mkClient (u_name u) (uuid_src s (uuid_drawn s)) (u_socket u)
                        (Some the_group) (Some (length (perm_objs s))) (Some (u_name u))])
          (mkGroup (Some name) (Some (length (client_objs s))) [length (client_objs s)] ∅
                   (Some (S (length (perm_objs s)))) true
                   (uuid_src s (S (uuid_drawn s))))
          (group_bound s) (uuid_src s) (S (S (uuid_drawn s))) (sent s).

(** [s'] is [s] after messages sent to the socket [k] and nothing else. *)
Definition answered (k : sock) (s s' : State) : Prop :=
  exists msgs, Forall (fun p => p.1 = k) msgs
               /\ s' = set_sent (fun l => l ++ msgs) s.

(** A method that does nothing but send to the socket of the [Client]
    object [o] at [c]. *)
Definition answers_only {A} (c : loc) (o : Client) (m : M A) : Prop :=
  forall s, client_objs s !! c = Some o -> answered (c_socket o) s (snd (m s)).

(** The sample group once alice has banned bob. *)
Definition bob_banned : State := exec (Client_ban Sample.bob) Sample.joined.

(* ================================================================== *)
(** * Properties *)
(* ================================================================== *)

Import Sample.


(* ================================================================== *)
(** ** Text *)
(* ================================================================== *)

Lemma append_String (x : ascii) (a b : string) :
  (String x a ++ b)%string = String x (a ++ b).
Proof. reflexivity. Qed.

Lemma append_assoc (a b c : string) : ((a ++ b) ++ c = a ++ (b ++ c))%string.
Proof. induction a as [|x a IH]; [done|]. rewrite !append_String. by rewrite IH. Qed.

Lemma length_append (a b : string) :
  String.length (a ++ b)%string = String.length a + String.length b.
Proof. induction a as [|x a IH]; [done|]. rewrite append_String. cbn. by rewrite IH. Qed.

Lemma lower_append (a b : string) : lower (a ++ b)%string = (lower a ++ lower b)%string.
Proof.
  induction a as [|x a IH]; [done|]. rewrite append_String. cbn [lower].
  by rewrite append_String, IH.
Qed.

Lemma length_lower (a : string) : String.length (lower a) = String.length a.
Proof. induction a as [|x a IH]; cbn; [done|]. by rewrite IH. Qed.

Lemma slice_from_append (a b : string) (n : nat) :
  slice_from (String.length a + n) (a ++ b)%string = slice_from n b.
Proof. induction a as [|x a IH]; [done|]. rewrite append_String. cbn. exact IH. Qed.

Lemma split_from_word (t r : string) : forall cur,
  no_space t = true -> t <> "" ->
  split_from cur (t ++ String " " r)%string
  = (match cur with Some w => w ++ t | None => t end)%string :: split_from None r.
Proof.
  induction t as [|c t IH]; intros cur Hns Hne; [done|].
  cbn in Hns. apply andb_true_iff in Hns as [Hc Hns]. apply negb_true_iff in Hc.
  rewrite append_String. cbn [split_from]. rewrite Hc.
  destruct t as [|c' t'].
  - change ("" ++ String " " r)%string with (String " " r). cbn [split_from].
    change (isspace " ") with true. cbv iota. by destruct cur.
  - rewrite (IH _ Hns ltac:(discriminate)). destruct cur as [w|]; [|done].
    f_equal. by rewrite append_assoc.
Qed.

Lemma split_token (t r : string) :
  no_space t = true -> t <> "" -> split (t ++ String " " r)%string = t :: split r.
Proof. intros. unfold split. by rewrite split_from_word. Qed.

(** Every [str(v)] with [v] in [0..255] is a plain token for [v]. *)
Lemma py_str_plain (v : Z) : (0 <= v <= 255)%Z -> plain_token (py_str v) v.
Proof.
  intros Hv.
  assert (Hall : forallb (fun n => let t := py_str (Z.of_nat n) in
                            no_space t && negb (String.eqb t "")
                            && bool_decide (py_int t = Some (Z.of_nat n)))
                         (seq 0 256) = true) by (vm_compute; reflexivity).
  rewrite forallb_forall in Hall.
  assert (Hin : In (Z.to_nat v) (seq 0 256)) by (apply in_seq; lia).
  specialize (Hall _ Hin). cbv zeta in Hall. rewrite Z2Nat.id in Hall by lia.
  apply andb_true_iff in Hall as [H12 H3]. apply andb_true_iff in H12 as [H1 H2].
  split; [done|]. split; [|split; [|done]].
  - apply negb_true_iff, String.eqb_neq in H2. done.
  - by apply bool_decide_eq_true_1 in H3.
Qed.

Lemma lstrip_empty (s : string) : lstrip s = "" <-> all_space s = true.
Proof.
  induction s as [|c r IH]; cbn; [done|].
  destruct (isspace c); cbn; [exact IH|]. split; discriminate.
Qed.

Lemma lstrip_head (s : string) :
  lstrip s = "" \/ exists c r, lstrip s = String c r /\ isspace c = false.
Proof.
  induction s as [|c r IH]; cbn; [by left|].
  destruct (isspace c) eqn:E; [exact IH|]. right. eauto.
Qed.

Lemma strip_empty (s : string) : strip s = "" <-> all_space s = true.
Proof.
  rewrite <- lstrip_empty. unfold strip. split.
  - intros H. destruct (lstrip_head s) as [E|(c & r & E & Hc)]; [done|].
    rewrite E in H. cbn in H. rewrite Hc in H. by destruct (rstrip r).
  - by intros ->.
Qed.

Lemma all_space_append (a b : string) :
  all_space (a ++ b)%string = all_space a && all_space b.
Proof.
  induction a as [|c a IH]; [done|]. rewrite append_String. cbn.
  by rewrite IH, andb_assoc.
Qed.

Lemma strip_framed (a m b : string) :
  all_space m = false -> strip (a ++ m ++ b)%string <> "".
Proof.
  intros Hm H. apply strip_empty in H. rewrite !all_space_append, Hm in H.
  by destruct (all_space a).
Qed.


(* ================================================================== *)
(** ** Reading the store *)
(* ================================================================== *)

Lemma client_at_Some s c o : client_objs s !! c = Some o -> client_at c s = (Ok o, s).
Proof. intros H. unfold client_at. by rewrite H. Qed.

Lemma perm_at_Some s p x : perm_objs s !! p = Some x -> perm_at p s = (Ok x, s).
Proof. intros H. unfold perm_at. by rewrite H. Qed.

Lemma permission_value_Some s m v :
  permission_value s m = Some v <->
  exists o p x, client_objs s !! m = Some o /\ c_permissions o = Some p
                /\ perm_objs s !! p = Some x /\ value x = v.
Proof.
  unfold permission_value. split.
  - intros H. destruct (client_objs s !! m) as [o|] eqn:Ho; [|done]. cbn in H.
    destruct (c_permissions o) as [p|] eqn:Hp; [|done]. cbn in H.
    destruct (perm_objs s !! p) as [x|] eqn:Hx; [|done]. cbn in H.
    exists o, p, x. repeat split; congruence.
  - intros (o & p & x & Ho & Hp & Hx & Hv). rewrite Ho. cbn. rewrite Hp. cbn.
    rewrite Hx. cbn. by rewrite Hv.
Qed.

Lemma User_eq_client s k c o :
  client_objs s !! c = Some o -> User_eq k (PClient c) s = (Ok (k =? c_socket o), s).
Proof. intros H. unfold User_eq, bind. by rewrite (client_at_Some _ _ _ H). Qed.

Lemma slot_eq_client s a c oa oc :
  client_objs s !! a = Some oa -> client_objs s !! c = Some oc ->
  slot_eq (Some a) (PClient c) s = (Ok (c_socket oa =? c_socket oc), s).
Proof.
  intros Ha Hc. unfold slot_eq, bind. rewrite (client_at_Some _ _ _ Ha).
  by apply User_eq_client.
Qed.

Lemma Client_is_owner_eval s c o w ow :
  client_objs s !! c = Some o -> c_group o = Some the_group ->
  g_owner (group s) = Some w -> client_objs s !! w = Some ow ->
  Client_is_owner c s = (Ok (c_socket ow =? c_socket o), s).
Proof.
  intros Hc Hg Hw How. unfold Client_is_owner, bind.
  rewrite (client_at_Some _ _ _ Hc), Hg. unfold get_group. rewrite Hw.
  by apply slot_eq_client.
Qed.


(* ================================================================== *)
(** ** Sample states *)
(* ================================================================== *)

Lemma wf_founded : wf founded.
Proof.
  split.
  - intros c Hc. change (roster founded) with [0] in Hc.
    apply list_elem_of_singleton in Hc as ->.
    eexists _, 0, _, _. split; [vm_compute; reflexivity|]. cbn. split; [done|].
    split; [done|]. split; [|done]. vm_compute. reflexivity.
  - change (NoDup [Some 1]). apply NoDup_singleton.
  - exists 1, (mkPermissions 19). split; vm_compute; reflexivity.
  - exists 0. split; [vm_compute; reflexivity|]. change (0 ∈ [0]). by left.
Qed.

Lemma wf_joined : wf joined.
Proof.
  split.
  - intros c Hc. change (roster joined) with [0; 1] in Hc.
    apply elem_of_cons in Hc as [->|Hc]; [|apply list_elem_of_singleton in Hc as ->].
    + eexists _, 0, _, _. split; [vm_compute; reflexivity|]. cbn. split; [done|].
      split; [done|]. split; [|done]. vm_compute. reflexivity.
    + eexists _, 1, _, _. split; [vm_compute; reflexivity|]. cbn. split; [done|].
      split; [done|]. split; [|done]. vm_compute. reflexivity.
  - change (NoDup [Some 1; Some 2]). apply NoDup_cons. split; [|apply NoDup_singleton].
    intros H. apply list_elem_of_singleton in H. discriminate.
  - exists 1, (mkPermissions 19). split; vm_compute; reflexivity.
  - exists 0. split; [vm_compute; reflexivity|]. change (0 ∈ [0; 1]). by left.
Qed.


Lemma uuids_inj : Inj (=) (=) uuids.
Proof. intros a b H. unfold uuids in H. lia. Qed.

Lemma wf_connected : wf connected.
Proof.
  split.
  - intros c Hc. change (roster connected) with [0] in Hc.
    apply list_elem_of_singleton in Hc as ->.
    eexists _, 0, _, _. split; [vm_compute; reflexivity|]. cbn. split; [done|].
    split; [done|]. split; [|done]. vm_compute. reflexivity.
  - change (NoDup [Some 1]). apply NoDup_singleton.
  - exists 1, (mkPermissions 19). split; vm_compute; reflexivity.
  - exists 0. split; [vm_compute; reflexivity|]. change (0 ∈ [0]). by left.
Qed.


(* ================================================================== *)
(** ** The order on permissions *)
(* ================================================================== *)

Lemma le_spec A B : le A B = true <-> Z.land (value A) (value B) = value A.
Proof. unfold le. apply Z.eqb_eq. Qed.

Lemma le_refl A : le A A = true.
Proof. apply le_spec, Z.land_diag. Qed.

Lemma le_antisym A B : le A B = true -> le B A = true -> value A = value B.
Proof.
  rewrite !le_spec. intros H1 H2. rewrite <- H1 at 1. rewrite Z.land_comm. exact H2.
Qed.

Lemma le_trans A B C : le A B = true -> le B C = true -> le A C = true.
Proof.
  rewrite !le_spec. intros H1 H2.
  rewrite <- H1 at 1. rewrite <- Z.land_assoc, H2. exact H1.
Qed.

Lemma Permissions_le_method s a b A B :
  perm_objs s !! a = Some A -> perm_objs s !! b = Some B ->
  Permissions_le a (PPerm b) s = (Ok (le A B), s).
Proof.
  intros Ha Hb. unfold Permissions_le, bind, perm_at, ret. by rewrite Ha, Hb.
Qed.

Lemma Permissions_le_true s a b A B :
  perm_objs s !! a = Some A -> perm_objs s !! b = Some B ->
  Permissions_le a (PPerm b) s = (Ok true, s) <-> le A B = true.
Proof.
  intros Ha Hb. rewrite (Permissions_le_method s a b A B Ha Hb). split.
  - by intros [= ->].
  - by intros ->.
Qed.

(** Claim C7.  For all [Permissions] objects [A], [B] and [C] of the store,
    [A <= B], that is [Permissions.__le__], returns without changing
    anything, and returns [True] exactly when
    [A.value & B.value == A.value]; [A <= A] returns [True]; [A <= B] and
    [B <= A] both return [True] exactly when the values are equal; and
    [<=] is transitive.  It is not total: for the objects that
    [Permissions(1)] and [Permissions(2)] make, both comparisons return
    [False]. *)
Theorem Permissions_le_partial_order
  (s : State) (a b c : loc) (A B C : Permissions) :
  perm_objs s !! a = Some A -> perm_objs s !! b = Some B -> perm_objs s !! c = Some C ->
  (exists r, Permissions_le a (PPerm b) s = (Ok r, s)
             /\ (r = true <-> Z.land (value A) (value B) = value A))
  /\ Permissions_le a (PPerm a) s = (Ok true, s)
  /\ (Permissions_le a (PPerm b) s = (Ok true, s)
      /\ Permissions_le b (PPerm a) s = (Ok true, s)
      <-> value A = value B)
  /\ (Permissions_le a (PPerm b) s = (Ok true, s) ->
      Permissions_le b (PPerm c) s = (Ok true, s) ->
      Permissions_le a (PPerm c) s = (Ok true, s))
  /\ (exists t x y X Y,
        t = exec (Permissions_init 1 ;;; Permissions_init 2) (boot (fun _ => 0%Z))
        /\ perm_objs t !! x = Some X /\ perm_objs t !! y = Some Y
        /\ (0 <= value X <= 255)%Z /\ (0 <= value Y <= 255)%Z
        /\ Permissions_le x (PPerm y) t = (Ok false, t)
        /\ Permissions_le y (PPerm x) t = (Ok false, t)).
Proof.
  intros Ha Hb Hc. split.
  { exists (le A B). split; [by apply Permissions_le_method|apply le_spec]. }
  split.
  { rewrite (Permissions_le_method s a a A A Ha Ha). by rewrite le_refl. }
  split.
  { rewrite (Permissions_le_true s a b A B Ha Hb), (Permissions_le_true s b a B A Hb Ha).
    split.
    - intros [H1 H2]. by apply le_antisym.
    - intros E. unfold le. rewrite <- E, Z.land_diag, Z.eqb_refl. done. }
  split.
  { rewrite (Permissions_le_true s a b A B Ha Hb), (Permissions_le_true s b c B C Hb Hc),
      (Permissions_le_true s a c A C Ha Hc). apply le_trans. }
  eexists _, 0, 1, (mkPermissions 1), (mkPermissions 2).
  split; [reflexivity|]. split; [reflexivity|]. split; [reflexivity|].
  split; [cbn; lia|]. split; [cbn; lia|]. split; reflexivity.
Qed.

Lemma Permissions_le_partial_order_witness :
  Permissions_le 1 (PPerm 0) joined = (Ok true, joined)
  /\ Permissions_le 0 (PPerm 1) joined = (Ok false, joined).
Proof.
  assert (H0 : perm_objs joined !! 0 = Some (mkPermissions 255)) by (vm_compute; reflexivity).
  assert (H1 : perm_objs joined !! 1 = Some (mkPermissions 19)) by (vm_compute; reflexivity).
  destruct (Permissions_le_partial_order joined 1 0 0 _ _ _ H1 H0 H0)
    as ((r & E & Hr) & _ & Hanti & _).
  split.
  - rewrite E. f_equal. f_equal. apply Hr. reflexivity.
  - destruct (Permissions_le_partial_order joined 0 1 1 _ _ _ H0 H1 H1)
      as ((r' & E' & Hr') & _).
    rewrite E'. f_equal. f_equal. destruct r'; [|done].
    destruct Hr' as [Hr' _]. specialize (Hr' eq_refl). discriminate Hr'.
Defined.


(* ================================================================== *)
(** ** Owner permissions *)
(* ================================================================== *)

(** Claim C3, as the code has it.  For the member that is the owner, with
    current permission value [cur]: [set_permissions(v)] raises [Forbidden]
    for every [v] in [0..255] other than [cur] and leaves the state as it
    was; [set_permissions(cur)] returns without effect, because the test
    for an unchanged value comes before the owner test; and
    [reset_permissions()] raises [Forbidden] unless the default permissions
    of the group have the value [cur], in which case it returns without
    effect. *)
Theorem owner_permissions_guard s m cur :
  Client_is_owner m s = (Ok true, s) ->
  permission_value s m = Some cur ->
  (forall v, (0 <= v <= 255)%Z -> v <> cur ->
             Client_set_permissions m v s = (Raise Forbidden, s))
  /\ Client_set_permissions m cur s = (Ok tt, s)
  /\ (forall d x, g_default_perms (group s) = Some d -> perm_objs s !! d = Some x ->
        Client_reset_permissions m s
        = if (cur =? value x)%Z then (Ok tt, s) else (Raise Forbidden, s)).
Proof.
  intros Hown Hv. apply permission_value_Some in Hv as (o & p & x & Ho & Hp & Hx & Hcur).
  split; [|split].
  - intros v _ Hne. unfold Client_set_permissions, bind.
    rewrite (client_at_Some _ _ _ Ho), Hp, (perm_at_Some _ _ _ Hx).
    destruct (Z.eqb_spec v (value x)) as [->|_]; [congruence|].
    by rewrite Hown.
  - unfold Client_set_permissions, bind.
    rewrite (client_at_Some _ _ _ Ho), Hp, (perm_at_Some _ _ _ Hx).
    by rewrite <- Hcur, Z.eqb_refl.
  - intros d y Hd Hy. unfold Client_reset_permissions, bind.
    rewrite (client_at_Some _ _ _ Ho).
    assert (Hg : c_group o = Some the_group).
    { unfold Client_is_owner, bind in Hown. rewrite (client_at_Some _ _ _ Ho) in Hown.
      destruct (c_group o) as [[]|]; [done|]. discriminate. }
    rewrite Hg. unfold get_group. rewrite Hp, Hd. cbn.
    unfold bind. rewrite (perm_at_Some _ _ _ Hx), (perm_at_Some _ _ _ Hy).
    unfold ret. rewrite Hcur.
    destruct (cur =? value y)%Z; [done|]. by rewrite Hown.
Qed.

Lemma owner_permissions_guard_witness :
  Client_is_owner alice founded = (Ok true, founded)
  /\ permission_value founded alice = Some 255%Z
  /\ Client_set_permissions alice 19 founded = (Raise Forbidden, founded).
Proof.
  assert (H1 : Client_is_owner alice founded = (Ok true, founded)) by (vm_compute; reflexivity).
  assert (H2 : permission_value founded alice = Some 255%Z) by (vm_compute; reflexivity).
  split; [exact H1|]. split; [exact H2|].
  apply (proj1 (owner_permissions_guard founded alice 255 H1 H2)); lia.
Defined.

(** Claim C3 fails as stated: alice owns the group and has the value 255;
    [set_permissions(255)], a value in [0..255] equal to her current one,
    returns normally instead of raising [Forbidden]. *)
Lemma owner_set_same_value_returns :
  result (Client_is_owner alice) founded = Ok true
  /\ permission_value founded alice = Some 255%Z
  /\ result (Client_set_permissions alice 255) founded = Ok tt.
Proof. repeat split; vm_compute; reflexivity. Qed.


(* ================================================================== *)
(** ** Ownership transfer *)
(* ================================================================== *)

(** Claim C4, as the code has it.  [transfer_ownership(new_owner)] raises
    [TypeError] exactly for arguments that are not [Client] objects (a bare
    [User], [None], ...).  For a [Client] object that does not compare
    equal to the owner it returns normally, gives the object a fresh
    all-bits [Permissions] and makes it the owner, leaving the roster as it
    was; a member bound to the group then answers [is_owner] with true.
    Nothing tests that the object is in the roster. *)
Theorem transfer_ownership_tests_class_only :
  (forall s x, (forall c, x <> PClient c) ->
               Group_transfer_ownership x s = (Raise TypeError, s))
  /\ (forall s c o,
        client_objs s !! c = Some o ->
        slot_eq (g_owner (group s)) (PClient c) s = (Ok false, s) ->
        let s' := exec (Group_transfer_ownership (PClient c)) s in
        result (Group_transfer_ownership (PClient c)) s = Ok tt
        /\ g_owner (group s') = Some c
        /\ permission_value s' c = Some PermissionValues.ALL
        /\ roster s' = roster s
        /\ (c_group o = Some the_group -> Client_is_owner c s' = (Ok true, s'))).
Proof.
  split.
  - intros s x Hx. destruct x; try reflexivity. by destruct (Hx c).
  - intros s c o Ho Hne s'.
    assert (E : Group_transfer_ownership (PClient c) s
                = (Ok tt, set_group (g_set_owner (Some c))
                            (set_client_objs
                               (fun l => alter (c_set_permissions (Some (length (perm_objs s)))) c l)
                               (set_perm_objs (fun l => l ++ [mkPermissions PermissionValues.ALL]) s)))).
    { unfold Group_transfer_ownership, bind, get_group. rewrite Hne.
      unfold Permissions_all, Permissions_init. cbn.
      unfold client_at. cbn. rewrite Ho. unfold update_group, modify. reflexivity. }
    subst s'. unfold exec, result. rewrite E. cbn.
    split; [done|]. split; [done|]. split; [|split; [done|]].
    + apply permission_value_Some. cbn.
      exists (c_set_permissions (Some (length (perm_objs s))) o), (length (perm_objs s)),
        (mkPermissions PermissionValues.ALL).
      split. { by rewrite list_lookup_alter_eq, Ho. }
      split; [done|]. split; [|done].
      by apply list_lookup_middle.
    + intros Hg.
      eapply eq_trans; [eapply Client_is_owner_eval|]; cbn.
      * by rewrite list_lookup_alter_eq, Ho.
      * exact Hg.
      * reflexivity.
      * by rewrite list_lookup_alter_eq, Ho.
      * cbn. by rewrite Nat.eqb_refl.
Qed.

Lemma transfer_ownership_tests_class_only_witness :
  Group_transfer_ownership (PUser (mkUser "dave" 7 4)) joined = (Raise TypeError, joined)
  /\ result (Group_transfer_ownership (PClient bob)) joined = Ok tt
  /\ g_owner (group (exec (Group_transfer_ownership (PClient bob)) joined)) = Some bob.
Proof.
  split.
  - apply (proj1 transfer_ownership_tests_class_only). intros c. discriminate.
  - assert (Ho : client_objs joined !! bob
                 = Some (mkClient "bob" 1004 2 (Some the_group) (Some 1) (Some "bob")))
      by (vm_compute; reflexivity).
    assert (Hne : slot_eq (g_owner (group joined)) (PClient bob) joined = (Ok false, joined))
      by (vm_compute; reflexivity).
    destruct (proj2 transfer_ownership_tests_class_only joined bob _ Ho Hne) as (H1 & H2 & _).
    split; assumption.
Defined.

(** Claim C4 fails as stated: once bob is kicked he is destroyed and out of
    the roster, yet [transfer_ownership(bob)] returns normally and makes him
    the owner; no [TypeError] is raised. *)
Lemma transfer_to_kicked_member_succeeds :
  let s := exec (Client_kick bob) joined in
  bob ∈ roster joined
  /\ result (Client_kick bob) joined = Ok tt
  /\ roster s = [alice]
  /\ destroyed s bob
  /\ result (Group_transfer_ownership (PClient bob)) s = Ok tt
  /\ g_owner (group (exec (Group_transfer_ownership (PClient bob)) s)) = Some bob.
Proof.
  cbv zeta.
  split. { apply list_elem_of_lookup. exists 1. vm_compute. reflexivity. }
  split; [vm_compute; reflexivity|]. split; [vm_compute; reflexivity|].
  split. { eexists. split; [vm_compute; reflexivity|]. cbv. tauto. }
  split; vm_compute; reflexivity.
Qed.


(* ================================================================== *)
(** ** Removing members *)
(* ================================================================== *)

(** *** [_kill] *)

Lemma list_remove_spec s k l i m o :
  (forall c, c ∈ l -> is_Some (client_objs s !! c)) ->
  NoDup (socket_of s <$> l) ->
  l !! i = Some m -> client_objs s !! m = Some o -> c_socket o = k ->
  list_remove k l s = (Ok (delete i l), s).
Proof.
  intros Hv Hnd. revert i. induction l as [|x r IH]; intros i Hi Ho Hk; [done|].
  cbn [list_remove]. unfold bind.
  destruct (Hv x) as [ox Hox]; [left|].
  rewrite (client_at_Some _ _ _ Hox).
  apply NoDup_cons in Hnd as [Hx Hnd]. fold (fmap (M:=list) (socket_of s) r) in Hx, Hnd.
  destruct i as [|i]; cbn in Hi.
  - injection Hi as ->. rewrite Hox in Ho. injection Ho as ->.
    rewrite <- Hk, Nat.eqb_refl. reflexivity.
  - destruct (Nat.eqb_spec (c_socket ox) k) as [E|_].
    + exfalso. apply Hx. apply list_elem_of_fmap. exists m. split.
      * unfold socket_of. rewrite Hox, Ho. cbn. congruence.
      * eapply list_elem_of_lookup_2; eauto.
    + rewrite (IH (fun c Hc => Hv c (list_elem_of_further _ _ _ Hc)) Hnd i Hi Ho Hk).
      reflexivity.
Qed.

Lemma list_remove_inv s k l r s' :
  list_remove k l s = (r, s') ->
  s' = s /\ r <> Raise Diverge /\ forall l', r = Ok l' -> length l = S (length l').
Proof.
  revert r s'. induction l as [|x t IH]; intros r s' H; cbn in H.
  - unfold raise in H. injection H as <- <-. split; [done|]. split; [done|]. intros l' [=].
  - unfold bind, client_at in H. destruct (client_objs s !! x) as [ox|].
    + destruct (c_socket ox =? k).
      * unfold ret in H. injection H as <- <-. split; [done|]. split; [done|].
        intros l' [= <-]. done.
      * destruct (list_remove k t s) as [[l1|e] s1] eqn:E.
        -- destruct (IH _ _ eq_refl) as (-> & _ & Hl). unfold ret in H.
           injection H as <- <-. split; [done|]. split; [done|].
           intros l' [= <-]. cbn. f_equal. by apply Hl.
        -- destruct (IH _ _ eq_refl) as (-> & Hd & _). injection H as <- <-.
           split; [done|]. split; [done|]. intros l' [=].
    + injection H as <- <-. split; [done|]. split; [done|]. intros l' [=].
Qed.

Lemma Client_kill_spec s i m o :
  (forall c, c ∈ roster s -> is_Some (client_objs s !! c)) ->
  NoDup (socket_of s <$> roster s) ->
  roster s !! i = Some m -> client_objs s !! m = Some o ->
  c_group o = Some the_group ->
  Client_kill m s = (Ok tt, after_kill i m s).
Proof.
  intros Hv Hnd Hi Ho Hg. unfold Client_kill, bind.
  rewrite (client_at_Some _ _ _ Ho), Hg. unfold get_group.
  fold (roster s).
  rewrite (list_remove_spec s (c_socket o) (roster s) i m o Hv Hnd Hi Ho eq_refl).
  unfold update_group, update_client, modify, after_kill, set_client_objs, set_group. cbn.
  do 2 f_equal. unfold killed. rewrite !list_alter_alter_eq. reflexivity.
Qed.

Lemma Client_kill_inv m s r s' :
  Client_kill m s = (r, s') ->
  r <> Raise Diverge
  /\ (r = Ok tt -> length (roster s) = S (length (roster s'))).
Proof.
  unfold Client_kill, bind, client_at. intros H.
  destruct (client_objs s !! m) as [o|]; [|by injection H as <- <-].
  destruct (c_group o); [|by injection H as <- <-].
  unfold get_group in H.
  destruct (list_remove (c_socket o) (g_clients (group s)) s) as [[l|e] s1] eqn:E.
  - apply list_remove_inv in E as (-> & _ & Hl).
    unfold update_group, update_client, modify in H. injection H as <- <-.
    split; [done|]. intros _. unfold roster. cbn. by apply Hl.
  - apply list_remove_inv in E as (-> & Hd & _). injection H as <- <-.
    split; [congruence|done].
Qed.

(** *** [delete] ends *)

Lemma kill_loop_ends bound index s :
  length (roster s) <= bound + index ->
  fst (kill_loop bound index s) <> Raise Diverge.
Proof.
  revert index s. induction bound as [|b IH]; intros index s Hlen; cbn.
  - fold (roster s). rewrite (lookup_ge_None_2 (roster s) index) by lia. done.
  - fold (roster s). destruct (roster s !! index) as [m|] eqn:Hm; [|done].
    unfold bind. destruct (Client_kill m s) as [[[]|e] s1] eqn:E.
    + apply Client_kill_inv in E as [_ Hl]. apply IH. specialize (Hl eq_refl). lia.
    + apply Client_kill_inv in E as [Hd _]. cbn. congruence.
Qed.

Lemma Group_delete_ends s : result Group_delete s <> Raise Diverge.
Proof.
  unfold result, Group_delete, bind, update_group, modify, get_group.
  match goal with |- context [kill_loop ?b ?i ?t] =>
    pose proof (kill_loop_ends b i t) as H; destruct (kill_loop b i t) as [[[]|e] s1] end.
  - done.
  - cbn in *. intros [= ->]. apply H; [|done]. unfold roster. cbn. lia.
Qed.

Lemma Group_delete_clears s s' :
  Group_delete s = (Ok tt, s') -> roster s' = [] /\ g_bans (group s') = ∅.
Proof.
  unfold Group_delete, bind, update_group, modify, get_group.
  match goal with |- context [kill_loop ?b ?i ?t] =>
    destruct (kill_loop b i t) as [[[]|e] s1] end.
  - intros [= <-]. done.
  - discriminate.
Qed.

Lemma wf_roster_bound s : wf s -> roster_bound s.
Proof.
  intros [Hl Hs _ _]. split; [|done].
  intros c Hc. destruct (Hl c Hc) as (o & p & x & n & Ho & Hg & _). eauto.
Qed.

Lemma socket_of_after_kill i m s c : socket_of (after_kill i m s) c = socket_of s c.
Proof.
  unfold socket_of, after_kill. cbn.
  destruct (decide (m = c)) as [->|Hne].
  - rewrite list_lookup_alter_eq. by destruct (client_objs s !! c).
  - by rewrite list_lookup_alter_ne.
Qed.

Lemma roster_NoDup s : roster_bound s -> NoDup (roster s).
Proof. intros [_ H]. by apply NoDup_fmap_1 in H. Qed.

Lemma after_kill_bound s i m :
  roster_bound s -> roster s !! i = Some m -> roster_bound (after_kill i m s).
Proof.
  intros Hb Hi. pose proof (roster_NoDup s Hb) as Hnd. destruct Hb as [Hv Hs].
  split.
  - intros c Hc. change (roster (after_kill i m s)) with (delete i (roster s)) in Hc.
    assert (Hne : m <> c).
    { intros <-. apply list_elem_of_lookup in Hc as [j Hj].
      destruct (decide (j < i)).
      - rewrite list_lookup_delete_lt in Hj by done.
        pose proof (NoDup_lookup _ _ _ _ Hnd Hi Hj). lia.
      - rewrite list_lookup_delete_ge in Hj by lia.
        pose proof (NoDup_lookup _ _ _ _ Hnd Hi Hj). lia. }
    apply list_elem_of_delete_inv in Hc. destruct (Hv c Hc) as (o & Ho & Hg).
    exists o. split; [|done]. unfold after_kill. cbn. by rewrite list_lookup_alter_ne.
  - change (roster (after_kill i m s)) with (delete i (roster s)).
    assert (E : socket_of (after_kill i m s) <$> delete i (roster s) = socket_of s <$> delete i (roster s)).
    { apply list_fmap_ext. intros. apply socket_of_after_kill. }
    rewrite E.
    assert (Hsub : (socket_of s <$> delete i (roster s)) `sublist_of` (socket_of s <$> roster s)) by (rewrite list_fmap_delete; apply sublist_delete).
    eapply sublist_NoDup; eassumption.
Qed.

Lemma killed_destroyed s c o :
  client_objs s !! c = Some (killed o) -> destroyed s c.
Proof. intros H. exists (killed o). split; [done|]. cbn. tauto. Qed.

(** The loop of [delete] on a roster as [_kill] needs it: it ends
    normally, touches no object outside the part of the roster from
    [index] on, destroys the entries at [index], [index + 2], ... and
    leaves those at [index + 1], [index + 3], ... as they were. *)
Lemma kill_loop_spec bound : forall index s,
  roster_bound s -> length (roster s) <= bound + index ->
  exists s', kill_loop bound index s = (Ok tt, s')
    /\ (forall c, (forall k, index <= k -> roster s !! k <> Some c) ->
                  client_objs s' !! c = client_objs s !! c)
    /\ (forall j c, roster s !! (index + 2 * j) = Some c -> destroyed s' c)
    /\ (forall j c, roster s !! (index + 2 * j + 1) = Some c ->
                    client_objs s' !! c = client_objs s !! c).
Proof.
  induction bound as [|b IH]; intros index s Hb Hlen.
  - exists s. cbn. fold (roster s).
    rewrite (lookup_ge_None_2 (roster s) index) by lia.
    split; [done|]. split; [done|]. split.
    + intros j c Hc. apply lookup_lt_Some in Hc. lia.
    + intros j c Hc. apply lookup_lt_Some in Hc. lia.
  - cbn [kill_loop]. fold (roster s).
    destruct (roster s !! index) as [m|] eqn:Hm.
    2:{ exists s. split; [done|]. split; [done|].
        apply lookup_ge_None_1 in Hm. split.
        - intros j c Hc. apply lookup_lt_Some in Hc. lia.
        - intros j c Hc. apply lookup_lt_Some in Hc. lia. }
    pose proof (roster_NoDup s Hb) as Hnd.
    destruct (proj1 Hb m (list_elem_of_lookup_2 _ _ _ Hm)) as (o & Ho & Hg).
    unfold bind.
    rewrite (Client_kill_spec s index m o); [|intros c Hc; destruct (proj1 Hb c Hc) as (? & -> & _); eauto|apply Hb|done..].
    set (s1 := after_kill index m s).
    assert (Hb1 : roster_bound s1) by (by apply after_kill_bound).
    assert (Hr1 : roster s1 = delete index (roster s)) by reflexivity.
    assert (Hlen1 : length (roster s1) <= b + S index).
    { rewrite Hr1, length_delete by eauto. apply lookup_lt_Some in Hm. lia. }
    destruct (IH (S index) s1 Hb1 Hlen1) as (s' & Hrun & Hframe & Hkill & Hkeep).
    assert (Hobj : forall c, c <> m -> client_objs s1 !! c = client_objs s !! c).
    { intros c Hc. unfold s1, after_kill. cbn. by rewrite list_lookup_alter_ne. }
    exists s'. split; [exact Hrun|]. split; [|split].
    + intros c Hc. rewrite Hframe.
      * apply Hobj. intros ->. by apply (Hc index).
      * intros k Hk. rewrite Hr1, list_lookup_delete_ge by lia. apply Hc. lia.
    + intros j c Hc. destruct j as [|j].
      * replace (index + 2 * 0) with index in Hc by lia.
        rewrite Hm in Hc. injection Hc as <-.
        apply (killed_destroyed s' m o). rewrite Hframe.
        -- unfold s1, after_kill. cbn. by rewrite list_lookup_alter_eq, Ho.
        -- intros k Hk. rewrite Hr1, list_lookup_delete_ge by lia.
           intros Hk'. pose proof (NoDup_lookup _ _ _ _ Hnd Hm Hk'). lia.
      * apply (Hkill j c). rewrite Hr1, list_lookup_delete_ge by lia.
        rewrite <- Hc. f_equal. lia.
    + intros j c Hc.
      assert (Hcm : c <> m).
      { intros ->. pose proof (NoDup_lookup _ _ _ _ Hnd Hm Hc). lia. }
      rewrite <- (Hobj c Hcm).
      destruct j as [|j].
      * apply Hframe. intros k Hk. rewrite Hr1, list_lookup_delete_ge by lia.
        intros Hk'. pose proof (NoDup_lookup _ _ _ _ Hnd Hc Hk'). lia.
      * apply (Hkeep j c). rewrite Hr1, list_lookup_delete_ge by lia.
        rewrite <- Hc. f_equal. lia.
Qed.


(* ================================================================== *)
(** ** Deleting the group *)
(* ================================================================== *)

(** Claim C2, against the code.  On every well-formed state [delete()]
    returns normally and leaves the roster and the ban set empty, and it
    destroys the members at the even positions of the roster; but the
    members at the odd positions are left exactly as they were, bound to
    the group and with their permissions and nickname: the loop walks the
    list that [_kill] is shortening. *)
Theorem Group_delete_spares_every_other s :
  wf s ->
  let s' := exec Group_delete s in
  result Group_delete s = Ok tt
  /\ roster s' = [] /\ g_bans (group s') = ∅
  /\ (forall j c, roster s !! (2 * j) = Some c -> destroyed s' c)
  /\ (forall j c, roster s !! (2 * j + 1) = Some c ->
                  client_objs s' !! c = client_objs s !! c /\ ~ destroyed s' c).
Proof.
  intros Hwf s'.
  set (s0 := set_group (g_set_owner None)
               (set_group (g_set_default_perms None)
                  (set_group (g_set_name None)
                     (set_group (g_set_id 0)
                        (set_group (g_set_is_public false) s))))).
  assert (Hb0 : roster_bound s0) by exact (wf_roster_bound s Hwf).
  destruct (kill_loop_spec (length (roster s0)) 0 s0 Hb0 ltac:(lia))
    as (s1 & Hrun & _ & Hkill & Hkeep).
  assert (E : Group_delete s
              = (Ok tt, set_group (g_set_bans ∅) (set_group (g_set_clients []) s1))).
  { change (Group_delete s)
      with (match kill_loop (length (roster s0)) 0 s0 with
            | (Ok _, t) => (Ok tt, set_group (g_set_bans ∅) (set_group (g_set_clients []) t))
            | (Raise e, t) => (Raise e, t)
            end).
    by rewrite Hrun. }
  subst s'. unfold exec, result. rewrite E. cbn.
  split; [done|]. split; [done|]. split; [done|]. split.
  - intros j c Hc. destruct (Hkill j c Hc) as (o & Ho & Hd). by exists o.
  - intros j c Hc.
    assert (Hsame : client_objs s1 !! c = client_objs s !! c).
    { apply (Hkeep j c). rewrite <- Hc. f_equal. }
    split; [exact Hsame|].
    intros (o & Ho & Hg & _). cbn in Ho. rewrite Hsame in Ho.
    destruct (wf_live s Hwf c (list_elem_of_lookup_2 _ _ _ Hc)) as (o' & p & x & n & Ho' & Hg' & _).
    congruence.
Qed.

Lemma Group_delete_spares_every_other_witness :
  destroyed (exec Group_delete joined) alice
  /\ ~ destroyed (exec Group_delete joined) bob.
Proof.
  destruct (Group_delete_spares_every_other joined wf_joined) as (_ & _ & _ & Hk & Hs).
  split.
  - apply (Hk 0). vm_compute. reflexivity.
  - apply (Hs 0). vm_compute. reflexivity.
Defined.


(* ================================================================== *)
(** ** Joining *)
(* ================================================================== *)

(** *** [add] *)

Lemma member_equal_to_none s u l :
  (forall c, c ∈ l -> exists oc, client_objs s !! c = Some oc /\ c_socket oc <> u_socket u) ->
  member_equal_to (PUser u) l s = (Ok None, s).
Proof.
  induction l as [|x r IH]; intros Hv; [done|].
  cbn [member_equal_to]. unfold bind.
  destruct (Hv x) as (ox & Hox & Hne); [left|].
  rewrite (client_at_Some _ _ _ Hox). cbn [User_eq]. unfold ret.
  destruct (Nat.eqb_spec (c_socket ox) (u_socket u)); [done|].
  apply IH. intros c Hc. apply Hv. by right.
Qed.

Lemma Group_add_banned s u :
  (forall c, c ∈ roster s -> exists oc, client_objs s !! c = Some oc /\ c_socket oc <> u_socket u) ->
  u_id u ∈ g_bans (group s) ->
  Group_add (PUser u) s = (Raise Forbidden, s).
Proof.
  intros Hv Hb. unfold Group_add, bind, get_group.
  rewrite (member_equal_to_none s u (g_clients (group s)) Hv). by rewrite decide_True.
Qed.

Lemma Group_add_spec s u d :
  (forall c, c ∈ roster s -> exists oc, client_objs s !! c = Some oc /\ c_socket oc <> u_socket u) ->
  u_id u ∉ g_bans (group s) ->
  u_name u <> "" ->
  g_default_perms (group s) = Some d ->
  Group_add (PUser u) s = (Ok (length (client_objs s)), after_add u s).
Proof.
  intros Hv Hb Hn Hd. unfold Group_add, bind, get_group.
  rewrite (member_equal_to_none s u (g_clients (group s)) Hv). rewrite decide_False by done.
  unfold Client_init. rewrite Hd. unfold bind, User_init.
  destruct (String.eqb_spec (u_name u) ""); [done|].
  unfold after_add. rewrite Hd. reflexivity.
Qed.

Lemma socket_of_after_add_old u s c :
  c < length (client_objs s) -> socket_of (after_add u s) c = socket_of s c.
Proof. intros Hc. unfold socket_of, after_add. cbn. by rewrite lookup_app_l. Qed.

Lemma socket_of_after_add_new u s :
  socket_of (after_add u s) (length (client_objs s)) = Some (u_socket u).
Proof. unfold socket_of, after_add. cbn. by rewrite list_lookup_middle. Qed.

Lemma wf_after_add s u :
  wf s ->
  (forall c, c ∈ roster s -> exists oc, client_objs s !! c = Some oc /\ c_socket oc <> u_socket u) ->
  wf (after_add u s).
Proof.
  intros [Hl Hs (d & x & Hd & Hx) (w & Hw & Hwr)] Hv.
  assert (Hlt : forall c, c ∈ roster s -> c < length (client_objs s)).
  { intros c Hc. destruct (Hv c Hc) as (oc & Hoc & _). by apply lookup_lt_Some in Hoc. }
  split.
  - intros c Hc. change (roster (after_add u s)) with (roster s ++ [length (client_objs s)]) in Hc.
    apply elem_of_app in Hc as [Hc|Hc].
    + destruct (Hl c Hc) as (o & p & y & n & Ho & Hg & Hp & Hy & Hn).
      exists o, p, y, n. unfold after_add. cbn. rewrite lookup_app_l by (by apply Hlt). done.
    + apply list_elem_of_singleton in Hc as ->.
      eexists _, d, x, (u_name u). unfold after_add. cbn.
      rewrite list_lookup_middle by done. cbn. rewrite Hd. done.
  - change (roster (after_add u s)) with (roster s ++ [length (client_objs s)]).
    rewrite fmap_app. cbn [fmap list_fmap]. rewrite socket_of_after_add_new.
    assert (E : socket_of (after_add u s) <$> roster s = socket_of s <$> roster s).
    { apply list_fmap_ext. intros i c Hc. apply socket_of_after_add_old, Hlt.
      by eapply list_elem_of_lookup_2. }
    rewrite E. apply NoDup_app. split; [done|]. split; [|apply NoDup_singleton].
    intros k Hk Hk'. apply list_elem_of_singleton in Hk' as ->.
    apply list_elem_of_fmap in Hk as (c & Hc1 & Hc2).
    destruct (Hv c Hc2) as (oc & Hoc & Hne). unfold socket_of in Hc1. rewrite Hoc in Hc1.
    cbn in Hc1. congruence.
  - exists d, x. by unfold after_add.
  - exists w. unfold after_add. cbn. split; [done|].
    change (w ∈ roster s ++ [length (client_objs s)]). apply elem_of_app. by left.
Qed.

(** *** [kick] and [ban] *)

Lemma wf_kill_spec s i m :
  wf s -> roster s !! i = Some m ->
  exists o, client_objs s !! m = Some o
            /\ Client_kill m s = (Ok tt, after_kill i m s).
Proof.
  intros Hwf Hi. pose proof (wf_roster_bound s Hwf) as [Hv Hs].
  destruct (Hv m (list_elem_of_lookup_2 _ _ _ Hi)) as (o & Ho & Hg).
  exists o. split; [done|]. apply (Client_kill_spec s i m o); try done.
  intros c Hc. destruct (Hv c Hc) as (? & -> & _); eauto.
Qed.

Lemma Client_kick_spec s i m :
  wf s -> roster s !! i = Some m -> Client_is_owner m s = (Ok false, s) ->
  Client_kick m s = (Ok tt, after_kill i m s).
Proof.
  intros Hwf Hi Hown. unfold Client_kick, bind. rewrite Hown.
  by destruct (wf_kill_spec s i m Hwf Hi) as (o & _ & ->).
Qed.

Lemma Client_ban_spec s i m o :
  wf s -> roster s !! i = Some m -> Client_is_owner m s = (Ok false, s) ->
  client_objs s !! m = Some o ->
  Client_ban m s
  = (Ok tt, set_group (fun g => g_set_bans ({[ c_id o ]} ∪ g_bans g) g) (after_kill i m s)).
Proof.
  intros Hwf Hi Hown Ho. unfold Client_ban, bind.
  rewrite (client_at_Some _ _ _ Ho), (Client_kick_spec s i m Hwf Hi Hown).
  destruct (wf_live s Hwf m (list_elem_of_lookup_2 _ _ _ Hi)) as (o' & p & x & n & Ho' & Hg & _).
  assert (o' = o) as -> by congruence. rewrite Hg. reflexivity.
Qed.

Lemma not_owner_address s m :
  wf s -> m ∈ roster s -> Client_is_owner m s = (Ok false, s) -> g_owner (group s) <> Some m.
Proof.
  intros Hwf Hm Hown Hw.
  destruct (wf_live s Hwf m Hm) as (o & p & x & n & Ho & Hg & _).
  rewrite (Client_is_owner_eval s m o m o Ho Hg Hw Ho), Nat.eqb_refl in Hown. discriminate.
Qed.

Lemma elem_of_delete_other {A} (l : list A) i m c :
  l !! i = Some m -> c ∈ l -> c <> m -> c ∈ delete i l.
Proof.
  intros Hi Hc Hne. apply list_elem_of_lookup in Hc as [j Hj].
  destruct (decide (j < i)).
  - apply (list_elem_of_lookup_2 _ j). by rewrite list_lookup_delete_lt.
  - assert (j <> i) by (intros ->; congruence).
    apply (list_elem_of_lookup_2 _ (pred j)). rewrite list_lookup_delete_ge by lia.
    by replace (S (pred j)) with j by lia.
Qed.

Lemma wf_after_kill s i m :
  wf s -> roster s !! i = Some m -> g_owner (group s) <> Some m ->
  wf (after_kill i m s).
Proof.
  intros Hwf Hi Hown.
  pose proof (after_kill_bound s i m (wf_roster_bound s Hwf) Hi) as [Hv Hs].
  destruct Hwf as [Hl _ Hd (w & Hw & Hwr)].
  split; [|done|done|].
  - intros c Hc. destruct (Hv c Hc) as (o & Ho & Hg).
    change (roster (after_kill i m s)) with (delete i (roster s)) in Hc.
    apply list_elem_of_delete_inv in Hc.
    destruct (Hl c Hc) as (o' & p & x & n & Ho' & Hg' & Hp & Hx & Hn).
    assert (Hne : m <> c).
    { intros <-. unfold after_kill in Ho. cbn in Ho.
      rewrite list_lookup_alter_eq, Ho' in Ho. cbn in Ho. injection Ho as <-. discriminate. }
    exists o', p, x, n. unfold after_kill. cbn. rewrite list_lookup_alter_ne by done. done.
  - exists w. split; [done|].
    change (w ∈ delete i (roster s)). eapply elem_of_delete_other; eauto. congruence.
Qed.

(** Claim C5.  Let [m] be a member of the group other than the owner and
    [u] a user (with a name) whose identity is that of [m].  [ban] on [m]
    returns normally, and from then on, in every state that still holds the
    bans made so far, [add(u)] raises [Forbidden] when the socket of [u] is
    not in the roster.  [kick] on [m] returns normally as well, and if the
    identity was not banned before, [add(u)] then succeeds: it returns a new
    member, live, which it appends to the roster. *)
Theorem ban_blocks_join_kick_does_not (s : State) (m : nat) (o : Client) (u : User) :
  wf s -> m ∈ roster s -> client_objs s !! m = Some o ->
  Client_is_owner m s = (Ok false, s) ->
  u_id u = c_id o -> u_name u <> "" ->
  (let s1 := exec (Client_ban m) s in
   result (Client_ban m) s = Ok tt
   /\ forall s2,
       g_bans (group s1) ⊆ g_bans (group s2) ->
       (forall c, c ∈ roster s2 ->
                  exists oc, client_objs s2 !! c = Some oc /\ c_socket oc <> u_socket u) ->
       Group_add (PUser u) s2 = (Raise Forbidden, s2))
  /\ (let s1 := exec (Client_kick m) s in
      result (Client_kick m) s = Ok tt
      /\ ((u_id u ∉ g_bans (group s)) ->
          (forall c, c ∈ roster s1 ->
                     exists oc, client_objs s1 !! c = Some oc /\ c_socket oc <> u_socket u) ->
          exists new,
            Group_add (PUser u) s1 = (Ok new, after_add u s1)
            /\ roster (after_add u s1) = roster s1 ++ [new]
            /\ (new ∉ roster s1)
            /\ live (after_add u s1) new)).
Proof.
  intros Hwf Hm Ho Hown Hid Hname.
  apply list_elem_of_lookup in Hm as [i Hi].
  split.
  - unfold exec, result. rewrite (Client_ban_spec s i m o Hwf Hi Hown Ho). cbn [fst snd].
    split; [done|]. intros s2 Hsub Hv. apply Group_add_banned; [done|].
    apply Hsub. rewrite Hid. cbn. set_solver.
  - unfold exec, result. rewrite (Client_kick_spec s i m Hwf Hi Hown). cbn [fst snd].
    split; [done|]. intros Hnb Hv.
    assert (Hwf1 : wf (after_kill i m s)).
    { apply wf_after_kill; try done. apply not_owner_address; try done.
      by eapply list_elem_of_lookup_2. }
    destruct (wf_default _ Hwf1) as (d & x & Hd & Hx).
    exists (length (client_objs (after_kill i m s))).
    split. { by apply (Group_add_spec _ u d). }
    split; [reflexivity|]. split.
    + intros Hin. destruct (Hv _ Hin) as (oc & Hoc & _).
      apply lookup_lt_Some in Hoc. lia.
    + apply (wf_live _ (wf_after_add _ u Hwf1 Hv)).
      change (roster (after_add u (after_kill i m s)))
        with (roster (after_kill i m s) ++ [length (client_objs (after_kill i m s))]).
      apply elem_of_app. right. by apply list_elem_of_singleton.
Qed.


Lemma ban_blocks_join_kick_does_not_witness :
  result (Client_ban bob) joined = Ok tt
  /\ Group_add (PUser (mkUser "bob" 1004 5)) (exec (Client_ban bob) joined)
     = (Raise Forbidden, exec (Client_ban bob) joined)
  /\ result (Client_kick bob) joined = Ok tt
  /\ exists new,
       result (Group_add (PUser (mkUser "bob" 1004 5))) (exec (Client_kick bob) joined) = Ok new.
Proof.
  assert (Hm : bob ∈ roster joined) by (change (1 ∈ [0; 1]); set_solver).
  assert (Ho : client_objs joined !! bob
               = Some (mkClient "bob" 1004 2 (Some the_group) (Some 1) (Some "bob")))
    by (vm_compute; reflexivity).
  assert (Hown : Client_is_owner bob joined = (Ok false, joined)) by (vm_compute; reflexivity).
  destruct (ban_blocks_join_kick_does_not joined bob _ (mkUser "bob" 1004 5)
              wf_joined Hm Ho Hown eq_refl ltac:(discriminate))
    as [[Hb1 Hb2] [Hk1 Hk2]].
  split; [exact Hb1|]. split.
  - apply Hb2; [done|]. intros c Hc.
    change (roster (exec (Client_ban bob) joined)) with [0] in Hc.
    apply list_elem_of_singleton in Hc as ->.
    eexists. split; [vm_compute; reflexivity|]. cbn. lia.
  - split; [exact Hk1|].
    destruct Hk2 as (new & Hn & _).
    + vm_compute. set_solver.
    + intros c Hc. change (roster (exec (Client_kick bob) joined)) with [0] in Hc.
      apply list_elem_of_singleton in Hc as ->.
      eexists. split; [vm_compute; reflexivity|]. cbn. lia.
    + exists new. unfold result. by rewrite Hn.
Defined.

(** Claim C10.  Assume [uuid4] never repeats a value.  When [add(u)] makes a
    member of a user [u] built earlier, the member's [_id] is the next
    value of [uuid4]: it was never drawn before and differs from [u.id].
    A later [ban] of that member records the member's identity in the ban
    set, and not the identity of [u]. *)
Theorem add_gives_fresh_identity (s : State) (u : User) :
  Inj (=) (=) (uuid_src s) ->
  drawn s (u_id u) ->
  wf s ->
  (forall c, c ∈ roster s ->
             exists oc, client_objs s !! c = Some oc /\ c_socket oc <> u_socket u) ->
  u_id u ∉ g_bans (group s) ->
  u_name u <> "" ->
  exists m o,
    Group_add (PUser u) s = (Ok m, after_add u s)
    /\ roster (after_add u s) = roster s ++ [m]
    /\ client_objs (after_add u s) !! m = Some o
    /\ c_id o = uuid_src s (uuid_drawn s)
    /\ ~ drawn s (c_id o)
    /\ c_id o <> u_id u
    /\ (let s2 := exec (Client_ban m) (after_add u s) in
        result (Client_ban m) (after_add u s) = Ok tt
        /\ c_id o ∈ g_bans (group s2)
        /\ u_id u ∉ g_bans (group s2)).
Proof.
  intros Hinj (k & Hk & Hku) Hwf Hv Hnb Hname.
  destruct (wf_default s Hwf) as (d & x & Hd & Hx).
  set (m := length (client_objs s)).
  set (o := mkClient (u_name u) (uuid_src s (uuid_drawn s)) (u_socket u)
                     (Some the_group) (g_default_perms (group s)) (Some (u_name u))).
  assert (Hfresh : ~ drawn s (c_id o)).
  { intros (j & Hj & E). cbn in E. apply Hinj in E. lia. }
  assert (Hne : c_id o <> u_id u).
  { intros E. apply Hfresh. exists k. split; [done|]. congruence. }
  assert (Ho : client_objs (after_add u s) !! m = Some o).
  { unfold after_add. cbn. by apply list_lookup_middle. }
  exists m, o. split; [by apply (Group_add_spec s u d)|].
  split; [reflexivity|]. split; [exact Ho|]. split; [reflexivity|].
  split; [exact Hfresh|]. split; [exact Hne|].
  pose proof (wf_after_add s u Hwf Hv) as Hwf'.
  assert (Hi : roster (after_add u s) !! length (roster s) = Some m).
  { change (roster (after_add u s)) with (roster s ++ [m]). by apply list_lookup_middle. }
  assert (Hown : Client_is_owner m (after_add u s) = (Ok false, after_add u s)).
  { destruct (wf_owner s Hwf) as (w & Hw & Hwr).
    destruct (Hv w Hwr) as (ow & How & Hsock).
    rewrite (Client_is_owner_eval (after_add u s) m o w ow Ho eq_refl).
    - cbn. by destruct (Nat.eqb_spec (c_socket ow) (u_socket u)).
    - exact Hw.
    - unfold after_add. cbn. by apply lookup_app_l_Some. }
  unfold exec, result.
  rewrite (Client_ban_spec (after_add u s) (length (roster s)) m o Hwf' Hi Hown Ho).
  cbn [fst snd]. split; [done|]. cbn. split; [set_solver|].
  intros [E|E]%elem_of_union; [|done]. apply elem_of_singleton in E. exact (Hne (eq_sym E)).
Qed.


Lemma add_gives_fresh_identity_witness :
  exists m o,
    Group_add (PUser bob_user) connected = (Ok m, after_add bob_user connected)
    /\ client_objs (after_add bob_user connected) !! m = Some o
    /\ c_id o <> u_id bob_user.
Proof.
  assert (H1 : Inj (=) (=) (uuid_src connected)) by exact uuids_inj.
  assert (H2 : drawn connected (u_id bob_user)).
  { exists 3. split; [vm_compute; lia|vm_compute; reflexivity]. }
  assert (H3 : forall c, c ∈ roster connected ->
             exists oc, client_objs connected !! c = Some oc /\ c_socket oc <> u_socket bob_user).
  { intros c Hc. change (roster connected) with [0] in Hc.
    apply list_elem_of_singleton in Hc as ->.
    eexists. split; [vm_compute; reflexivity|]. cbn. lia. }
  assert (H4 : u_id bob_user ∉ g_bans (group connected)).
  { vm_compute. set_solver. }
  assert (H5 : u_name bob_user <> "") by discriminate.
  destruct (add_gives_fresh_identity connected bob_user H1 H2 wf_connected H3 H4 H5)
    as (m & o & Ha & _ & Ho & _ & _ & Hne & _).
  exists m, o. auto.
Defined.


(* ================================================================== *)
(** ** Default permissions *)
(* ================================================================== *)

Lemma change_default_reaches_sharers s m o d v :
  client_objs s !! m = Some o -> c_permissions o = Some d ->
  g_default_perms (group s) = Some d -> is_Some (perm_objs s !! d) ->
  (0 <= v <= 255)%Z ->
  result (Group_change_default_permissions v) s = Ok tt
  /\ permission_value (exec (Group_change_default_permissions v) s) m = Some v.
Proof.
  intros Ho Hp Hd [x Hx] Hv. unfold result, exec, Group_change_default_permissions, bind, get_group.
  rewrite Hd, (perm_at_Some _ _ _ Hx).
  destruct (Z.eqb_spec v (value x)) as [->|Hne].
  - split; [done|]. apply permission_value_Some. by exists o, d, x.
  - unfold Permissions_update.
    destruct (Z.ltb_spec v 0); [lia|]. destruct (Z.gtb_spec v PermissionValues.ALL).
    { unfold PermissionValues.ALL in *. lia. }
    unfold bind. rewrite (perm_at_Some _ _ _ Hx). split; [done|].
    apply permission_value_Some. exists o, d, (mkPermissions v). cbn.
    split; [done|]. split; [done|]. split; [|done].
    apply list_lookup_insert_eq. by apply lookup_lt_Some in Hx.
Qed.

(** Claim C1, against the code.  [add] hands the group's own default
    [Permissions] object to the new member, so the two share it: right
    after [add(u)] the member's value is the default value, and after
    [change_default_permissions(v)], for any [v] in [0..255], the member's
    value is [v]. *)
Theorem default_change_reaches_joined_members (s : State) (u : User) (v : Z) :
  wf s ->
  (forall c, c ∈ roster s ->
             exists oc, client_objs s !! c = Some oc /\ c_socket oc <> u_socket u) ->
  u_id u ∉ g_bans (group s) ->
  u_name u <> "" ->
  (0 <= v <= 255)%Z ->
  exists m,
    Group_add (PUser u) s = (Ok m, after_add u s)
    /\ m ∈ roster (after_add u s)
    /\ permission_value (after_add u s) m
       = (d ← g_default_perms (group s); x ← perm_objs s !! d; Some (value x))
    /\ result (Group_change_default_permissions v) (after_add u s) = Ok tt
    /\ permission_value (exec (Group_change_default_permissions v) (after_add u s)) m
       = Some v.
Proof.
  intros Hwf Hv Hnb Hname Hrange.
  destruct (wf_default s Hwf) as (d & x & Hd & Hx).
  exists (length (client_objs s)).
  split; [by apply (Group_add_spec s u d)|].
  split. { change (roster (after_add u s)) with (roster s ++ [length (client_objs s)]).
           apply elem_of_app. right. by apply list_elem_of_singleton. }
  assert (Ho : client_objs (after_add u s) !! length (client_objs s)
               = Some (mkClient (u_name u) (uuid_src s (uuid_drawn s)) (u_socket u)
                                (Some the_group) (Some d) (Some (u_name u)))).
  { unfold after_add. cbn. rewrite Hd. by apply list_lookup_middle. }
  split.
  - rewrite Hd. cbn. rewrite Hx. cbn. apply permission_value_Some.
    eexists _, d, x. split; [exact Ho|]. done.
  - eapply change_default_reaches_sharers; eauto.
Qed.

Lemma default_change_reaches_joined_members_witness :
  exists m,
    Group_add (PUser bob_user) connected = (Ok m, after_add bob_user connected)
    /\ permission_value (after_add bob_user connected) m = Some 19%Z
    /\ permission_value (exec (Group_change_default_permissions 0)
                              (after_add bob_user connected)) m = Some 0%Z.
Proof.
  assert (H3 : forall c, c ∈ roster connected ->
             exists oc, client_objs connected !! c = Some oc /\ c_socket oc <> u_socket bob_user).
  { intros c Hc. change (roster connected) with [0] in Hc.
    apply list_elem_of_singleton in Hc as ->.
    eexists. split; [vm_compute; reflexivity|]. cbn. lia. }
  assert (H4 : u_id bob_user ∉ g_bans (group connected)).
  { vm_compute. set_solver. }
  assert (H5 : u_name bob_user <> "") by discriminate.
  destruct (default_change_reaches_joined_members connected bob_user 0 wf_connected H3 H4 H5
              ltac:(lia)) as (m & Ha & _ & Hb & _ & Hc).
  exists m. split; [exact Ha|]. split; [|exact Hc].
  rewrite Hb. vm_compute. reflexivity.
Defined.


(* ================================================================== *)
(** ** Broadcast *)
(* ================================================================== *)

(** *** [broadcast] *)

Lemma set_sent_set_sent f g s : set_sent g (set_sent f s) = set_sent (fun l => g (f l)) s.
Proof. reflexivity. Qed.

Lemma permissions_of_live s c o p x :
  client_objs s !! c = Some o -> c_permissions o = Some p -> perm_objs s !! p = Some x ->
  permissions_of c s = (Ok x, s).
Proof.
  intros Ho Hp Hx. unfold permissions_of, bind.
  rewrite (client_at_Some _ _ _ Ho), Hp. by apply perm_at_Some.
Qed.

Lemma receives_eval s exc c o p x :
  client_objs s !! c = Some o -> c_permissions o = Some p -> perm_objs s !! p = Some x ->
  receives s exc c
  = read_messages x
    && match exc with
       | None => true
       | Some e => negb (bool_decide (socket_of s e = Some (c_socket o)))
       end.
Proof.
  intros Ho Hp Hx. unfold receives.
  rewrite (proj2 (permission_value_Some s c (value x))) by (exists o, p, x; done).
  f_equal. destruct exc; [|done].
  assert (E : socket_of s c = Some (c_socket o)) by (unfold socket_of; by rewrite Ho).
  by rewrite E.
Qed.

Lemma send_blank c message s :
  strip message = "" -> Client_send c message s = (Ok tt, s).
Proof. intros H. unfold Client_send. by rewrite H. Qed.

Lemma send_text c o message s :
  strip message <> "" -> client_objs s !! c = Some o ->
  Client_send c message s = (Ok tt, set_sent (fun l => l ++ [(c_socket o, message)]) s).
Proof.
  intros H Ho. unfold Client_send. destruct (String.eqb_spec (strip message) ""); [done|].
  unfold bind. by rewrite (client_at_Some _ _ _ Ho).
Qed.

Lemma broadcast_loop_spec message exc l : forall t,
  (forall c, c ∈ l -> live t c) ->
  match exc with Some e => is_Some (client_objs t !! e) | None => True end ->
  broadcast_loop message exc l t
  = (Ok tt,
     set_sent (fun x => x ++ (if String.eqb (strip message) "" then []
                              else omap (fun c => (fun k => (k, message)) <$> socket_of t c)
                                        (List.filter (receives t exc) l))) t).
Proof.
  induction l as [|c r IH]; intros t Hl He.
  - cbn. unfold ret. destruct t. unfold set_sent. cbn.
    destruct (String.eqb (strip message) ""); by rewrite app_nil_r.
  - destruct (Hl c) as (o & p & x & n & Ho & Hg & Hp & Hx & Hn); [left|].
    cbn [broadcast_loop List.filter]. unfold bind at 1.
    rewrite (permissions_of_live t c o p x Ho Hp Hx).
    rewrite (receives_eval t exc c o p x Ho Hp Hx).
    assert (Hgo : (if read_messages x
                   then match exc with
                        | Some e => same <- slot_eq (Some e) (PClient c);; ret (negb same)
                        | None => ret true
                        end
                   else ret false) t
                  = (Ok (read_messages x
                         && match exc with
                            | None => true
                            | Some e => negb (bool_decide (socket_of t e = Some (c_socket o)))
                            end), t)).
    { destruct (read_messages x); [|done]. destruct exc as [e|]; [|done].
      destruct He as [oe Hoe]. unfold bind.
      rewrite (slot_eq_client t e c oe o Hoe Ho). unfold ret. cbn [andb]. do 3 f_equal.
      unfold socket_of. rewrite Hoe. cbn.
      destruct (Nat.eqb_spec (c_socket oe) (c_socket o)) as [->|Hne].
      - by rewrite bool_decide_eq_true_2.
      - rewrite bool_decide_eq_false_2; [done|]. congruence. }
    unfold bind at 1. rewrite Hgo. clear Hgo.
    set (go := read_messages x && _).
    assert (Hrest : forall t', client_objs t' = client_objs t -> perm_objs t' = perm_objs t ->
              (forall c, c ∈ r -> live t' c)
              /\ match exc with Some e => is_Some (client_objs t' !! e) | None => True end
              /\ List.filter (receives t' exc) r = List.filter (receives t exc) r
              /\ forall c, socket_of t' c = socket_of t c).
    { intros t' E1 E2. split; [|split; [|split]].
      - intros c' Hc'. destruct (Hl c') as (o' & p' & x' & n' & H1 & H2 & H3 & H4 & H5); [by right|].
        exists o', p', x', n'. rewrite E1, E2. done.
      - destruct exc; [|done]. by rewrite E1.
      - apply filter_ext. intros c'. unfold receives, permission_value, socket_of.
        by rewrite E1, E2.
      - intros c'. unfold socket_of. by rewrite E1. }
    destruct (String.eqb (strip message) "") eqn:Hb.
    + apply String.eqb_eq in Hb as Hb'. unfold bind.
      assert (Hs : (if go then Client_send c message else ret tt) t = (Ok tt, t)).
      { destruct go; [by apply send_blank|done]. }
      rewrite Hs, (IH t); [|intros; apply Hl; by right|done].
      reflexivity.
    + apply String.eqb_neq in Hb as Hb'. unfold bind. destruct go.
      * rewrite (send_text c o message t Hb' Ho).
        destruct (Hrest (set_sent (fun l => l ++ [(c_socket o, message)]) t) eq_refl eq_refl)
          as (H1 & H2 & H3 & H4).
        rewrite (IH _ H1 H2), H3.
        rewrite set_sent_set_sent. unfold set_sent. cbn [omap list_omap].
        unfold socket_of at 2. rewrite Ho. cbn. do 2 f_equal.
        rewrite <- app_assoc. cbn. do 2 f_equal.
      * unfold ret at 1.
        rewrite (IH t); [|intros; apply Hl; by right|done].
        reflexivity.
Qed.

Lemma deliveries_match s message exc :
  (forall c, c ∈ roster s -> live s c) ->
  Forall2 (fun c d => socket_of s c = Some (fst d) /\ snd d = message)
          (recipients s exc) (deliveries s message exc).
Proof.
  unfold deliveries, recipients. generalize (roster s) as l.
  induction l as [|c r IH]; intros Hl; [constructor|].
  assert (Hr : forall c, c ∈ r -> live s c) by (intros; apply Hl; by right).
  cbn [List.filter]. destruct (receives s exc c); [|by apply IH].
  destruct (Hl c) as (o & p & x & n & Ho & _); [left|].
  assert (E : socket_of s c = Some (c_socket o)) by (unfold socket_of; by rewrite Ho).
  cbn [omap list_omap]. rewrite E. cbn [fmap option_fmap option_map].
  constructor; [done|by apply IH].
Qed.

(** Claim C8, as the code has it.  On a well-formed state with the group
    bound, [broadcast(message, exc)] returns normally and its [socket.send]
    calls are: none if [message] is blank (empty once stripped), since
    [Client.send] drops blank messages; otherwise one call with [message]
    per recipient, in roster order, where the recipients are exactly the
    roster members whose permission value has the [READ_MESSAGES] bit and
    who do not compare equal to [exc].  For roster members comparing equal
    (the same socket) is being the same member. *)
Theorem broadcast_reaches_readers (s : State) (message : string) (exc : option nat) :
  wf s -> group_bound s = true ->
  match exc with Some e => is_Some (client_objs s !! e) | None => True end ->
  broadcast message exc s
  = (Ok tt, set_sent (fun l => l ++ (if String.eqb (strip message) "" then []
                                     else deliveries s message exc)) s)
  /\ Forall2 (fun c d => socket_of s c = Some (fst d) /\ snd d = message)
             (recipients s exc) (deliveries s message exc)
  /\ (forall c, c ∈ recipients s exc <-> c ∈ roster s /\ receives s exc c = true)
  /\ (forall c v, c ∈ roster s -> permission_value s c = Some v ->
        receives s exc c
        = negb (Z.land v PermissionValues.READ_MESSAGES =? 0)%Z
          && match exc with
             | Some e => negb (bool_decide (socket_of s e = socket_of s c))
             | None => true
             end)
  /\ (forall e c, e ∈ roster s -> c ∈ roster s ->
                  (socket_of s e = socket_of s c <-> e = c)).
Proof.
  intros Hwf Hb He. split; [|split; [|split; [|split]]].
  - unfold broadcast, on_group. rewrite Hb. unfold bind, get_group.
    rewrite (broadcast_loop_spec message exc (g_clients (group s)) s (wf_live s Hwf) He). reflexivity.
  - apply deliveries_match, (wf_live s Hwf).
  - intros c. unfold recipients. rewrite !list_elem_of_In. apply filter_In.
  - intros c v Hc Hv. unfold receives. rewrite Hv. reflexivity.
  - intros e c Hin_e Hin_c. split; [|by intros ->].
    intros E. apply list_elem_of_lookup in Hin_e as [i Hi], Hin_c as [j Hj].
    assert (Hi' : (socket_of s <$> roster s) !! i = Some (socket_of s e))
      by (by rewrite list_lookup_fmap, Hi).
    assert (Hj' : (socket_of s <$> roster s) !! j = Some (socket_of s e))
      by (by rewrite list_lookup_fmap, Hj, E).
    pose proof (NoDup_lookup _ _ _ _ (wf_sockets s Hwf) Hi' Hj') as ->. congruence.
Qed.


Lemma broadcast_reaches_readers_witness :
  sent (exec (broadcast "hello" (Some alice)) joined) = [(2, "hello")].
Proof.
  assert (He : is_Some (client_objs joined !! alice)) by (vm_compute; eauto).
  pose proof (proj1 (broadcast_reaches_readers joined "hello" (Some alice)
                       wf_joined eq_refl He)) as H.
  unfold exec. rewrite H. vm_compute. reflexivity.
Defined.

(** Claim C8 fails as stated: alice is in the roster with the
    [read_messages] bit and nobody is excluded, yet the broadcast of the
    empty message sends nothing. *)
Lemma blank_broadcast_reaches_nobody :
  alice ∈ roster founded
  /\ (exists v, permission_value founded alice = Some v
                /\ read_messages (mkPermissions v) = true)
  /\ result (broadcast "" None) founded = Ok tt
  /\ sent (exec (broadcast "" None) founded) = sent founded.
Proof.
  split. { change (0 ∈ [0]). by left. }
  split. { exists 255%Z. split; vm_compute; reflexivity. }
  split; vm_compute; reflexivity.
Qed.


(* ================================================================== *)
(** ** The dispatcher *)
(* ================================================================== *)

(** Claim C6, against the code.  alice, the owner, sends
    [/setperms 007 bob].  Every precondition of the claim holds: she has
    the [update_permissions] bit, the token [007] parses to 7, her
    permissions are a superset of 7, [bob] names a member who is neither
    her nor the owner and whose permissions are below hers.  Yet the
    dispatcher cuts the nickname after [11 + len(str(7))] characters, looks
    up [7 bob], answers [User not found!] and leaves bob's value at 19.
    With the token [7] the command sets bob's value to 7. *)
Theorem setperms_leading_zeros_misses_target :
  let line := "/setperms 007 bob" in
  let s' := exec (handle_round ansi 1 (Some line)) joined in
  (* the actor is alice, on socket 1, and holds update_permissions *)
  Group_get_index_of 1 joined = (Ok (Some alice), joined)
  /\ (exists v, permission_value joined alice = Some v
                /\ update_permissions (mkPermissions v) = true
                /\ ge (mkPermissions v) (mkPermissions 7) = true
                /\ le (mkPermissions 19) (mkPermissions v) = true)
  (* the numeric token parses to 7, the nickname resolves to bob *)
  /\ split (slice_from 10 line) = ["007"; "bob"]
  /\ py_int "007" = Some 7%Z
  /\ Group_search_member "bob" joined = (Ok (1%Z, Some bob), joined)
  /\ result (Client_is_owner bob) joined = Ok false
  /\ permission_value joined bob = Some 19%Z
  (* but the dispatcher looks up the text after 11 + len(str(7)) characters *)
  /\ slice_from (11 + len (py_str 7)) line = "7 bob"
  /\ result (handle_round ansi 1 (Some line)) joined = Ok Continue
  /\ sent s' = [(1, red ansi "User not found!")]
  /\ permission_value s' bob = Some 19%Z
  (* with the token 7 the same command reaches bob *)
  /\ permission_value (exec (handle_round ansi 1 (Some "/setperms 7 bob")) joined) bob
     = Some 7%Z.
Proof.
  cbv zeta.
  split; [vm_compute; reflexivity|].
  split. { exists 255%Z. repeat (split; [vm_compute; reflexivity|]). vm_compute; reflexivity. }
  repeat (split; [vm_compute; reflexivity|]). vm_compute; reflexivity.
Qed.

(** *** Which branch a line takes *)

Lemma dispatch_setperms sty client message rest :
  lower (strip message) = ("/setperms " ++ rest)%string ->
  handle_body sty client message = do_setperms sty client (strip message).
Proof.
  intros H. unfold handle_body. cbv zeta. rewrite H.
  destruct (String.eqb_spec (strip message) "") as [E|_].
  { rewrite E in H. discriminate. }
  reflexivity.
Qed.

(** *** Finding the member of a socket *)

Lemma index_of_socket_spec s k l : forall n i c,
  (forall x, x ∈ l -> is_Some (client_objs s !! x)) ->
  NoDup (socket_of s <$> l) ->
  l !! i = Some c -> socket_of s c = Some k ->
  index_of_socket k n l s = (Ok (Some (n + i)), s).
Proof.
  induction l as [|x r IH]; intros n i c Hv Hnd Hi Hk; [done|].
  cbn [index_of_socket]. unfold bind.
  destruct (Hv x) as [ox Hox]; [left|]. rewrite (client_at_Some _ _ _ Hox).
  apply NoDup_cons in Hnd as [Hx Hnd]. fold (fmap (M:=list) (socket_of s) r) in Hx, Hnd.
  destruct i as [|i]; cbn in Hi.
  - injection Hi as ->. unfold socket_of in Hk. rewrite Hox in Hk. injection Hk as ->.
    rewrite Nat.eqb_refl, Nat.add_0_r. reflexivity.
  - destruct (Nat.eqb_spec (c_socket ox) k) as [E|_].
    + exfalso. apply Hx. apply list_elem_of_fmap. exists c. split.
      * rewrite Hk. unfold socket_of. rewrite Hox. cbn. by rewrite E.
      * by eapply list_elem_of_lookup_2.
    + rewrite (IH (S n) i c); try done.
      * by replace (S n + i) with (n + S i) by lia.
      * intros y Hy. apply Hv. by right.
Qed.

Lemma Group_get_index_of_spec s k i c :
  wf s -> roster s !! i = Some c -> socket_of s c = Some k ->
  Group_get_index_of k s = (Ok (Some i), s).
Proof.
  intros Hwf Hi Hk. unfold Group_get_index_of, bind, get_group.
  apply (index_of_socket_spec s k (roster s) 0 i c); try done.
  - intros x Hx. destruct (wf_live s Hwf x Hx) as (o & _ & _ & _ & -> & _). eauto.
  - apply (wf_sockets s Hwf).
Qed.

(** *** Looking up a nickname *)

Lemma search_from_frame nm l : forall k s s' r t,
  search_from nm k l s = (r, t) -> client_objs s' = client_objs s ->
  t = s /\ search_from nm k l s' = (r, s').
Proof.
  induction l as [|x rest IH]; intros k s s' r t H E; cbn in H |- *.
  - unfold ret in *. by injection H as <- <-.
  - unfold bind, client_at in *. rewrite E.
    destruct (client_objs s !! x) as [ox|]; [|by injection H as <- <-].
    destruct (decide (c_nickname ox = Some nm)).
    + unfold ret in *. by injection H as <- <-.
    + by apply (IH _ s).
Qed.

Lemma Group_search_member_frame nm s s' r :
  Group_search_member nm s = (r, s) ->
  client_objs s' = client_objs s -> group s' = group s ->
  Group_search_member nm s' = (r, s').
Proof.
  unfold Group_search_member, bind, get_group. intros H E1 E2. rewrite E2.
  by apply (search_from_frame nm _ _ s s' r s).
Qed.

Lemma search_from_found nm l : forall k s i m,
  search_from nm k l s = (Ok (i, Some m), s) ->
  m ∈ l /\ exists o, client_objs s !! m = Some o /\ c_nickname o = Some nm.
Proof.
  induction l as [|x rest IH]; intros k s i m H; cbn in H.
  - discriminate.
  - unfold bind, client_at in H.
    destruct (client_objs s !! x) as [ox|] eqn:Hox; [|discriminate].
    destruct (decide (c_nickname ox = Some nm)).
    + unfold ret in H. injection H as <- <-. split; [left|]. eauto.
    + destruct (IH _ _ _ _ H) as [Hin Ho]. split; [by right|done].
Qed.

(** *** The [/setperms] branch on a plain token *)

Lemma Client_is_owner_frame c s s' r :
  Client_is_owner c s = (r, s) ->
  client_objs s' = client_objs s -> group s' = group s ->
  Client_is_owner c s' = (r, s').
Proof.
  unfold Client_is_owner, bind, client_at. intros H E1 E2. rewrite E1.
  destruct (client_objs s !! c) as [o|] eqn:Ho; [|by injection H as <-].
  destruct (c_group o); [|by injection H as <-].
  unfold get_group in *. rewrite E2.
  destruct (g_owner (group s)) as [w|]; [|by injection H as <-].
  unfold slot_eq, bind, client_at in *. rewrite E1.
  destruct (client_objs s !! w) as [ow|]; [|by injection H as <-].
  unfold User_eq, bind, client_at in *. rewrite E1, Ho in *.
  by injection H as <-.
Qed.

Lemma live_frame s s' c :
  client_objs s' = client_objs s ->
  (forall p, is_Some (perm_objs s !! p) -> is_Some (perm_objs s' !! p)) ->
  live s c -> live s' c.
Proof.
  intros E Hp (o & p & x & n & Ho & Hg & Hcp & Hx & Hn).
  destruct (Hp p) as [x' Hx']; [eauto|]. exists o, p, x', n. by rewrite E.
Qed.

Ltac mstep H := unfold bind at 1; rewrite H; cbv beta iota.

Lemma permissions_slot_eval s c o :
  client_objs s !! c = Some o -> permissions_slot c s = (Ok (c_permissions o), s).
Proof. intros H. unfold permissions_slot, bind. by rewrite (client_at_Some _ _ _ H). Qed.

Lemma nickname_slot_eval s c o :
  client_objs s !! c = Some o -> nickname_slot c s = (Ok (c_nickname o), s).
Proof. intros H. unfold nickname_slot, bind. by rewrite (client_at_Some _ _ _ H). Qed.

Lemma Permissions_init_eval s v :
  (0 <= v <= 255)%Z ->
  Permissions_init v s
  = (Ok (length (perm_objs s)), set_perm_objs (fun l => l ++ [mkPermissions v]) s).
Proof.
  intros Hv. unfold Permissions_init, PermissionValues.ALL.
  destruct (Z.ltb_spec v 0); [lia|]. destruct (Z.gtb_spec v 255); [lia|done].
Qed.

Lemma Permissions_update_eval s p x v :
  (0 <= v <= 255)%Z -> perm_objs s !! p = Some x ->
  Permissions_update p v s
  = (Ok tt, set_perm_objs (fun l => <[p := mkPermissions v]> l) s).
Proof.
  intros Hv Hx. unfold Permissions_update, PermissionValues.ALL.
  destruct (Z.ltb_spec v 0); [lia|]. destruct (Z.gtb_spec v 255); [lia|].
  unfold bind. by rewrite (perm_at_Some _ _ _ Hx).
Qed.

Lemma Permissions_ge_eval s a b A B :
  perm_objs s !! a = Some A -> perm_objs s !! b = Some B ->
  Permissions_ge a (PPerm b) s = (Ok (ge A B), s).
Proof.
  intros Ha Hb. unfold Permissions_ge, bind.
  by rewrite (perm_at_Some _ _ _ Ha), (perm_at_Some _ _ _ Hb).
Qed.

Lemma Permissions_le_eval s a b A B :
  perm_objs s !! a = Some A -> perm_objs s !! b = Some B ->
  Permissions_le a (PPerm b) s = (Ok (le A B), s).
Proof.
  intros Ha Hb. unfold Permissions_le, bind.
  by rewrite (perm_at_Some _ _ _ Ha), (perm_at_Some _ _ _ Hb).
Qed.

Lemma target_checks_pass s client member oc om pc pm xc xm m1 m2 m3 :
  client_objs s !! client = Some oc -> c_permissions oc = Some pc ->
  perm_objs s !! pc = Some xc ->
  client_objs s !! member = Some om -> c_permissions om = Some pm ->
  perm_objs s !! pm = Some xm ->
  c_socket oc <> c_socket om ->
  Client_is_owner member s = (Ok false, s) ->
  le xm xc = true ->
  target_checks client member m1 m2 m3 s = (Ok None, s).
Proof.
  intros Hoc Hpc Hxc Hom Hpm Hxm Hsock Hown Hle. unfold target_checks.
  unfold bind at 1. rewrite (client_at_Some _ _ _ Hoc). cbv beta iota.
  unfold bind at 1. rewrite (User_eq_client s _ member om Hom). cbv beta iota.
  destruct (Nat.eqb_spec (c_socket oc) (c_socket om)); [done|].
  unfold bind at 1. rewrite Hown. cbv beta iota.
  unfold bind at 1. rewrite (permissions_slot_eval s member om Hom). cbv beta iota.
  unfold bind at 1. rewrite (permissions_slot_eval s client oc Hoc). cbv beta iota.
  rewrite Hpm, Hpc. cbn [slot_le perm_operand].
  unfold bind at 1. rewrite (Permissions_le_eval s pm pc xm xc Hxm Hxc). cbv beta iota.
  by rewrite Hle.
Qed.

Lemma Client_set_permissions_eval s m o p x v :
  client_objs s !! m = Some o -> c_permissions o = Some p -> perm_objs s !! p = Some x ->
  Client_is_owner m s = (Ok false, s) -> (0 <= v <= 255)%Z ->
  Client_set_permissions m v s
  = (Ok tt, if (v =? value x)%Z then s
            else set_perm_objs (fun l => <[p := mkPermissions v]> l) s).
Proof.
  intros Ho Hp Hx Hown Hv. unfold Client_set_permissions.
  unfold bind at 1. rewrite (client_at_Some _ _ _ Ho). cbv beta iota. rewrite Hp.
  unfold bind at 1. rewrite (perm_at_Some _ _ _ Hx). cbv beta iota.
  destruct (v =? value x)%Z; [done|].
  unfold bind at 1. rewrite Hown. cbv beta iota.
  by apply (Permissions_update_eval s p x v).
Qed.

Lemma broadcast_returns message exc s :
  (forall c, c ∈ roster s -> live s c) -> group_bound s = true ->
  match exc with Some e => is_Some (client_objs s !! e) | None => True end ->
  exists f, broadcast message exc s = (Ok tt, set_sent f s).
Proof.
  intros Hl Hb He. unfold broadcast, on_group. rewrite Hb. unfold bind, get_group.
  rewrite (broadcast_loop_spec message exc (g_clients (group s)) s Hl He). eauto.
Qed.

Lemma setperms_tail sty s1 target ot pt xt v :
  (forall c, c ∈ roster s1 -> live s1 c) -> group_bound s1 = true ->
  client_objs s1 !! target = Some ot -> c_permissions ot = Some pt ->
  perm_objs s1 !! pt = Some xt ->
  Client_is_owner target s1 = (Ok false, s1) -> (0 <= v <= 255)%Z ->
  exists sf f,
    (Client_set_permissions target v ;;;
     nick0 <- nickname_slot target ;;
     broadcast (green_bold sty (fmt nick0 ++ " now has permissions value "
                                ++ py_str v ++ "!")) None ;;;
     ret Continue) s1 = (Ok Continue, sf)
    /\ permission_value sf target = Some v
    /\ client_objs sf = client_objs s1 /\ group sf = group s1
    /\ group_bound sf = true
    /\ sent sf = f (sent s1)
    /\ (forall p x, perm_objs s1 !! p = Some x -> p <> pt -> perm_objs sf !! p = Some x).
Proof.
  intros Hl Hb Hot Hpt Hxt Hown Hv.
  mstep (Client_set_permissions_eval s1 target ot pt xt v Hot Hpt Hxt Hown Hv).
  set (s2 := if (v =? value xt)%Z then s1
             else set_perm_objs (fun l => <[pt := mkPermissions v]> l) s1).
  assert (Hc2 : client_objs s2 = client_objs s1) by (unfold s2; by destruct (v =? value xt)%Z).
  assert (Hg2 : group s2 = group s1) by (unfold s2; by destruct (v =? value xt)%Z).
  assert (Hb2 : group_bound s2 = true) by (unfold s2; by destruct (v =? value xt)%Z).
  assert (Hs2 : sent s2 = sent s1) by (unfold s2; by destruct (v =? value xt)%Z).
  assert (Hp2 : forall p, is_Some (perm_objs s1 !! p) -> is_Some (perm_objs s2 !! p)).
  { intros p [x Hx]. unfold s2. destruct (v =? value xt)%Z; [by exists x|].
    cbn. apply list_lookup_insert_is_Some. by exists x. }
  assert (Hv2 : permission_value s2 target = Some v).
  { apply permission_value_Some. unfold s2.
    destruct (Z.eqb_spec v (value xt)) as [E|_].
    - exists ot, pt, xt. done.
    - exists ot, pt, (mkPermissions v). split; [done|]. split; [done|]. split; [|done].
      cbn. apply list_lookup_insert_eq. by apply lookup_lt_Some in Hxt. }
  assert (Hot2 : client_objs s2 !! target = Some ot) by (by rewrite Hc2).
  mstep (nickname_slot_eval s2 target ot Hot2).
  destruct (broadcast_returns
              (green_bold sty (fmt (c_nickname ot) ++ " now has permissions value "
                               ++ py_str v ++ "!"))
              None s2) as [f Hf]; [|done|done|].
  { intros c Hc. apply (live_frame s1 s2); [done|done|].
    apply Hl. unfold roster in *. by rewrite <- Hg2. }
  mstep Hf. exists (set_sent f s2), f. split; [reflexivity|].
  split; [done|]. split; [done|]. split; [done|]. split; [done|].
  split; [cbn; by rewrite Hs2|].
  intros p x Hx Hne. cbn. unfold s2. destruct (v =? value xt)%Z; [done|].
  cbn. by rewrite list_lookup_insert_ne.
Qed.

Lemma do_setperms_plain sty s client target oc pc xc ot pt xt cmd t nick v i :
  wf s -> group_bound s = true ->
  client_objs s !! client = Some oc -> c_permissions oc = Some pc ->
  perm_objs s !! pc = Some xc ->
  client_objs s !! target = Some ot -> c_permissions ot = Some pt ->
  perm_objs s !! pt = Some xt ->
  lower cmd = "/setperms " -> plain_token t v -> (0 <= v <= 255)%Z ->
  update_permissions xc = true -> ge xc (mkPermissions v) = true ->
  Group_search_member nick s = (Ok (i, Some target), s) ->
  c_socket oc <> c_socket ot ->
  Client_is_owner target s = (Ok false, s) ->
  le xt xc = true ->
  exists sf,
    do_setperms sty client (cmd ++ t ++ String " " nick)%string s = (Ok Continue, sf)
    /\ permission_value sf target = Some v
    /\ client_objs sf = client_objs s /\ group sf = group s
    /\ group_bound sf = true.
Proof.
  intros Hwf Hb Hoc Hpc Hxc Hot Hpt Hxt Hcmd (Hns & Hne & Hint & Hlen) Hv Hup Hge Hsearch
         Hsock Hown Hle.
  assert (Hlc : String.length cmd = 10).
  { rewrite <- length_lower, Hcmd. reflexivity. }
  unfold do_setperms.
  mstep (permissions_of_live s client oc pc xc Hoc Hpc Hxc). rewrite Hup. cbn [negb].
  assert (Hsl : slice_from 10 (cmd ++ t ++ String " " nick)%string = (t ++ String " " nick)%string).
  { rewrite <- Hlc. rewrite <- (Nat.add_0_r (String.length cmd)).
    by rewrite slice_from_append. }
  rewrite Hsl, (split_token t nick Hns Hne), Hint.
  assert (Hr : ((v <? 0)%Z || (v >? PermissionValues.ALL)%Z) = false).
  { unfold PermissionValues.ALL. destruct (Z.ltb_spec v 0); [lia|].
    destruct (Z.gtb_spec v 255); [lia|done]. }
  rewrite Hr.
  mstep (permissions_slot_eval s client oc Hoc). rewrite Hpc.
  mstep (Permissions_init_eval s v Hv).
  set (s1 := set_perm_objs (fun l => l ++ [mkPermissions v]) s).
  assert (Hxc1 : perm_objs s1 !! pc = Some xc) by (by apply lookup_app_l_Some).
  assert (Hxt1 : perm_objs s1 !! pt = Some xt) by (by apply lookup_app_l_Some).
  assert (Hq1 : perm_objs s1 !! length (perm_objs s) = Some (mkPermissions v))
    by (by apply list_lookup_middle).
  mstep (Permissions_ge_eval s1 pc (length (perm_objs s)) xc (mkPermissions v) Hxc1 Hq1).
  rewrite Hge. cbn [negb].
  assert (Hnick : slice_from (11 + len (py_str v)) (cmd ++ t ++ String " " nick)%string = nick).
  { rewrite <- Hlen. unfold len.
    replace (11 + String.length t) with (String.length cmd + (String.length t + 1)) by lia.
    rewrite slice_from_append, slice_from_append. reflexivity. }
  rewrite Hnick.
  assert (Hs1 : on_group (Group_search_member nick) s1 = (Ok (i, Some target), s1)).
  { unfold on_group. change (group_bound s1) with (group_bound s). rewrite Hb.
    by apply (Group_search_member_frame nick s s1). }
  mstep Hs1. cbn [snd].
  assert (Hoc1 : client_objs s1 !! client = Some oc) by exact Hoc.
  assert (Hot1 : client_objs s1 !! target = Some ot) by exact Hot.
  assert (Hown1 : Client_is_owner target s1 = (Ok false, s1))
    by (by apply (Client_is_owner_frame target s s1)).
  mstep (target_checks_pass s1 client target oc ot pc pt xc xt
           "You cannot change yourself permissions!"
           "Owner cannot be changed permissions!"
           "Cannot set these permissions for member as they have permissions you do not have!"
           Hoc1 Hpc Hxc1 Hot1 Hpt Hxt1 Hsock Hown1 Hle).
  destruct (setperms_tail sty s1 target ot pt xt v) as (sf & f & Hrun & Hvf & Hcf & Hgf & Hbf & _);
    try done.
  { intros c Hc. apply (live_frame s s1); [done| |by apply (wf_live s Hwf)].
    intros p [x Hx]. exists x. by apply lookup_app_l_Some. }
  exists sf. split; [exact Hrun|]. done.
Qed.

Lemma wf_socket_inj s a b :
  wf s -> a ∈ roster s -> b ∈ roster s -> socket_of s a = socket_of s b -> a = b.
Proof.
  intros Hwf [i Hi]%list_elem_of_lookup [j Hj]%list_elem_of_lookup E.
  assert (Hi' : (socket_of s <$> roster s) !! i = Some (socket_of s a))
    by (by rewrite list_lookup_fmap, Hi).
  assert (Hj' : (socket_of s <$> roster s) !! j = Some (socket_of s a))
    by (by rewrite list_lookup_fmap, Hj, E).
  pose proof (NoDup_lookup _ _ _ _ (wf_sockets s Hwf) Hi' Hj') as ->. congruence.
Qed.

(** Property X27.  The [/setperms] branch on a plain token.  Let the line be a command word
    that lowers to [/setperms], a space, a token [t], a space and a
    nickname, where [t] is a word that [int] reads as [v] in [0..255] and
    that is as long as [str(v)] (every [str(v)] is such a token, see
    [py_str_plain]).  If the actor holds [update_permissions] and a superset
    of [v], and the nickname resolves to a member other than the actor and
    the owner whose permissions are below the actor's, the round ends
    normally with the target's value at [v] and the roster as it was. *)
Theorem setperms_plain_token_reaches_target
  (sty : Sty) (s : State) (socket idx client target : nat)
  (message cmd t nick : string) (v cv tv i : Z) :
  wf s -> group_bound s = true ->
  roster s !! idx = Some client -> socket_of s client = Some socket ->
  strip message = (cmd ++ t ++ String " " nick)%string ->
  lower cmd = "/setperms " ->
  plain_token t v -> (0 <= v <= 255)%Z ->
  permission_value s client = Some cv ->
  update_permissions (mkPermissions cv) = true ->
  ge (mkPermissions cv) (mkPermissions v) = true ->
  Group_search_member nick s = (Ok (i, Some target), s) ->
  target <> client ->
  Client_is_owner target s = (Ok false, s) ->
  permission_value s target = Some tv ->
  le (mkPermissions tv) (mkPermissions cv) = true ->
  let s' := exec (handle_round sty socket (Some message)) s in
  result (handle_round sty socket (Some message)) s = Ok Continue
  /\ permission_value s' target = Some v
  /\ roster s' = roster s.
Proof.
  intros Hwf Hb Hidx Hsk Hmsg Hcmd Htok Hv Hcv Hup Hge Hsearch Hne Hown Htv Hle.
  apply permission_value_Some in Hcv as (oc & pc & xc & Hoc & Hpc & Hxc & <-).
  apply permission_value_Some in Htv as (ot & pt & xt & Hot & Hpt & Hxt & <-).
  assert (Hin : target ∈ roster s).
  { unfold Group_search_member, bind, get_group in Hsearch.
    by destruct (search_from_found nick _ _ _ _ _ Hsearch). }
  assert (Hsock : c_socket oc <> c_socket ot).
  { intros E. apply Hne. apply (wf_socket_inj s); [done|done| |].
    - by eapply list_elem_of_lookup_2.
    - unfold socket_of. rewrite Hoc, Hot. cbn. by rewrite E. }
  destruct (do_setperms_plain sty s client target oc pc xc ot pt xt cmd t nick v i
              Hwf Hb Hoc Hpc Hxc Hot Hpt Hxt Hcmd Htok Hv Hup Hge Hsearch Hsock Hown Hle)
    as (sf & Hrun & Hvf & Hcf & Hgf & Hbf).
  assert (E : handle_round sty socket (Some message) s = (Ok Continue, sf)).
  { unfold handle_round. rewrite Hb. cbn [negb].
    rewrite (Group_get_index_of_spec s socket idx client Hwf Hidx Hsk).
    fold (roster s). rewrite Hidx.
    rewrite (dispatch_setperms sty client message (lower (t ++ String " " nick))).
    - rewrite Hmsg. by rewrite Hrun.
    - by rewrite Hmsg, lower_append, Hcmd. }
  cbv zeta. unfold exec, result. rewrite E. cbn [fst snd].
  split; [done|]. split; [done|]. unfold roster. by rewrite Hgf.
Qed.

(** *** Every way out of the [/setperms] branch *)

Lemma reply_red sty s client oc msg :
  client_objs s !! client = Some oc -> all_space msg = false ->
  reply client (red sty msg) s
  = (Ok Continue, set_sent (fun l => l ++ [(c_socket oc, red sty msg)]) s).
Proof.
  intros Ho Hm. unfold reply, bind.
  rewrite (send_text client oc (red sty msg) s); [done| |done].
  unfold red. by apply strip_framed.
Qed.

Lemma search_from_total nm l : forall k s,
  (forall c, c ∈ l -> is_Some (client_objs s !! c)) ->
  exists r, search_from nm k l s = (Ok r, s) /\ forall m, snd r = Some m -> m ∈ l.
Proof.
  induction l as [|x rest IH]; intros k s Hv; cbn.
  - eexists. split; [reflexivity|]. intros m. discriminate.
  - destruct (Hv x) as [ox Hox]; [left|]. unfold bind. rewrite (client_at_Some _ _ _ Hox).
    destruct (decide (c_nickname ox = Some nm)).
    + eexists. split; [reflexivity|]. intros m [= <-]. left.
    + destruct (IH (k + 1)%Z s) as (r & Hr & Hin); [intros; apply Hv; by right|].
      exists r. split; [done|]. intros m Hm. right. by apply Hin.
Qed.

Lemma Group_search_member_total nm s :
  wf s ->
  exists r, Group_search_member nm s = (Ok r, s) /\ forall m, snd r = Some m -> m ∈ roster s.
Proof.
  intros Hwf. unfold Group_search_member, bind, get_group.
  apply search_from_total. intros c Hc.
  destruct (wf_live s Hwf c Hc) as (o & _ & _ & _ & -> & _). eauto.
Qed.

Lemma Client_is_owner_total s m :
  wf s -> m ∈ roster s -> exists b, Client_is_owner m s = (Ok b, s).
Proof.
  intros Hwf Hm. destruct (wf_live s Hwf m Hm) as (o & p & x & n & Ho & Hg & _).
  destruct (wf_owner s Hwf) as (w & Hw & Hwr).
  destruct (wf_live s Hwf w Hwr) as (ow & _ & _ & _ & How & _).
  eexists. by apply (Client_is_owner_eval s m o w ow).
Qed.

Lemma target_checks_eval s client member oc om pc pm xc xm b m1 m2 m3 :
  client_objs s !! client = Some oc -> c_permissions oc = Some pc ->
  perm_objs s !! pc = Some xc ->
  client_objs s !! member = Some om -> c_permissions om = Some pm ->
  perm_objs s !! pm = Some xm ->
  Client_is_owner member s = (Ok b, s) ->
  target_checks client member m1 m2 m3 s
  = (Ok (if c_socket oc =? c_socket om then Some m1
         else if b then Some m2
         else if negb (le xm xc) then Some m3 else None), s).
Proof.
  intros Hoc Hpc Hxc Hom Hpm Hxm Hown. unfold target_checks.
  unfold bind at 1. rewrite (client_at_Some _ _ _ Hoc). cbv beta iota.
  unfold bind at 1. rewrite (User_eq_client s _ member om Hom). cbv beta iota.
  destruct (c_socket oc =? c_socket om); [done|].
  unfold bind at 1. rewrite Hown. cbv beta iota. destruct b; [done|].
  unfold bind at 1. rewrite (permissions_slot_eval s member om Hom). cbv beta iota.
  unfold bind at 1. rewrite (permissions_slot_eval s client oc Hoc). cbv beta iota.
  rewrite Hpm, Hpc. cbn [slot_le perm_operand].
  unfold bind at 1. rewrite (Permissions_le_eval s pm pc xm xc Hxm Hxc). cbv beta iota.
  by destruct (le xm xc).
Qed.

Lemma permission_value_alloc s f x c :
  live s c ->
  permission_value (set_sent f (set_perm_objs (fun l => l ++ [x]) s)) c
  = permission_value s c.
Proof.
  intros (o & p & y & n & Ho & _ & Hp & Hy & _).
  rewrite (proj2 (permission_value_Some s c (value y))) by (by exists o, p, y).
  apply permission_value_Some. exists o, p, y. cbn.
  split; [done|]. split; [done|]. split; [|done]. by apply lookup_app_l_Some.
Qed.

Lemma rejected_reply sty s client oc msg :
  wf s -> client_objs s !! client = Some oc -> all_space msg = false ->
  exists sf, reply client (red sty msg) s = (Ok Continue, sf)
             /\ rejected sty s sf (c_socket oc).
Proof.
  intros Hwf Ho Hm. rewrite (reply_red sty s client oc msg Ho Hm).
  eexists. split; [reflexivity|]. exists msg. done.
Qed.

Lemma rejected_reply_alloc sty s client oc msg x :
  wf s -> client_objs s !! client = Some oc -> all_space msg = false ->
  exists sf, reply client (red sty msg) (set_perm_objs (fun l => l ++ [x]) s)
             = (Ok Continue, sf)
             /\ rejected sty s sf (c_socket oc).
Proof.
  intros Hwf Ho Hm.
  rewrite (reply_red sty _ client oc msg); [|exact Ho|exact Hm].
  eexists. split; [reflexivity|].
  exists msg. split; [done|]. split; [done|]. split; [done|].
  intros c Hc. apply permission_value_alloc. by apply (wf_live s Hwf).
Qed.

Lemma do_setperms_cases sty s client decoded oc :
  wf s -> group_bound s = true -> client ∈ roster s ->
  client_objs s !! client = Some oc ->
  exists sf,
    do_setperms sty client decoded s = (Ok Continue, sf)
    /\ (rejected sty s sf (c_socket oc)
        \/ exists v target,
             setperms_accepts s client decoded v target
             /\ permission_value sf target = Some v).
Proof.
  intros Hwf Hb Hin Hoc.
  destruct (wf_live s Hwf client Hin) as (oc' & pc & xc & nc & Hoc' & _ & Hpc & Hxc & _).
  assert (oc' = oc) as -> by congruence. clear Hoc'.
  assert (Hrej : forall msg, all_space msg = false ->
            exists sf, reply client (red sty msg) s = (Ok Continue, sf)
            /\ (rejected sty s sf (c_socket oc)
                \/ exists v target,
                     setperms_accepts s client decoded v target
                     /\ permission_value sf target = Some v)).
  { intros msg Hm. destruct (rejected_reply sty s client oc msg Hwf Hoc Hm) as (sf & H1 & H2).
    exists sf. split; [done|by left]. }
  unfold do_setperms.
  mstep (permissions_of_live s client oc pc xc Hoc Hpc Hxc).
  destruct (update_permissions xc) eqn:Hup; cbn [negb]; [|by apply Hrej].
  destruct (split (slice_from 10 decoded)) as [|tok rest] eqn:Hsplit; [by apply Hrej|].
  destruct (py_int tok) as [v|] eqn:Hint; [|by apply Hrej].
  destruct ((v <? 0)%Z || (v >? PermissionValues.ALL)%Z) eqn:Hr; [by apply Hrej|].
  assert (Hv : (0 <= v <= 255)%Z).
  { apply orb_false_iff in Hr as [H1 H2]. unfold PermissionValues.ALL in H2.
    apply Z.ltb_ge in H1. destruct (Z.gtb_spec v 255); [done|lia]. }
  clear Hrej.
  mstep (permissions_slot_eval s client oc Hoc). rewrite Hpc.
  mstep (Permissions_init_eval s v Hv).
  set (s1 := set_perm_objs (fun l => l ++ [mkPermissions v]) s).
  assert (Hrej : forall msg, all_space msg = false ->
            exists sf, reply client (red sty msg) s1 = (Ok Continue, sf)
            /\ (rejected sty s sf (c_socket oc)
                \/ exists v target,
                     setperms_accepts s client decoded v target
                     /\ permission_value sf target = Some v)).
  { intros msg Hm.
    destruct (rejected_reply_alloc sty s client oc msg (mkPermissions v) Hwf Hoc Hm)
      as (sf & H1 & H2).
    exists sf. split; [done|by left]. }
  assert (Hxc1 : perm_objs s1 !! pc = Some xc) by (by apply lookup_app_l_Some).
  assert (Hq1 : perm_objs s1 !! length (perm_objs s) = Some (mkPermissions v))
    by (by apply list_lookup_middle).
  mstep (Permissions_ge_eval s1 pc (length (perm_objs s)) xc (mkPermissions v) Hxc1 Hq1).
  destruct (ge xc (mkPermissions v)) eqn:Hge; cbn [negb]; [|by apply Hrej].
  destruct (Group_search_member_total (slice_from (11 + len (py_str v)) decoded) s Hwf)
    as ([idx found] & Hsearch & Hfound).
  assert (Hs1 : on_group (Group_search_member (slice_from (11 + len (py_str v)) decoded)) s1
                = (Ok (idx, found), s1)).
  { unfold on_group. change (group_bound s1) with (group_bound s). rewrite Hb.
    by apply (Group_search_member_frame _ s s1). }
  mstep Hs1. cbn [snd].
  destruct found as [target|]; [|by apply Hrej].
  assert (Htin : target ∈ roster s) by (by apply Hfound).
  destruct (wf_live s Hwf target Htin) as (ot & pt & xt & nt & Hot & _ & Hpt & Hxt & _).
  destruct (Client_is_owner_total s target Hwf Htin) as [b Hown].
  assert (Hxt1 : perm_objs s1 !! pt = Some xt) by (by apply lookup_app_l_Some).
  assert (Hown1 : Client_is_owner target s1 = (Ok b, s1))
    by (by apply (Client_is_owner_frame target s s1)).
  mstep (target_checks_eval s1 client target oc ot pc pt xc xt b
           "You cannot change yourself permissions!"
           "Owner cannot be changed permissions!"
           "Cannot set these permissions for member as they have permissions you do not have!"
           Hoc Hpc Hxc1 Hot Hpt Hxt1 Hown1).
  destruct (Nat.eqb_spec (c_socket oc) (c_socket ot)) as [_|Hsock]; [by apply Hrej|].
  destruct b; [by apply Hrej|].
  destruct (le xt xc) eqn:Hle; cbn [negb]; [|by apply Hrej].
  destruct (setperms_tail sty s1 target ot pt xt v)
    as (sf & f & Hrun & Hvf & Hcf & Hgf & Hbf & _); try done.
  { intros c Hc. apply (live_frame s s1); [done| |by apply (wf_live s Hwf)].
    intros p [x Hx]. exists x. by apply lookup_app_l_Some. }
  exists sf. split; [exact Hrun|]. right.
  exists v, target. split; [|done].
  exists (value xc), tok, rest, idx, (value xt).
  split. { apply permission_value_Some. by exists oc, pc, xc. }
  split; [done|]. split; [done|]. split; [done|]. split; [done|]. split; [done|].
  split; [done|]. split. { intros ->. apply Hsock. congruence. }
  split; [done|]. split; [|done]. apply permission_value_Some. by exists ot, pt, xt.
Qed.

(** Property X26.  Every way out of the [/setperms] branch.  On a well-formed state, a line
    that lowers to [/setperms] followed by a space ends the round normally
    in one of two ways.  Either a test of the code fails: the actor is sent
    one complaint, and the roster and every member's permission value stay
    as they were.  Or all the tests pass for some value [v] and target, and
    the target's value is [v] afterwards. *)
Theorem setperms_rejects_or_applies
  (sty : Sty) (s : State) (socket idx client : nat) (message rest : string) :
  wf s -> group_bound s = true ->
  roster s !! idx = Some client -> socket_of s client = Some socket ->
  lower (strip message) = ("/setperms " ++ rest)%string ->
  let s' := exec (handle_round sty socket (Some message)) s in
  result (handle_round sty socket (Some message)) s = Ok Continue
  /\ (rejected sty s s' socket
      \/ exists v target,
           setperms_accepts s client (strip message) v target
           /\ permission_value s' target = Some v).
Proof.
  intros Hwf Hb Hidx Hsk Hline.
  assert (Hin : client ∈ roster s) by (by eapply list_elem_of_lookup_2).
  destruct (wf_live s Hwf client Hin) as (oc & _ & _ & _ & Hoc & _).
  assert (Hk : c_socket oc = socket).
  { unfold socket_of in Hsk. rewrite Hoc in Hsk. by injection Hsk. }
  destruct (do_setperms_cases sty s client (strip message) oc Hwf Hb Hin Hoc)
    as (sf & Hrun & Hcases).
  assert (E : handle_round sty socket (Some message) s = (Ok Continue, sf)).
  { unfold handle_round. rewrite Hb. cbn [negb].
    rewrite (Group_get_index_of_spec s socket idx client Hwf Hidx Hsk).
    fold (roster s). rewrite Hidx.
    rewrite (dispatch_setperms sty client message rest Hline). by rewrite Hrun. }
  cbv zeta. unfold exec, result. rewrite E. cbn [fst snd]. rewrite <- Hk.
  split; [done|exact Hcases].
Qed.

Lemma setperms_rejects_or_applies_witness :
  result (handle_round ansi 1 (Some "/setperms 7 bob")) joined = Ok Continue.
Proof.
  assert (Hidx : roster joined !! 0 = Some alice) by (vm_compute; reflexivity).
  assert (Hsk : socket_of joined alice = Some 1) by (vm_compute; reflexivity).
  assert (Hline : lower (strip "/setperms 7 bob") = ("/setperms " ++ "7 bob")%string)
    by (vm_compute; reflexivity).
  exact (proj1 (setperms_rejects_or_applies ansi joined 1 0 alice "/setperms 7 bob" "7 bob"
                  wf_joined eq_refl Hidx Hsk Hline)).
Defined.

Lemma setperms_plain_token_reaches_target_witness :
  permission_value (exec (handle_round ansi 1 (Some "/setperms 7 bob")) joined) bob
  = Some 7%Z.
Proof.
  assert (Hidx : roster joined !! 0 = Some alice) by (vm_compute; reflexivity).
  assert (Hsk : socket_of joined alice = Some 1) by (vm_compute; reflexivity).
  assert (Hmsg : strip "/setperms 7 bob" = ("/setperms " ++ "7" ++ String " " "bob")%string)
    by (vm_compute; reflexivity).
  assert (Htok : plain_token "7" 7).
  { split; [vm_compute; reflexivity|]. split; [discriminate|].
    split; vm_compute; reflexivity. }
  assert (Hcv : permission_value joined alice = Some 255%Z) by (vm_compute; reflexivity).
  assert (Hsearch : Group_search_member "bob" joined = (Ok (1%Z, Some bob), joined))
    by (vm_compute; reflexivity).
  assert (Hown : Client_is_owner bob joined = (Ok false, joined)) by (vm_compute; reflexivity).
  assert (Htv : permission_value joined bob = Some 19%Z) by (vm_compute; reflexivity).
  exact (proj1 (proj2 (setperms_plain_token_reaches_target ansi joined 1 0 alice bob
                  "/setperms 7 bob" "/setperms " "7" "bob" 7 255 19 1
                  wf_joined eq_refl Hidx Hsk Hmsg eq_refl Htok ltac:(lia) Hcv eq_refl eq_refl
                  Hsearch ltac:(discriminate) Hown Htv eq_refl))).
Defined.


(* ================================================================== *)
(** ** Well-formed states of a running group *)
(* ================================================================== *)

(** *** Well-formedness is kept *)

(** A change that keeps the group and the [Client] objects, and keeps every
    [Permissions] object in the store, keeps well-formedness. *)
Lemma wf_frame s s' :
  wf s -> group s' = group s -> client_objs s' = client_objs s ->
  (forall p, is_Some (perm_objs s !! p) -> is_Some (perm_objs s' !! p)) ->
  wf s'.
Proof.
  intros [Hl Hs (d & x & Hd & Hx) Hw] Hg Hc Hp. split.
  - intros c Hc'. unfold roster in Hc'. rewrite Hg in Hc'.
    by apply (live_frame s s'); [| |apply Hl].
  - unfold roster. rewrite Hg.
    assert (E : socket_of s' <$> g_clients (group s) = socket_of s <$> g_clients (group s)).
    { apply list_fmap_ext. intros i c _. unfold socket_of. by rewrite Hc. }
    by rewrite E.
  - destruct (Hp d) as [x' Hx']; [eauto|]. exists d, x'. by rewrite Hg.
  - unfold roster. by rewrite Hg.
Qed.

Lemma Group_init_wf s name u :
  name <> "" -> u_name u <> "" ->
  result (Group_init name (PUser u)) s = Ok tt
  /\ wf (exec (Group_init name (PUser u)) s).
Proof.
  intros Hn Hu. unfold result, exec, Group_init.
  destruct (String.eqb_spec name ""); [done|].
  unfold bind at 1. unfold Permissions_all, Permissions_init. cbn [Z.ltb Z.gtb Z.compare].
  unfold new_perm at 1. cbv beta iota.
  unfold bind at 1. unfold Client_init, bind at 1, User_init.
  destruct (String.eqb_spec (u_name u) ""); [done|].
  unfold bind, uuid4, ret, new_client, update_group, modify, Permissions_default,
    Permissions_init, new_perm. cbn.
  split; [done|]. split.
  - intros c Hc. apply list_elem_of_singleton in Hc as ->.
    eexists _, (length (perm_objs s)), (mkPermissions PermissionValues.ALL), (u_name u). cbn.
    split; [by apply list_lookup_middle|]. split; [done|]. split; [done|]. split; [|done].
    rewrite <- app_assoc. by apply list_lookup_middle.
  - cbn. apply NoDup_singleton.
  - exists (length (perm_objs s ++ [mkPermissions PermissionValues.ALL])), (mkPermissions 19).
    cbn. split; [done|]. by apply list_lookup_middle.
  - exists (length (client_objs s)). split; [done|]. cbn. by left.
Qed.

Lemma Client_set_permissions_wf s m v s' :
  wf s -> Client_set_permissions m v s = (Ok tt, s') -> wf s'.
Proof.
  intros Hwf. unfold Client_set_permissions, bind, client_at.
  destruct (client_objs s !! m) as [o|]; [|discriminate].
  destruct (c_permissions o) as [p|]; [|discriminate].
  unfold perm_at. destruct (perm_objs s !! p) as [x|] eqn:Hx; [|discriminate].
  destruct (v =? value x)%Z; [by intros [= <-]|].
  destruct (Client_is_owner m s) as [[[]|e] t] eqn:Hown; try discriminate.
  assert (t = s) as ->.
  { unfold Client_is_owner, bind, client_at, get_group, slot_eq in Hown.
    destruct (client_objs s !! m) as [o'|]; [|discriminate].
    destruct (c_group o'); [|discriminate].
    destruct (g_owner (group s)) as [w|]; [|by injection Hown].
    unfold bind, client_at, User_eq in Hown.
    destruct (client_objs s !! w); [|discriminate].
    unfold bind, client_at in Hown.
    destruct (client_objs s !! m); by injection Hown. }
  unfold Permissions_update.
  destruct (v <? 0)%Z; [discriminate|]. destruct (v >? PermissionValues.ALL)%Z; [discriminate|].
  unfold bind, perm_at. rewrite Hx. intros [= <-].
  apply (wf_frame s); try done.
  intros q Hq. cbn. by apply list_lookup_insert_is_Some.
Qed.

Lemma Group_change_default_permissions_wf s v s' :
  wf s -> Group_change_default_permissions v s = (Ok tt, s') -> wf s'.
Proof.
  intros Hwf. unfold Group_change_default_permissions, bind, get_group.
  destruct (g_default_perms (group s)) as [d|]; [|discriminate].
  unfold perm_at. destruct (perm_objs s !! d) as [x|] eqn:Hx; [|discriminate].
  destruct (v =? value x)%Z; [by intros [= <-]|].
  unfold Permissions_update.
  destruct (v <? 0)%Z; [discriminate|]. destruct (v >? PermissionValues.ALL)%Z; [discriminate|].
  unfold bind, perm_at. rewrite Hx. intros [= <-].
  apply (wf_frame s); try done.
  intros q Hq. cbn. by apply list_lookup_insert_is_Some.
Qed.

Lemma Client_ban_wf s m s' :
  wf s -> m ∈ roster s -> Client_ban m s = (Ok tt, s') -> wf s'.
Proof.
  intros Hwf Hm Hban. pose proof Hm as [i Hi]%list_elem_of_lookup.
  destruct (wf_live s Hwf m Hm) as (o & _ & _ & _ & Ho & _).
  destruct (Client_is_owner_total s m Hwf Hm) as [[] Hown].
  { unfold Client_ban, bind, Client_kick in Hban.
    rewrite (client_at_Some _ _ _ Ho) in Hban. unfold bind in Hban.
    rewrite Hown in Hban. discriminate. }
  rewrite (Client_ban_spec s i m o Hwf Hi Hown Ho) in Hban. injection Hban as <-.
  pose proof (wf_after_kill s i m Hwf Hi (not_owner_address s m Hwf Hm Hown)) as [H1 H2 H3 H4].
  by split.
Qed.

Lemma Group_transfer_ownership_wf s c s' :
  wf s -> c ∈ roster s -> Group_transfer_ownership (PClient c) s = (Ok tt, s') -> wf s'.
Proof.
  intros Hwf Hc. destruct (wf_live s Hwf c Hc) as (o & p & x & n & Ho & Hg & Hp & Hx & Hn).
  destruct (wf_owner s Hwf) as (w & Hw & Hwr).
  destruct (wf_live s Hwf w Hwr) as (ow & _ & _ & _ & How & _).
  unfold Group_transfer_ownership, bind, get_group. rewrite Hw.
  rewrite (slot_eq_client s w c ow o How Ho).
  destruct (c_socket ow =? c_socket o); [by intros [= <-]|].
  unfold Permissions_all, Permissions_init. cbn [Z.ltb Z.gtb Z.compare].
  unfold new_perm, client_at. cbn. rewrite Ho.
  unfold update_client, update_group, modify. cbn. intros [= <-].
  destruct Hwf as [Hl Hs (d & y & Hd & Hy) _].
  split.
  - intros c' Hc'. change (c' ∈ roster s) in Hc'.
    destruct (Hl c' Hc') as (o' & p' & x' & n' & Ho' & Hg' & Hp' & Hx' & Hn').
    destruct (decide (c = c')) as [<-|Hne].
    + eexists _, (length (perm_objs s)), (mkPermissions PermissionValues.ALL), n. cbn.
      rewrite list_lookup_alter_eq, Ho. cbn.
      split; [done|]. split; [done|]. split; [done|]. split; [|done].
      by apply list_lookup_middle.
    + exists o', p', x', n'. cbn. rewrite list_lookup_alter_ne by done.
      split; [done|]. split; [done|]. split; [done|]. split; [|done].
      by apply lookup_app_l_Some.
  - cbn.
    match goal with |- NoDup (socket_of ?t <$> _) =>
      assert (E' : socket_of t <$> g_clients (group s) = socket_of s <$> g_clients (group s)) end.
    { apply list_fmap_ext. intros i c' _. unfold socket_of. cbn.
      destruct (decide (c = c')) as [<-|Hne].
      - rewrite list_lookup_alter_eq, Ho. done.
      - by rewrite list_lookup_alter_ne. }
    rewrite E'. exact Hs.
  - exists d, y. cbn. split; [done|]. by apply lookup_app_l_Some.
  - exists c. by split.
Qed.

Lemma Client_set_nickname_wf s m value s' :
  wf s -> Client_set_nickname m value s = (Ok tt, s') -> wf s'.
Proof.
  intros Hwf. unfold Client_set_nickname.
  destruct (String.eqb value ""); [discriminate|].
  unfold bind at 1. unfold client_at at 1.
  destruct (client_objs s !! m) as [o|] eqn:Ho; [|discriminate]. cbv beta iota.
  destruct (decide (c_nickname o = Some value)); [by intros [= <-]|].
  destruct (c_group o); [|discriminate].
  unfold bind at 1. unfold get_group. cbv beta iota.
  unfold bind at 1.
  destruct (nickname_taken value (g_clients (group s)) s) as [[taken|e] t] eqn:Ht; [|discriminate].
  assert (t = s) as ->.
  { clear -Ht. revert taken Ht. induction (g_clients (group s)) as [|x r IH]; intros taken H.
    - by injection H.
    - cbn in H. unfold bind, client_at in H. destruct (client_objs s !! x) as [ox|]; [|discriminate].
      destruct (decide (c_nickname ox = Some value)); [by injection H|]. by eapply IH. }
  destruct taken; [discriminate|].
  unfold update_client, modify. intros [= <-].
  destruct Hwf as [Hl Hs Hd Hw].
  set (s2 := set_client_objs (fun l => alter (c_set_nickname (Some value)) m l) s).
  split; [|  |done|done].
  - intros c Hc. change (c ∈ roster s) in Hc.
    destruct (Hl c Hc) as (o' & p' & x' & n' & Ho' & Hg' & Hp' & Hx' & Hn').
    destruct (decide (m = c)) as [<-|Hne].
    + eexists _, p', x', value. unfold s2. cbn. rewrite list_lookup_alter_eq, Ho'. done.
    + exists o', p', x', n'. unfold s2. cbn. by rewrite list_lookup_alter_ne.
  - change (roster s2) with (roster s).
    assert (E' : socket_of s2 <$> roster s = socket_of s <$> roster s).
    { apply list_fmap_ext. intros i c' _. unfold socket_of, s2. cbn.
      destruct (decide (m = c')) as [<-|Hne].
      - rewrite list_lookup_alter_eq, Ho. done.
      - by rewrite list_lookup_alter_ne. }
    rewrite E'. exact Hs.
Qed.


(* ================================================================== *)
(** ** The dispatcher keeps the group well formed *)
(* ================================================================== *)

(** *** Rules for [total] *)

Lemma total_ret {A} (P : State -> Prop) (a : A) (Q : A -> State -> Prop) :
  (forall s, P s -> Q a s) -> total P (ret a) Q.
Proof. intros H s Hs. exists a, s. split; [done|by apply H]. Qed.

Lemma total_bind {A B} (P : State -> Prop) (m : M A) (Q : A -> State -> Prop)
      (k : A -> M B) (R : B -> State -> Prop) :
  total P m Q -> (forall a, total (Q a) (k a) R) -> total P (bind m k) R.
Proof.
  intros Hm Hk s Hs. destruct (Hm s Hs) as (a & s1 & E1 & Ha).
  destruct (Hk a s1 Ha) as (b & s2 & E2 & Hb).
  exists b, s2. unfold bind. rewrite E1. done.
Qed.

Lemma total_weaken {A} (P P' : State -> Prop) (m : M A) (Q Q' : A -> State -> Prop) :
  total P' m Q' -> (forall s, P s -> P' s) -> (forall a s, Q' a s -> Q a s) ->
  total P m Q.
Proof.
  intros Hm HP HQ s Hs. destruct (Hm s (HP s Hs)) as (a & s' & E & Ha).
  exists a, s'. split; [done|by apply HQ].
Qed.

(** A method that only reads: it returns in the state it started from. *)
Lemma total_read {A} (P : State -> Prop) (m : M A) (Q : A -> State -> Prop) :
  (forall s, P s -> exists a, m s = (Ok a, s) /\ Q a s) -> total P m Q.
Proof. intros H s Hs. destruct (H s Hs) as (a & E & Ha). by exists a, s. Qed.

(** A fact that does not depend on the state can be taken out of the
    precondition. *)
Lemma total_pure {A} (F : Prop) (P : State -> Prop) (m : M A) (Q : A -> State -> Prop) :
  (F -> total P m Q) -> total (fun s => F /\ P s) m Q.
Proof. intros H s [HF Hs]. by apply H. Qed.

Lemma total_exists {A X} (P : X -> State -> Prop) (m : M A) (Q : A -> State -> Prop) :
  (forall x, total (P x) m Q) -> total (fun s => exists x, P x s) m Q.
Proof. intros H s [x Hs]. by apply (H x). Qed.

(** *** The invariant under the steps of the dispatcher *)

Lemma running_sent B f s : running B s -> running B (set_sent f s).
Proof.
  intros (Hwf & Hb & HB). split; [|done]. by apply (wf_frame s).
Qed.

Lemma running_perm_frame B s s' :
  running B s -> group s' = group s -> client_objs s' = client_objs s ->
  group_bound s' = group_bound s ->
  (forall p, is_Some (perm_objs s !! p) -> is_Some (perm_objs s' !! p)) ->
  running B s'.
Proof.
  intros (Hwf & Hb & HB) Hg Hc Hgb Hp. split; [by apply (wf_frame s)|].
  rewrite Hgb, Hg. done.
Qed.

Lemma serving_live B c s : serving B c s -> live s c.
Proof. intros [(Hwf & _) Hc]. by apply (wf_live s Hwf). Qed.

Lemma total_send (P : State -> Prop) (m : nat) (t : string) :
  (forall f s, P s -> P (set_sent f s)) ->
  (forall s, P s -> is_Some (client_objs s !! m)) ->
  total P (Client_send m t) (fun _ => P).
Proof.
  intros Hst Hm s Hs. unfold Client_send.
  destruct (String.eqb (strip t) ""); [by exists tt, s|].
  destruct (Hm s Hs) as [o Ho]. unfold bind. rewrite (client_at_Some _ _ _ Ho).
  eexists tt, _. split; [reflexivity|]. by apply Hst.
Qed.

Lemma total_reply (P : State -> Prop) (m : nat) (t : string) :
  (forall f s, P s -> P (set_sent f s)) ->
  (forall s, P s -> is_Some (client_objs s !! m)) ->
  total P (reply m t) (fun r s => P s /\ r = Continue).
Proof.
  intros Hst Hm. unfold reply. eapply total_bind; [by apply total_send|].
  intros u. by apply total_ret.
Qed.

Lemma total_broadcast B (P : State -> Prop) (message : string) (exc : option nat) :
  (forall f s, P s -> P (set_sent f s)) ->
  (forall s, P s -> running B s
                    /\ match exc with Some e => is_Some (client_objs s !! e) | None => True end) ->
  total P (broadcast message exc) (fun _ => P).
Proof.
  intros Hst HP s Hs. destruct (HP s Hs) as [(Hwf & Hb & _) He].
  destruct (broadcast_returns message exc s (wf_live s Hwf) Hb He) as [f Hf].
  exists tt, (set_sent f s). split; [done|]. by apply Hst.
Qed.

Lemma serving_sent B c f s : serving B c s -> serving B c (set_sent f s).
Proof. intros [Hr Hc]. split; [by apply running_sent|done]. Qed.

Lemma serving_valid B c s : serving B c s -> is_Some (client_objs s !! c).
Proof. intros H. destruct (serving_live B c s H) as (o & _ & _ & _ & -> & _). eauto. Qed.

Lemma total_permissions_of B c (P : State -> Prop) :
  (forall s, P s -> running B s /\ c ∈ roster s) ->
  total P (permissions_of c) (fun _ => P).
Proof.
  intros HP. apply total_read. intros s Hs. destruct (HP s Hs) as [(Hwf & _) Hc].
  destruct (wf_live s Hwf c Hc) as (o & p & x & n & Ho & _ & Hp & Hx & _).
  exists x. split; [|done]. by apply (permissions_of_live s c o p x).
Qed.

Lemma total_nickname_slot B c (P : State -> Prop) :
  (forall s, P s -> running B s /\ c ∈ roster s) ->
  total P (nickname_slot c) (fun r s => P s /\ is_Some r).
Proof.
  intros HP. apply total_read. intros s Hs. destruct (HP s Hs) as [(Hwf & _) Hc].
  destruct (wf_live s Hwf c Hc) as (o & p & x & n & Ho & _ & _ & _ & Hn).
  exists (c_nickname o). split; [by apply nickname_slot_eval|]. split; [done|]. rewrite Hn. eauto.
Qed.

Lemma total_is_owner B m (P : State -> Prop) :
  (forall s, P s -> running B s /\ m ∈ roster s) ->
  total P (Client_is_owner m) (fun b s => P s /\ Client_is_owner m s = (Ok b, s)).
Proof.
  intros HP. apply total_read. intros s Hs. destruct (HP s Hs) as [(Hwf & _) Hm].
  destruct (Client_is_owner_total s m Hwf Hm) as [b Hb]. by exists b.
Qed.

Lemma total_search B nm (P : State -> Prop) :
  (forall s, P s -> running B s) ->
  total P (on_group (Group_search_member nm))
        (fun r s => P s /\ forall m, snd r = Some m -> m ∈ roster s).
Proof.
  intros HP. apply total_read. intros s Hs. destruct (HP s Hs) as (Hwf & Hb & _).
  destruct (Group_search_member_total nm s Hwf) as (r & Hr & Hin).
  exists r. unfold on_group. rewrite Hb. done.
Qed.

Lemma total_target_checks B c m (P : State -> Prop) m1 m2 m3 :
  (forall s, P s -> running B s /\ c ∈ roster s /\ m ∈ roster s) ->
  total P (target_checks c m m1 m2 m3)
        (fun r s => P s /\ (r = None -> m <> c /\ Client_is_owner m s = (Ok false, s))).
Proof.
  intros HP. apply total_read. intros s Hs. destruct (HP s Hs) as ((Hwf & _) & Hc & Hm).
  destruct (wf_live s Hwf c Hc) as (oc & pc & xc & nc & Hoc & _ & Hpc & Hxc & _).
  destruct (wf_live s Hwf m Hm) as (om & pm & xm & nm & Hom & _ & Hpm & Hxm & _).
  destruct (Client_is_owner_total s m Hwf Hm) as [b Hb].
  eexists. split; [by apply (target_checks_eval s c m oc om pc pm xc xm b)|].
  split; [done|].
  destruct (Nat.eqb_spec (c_socket oc) (c_socket om)) as [|Hne]; [discriminate|].
  destruct b; [discriminate|]. intros _. split; [|done]. intros ->. congruence.
Qed.

Lemma running_after_kill B s i m :
  running B s -> roster s !! i = Some m -> Client_is_owner m s = (Ok false, s) ->
  running B (after_kill i m s).
Proof.
  intros (Hwf & Hb & HB) Hi Hown. split; [|done].
  apply wf_after_kill; [done|done|].
  apply not_owner_address; [done| |done]. by eapply list_elem_of_lookup_2.
Qed.

Lemma total_kick B c m :
  total (targeting B c m) (Client_kick m) (fun _ => serving B c).
Proof.
  intros s ([Hr Hc] & Hm & Hne & Hown). pose proof Hm as [i Hi]%list_elem_of_lookup.
  exists tt, (after_kill i m s). split; [by apply Client_kick_spec; [apply Hr|..]|].
  split; [by apply running_after_kill|].
  change (c ∈ delete i (roster s)). by apply (elem_of_delete_other _ i m).
Qed.

Lemma total_ban B c m :
  total (targeting B c m) (Client_ban m) (fun _ => serving B c).
Proof.
  intros s ([Hr Hc] & Hm & Hne & Hown). pose proof Hm as [i Hi]%list_elem_of_lookup.
  destruct (wf_live s (proj1 Hr) m Hm) as (o & _ & _ & _ & Ho & _).
  eexists tt, _. split; [by apply (Client_ban_spec s i m o); [apply Hr|..]|].
  destruct (running_after_kill B s i m Hr Hi Hown) as ([H1 H2 H3 H4] & Hb & HB).
  split; [split; [by split|split; [done|]]|].
  - cbn. cbn in HB. clear -HB. intros z Hz. apply elem_of_union. right. by apply HB.
  - change (c ∈ delete i (roster s)). by apply (elem_of_delete_other _ i m).
Qed.

Lemma total_quit_kill B c :
  total (fun s => serving B c s /\ Client_is_owner c s = (Ok false, s))
        (Client_kill c) (fun _ => running B).
Proof.
  intros s ([Hr Hc] & Hown). pose proof Hc as [i Hi]%list_elem_of_lookup.
  destruct (wf_kill_spec s i c (proj1 Hr) Hi) as (o & _ & Hk).
  exists tt, (after_kill i c s). split; [done|]. by apply running_after_kill.
Qed.

Lemma targeting_frame B c m s s' :
  targeting B c m s -> group s' = group s -> client_objs s' = client_objs s ->
  group_bound s' = group_bound s ->
  (forall p, is_Some (perm_objs s !! p) -> is_Some (perm_objs s' !! p)) ->
  targeting B c m s'.
Proof.
  intros ([Hr Hc] & Hm & Hne & Hown) Hg Hcl Hgb Hp.
  split; [split; [by apply (running_perm_frame B s)|]|].
  - unfold roster. by rewrite Hg.
  - split; [unfold roster; by rewrite Hg|]. split; [done|].
    by apply (Client_is_owner_frame m s s').
Qed.

Lemma targeting_sent B c m f s : targeting B c m s -> targeting B c m (set_sent f s).
Proof. intros H. by apply (targeting_frame B c m s). Qed.

Lemma total_set_permissions B c m v :
  (0 <= v <= 255)%Z ->
  total (targeting B c m) (Client_set_permissions m v) (fun _ => targeting B c m).
Proof.
  intros Hv s Ht. pose proof Ht as ([Hr Hc] & Hm & Hne & Hown).
  destruct (wf_live s (proj1 Hr) m Hm) as (o & p & x & n & Ho & _ & Hp & Hx & _).
  eexists tt, _. split; [by apply (Client_set_permissions_eval s m o p x v)|].
  destruct (v =? value x)%Z; [done|].
  apply (targeting_frame B c m s); try done.
  intros q Hq. cbn. by apply list_lookup_insert_is_Some.
Qed.

Lemma total_Permissions_init B c p v :
  (0 <= v <= 255)%Z ->
  total (fun s => serving B c s /\ is_Some (perm_objs s !! p)) (Permissions_init v)
        (fun q s => serving B c s /\ is_Some (perm_objs s !! p)
                    /\ is_Some (perm_objs s !! q)).
Proof.
  intros Hv s [[Hr Hc] [x Hp]]. eexists _, _. split; [by apply Permissions_init_eval|].
  split; [split; [|done]|split].
  - apply (running_perm_frame B s); try done.
    intros q [y Hy]. exists y. by apply lookup_app_l_Some.
  - exists x. by apply lookup_app_l_Some.
  - eexists. by apply list_lookup_middle.
Qed.

Lemma total_transfer B c m :
  total (fun s => serving B c s /\ m ∈ roster s)
        (on_group (Group_transfer_ownership (PClient m)))
        (fun _ s => serving B c s /\ m ∈ roster s).
Proof.
  intros s ([(Hwf & Hb & HB) Hc] & Hm). unfold on_group. rewrite Hb.
  destruct (wf_live s Hwf m Hm) as (o & p & x & n & Ho & Hg & Hp & Hx & Hn).
  destruct (wf_owner s Hwf) as (w & Hw & Hwr).
  destruct (wf_live s Hwf w Hwr) as (ow & _ & _ & _ & How & _).
  destruct (Group_transfer_ownership (PClient m) s) as [[[]|e] s'] eqn:E.
  - exists tt, s'. split; [done|].
    pose proof (Group_transfer_ownership_wf s m s' Hwf Hm E) as Hwf'.
    revert E. unfold Group_transfer_ownership, bind, get_group. rewrite Hw.
    rewrite (slot_eq_client s w m ow o How Ho).
    destruct (c_socket ow =? c_socket o).
    + intros [= <-]. done.
    + unfold Permissions_all, Permissions_init. cbn [Z.ltb Z.gtb Z.compare].
      unfold new_perm, client_at. cbn. rewrite Ho.
      unfold update_client, update_group, modify. cbn. intros [= <-]. done.
  - exfalso. revert E. unfold Group_transfer_ownership, bind, get_group. rewrite Hw.
    rewrite (slot_eq_client s w m ow o How Ho).
    destruct (c_socket ow =? c_socket o); [discriminate|].
    unfold Permissions_all, Permissions_init. cbn [Z.ltb Z.gtb Z.compare].
    unfold new_perm, client_at. cbn. rewrite Ho. discriminate.
Qed.

Lemma Client_kill_bound m s r s' :
  Client_kill m s = (r, s') -> group_bound s' = group_bound s.
Proof.
  unfold Client_kill, bind, client_at. destruct (client_objs s !! m) as [o|]; [|by intros [= _ <-]].
  destruct (c_group o); [|by intros [= _ <-]]. unfold get_group.
  destruct (list_remove (c_socket o) (g_clients (group s)) s) as [[l|e] t] eqn:Hl.
  - apply list_remove_inv in Hl as [-> _].
    unfold update_group, update_client, modify. by intros [= _ <-].
  - apply list_remove_inv in Hl as [-> _]. by intros [= _ <-].
Qed.

Lemma kill_loop_bound b : forall i s r s',
  kill_loop b i s = (r, s') -> group_bound s' = group_bound s.
Proof.
  induction b as [|b IH]; intros i s r s'; cbn [kill_loop].
  - destruct (g_clients (group s) !! i); by intros [= _ <-].
  - destruct (g_clients (group s) !! i) as [m|]; [|by intros [= _ <-]].
    unfold bind. destruct (Client_kill m s) as [[[]|e] t] eqn:Hk.
    + intros H. rewrite (IH _ _ _ _ H). by apply (Client_kill_bound m s (Ok tt)).
    + intros [= _ <-]. by apply (Client_kill_bound m s (Raise e)).
Qed.

Lemma Group_delete_returns s :
  wf s -> exists s', Group_delete s = (Ok tt, s') /\ group_bound s' = group_bound s.
Proof.
  intros Hwf.
  set (s0 := set_group (g_set_owner None)
               (set_group (g_set_default_perms None)
                  (set_group (g_set_name None)
                     (set_group (g_set_id 0)
                        (set_group (g_set_is_public false) s))))).
  assert (Hb0 : roster_bound s0) by exact (wf_roster_bound s Hwf).
  destruct (kill_loop_spec (length (roster s0)) 0 s0 Hb0 ltac:(lia)) as (s1 & Hrun & _).
  exists (set_group (g_set_bans ∅) (set_group (g_set_clients []) s1)).
  split; [|exact (kill_loop_bound _ _ _ _ _ Hrun)].
  change (Group_delete s)
    with (match kill_loop (length (roster s0)) 0 s0 with
          | (Ok _, t) => (Ok tt, set_group (g_set_bans ∅) (set_group (g_set_clients []) t))
          | (Raise e, t) => (Raise e, t)
          end).
  by rewrite Hrun.
Qed.

Lemma total_false {A} (P : State -> Prop) (m : M A) (Q : A -> State -> Prop) :
  (forall s, P s -> False) -> total P m Q.
Proof. intros H s Hs. destruct (H s Hs). Qed.

Lemma total_permissions_slot B c (P : State -> Prop) :
  (forall s, P s -> running B s /\ c ∈ roster s) ->
  total P (permissions_slot c)
        (fun r s => P s /\ match r with
                           | Some p => is_Some (perm_objs s !! p)
                           | None => False
                           end).
Proof.
  intros HP. apply total_read. intros s Hs. destruct (HP s Hs) as [(Hwf & _) Hc].
  destruct (wf_live s Hwf c Hc) as (o & p & x & n & Ho & _ & Hp & Hx & _).
  exists (c_permissions o). split; [by apply permissions_slot_eval|].
  split; [done|]. rewrite Hp. eauto.
Qed.

Lemma total_try_nick B c value :
  value <> "" ->
  total (serving B c)
        (try_except (Client_set_nickname c value ;;; ret true) Forbidden (ret false))
        (fun _ => serving B c).
Proof.
  intros Hv s Hs. pose proof Hs as [(Hwf & Hb & HB) Hc].
  destruct (wf_live s Hwf c Hc) as (o & p & x & n & Ho & Hg & _).
  assert (Htaken : exists taken, nickname_taken value (g_clients (group s)) s = (Ok taken, s)).
  { assert (Hv' : forall m, m ∈ g_clients (group s) -> is_Some (client_objs s !! m)).
    { intros m Hm. destruct (wf_live s Hwf m Hm) as (om & _ & _ & _ & -> & _). eauto. }
    clear -Hv'. induction (g_clients (group s)) as [|y r IH]; cbn; [by exists false|].
    destruct (Hv' y) as [oy Hoy]; [left|]. unfold bind. rewrite (client_at_Some _ _ _ Hoy).
    destruct (decide (c_nickname oy = Some value)); [by exists true|].
    apply IH. intros m Hm. apply Hv'. by right. }
  destruct Htaken as [taken Htaken].
  destruct (Client_set_nickname c value s) as [[[]|e] s'] eqn:E.
  - exists true, s'. unfold try_except, bind. rewrite E. split; [done|].
    pose proof (Client_set_nickname_wf s c value s' Hwf E) as Hwf'.
    revert E. unfold Client_set_nickname.
    destruct (String.eqb value ""); [discriminate|].
    unfold bind at 1. rewrite (client_at_Some _ _ _ Ho). cbv beta iota.
    destruct (decide (c_nickname o = Some value)); [by intros [= <-]|].
    rewrite Hg. unfold bind, get_group. rewrite Htaken.
    destruct taken; [discriminate|]. unfold update_client, modify. intros [= <-]. done.
  - assert (e = Forbidden /\ s' = s) as [-> ->].
    { revert E. unfold Client_set_nickname.
      destruct (String.eqb_spec value ""); [done|].
      unfold bind at 1. rewrite (client_at_Some _ _ _ Ho). cbv beta iota.
      destruct (decide (c_nickname o = Some value)); [discriminate|].
      rewrite Hg. unfold bind, get_group. rewrite Htaken.
      destruct taken; [|discriminate]. by intros [= <- <-]. }
    exists false, s. unfold try_except, bind. rewrite E. done.
Qed.

(** *** The branches of the dispatcher *)

Lemma targeting_serving B c m s : targeting B c m s -> serving B c s.
Proof. by intros [H _]. Qed.

Lemma targeting_valid B c m s : targeting B c m s -> is_Some (client_objs s !! m).
Proof.
  intros ([(Hwf & _) _] & Hm & _).
  destruct (wf_live s Hwf m Hm) as (o & _ & _ & _ & -> & _). eauto.
Qed.

Lemma total_reply_serving B c t :
  total (serving B c) (reply c t) (fun _ => serving B c).
Proof.
  eapply total_weaken; [apply (total_reply (serving B c))| |].
  - intros f s. apply serving_sent.
  - apply serving_valid.
  - done.
  - by intros a s [H _].
Qed.

Lemma total_broadcast_serving B c message exc :
  match exc with Some e => e = c | None => True end ->
  total (serving B c) (broadcast message exc) (fun _ => serving B c).
Proof.
  intros He. apply (total_broadcast B).
  - intros f s. apply serving_sent.
  - intros s H. split; [apply H|]. destruct exc as [e|]; [|done]. subst e.
    by apply (serving_valid B).
Qed.

(** The checks on a target, followed by what a branch does with a target
    that passed them. *)
Lemma total_checked B sty c member m1 m2 m3 (k : M ctl) :
  total (targeting B c member) k (fun _ => serving B c) ->
  total (fun s => serving B c s /\ member ∈ roster s)
        (r <- target_checks c member m1 m2 m3 ;;
         match r with
         | Some t => reply c (red sty t)
         | None => k
         end)
        (fun _ => serving B c).
Proof.
  intros Hk. eapply total_bind.
  { apply (total_target_checks B c member). intros s [[Hr Hc] Hm]. done. }
  intros [t|].
  - eapply total_weaken; [apply total_reply_serving| |intros ? ? HQ; exact HQ]. by intros s [[H _] _].
  - eapply total_weaken; [exact Hk| |intros ? ? HQ; exact HQ].
    intros s [[Hs Hm] Hr]. destruct (Hr eq_refl) as [Hne Hown]. done.
Qed.

(** A lookup of the target by nickname, followed by the checks. *)
Lemma total_looked_up B sty c nm miss m1 m2 m3 (k : nat -> M ctl) :
  (forall member, total (targeting B c member) (k member) (fun _ => serving B c)) ->
  total (serving B c)
        (found <- on_group (Group_search_member nm) ;;
         match snd found with
         | None => reply c (red sty miss)
         | Some member =>
             r <- target_checks c member m1 m2 m3 ;;
             match r with
             | Some t => reply c (red sty t)
             | None => k member
             end
         end)
        (fun _ => serving B c).
Proof.
  intros Hk. eapply total_bind.
  { apply (total_search B). by intros s [H _]. }
  intros found. destruct (snd found) as [member|] eqn:Hf.
  - eapply total_weaken; [apply (total_checked B sty c member), Hk| |intros ? ? HQ; exact HQ].
    intros s [H Hin]. split; [done|]. by apply Hin.
  - eapply total_weaken; [apply total_reply_serving| |intros ? ? HQ; exact HQ]. by intros s [H _].
Qed.

Lemma total_do_kick B sty c decoded :
  total (serving B c) (do_kick sty c decoded) (fun _ => serving B c).
Proof.
  unfold do_kick. eapply total_bind; [by apply (total_permissions_of B c)|].
  intros p. destruct (kick_members p); cbn [negb]; [|apply total_reply_serving].
  apply total_looked_up. intros member.
  eapply total_bind.
  { apply (total_nickname_slot B member). intros s H. split; [apply H|apply H]. }
  intros nickname. eapply total_weaken with (P' := targeting B c member); [|by intros s [H _]|intros ? ? HQ; exact HQ].
  eapply total_bind.
  { apply total_send; [apply targeting_sent|apply targeting_valid]. }
  intros u1. eapply total_bind; [apply total_kick|]. intros u2.
  eapply total_bind; [by apply (total_nickname_slot B c)|]. intros actor.
  eapply total_weaken with (P' := serving B c); [|by intros s [H _]|intros ? ? HQ; exact HQ].
  eapply total_bind; [by apply total_broadcast_serving|]. intros u3.
  by apply total_ret.
Qed.

Lemma total_do_ban B sty c decoded :
  total (serving B c) (do_ban sty c decoded) (fun _ => serving B c).
Proof.
  unfold do_ban. eapply total_bind; [by apply (total_permissions_of B c)|].
  intros p. destruct (ban_members p); cbn [negb]; [|apply total_reply_serving].
  apply total_looked_up. intros member.
  eapply total_bind.
  { apply (total_nickname_slot B member). intros s H. split; [apply H|apply H]. }
  intros nickname. eapply total_weaken with (P' := targeting B c member); [|by intros s [H _]|intros ? ? HQ; exact HQ].
  eapply total_bind.
  { apply total_send; [apply targeting_sent|apply targeting_valid]. }
  intros u1. eapply total_bind; [apply total_ban|]. intros u2.
  eapply total_bind; [by apply (total_nickname_slot B c)|]. intros actor.
  eapply total_weaken with (P' := serving B c); [|by intros s [H _]|intros ? ? HQ; exact HQ].
  eapply total_bind; [by apply total_broadcast_serving|]. intros u3.
  by apply total_ret.
Qed.

Lemma total_do_setperms B sty c decoded :
  total (serving B c) (do_setperms sty c decoded) (fun _ => serving B c).
Proof.
  unfold do_setperms. eapply total_bind; [by apply (total_permissions_of B c)|].
  intros p. destruct (update_permissions p); cbn [negb]; [|apply total_reply_serving].
  destruct (split (slice_from 10 decoded)) as [|number rest]; [apply total_reply_serving|].
  destruct (py_int number) as [v|]; [|apply total_reply_serving].
  destruct ((v <? 0)%Z || (v >? PermissionValues.ALL)%Z) eqn:Hr; [apply total_reply_serving|].
  assert (Hv : (0 <= v <= 255)%Z).
  { apply orb_false_iff in Hr as [H1 H2]. unfold PermissionValues.ALL in H2.
    apply Z.ltb_ge in H1. destruct (Z.gtb_spec v 255); [done|lia]. }
  eapply total_bind; [by apply (total_permissions_slot B c)|].
  intros [pc|]; [|apply total_false; by intros s [_ []]].
  eapply total_bind; [by apply (total_Permissions_init B c pc v)|].
  intros q. eapply total_bind with (Q := fun _ => serving B c).
  { apply total_read. intros s (Hs & [xc Hxc] & [xq Hxq]).
    eexists. split; [by apply (Permissions_ge_eval s pc q xc xq)|done]. }
  intros above. destruct above; cbn [negb]; [|apply total_reply_serving].
  apply total_looked_up. intros member.
  eapply total_bind; [by apply total_set_permissions|]. intros u1.
  eapply total_bind.
  { apply (total_nickname_slot B member). intros s H. split; [apply H|apply H]. }
  intros nick. eapply total_weaken with (P' := serving B c);
    [|by intros s [[H _] _]|intros ? ? HQ; exact HQ].
  eapply total_bind; [by apply total_broadcast_serving|]. intros u2.
  by apply total_ret.
Qed.

Lemma total_do_nick B sty c decoded :
  total (serving B c) (do_nick sty c decoded) (fun _ => serving B c).
Proof.
  unfold do_nick. eapply total_bind; [by apply (total_permissions_of B c)|].
  intros p. destruct (change_nickname p); cbn [negb]; [|apply total_reply_serving].
  eapply total_bind; [by apply (total_nickname_slot B c)|]. intros old_nickname.
  eapply total_weaken with (P' := serving B c); [|by intros s [H _]|intros ? ? HQ; exact HQ].
  cbv zeta. destruct (String.eqb_spec (slice_from 6 decoded) "") as [|Hne];
    [apply total_reply_serving|].
  eapply total_bind; [by apply total_try_nick|].
  intros changed. destruct changed; cbn [negb]; [|apply total_reply_serving].
  eapply total_bind; [by apply total_broadcast_serving|]. intros u.
  apply total_reply_serving.
Qed.

Lemma total_do_setowner B sty c decoded :
  total (serving B c) (do_setowner sty c decoded) (fun _ => serving B c).
Proof.
  unfold do_setowner. eapply total_bind; [by apply (total_is_owner B c)|].
  intros own. eapply total_weaken with (P' := serving B c);
    [|by intros s [H _]|intros ? ? HQ; exact HQ].
  destruct own; cbn [negb]; [|apply total_reply_serving].
  eapply total_bind; [apply (total_search B); by intros s [H _]|].
  intros found. destruct (snd found) as [member|] eqn:Hf.
  2:{ eapply total_weaken; [apply total_reply_serving|by intros s [H _]|intros ? ? HQ; exact HQ]. }
  eapply total_weaken with (P' := fun s => serving B c s /\ member ∈ roster s);
    [|intros s [H Hin]; split; [done|by apply Hin]|intros ? ? HQ; exact HQ].
  eapply total_bind with (Q := fun _ s => serving B c s /\ member ∈ roster s).
  { apply total_read. intros s [Hs Hm]. destruct (serving_valid B c s Hs) as [o Ho].
    exists o. split; [by apply client_at_Some|done]. }
  intros me. eapply total_bind with (Q := fun _ s => serving B c s /\ member ∈ roster s).
  { apply total_read. intros s [Hs Hm].
    destruct (wf_live s (proj1 (proj1 Hs)) member Hm) as (om & _ & _ & _ & Hom & _).
    eexists. split; [by apply (User_eq_client s _ member om)|done]. }
  intros same. destruct same.
  { eapply total_weaken; [apply total_reply_serving|by intros s [H _]|intros ? ? HQ; exact HQ]. }
  eapply total_bind; [apply total_transfer|]. intros u1.
  eapply total_bind.
  { apply (total_nickname_slot B member). intros s [H Hm]. split; [apply H|done]. }
  intros nick.
  eapply total_weaken with (P' := fun s => serving B c s /\ member ∈ roster s);
    [|by intros s [H _]|intros ? ? HQ; exact HQ].
  assert (Hst : forall f s, serving B c s /\ member ∈ roster s ->
                            serving B c (set_sent f s) /\ member ∈ roster (set_sent f s)).
  { intros f s [H Hm]. split; [by apply serving_sent|done]. }
  assert (Hval : forall s, serving B c s /\ member ∈ roster s ->
                           is_Some (client_objs s !! member)).
  { intros s [Hs Hm].
    destruct (wf_live s (proj1 (proj1 Hs)) member Hm) as (om & _ & _ & _ & -> & _). eauto. }
  eapply total_bind.
  { apply (total_broadcast B); [exact Hst|]. intros s H. split; [apply H|by apply Hval]. }
  intros u2. eapply total_bind; [by apply total_send|]. intros u3.
  apply total_ret. by intros s [H _].
Qed.

Lemma total_bare B sty c (allowed : M bool) complaint :
  total (serving B c) allowed (fun _ => serving B c) ->
  total (serving B c) (bare sty c allowed complaint) (fun _ => serving B c).
Proof.
  intros Ha. unfold bare. eapply total_bind; [exact Ha|].
  intros ok. destruct ok; cbn [negb]; apply total_reply_serving.
Qed.

Lemma total_flag B c (flag : Permissions -> bool) :
  total (serving B c) (p <- permissions_of c ;; ret (flag p)) (fun _ => serving B c).
Proof.
  eapply total_bind; [by apply (total_permissions_of B c)|]. intros p. by apply total_ret.
Qed.

Lemma total_info_lines B sty c l :
  total (fun s => serving B c s /\ forall m, m ∈ l -> m ∈ roster s)
        (info_lines sty c l) (fun _ => serving B c).
Proof.
  induction l as [|m r IH]; cbn [info_lines]; [apply total_ret; by intros s [H _]|].
  set (P := fun s => serving B c s /\ forall x, x ∈ m :: r -> x ∈ roster s).
  assert (Hst : forall f s, P s -> P (set_sent f s)).
  { intros f s [H Hin]. split; [by apply serving_sent|done]. }
  eapply total_bind with (Q := fun _ => P).
  { eapply total_weaken; [apply (total_is_owner B m P)| |].
    - intros s [H Hin]. split; [apply H|]. apply Hin. left.
    - done.
    - by intros a s [H _]. }
  intros own. eapply total_bind with (Q := fun _ => P).
  { destruct own; [by apply total_ret|].
    eapply total_bind with (Q := fun g s => P s /\ g = group s).
    { apply total_read. intros s Hs. exists (group s). unfold on_group, get_group.
      pose proof Hs as [[(_ & Hb & _) _] _]. by rewrite Hb. }
    intros g. eapply total_bind.
    { apply (total_permissions_slot B m). intros s [[H Hin] _]. split; [apply H|]. apply Hin. left. }
    intros [pm|]; [|apply total_false; by intros s [_ []]].
    eapply total_bind with (Q := fun _ => P).
    { apply total_read. intros s [[HP ->] [xm Hxm]].
      destruct (wf_default s (proj1 (proj1 (proj1 HP)))) as (d & xd & Hd & Hxd).
      rewrite Hd. cbn [slot_lt perm_operand]. unfold Permissions_lt, bind.
      rewrite (perm_at_Some _ _ _ Hxd), (perm_at_Some _ _ _ Hxm). eexists. done. }
    intros above. by apply total_ret. }
  intros prefix. eapply total_bind.
  { apply (total_nickname_slot B m). intros s [H Hin]. split; [apply H|]. apply Hin. left. }
  intros [n|]; [|apply total_false; by intros s [_ [? [=]]]].
  eapply total_weaken with (P' := P); [|by intros s [H _]|intros ? ? HQ; exact HQ].
  eapply total_bind.
  { apply (total_send P); [exact Hst|]. intros s [H _]. by apply (serving_valid B). }
  intros u. eapply total_weaken; [exact IH| |intros ? ? HQ; exact HQ].
  intros s [H Hin]. split; [done|]. intros x Hx. apply Hin. by right.
Qed.

Lemma total_continues B c {A} (m : M A) :
  total (serving B c) m (fun _ => serving B c) ->
  total (serving B c) m (fun _ s => running B s \/ group_bound s = false).
Proof.
  intros H. eapply total_weaken; [exact H|done|]. intros a s [Hr _]. by left.
Qed.

(** Leaving the group: [_kill] on the actor, who is not the owner, then
    the news to the others. *)
Lemma total_leave B c (r : ctl) message :
  total (fun s => serving B c s /\ Client_is_owner c s = (Ok false, s))
        (Client_kill c ;;; broadcast message None ;;; ret r)
        (fun _ s => running B s \/ group_bound s = false).
Proof.
  eapply total_bind; [apply total_quit_kill|]. intros u1.
  eapply total_bind.
  { apply (total_broadcast B (running B)); [apply running_sent|done]. }
  intros u2. apply total_ret. by left.
Qed.

(** Deleting the group: the signal to all, [delete], and the global
    [group] set to [None]. *)
Lemma total_teardown B c {A} (a : A) :
  total (serving B c)
        (broadcast "/delete" None ;;; on_group Group_delete ;;;
         modify (set_group_bound false) ;;; ret a)
        (fun _ s => running B s \/ group_bound s = false).
Proof.
  eapply total_bind; [by apply total_broadcast_serving|]. intros u1.
  intros s [(Hwf & Hb & _) _].
  destruct (Group_delete_returns s Hwf) as (s' & Hd & _).
  eexists a, (set_group_bound false s'). split; [|by right].
  unfold bind, on_group. rewrite Hb, Hd. reflexivity.
Qed.

Lemma owner_test_sent c b f s :
  Client_is_owner c s = (Ok b, s) ->
  Client_is_owner c (set_sent f s) = (Ok b, set_sent f s).
Proof. intros H. by apply (Client_is_owner_frame c s). Qed.

Lemma total_handle_body B sty c message :
  total (serving B c) (handle_body sty c message)
        (fun _ s => running B s \/ group_bound s = false).
Proof.
  unfold handle_body. cbv zeta.
  destruct (String.eqb (strip message) ""); [apply total_ret; by intros s [H _]; left|].
  destruct (is_command "/id" _).
  { apply total_continues. eapply total_bind with (Q := fun _ => serving B c).
    - apply total_read. intros s Hs. destruct (serving_valid B c s Hs) as [o Ho].
      exists o. split; [by apply client_at_Some|done].
    - intros me. apply total_reply_serving. }
  destruct (is_command "/info" _).
  { apply total_continues. eapply total_bind.
    { apply (total_send (serving B c)); [intros f s; apply serving_sent|apply serving_valid]. }
    intros u1. eapply total_bind with (Q := fun g s => serving B c s /\ g = group s).
    { apply total_read. intros s Hs. exists (group s). unfold on_group, get_group.
      pose proof Hs as [(_ & Hb & _) _]. by rewrite Hb. }
    intros g. eapply total_bind.
    { eapply total_weaken; [apply (total_info_lines B sty c (g_clients g))| |intros ? ? HQ; exact HQ].
      intros s [Hs ->]. done. }
    intros u2. apply total_reply_serving. }
  destruct (is_command "/quit" _).
  { eapply total_bind; [by apply (total_is_owner B c)|]. intros own. destruct own.
    { eapply total_weaken with (P' := serving B c);
        [apply total_continues, total_reply_serving|intros s H; apply H|intros ? ? HQ; exact HQ]. }
    set (P := fun s => serving B c s /\ Client_is_owner c s = (Ok false, s)).
    eapply total_bind.
    { apply (total_nickname_slot B c P). intros s [H _]. exact H. }
    intros nickname. eapply total_weaken with (P' := P);
      [|intros s H; apply H|intros ? ? HQ; exact HQ].
    eapply total_bind.
    { apply (total_send P).
      - intros f s [H Ho]. split; [by apply serving_sent|by apply owner_test_sent].
      - intros s [H _]. by apply (serving_valid B). }
    intros u. apply total_leave. }
  destruct (is_command "/delete" _).
  { eapply total_bind; [by apply (total_is_owner B c)|]. intros own.
    eapply total_weaken with (P' := serving B c); [|intros s H; apply H|intros ? ? HQ; exact HQ].
    destruct own; cbn [negb]; [apply total_teardown|].
    apply total_continues, total_reply_serving. }
  destruct (String.eqb _ "/nick"); [apply total_continues, total_bare, total_flag|].
  destruct (String.eqb _ "/kick"); [apply total_continues, total_bare, total_flag|].
  destruct (String.eqb _ "/ban"); [apply total_continues, total_bare, total_flag|].
  destruct (String.eqb _ "/setperms"); [apply total_continues, total_bare, total_flag|].
  destruct (String.eqb _ "/setowner").
  { apply total_continues, total_bare.
    eapply total_weaken; [by apply (total_is_owner B c (serving B c))|done|by intros a s [H _]]. }
  destruct (startswith "/nick " _); [apply total_continues, total_do_nick|].
  destruct (startswith "/kick " _); [apply total_continues, total_do_kick|].
  destruct (startswith "/ban " _); [apply total_continues, total_do_ban|].
  destruct (startswith "/setperms " _); [apply total_continues, total_do_setperms|].
  destruct (startswith "/setowner " _); [apply total_continues, total_do_setowner|].
  destruct (startswith "/" _ && _); [apply total_continues, total_reply_serving|].
  apply total_continues.
  eapply total_bind; [by apply (total_permissions_of B c)|]. intros p.
  destruct (send_messages p); [|apply total_reply_serving].
  eapply total_bind; [by apply (total_nickname_slot B c)|].
  intros [n|]; [|apply total_false; by intros s [_ [? [=]]]].
  eapply total_weaken with (P' := serving B c); [|intros s H; apply H|intros ? ? HQ; exact HQ].
  eapply total_bind; [by apply total_broadcast_serving|]. intros u. by apply total_ret.
Qed.

Lemma handle_except_keeps B sty c s :
  serving B c s ->
  exists s', handle_except sty c s = (Ok Break, s')
             /\ (running B s' \/ group_bound s' = false).
Proof.
  intros Hs. unfold handle_except. eexists. split; [reflexivity|].
  assert (Ht : total (serving B c)
                 (nickname <- nickname_slot c ;;
                  own <- Client_is_owner c ;;
                  if own then
                    broadcast "/delete" None ;;;
                    on_group Group_delete ;;;
                    modify (set_group_bound false)
                  else
                    Client_kill c ;;;
                    broadcast (red_bold sty (fmt nickname ++ " left the chat!")) None)
                 (fun _ s => running B s \/ group_bound s = false)).
  { eapply total_bind; [by apply (total_nickname_slot B c)|]. intros nickname.
    eapply total_weaken with (P' := serving B c); [|intros t H; apply H|intros ? ? HQ; exact HQ].
    eapply total_bind; [by apply (total_is_owner B c)|]. intros own. destruct own.
    - eapply total_weaken with (P' := serving B c);
        [|intros t H; apply H|intros ? ? HQ; exact HQ].
      eapply total_bind; [by apply total_broadcast_serving|]. intros u1.
      intros t [(Hwf & Hb & _) _].
      destruct (Group_delete_returns t Hwf) as (t' & Hd & _).
      eexists tt, (set_group_bound false t'). split; [|by right].
      unfold bind, on_group. rewrite Hb, Hd. reflexivity.
    - eapply total_bind; [apply total_quit_kill|]. intros u1.
      eapply total_weaken; [apply (total_broadcast B (running B))| |].
      + apply running_sent.
      + done.
      + done.
      + intros a t H. by left. }
  destruct (Ht s Hs) as (a & s' & E & Hq). unfold exec. by rewrite E.
Qed.

Lemma index_of_socket_total s k l : forall n,
  (forall x, x ∈ l -> is_Some (client_objs s !! x)) ->
  exists r, index_of_socket k n l s = (Ok r, s)
            /\ forall i, r = Some i -> n <= i /\ is_Some (l !! (i - n)).
Proof.
  induction l as [|x rest IH]; intros n Hv; cbn [index_of_socket].
  - exists None. split; [done|]. intros i [=].
  - destruct (Hv x) as [ox Hox]; [left|]. unfold bind. rewrite (client_at_Some _ _ _ Hox).
    destruct (c_socket ox =? k).
    + exists (Some n). split; [done|]. intros i [= <-]. split; [lia|].
      rewrite Nat.sub_diag. by eexists.
    + destruct (IH (S n)) as (r & Hr & Hi); [intros y Hy; apply Hv; by right|].
      exists r. split; [done|]. intros i Hri. destruct (Hi i Hri) as [Hle Hsome].
      split; [lia|]. replace (i - n) with (S (i - S n)) by lia. done.
Qed.

(** Property X25.  On a running group a round of [handle] never fails: it ends with
    [Continue] or [Break], and either the group is still running, with all
    the bans it had, or the global [group] is [None]. *)
Theorem handle_round_keeps_running
  (B : gset Z) (sty : Sty) (socket : nat) (received : option string) (s : State) :
  running B s ->
  exists r s', handle_round sty socket received s = (Ok r, s')
               /\ (running B s' \/ group_bound s' = false).
Proof.
  intros Hr. pose proof Hr as (Hwf & Hb & HB). unfold handle_round. rewrite Hb. cbn [negb].
  unfold Group_get_index_of, bind, get_group.
  destruct (index_of_socket_total s socket (g_clients (group s)) 0) as (r & -> & Hi).
  { intros x Hx. destruct (wf_live s Hwf x Hx) as (o & _ & _ & _ & -> & _). eauto. }
  destruct r as [index|]; [|exists Break, s; split; [done|by left]].
  destruct (Hi index eq_refl) as [_ [client Hc]]. rewrite Nat.sub_0_r in Hc. rewrite Hc.
  assert (Hs : serving B client s).
  { split; [done|]. by eapply list_elem_of_lookup_2. }
  destruct received as [message|].
  - destruct (total_handle_body B sty client message s Hs) as (a & s' & E & Hq).
    rewrite E. by exists a, s'.
  - destruct (handle_except_keeps B sty client s Hs) as (s' & E & Hq). by exists Break, s'.
Qed.

Lemma member_equal_to_total s u l :
  (forall c, c ∈ l -> is_Some (client_objs s !! c)) ->
  exists r, member_equal_to (PUser u) l s = (Ok r, s)
            /\ (r = None ->
                forall c, c ∈ l ->
                          exists oc, client_objs s !! c = Some oc /\ c_socket oc <> u_socket u).
Proof.
  induction l as [|x rest IH]; intros Hv; cbn [member_equal_to].
  - exists None. split; [done|]. intros _ c Hc. by apply elem_of_nil in Hc.
  - destruct (Hv x) as [ox Hox]; [left|]. unfold bind. rewrite (client_at_Some _ _ _ Hox).
    cbn [User_eq]. unfold ret.
    destruct (Nat.eqb_spec (c_socket ox) (u_socket u)) as [|Hne].
    + exists (Some x). split; [done|]. intros [=].
    + destruct IH as (r & Hr & Hnone); [intros c Hc; apply Hv; by right|].
      exists r. split; [done|]. intros -> c [->|Hc]%elem_of_cons; [eauto|].
      by apply Hnone.
Qed.

(** [receive] for a later connection: whatever [add] answers for a user,
    the group keeps running. *)
Theorem add_keeps_running (B : gset Z) (u : User) (s : State) :
  running B s -> running B (exec (Group_add (PUser u)) s).
Proof.
  intros Hr. pose proof Hr as (Hwf & Hb & HB). unfold exec, Group_add, bind, get_group.
  destruct (member_equal_to_total s u (g_clients (group s))) as (r & -> & Hnone).
  { intros c Hc. destruct (wf_live s Hwf c Hc) as (o & _ & _ & _ & -> & _). eauto. }
  destruct r as [member|]; [done|].
  destruct (decide (u_id u ∈ g_bans (group s))); [done|].
  destruct (wf_default s Hwf) as (d & x & Hd & Hx). rewrite Hd.
  unfold Client_init, bind, User_init.
  destruct (String.eqb (u_name u) ""); [done|].
  pose proof (wf_after_add s u Hwf (Hnone eq_refl)) as Hwf'.
  unfold after_add in Hwf'. rewrite Hd in Hwf'.
  split; [exact Hwf'|]. done.
Qed.

Lemma handle_round_keeps_running_witness :
  exists r s', handle_round ansi 2 (Some "/nick robert") joined = (Ok r, s')
               /\ (running ∅ s' \/ group_bound s' = false).
Proof.
  apply handle_round_keeps_running.
  split; [exact wf_joined|]. split; [vm_compute; reflexivity|].
  intros z Hz. by apply elem_of_empty in Hz.
Defined.


(* ================================================================== *)
(** ** Permission flags and comparisons *)
(* ================================================================== *)

(** *** Flags and bits *)

Lemma land_one (x : Z) : Z.land x 1 = Z.b2z (Z.testbit x 0).
Proof.
  change 1%Z with (Z.ones 1). rewrite Z.land_ones by lia.
  change (2 ^ 1)%Z with 2%Z. symmetry. apply Z.bit0_mod.
Qed.

Lemma flag_testbit (n : Z) (p : Permissions) :
  (0 <= n)%Z -> flag n p = Z.testbit (value p) n.
Proof.
  intros Hn. unfold flag. rewrite land_one, Z.shiftr_spec by lia.
  rewrite Z.add_0_l. by destruct (Z.testbit (value p) n).
Qed.

Lemma testbit_above (v n : Z) : (0 <= v <= 255)%Z -> (8 <= n)%Z -> Z.testbit v n = false.
Proof.
  intros Hv Hn. rewrite <- (Z.mod_small v (2 ^ 8)) by (change (2 ^ 8)%Z with 256%Z; lia).
  apply Z.mod_pow2_bits_high. lia.
Qed.

Lemma le_testbit (a b : Permissions) :
  le a b = true <->
  forall n, (0 <= n)%Z -> Z.testbit (value a) n = true -> Z.testbit (value b) n = true.
Proof.
  rewrite le_spec. split.
  - intros H n Hn Ha. rewrite <- H, Z.land_spec in Ha. by apply andb_true_iff in Ha as [_ Hb].
  - intros H. apply Z.bits_inj'. intros n Hn. rewrite Z.land_spec.
    destruct (Z.testbit (value a) n) eqn:Ha; [|done]. by rewrite (H n Hn Ha).
Qed.



(** Property X1.  Each flag property of [Permissions] reads the bit of its
    [PermissionValues] constant, [all_permissions] holds exactly when the
    eight flags do, and a value in [0..255] is the sum of the constants
    whose flag is set. *)
Theorem flags_read_the_bits_of_their_constants (p : Permissions) :
  (0 <= value p <= PermissionValues.ALL)%Z ->
  let bit (c : Z) := negb (Z.land (value p) c =? 0)%Z in
  let part (f : Permissions -> bool) (c : Z) := if f p then c else 0%Z in
  read_messages p = bit PermissionValues.READ_MESSAGES
  /\ send_messages p = bit PermissionValues.SEND_MESSAGES
  /\ kick_members p = bit PermissionValues.KICK_MEMBERS
  /\ ban_members p = bit PermissionValues.BAN_MEMBERS
  /\ change_nickname p = bit PermissionValues.CHANGE_NICKNAME
  /\ manage_nicknames p = bit PermissionValues.MANAGE_NICKNAMES
  /\ change_settings p = bit PermissionValues.CHANGE_SETTINGS
  /\ update_permissions p = bit PermissionValues.UPDATE_PERMISSIONS
  /\ all_permissions p
     = (read_messages p && send_messages p && kick_members p && ban_members p
        && change_nickname p && manage_nicknames p && change_settings p
        && update_permissions p)
  /\ value p
     = (part read_messages PermissionValues.READ_MESSAGES
        + part send_messages PermissionValues.SEND_MESSAGES
        + part kick_members PermissionValues.KICK_MEMBERS
        + part ban_members PermissionValues.BAN_MEMBERS
        + part change_nickname PermissionValues.CHANGE_NICKNAME
        + part manage_nicknames PermissionValues.MANAGE_NICKNAMES
        + part change_settings PermissionValues.CHANGE_SETTINGS
        + part update_permissions PermissionValues.UPDATE_PERMISSIONS)%Z.
Proof.
  intros Hv.
  pose (ok := fun n : nat =>
    let p := mkPermissions (Z.of_nat n) in
    let bit (c : Z) := negb (Z.land (value p) c =? 0)%Z in
    let part (f : Permissions -> bool) (c : Z) := if f p then c else 0%Z in
    Bool.eqb (read_messages p) (bit PermissionValues.READ_MESSAGES)
    && Bool.eqb (send_messages p) (bit PermissionValues.SEND_MESSAGES)
    && Bool.eqb (kick_members p) (bit PermissionValues.KICK_MEMBERS)
    && Bool.eqb (ban_members p) (bit PermissionValues.BAN_MEMBERS)
    && Bool.eqb (change_nickname p) (bit PermissionValues.CHANGE_NICKNAME)
    && Bool.eqb (manage_nicknames p) (bit PermissionValues.MANAGE_NICKNAMES)
    && Bool.eqb (change_settings p) (bit PermissionValues.CHANGE_SETTINGS)
    && Bool.eqb (update_permissions p) (bit PermissionValues.UPDATE_PERMISSIONS)
    && Bool.eqb (all_permissions p)
         (read_messages p && send_messages p && kick_members p && ban_members p
          && change_nickname p && manage_nicknames p && change_settings p
          && update_permissions p)
    && (value p =? part read_messages PermissionValues.READ_MESSAGES
          + part send_messages PermissionValues.SEND_MESSAGES
          + part kick_members PermissionValues.KICK_MEMBERS
          + part ban_members PermissionValues.BAN_MEMBERS
          + part change_nickname PermissionValues.CHANGE_NICKNAME
          + part manage_nicknames PermissionValues.MANAGE_NICKNAMES
          + part change_settings PermissionValues.CHANGE_SETTINGS
          + part update_permissions PermissionValues.UPDATE_PERMISSIONS)%Z).
  assert (Hall : forallb ok (seq 0 256) = true) by (vm_compute; reflexivity).
  rewrite forallb_forall in Hall.
  unfold PermissionValues.ALL in Hv.
  assert (Hin : In (Z.to_nat (value p)) (seq 0 256)) by (apply in_seq; lia).
  specialize (Hall _ Hin). unfold ok in Hall. cbv zeta in Hall.
  rewrite Z2Nat.id in Hall by lia. destruct p as [v]. cbn [value] in *.
  repeat (apply andb_true_iff in Hall as [Hall ?]).
  cbv zeta.
  repeat match goal with
         | H : Bool.eqb _ _ = true |- _ => apply Bool.eqb_prop in H
         | H : (_ =? _)%Z = true |- _ => apply Z.eqb_eq in H
         end.
  repeat split; assumption.
Qed.

Lemma flags_read_the_bits_of_their_constants_witness :
  kick_members (mkPermissions 63) = true
  /\ change_settings (mkPermissions 63) = false.
Proof.
  destruct (flags_read_the_bits_of_their_constants (mkPermissions 63))
    as (_ & _ & Hk & _ & _ & _ & Hc & _).
  - cbn. unfold PermissionValues.ALL. lia.
  - split; [rewrite Hk|rewrite Hc]; vm_compute; reflexivity.
Defined.

(** Property X2.  [a <= b] is inclusion of flags: for a value of [a] in [0..255],
    [a <= b] holds exactly when every flag that [a] has, [b] has as well. *)
Theorem le_is_flag_inclusion (a b : Permissions) :
  (0 <= value a <= PermissionValues.ALL)%Z ->
  le a b = true <->
  (read_messages a = true -> read_messages b = true)
  /\ (send_messages a = true -> send_messages b = true)
  /\ (kick_members a = true -> kick_members b = true)
  /\ (ban_members a = true -> ban_members b = true)
  /\ (change_nickname a = true -> change_nickname b = true)
  /\ (manage_nicknames a = true -> manage_nicknames b = true)
  /\ (change_settings a = true -> change_settings b = true)
  /\ (update_permissions a = true -> update_permissions b = true).
Proof.
  intros Hv. unfold PermissionValues.ALL in Hv.
  unfold read_messages, send_messages, kick_members, ban_members, change_nickname,
    manage_nicknames, change_settings, update_permissions.
  rewrite !flag_testbit by lia. rewrite le_testbit. split.
  - intros H. repeat split; apply H; lia.
  - intros (H0 & H1 & H2 & H3 & H4 & H5 & H6 & H7) n Hn Ha.
    destruct (Z_lt_le_dec n 8) as [Hlt|Hge].
    + assert (n = 0 \/ n = 1 \/ n = 2 \/ n = 3 \/ n = 4 \/ n = 5 \/ n = 6 \/ n = 7)%Z
        as [->|[->|[->|[->|[->|[->|[->| ->]]]]]]] by lia; auto.
    + by rewrite (testbit_above _ n Hv Hge) in Ha.
Qed.

Lemma le_is_flag_inclusion_witness :
  le (mkPermissions 19) (mkPermissions 63) = true
  /\ le (mkPermissions 63) (mkPermissions 19) = false.
Proof.
  split.
  - apply (le_is_flag_inclusion (mkPermissions 19) (mkPermissions 63)).
    + cbn. unfold PermissionValues.ALL. lia.
    + repeat split; vm_compute; auto.
  - vm_compute; reflexivity.
Defined.



(* ================================================================== *)
(** ** More on the methods of the classes *)
(* ================================================================== *)

(** *** Adding twice *)

Lemma member_equal_to_socket u u' l :
  u_socket u' = u_socket u ->
  forall s, member_equal_to (PUser u') l s = member_equal_to (PUser u) l s.
Proof.
  intros E. induction l as [|x r IH]; intros s; [done|]. cbn [member_equal_to User_eq].
  unfold bind. destruct (client_at x s) as [[o|e] t]; [|done].
  unfold ret. rewrite E. destruct (c_socket o =? u_socket u); [done|]. apply IH.
Qed.

Lemma member_equal_to_app s u l l' :
  (forall c, c ∈ l -> exists oc, client_objs s !! c = Some oc /\ c_socket oc <> u_socket u) ->
  member_equal_to (PUser u) (l ++ l') s = member_equal_to (PUser u) l' s.
Proof.
  induction l as [|x r IH]; intros Hv; [done|].
  rewrite <- app_comm_cons. cbn [member_equal_to User_eq]. unfold bind.
  destruct (Hv x) as (ox & Hox & Hne); [left|].
  rewrite (client_at_Some _ _ _ Hox). unfold ret.
  destruct (Nat.eqb_spec (c_socket ox) (u_socket u)); [done|].
  apply IH. intros c Hc. apply Hv. by right.
Qed.

(** Property X4.  [add] is ignored for a user who is already in the group, as its
    docstring says: once [add(u)] has returned the member [m], [add] of any
    user on the same socket returns [m] again and changes nothing, whatever
    the name and the identity of that user, banned or not. *)
Theorem add_twice_is_add_once (s s1 : State) (u u' : User) (m : nat) :
  wf s -> Group_add (PUser u) s = (Ok m, s1) -> u_socket u' = u_socket u ->
  Group_add (PUser u') s1 = (Ok m, s1).
Proof.
  intros Hwf Hadd Hsock.
  assert (Hv : forall c, c ∈ roster s -> is_Some (client_objs s !! c)).
  { intros c Hc. destruct (wf_live s Hwf c Hc) as (o & _ & _ & _ & -> & _). eauto. }
  unfold Group_add, bind, get_group in Hadd |- *.
  rewrite (member_equal_to_socket u u' _ Hsock).
  destruct (member_equal_to_total s u (g_clients (group s)) Hv) as (r & Hr & Hnone).
  rewrite Hr in Hadd. destruct r as [member|].
  - injection Hadd as -> <-. by rewrite Hr.
  - specialize (Hnone eq_refl).
    destruct (decide (u_id u ∈ g_bans (group s))); [done|].
    destruct (wf_default s Hwf) as (d & x & Hd & Hx). rewrite Hd in Hadd.
    unfold Client_init, bind, User_init in Hadd.
    destruct (String.eqb (u_name u) "") eqn:Hname; [done|].
    cbn in Hadd. injection Hadd as <- <-.
    match goal with |- context [member_equal_to _ _ ?t] => set (s1 := t) end.
    assert (Hm : client_objs s1 !! length (client_objs s)
                 = Some (mkClient (u_name u) (uuid_src s (uuid_drawn s)) (u_socket u)
                                  (Some the_group) (Some d) (Some (u_name u))))
      by (by apply list_lookup_middle).
    change (g_clients (group s1)) with (g_clients (group s) ++ [length (client_objs s)]).
    rewrite member_equal_to_app.
    + cbn [member_equal_to User_eq]. unfold bind. rewrite (client_at_Some _ _ _ Hm).
      cbn [c_socket]. unfold ret. by rewrite Nat.eqb_refl.
    + intros c Hc. destruct (Hnone c Hc) as (oc & Hoc & Hne). exists oc.
      split; [|done]. by apply lookup_app_l_Some.
Qed.

Lemma add_twice_is_add_once_witness :
  Group_add (PUser (mkUser "robert" 7 2)) joined = (Ok bob, joined).
Proof.
  apply (add_twice_is_add_once connected joined bob_user (mkUser "robert" 7 2) bob).
  - exact wf_connected.
  - vm_compute; reflexivity.
  - reflexivity.
Defined.

(** *** Looking members up *)

Lemma nickname_of_Some s c o : client_objs s !! c = Some o -> nickname_of s c = c_nickname o.
Proof. intros H. unfold nickname_of. by rewrite H. Qed.

Lemma search_from_spec nm s l : forall k,
  (forall c, c ∈ l -> is_Some (client_objs s !! c)) ->
  exists i found,
    search_from nm k l s = (Ok (i, found), s)
    /\ match found with
       | Some m =>
           (k <= i)%Z /\ l !! Z.to_nat (i - k) = Some m /\ nickname_of s m = Some nm
           /\ forall j c, j < Z.to_nat (i - k) -> l !! j = Some c ->
                          nickname_of s c <> Some nm
       | None => i = (-1)%Z /\ forall c, c ∈ l -> nickname_of s c <> Some nm
       end.
Proof.
  induction l as [|x r IH]; intros k Hv; cbn [search_from].
  - exists (-1)%Z, None. split; [done|]. split; [done|]. intros c Hc. by apply elem_of_nil in Hc.
  - destruct (Hv x) as [ox Hox]; [left|]. unfold bind. rewrite (client_at_Some _ _ _ Hox).
    destruct (decide (c_nickname ox = Some nm)) as [E|Hne].
    + exists k, (Some x). split; [done|]. rewrite Z.sub_diag. cbn.
      split; [lia|]. split; [done|]. split; [by rewrite (nickname_of_Some _ _ _ Hox)|].
      intros j c Hj. lia.
    + destruct (IH (k + 1)%Z) as (i & found & Hrun & Hspec); [intros c Hc; apply Hv; by right|].
      exists i, found. split; [done|]. destruct found as [m|].
      * destruct Hspec as (Hle & Hi & Hnick & Hfirst).
        replace (Z.to_nat (i - k)) with (S (Z.to_nat (i - (k + 1)))) by lia.
        split; [lia|]. split; [done|]. split; [done|].
        intros [|j] c Hj Hc; cbn in Hc.
        -- injection Hc as <-. by rewrite (nickname_of_Some _ _ _ Hox).
        -- apply (Hfirst j c); [lia|done].
      * destruct Hspec as [-> Hnone]. split; [done|].
        intros c [->|Hc]%elem_of_cons; [by rewrite (nickname_of_Some _ _ _ Hox)|].
        by apply Hnone.
Qed.

(** Property X5.  [search_member(string)] returns the first roster entry whose nickname
    is [string], with its index in the roster, and [(-1, None)] when no
    member has that nickname; it changes nothing. *)
Theorem search_member_finds_first (s : State) (nm : string) :
  wf s ->
  exists i found,
    Group_search_member nm s = (Ok (i, found), s)
    /\ match found with
       | Some m =>
           (0 <= i)%Z /\ roster s !! Z.to_nat i = Some m /\ nickname_of s m = Some nm
           /\ forall j c, j < Z.to_nat i -> roster s !! j = Some c ->
                          nickname_of s c <> Some nm
       | None => i = (-1)%Z /\ forall c, c ∈ roster s -> nickname_of s c <> Some nm
       end.
Proof.
  intros Hwf. unfold Group_search_member, bind, get_group.
  destruct (search_from_spec nm s (g_clients (group s)) 0) as (i & found & Hrun & Hspec).
  { intros c Hc. destruct (wf_live s Hwf c Hc) as (o & _ & _ & _ & -> & _). eauto. }
  exists i, found. split; [done|]. destruct found; [|done].
  by rewrite Z.sub_0_r in Hspec.
Qed.

Lemma search_member_finds_first_witness :
  exists i found, Group_search_member "carol" joined = (Ok (i, found), joined)
                  /\ found = None.
Proof.
  destruct (search_member_finds_first joined "carol" wf_joined) as (i & found & H & Hspec).
  exists i, found. split; [done|].
  assert (E : Group_search_member "carol" joined = (Ok ((-1)%Z, None), joined))
    by (vm_compute; reflexivity).
  congruence.
Defined.

(** *** Who the owner is *)

Lemma Client_is_owner_wf (s : State) (c : nat) :
  wf s -> c ∈ roster s ->
  Client_is_owner c s = (Ok (bool_decide (g_owner (group s) = Some c)), s).
Proof.
  intros Hwf Hc. destruct (wf_live s Hwf c Hc) as (o & _ & _ & _ & Ho & Hg & _).
  destruct (wf_owner s Hwf) as (w & Hw & Hwr).
  destruct (wf_live s Hwf w Hwr) as (ow & _ & _ & _ & How & _).
  rewrite (Client_is_owner_eval s c o w ow Ho Hg Hw How). f_equal. f_equal.
  rewrite Hw. destruct (Nat.eqb_spec (c_socket ow) (c_socket o)) as [E|Hne].
  - assert (w = c) as ->.
    { apply (wf_socket_inj s); [done..|]. unfold socket_of. rewrite How, Ho. cbn. by rewrite E. }
    by rewrite bool_decide_eq_true_2.
  - rewrite bool_decide_eq_false_2; [done|]. intros [= ->]. congruence.
Qed.

(** Property X6.  [is_owner] compares sockets, not objects; in a well-formed group it is
    true of exactly one member of the roster, the one in the [_owner]
    slot. *)
Theorem is_owner_names_the_owner (s : State) :
  wf s ->
  exists w, g_owner (group s) = Some w /\ w ∈ roster s
            /\ forall c, c ∈ roster s ->
                         Client_is_owner c s = (Ok (bool_decide (c = w)), s).
Proof.
  intros Hwf. destruct (wf_owner s Hwf) as (w & Hw & Hwr). exists w.
  split; [done|]. split; [done|]. intros c Hc.
  rewrite (Client_is_owner_wf s c Hwf Hc), Hw. f_equal. f_equal.
  apply bool_decide_ext. split; [by intros [= ->]|by intros ->].
Qed.

Lemma is_owner_names_the_owner_witness :
  exists w, w ∈ roster joined /\ Client_is_owner bob joined = (Ok (bool_decide (bob = w)), joined).
Proof.
  destruct (is_owner_names_the_owner joined wf_joined) as (w & _ & Hw & H).
  exists w. split; [done|]. apply H.
  change (roster joined) with [alice; bob]. apply elem_of_cons. right. by left.
Defined.

(** *** What a transfer of ownership leaves alone *)

Lemma Group_transfer_ownership_eval s w m ow om :
  g_owner (group s) = Some w -> client_objs s !! w = Some ow ->
  client_objs s !! m = Some om -> c_socket ow <> c_socket om ->
  Group_transfer_ownership (PClient m) s
  = (Ok tt, set_group (g_set_owner (Some m))
              (set_client_objs
                 (fun l => alter (c_set_permissions (Some (length (perm_objs s)))) m l)
                 (set_perm_objs (fun l => l ++ [mkPermissions PermissionValues.ALL]) s))).
Proof.
  intros Hw How Hom Hne. unfold Group_transfer_ownership, bind, get_group. rewrite Hw.
  rewrite (slot_eq_client s w m ow om How Hom).
  destruct (Nat.eqb_spec (c_socket ow) (c_socket om)); [done|].
  unfold Permissions_all, Permissions_init. cbn.
  unfold client_at. cbn. rewrite Hom. reflexivity.
Qed.

(** Property X7.  [transfer_ownership] to another member changes that member only: the
    previous owner stops being the owner but keeps its [Permissions] object
    and value, and so does every other member; afterwards [is_owner] is
    true of the new owner and of nobody else. *)
Theorem transfer_changes_the_new_owner_only (s : State) (w m : nat) :
  wf s -> g_owner (group s) = Some w -> m ∈ roster s -> m <> w ->
  let s' := exec (Group_transfer_ownership (PClient m)) s in
  result (Group_transfer_ownership (PClient m)) s = Ok tt
  /\ wf s'
  /\ roster s' = roster s
  /\ (forall c, c <> m -> client_objs s' !! c = client_objs s !! c)
  /\ (forall c, c ∈ roster s -> c <> m -> permission_value s' c = permission_value s c)
  /\ (forall c, c ∈ roster s -> Client_is_owner c s' = (Ok (bool_decide (c = m)), s')).
Proof.
  intros Hwf Hw Hm Hne s'.
  destruct (wf_owner s Hwf) as (w' & Hw' & Hwr). assert (w' = w) as -> by congruence.
  destruct (wf_live s Hwf w Hwr) as (ow & _ & _ & _ & How & _).
  destruct (wf_live s Hwf m Hm) as (om & _ & _ & _ & Hom & _).
  assert (Hsock : c_socket ow <> c_socket om).
  { intros E. apply Hne. apply (wf_socket_inj s); [done..|].
    unfold socket_of. rewrite How, Hom. cbn. by rewrite E. }
  pose proof (Group_transfer_ownership_eval s w m ow om Hw How Hom Hsock) as E.
  assert (Hwf' : wf s').
  { apply (Group_transfer_ownership_wf s m); [done|done|]. subst s'. unfold exec.
    by rewrite E. }
  assert (Hro : roster s' = roster s) by (subst s'; unfold exec; by rewrite E).
  assert (Hgo : g_owner (group s') = Some m) by (subst s'; unfold exec; by rewrite E).
  assert (Hother : forall c, c <> m -> client_objs s' !! c = client_objs s !! c).
  { intros c Hc. subst s'. unfold exec. rewrite E. cbn. by rewrite list_lookup_alter_ne. }
  split; [unfold result; by rewrite E|]. split; [done|]. split; [done|].
  split; [done|]. split.
  - intros c Hc Hcm. destruct (wf_live s Hwf c Hc) as (o & p & x & n & Ho & _ & Hp & Hx & _).
    rewrite (proj2 (permission_value_Some s c (value x))) by (by exists o, p, x).
    apply permission_value_Some. exists o, p, x.
    split; [by rewrite Hother|]. split; [done|]. split; [|done].
    subst s'. unfold exec. rewrite E. cbn. by apply lookup_app_l_Some.
  - intros c Hc. rewrite <- Hro in Hc.
    rewrite (Client_is_owner_wf s' c Hwf' Hc), Hgo. f_equal. f_equal.
    apply bool_decide_ext. split; [by intros [= ->]|by intros ->].
Qed.

Lemma transfer_changes_the_new_owner_only_witness :
  permission_value (exec (Group_transfer_ownership (PClient bob)) joined) alice
  = permission_value joined alice.
Proof.
  assert (Hb : bob ∈ roster joined).
  { change (roster joined) with [alice; bob]. apply elem_of_cons. right. by left. }
  assert (Ha : alice ∈ roster joined).
  { change (roster joined) with [alice; bob]. by left. }
  destruct (transfer_changes_the_new_owner_only joined alice bob wf_joined eq_refl Hb
              ltac:(discriminate)) as (_ & _ & _ & _ & H & _).
  apply H; [exact Ha|discriminate].
Defined.

(** *** A removed member is no longer served *)

Lemma index_of_socket_none s k l : forall n,
  (forall c, c ∈ l -> exists o, client_objs s !! c = Some o /\ c_socket o <> k) ->
  index_of_socket k n l s = (Ok None, s).
Proof.
  induction l as [|x r IH]; intros n Hv; [done|]. cbn [index_of_socket]. unfold bind.
  destruct (Hv x) as (ox & Hox & Hne); [left|]. rewrite (client_at_Some _ _ _ Hox).
  destruct (Nat.eqb_spec (c_socket ox) k); [done|].
  apply IH. intros c Hc. apply Hv. by right.
Qed.

Lemma elem_of_delete_inv {A} (l : list A) i c :
  c ∈ delete i l -> exists j, j <> i /\ l !! j = Some c.
Proof.
  intros [j Hj]%list_elem_of_lookup. destruct (decide (j < i)) as [Hlt|Hge].
  - exists j. split; [lia|]. by rewrite list_lookup_delete_lt in Hj.
  - exists (S j). split; [lia|]. by rewrite list_lookup_delete_ge in Hj by lia.
Qed.

Lemma after_kill_misses s i m o k :
  wf s -> roster s !! i = Some m -> client_objs s !! m = Some o -> c_socket o = k ->
  forall c, c ∈ roster (after_kill i m s) ->
            exists oc, client_objs (after_kill i m s) !! c = Some oc /\ c_socket oc <> k.
Proof.
  intros Hwf Hi Ho Hk c Hc. change (roster (after_kill i m s)) with (delete i (roster s)) in Hc.
  apply elem_of_delete_inv in Hc as (j & Hji & Hj).
  assert (Hcr : c ∈ roster s) by (by eapply list_elem_of_lookup_2).
  destruct (wf_live s Hwf c Hcr) as (oc & _ & _ & _ & Hoc & _).
  assert (Hcm : c <> m).
  { intros ->. apply Hji. eapply NoDup_lookup; [|exact Hj|exact Hi].
    apply roster_NoDup. by apply wf_roster_bound. }
  exists oc. split.
  - unfold after_kill. cbn. by rewrite list_lookup_alter_ne.
  - intros E. apply Hcm. apply (wf_socket_inj s); [done|done| |].
    + by eapply list_elem_of_lookup_2.
    + unfold socket_of. rewrite Hoc, Ho. cbn. congruence.
Qed.

(** *** Nicknames *)

Lemma nickname_taken_spec v s l :
  (forall c, c ∈ l -> is_Some (client_objs s !! c)) ->
  exists b, nickname_taken v l s = (Ok b, s)
            /\ (b = true <-> exists d, d ∈ l /\ nickname_of s d = Some v).
Proof.
  induction l as [|x r IH]; intros Hv; cbn [nickname_taken].
  - exists false. split; [done|]. split; [done|]. intros (d & Hd & _). by apply elem_of_nil in Hd.
  - destruct (Hv x) as [ox Hox]; [left|]. unfold bind. rewrite (client_at_Some _ _ _ Hox).
    destruct (decide (c_nickname ox = Some v)) as [E|Hne].
    + exists true. split; [done|]. split; [|done]. intros _. exists x.
      split; [left|]. by rewrite (nickname_of_Some _ _ _ Hox).
    + destruct IH as (b & Hrun & Hb); [intros c Hc; apply Hv; by right|].
      exists b. split; [done|]. rewrite Hb. split.
      * intros (d & Hd & Hn). exists d. split; [by right|done].
      * intros (d & [->|Hd]%elem_of_cons & Hn).
        -- by rewrite (nickname_of_Some _ _ _ Hox) in Hn.
        -- by exists d.
Qed.

Lemma Client_set_nickname_cases s c v o :
  wf s -> c ∈ roster s -> client_objs s !! c = Some o ->
  v <> "" -> c_nickname o <> Some v ->
  ((exists d, d ∈ roster s /\ nickname_of s d = Some v)
   /\ Client_set_nickname c v s = (Raise Forbidden, s))
  \/ (~ (exists d, d ∈ roster s /\ nickname_of s d = Some v)
      /\ Client_set_nickname c v s
         = (Ok tt, set_client_objs (fun l => alter (c_set_nickname (Some v)) c l) s)).
Proof.
  intros Hwf Hc Ho Hv Hdiff.
  destruct (wf_live s Hwf c Hc) as (o' & _ & _ & _ & Ho' & Hg & _).
  assert (o' = o) as -> by congruence.
  destruct (nickname_taken_spec v s (g_clients (group s))) as (b & Hrun & Hb).
  { intros d Hd. destruct (wf_live s Hwf d Hd) as (od & _ & _ & _ & -> & _). eauto. }
  assert (E : Client_set_nickname c v s
              = if b then (Raise Forbidden, s)
                else (Ok tt, set_client_objs
                               (fun l => alter (c_set_nickname (Some v)) c l) s)).
  { unfold Client_set_nickname. rewrite (proj2 (String.eqb_neq v "") Hv).
    unfold bind at 1. rewrite (client_at_Some _ _ _ Ho).
    rewrite decide_False by done. rewrite Hg.
    unfold bind at 1. unfold get_group.
    unfold bind at 1. rewrite Hrun. by destruct b. }
  rewrite E. destruct b.
  - left. split; [by apply Hb|done].
  - right. split; [|done]. intros H. apply Hb in H. discriminate.
Qed.

Lemma Client_set_nickname_same s c v o :
  client_objs s !! c = Some o -> v <> "" -> c_nickname o = Some v ->
  Client_set_nickname c v s = (Ok tt, s).
Proof.
  intros Ho Hv Hsame. unfold Client_set_nickname.
  rewrite (proj2 (String.eqb_neq v "") Hv).
  unfold bind at 1. rewrite (client_at_Some _ _ _ Ho). by rewrite decide_True.
Qed.

Lemma nickname_of_set_other s c v d :
  d <> c ->
  nickname_of (set_client_objs (fun l => alter (c_set_nickname (Some v)) c l) s) d
  = nickname_of s d.
Proof. intros H. unfold nickname_of. cbn. by rewrite list_lookup_alter_ne. Qed.

Lemma nickname_of_set_same s c v o :
  client_objs s !! c = Some o ->
  nickname_of (set_client_objs (fun l => alter (c_set_nickname (Some v)) c l) s) c = Some v.
Proof. intros H. unfold nickname_of. cbn. by rewrite list_lookup_alter_eq, H. Qed.

Lemma nick_unique_set s c v o :
  NoDup (roster s) -> nick_unique s -> client_objs s !! c = Some o ->
  ~ (exists d, d ∈ roster s /\ nickname_of s d = Some v) ->
  nick_unique (set_client_objs (fun l => alter (c_set_nickname (Some v)) c l) s).
Proof.
  intros Hnd Hu Ho Hfree i j a b n Hi Hj Ha Hb.
  change (roster s !! i = Some a) in Hi. change (roster s !! j = Some b) in Hj.
  destruct (decide (a = c)) as [->|Hac]; destruct (decide (b = c)) as [->|Hbc].
  - by eapply NoDup_lookup.
  - rewrite (nickname_of_set_same s c v o Ho) in Ha. injection Ha as <-.
    rewrite nickname_of_set_other in Hb by done. exfalso. apply Hfree. exists b.
    split; [by eapply list_elem_of_lookup_2|done].
  - rewrite (nickname_of_set_same s c v o Ho) in Hb. injection Hb as <-.
    rewrite nickname_of_set_other in Ha by done. exfalso. apply Hfree. exists a.
    split; [by eapply list_elem_of_lookup_2|done].
  - rewrite nickname_of_set_other in Ha, Hb by done. by eapply Hu.
Qed.

(** Property X9.  [set_nickname(value)] on a member of a well-formed group whose
    nicknames are all different: it raises [ValueError] on the empty
    string, returns at once when [value] is the nickname the member has,
    raises [Forbidden] exactly when another member holds [value], and
    otherwise makes [value] the nickname.  Nothing else changes, the
    nicknames stay all different, and after a normal return
    [search_member(value)] finds this member. *)
Theorem set_nickname_keeps_nicknames_apart (s : State) (c : nat) (v : string) :
  wf s -> nick_unique s -> c ∈ roster s ->
  let r := result (Client_set_nickname c v) s in
  let s' := exec (Client_set_nickname c v) s in
  nick_unique s'
  /\ (r = Raise ValueError <-> v = "")
  /\ (r = Raise Forbidden <->
      v <> "" /\ exists d, d ∈ roster s /\ d <> c /\ nickname_of s d = Some v)
  /\ (r <> Ok tt -> s' = s)
  /\ (r = Ok tt ->
      nickname_of s' c = Some v
      /\ (forall d, d <> c -> client_objs s' !! d = client_objs s !! d)
      /\ exists i, Group_search_member v s' = (Ok (i, Some c), s')
                   /\ roster s' !! Z.to_nat i = Some c).
Proof.
  intros Hwf Hu Hc r s'.
  destruct (wf_live s Hwf c Hc) as (o & _ & _ & _ & Ho & _).
  assert (Hfound : forall t, wf t -> nick_unique t -> roster t = roster s ->
            nickname_of t c = Some v ->
            exists i, Group_search_member v t = (Ok (i, Some c), t)
                      /\ roster t !! Z.to_nat i = Some c).
  { intros t Hwt Hut Hrt Hnt. unfold Group_search_member, bind, get_group.
    destruct (search_from_spec v t (g_clients (group t)) 0) as (i & found & Hrun & Hspec).
    { intros d Hd. destruct (wf_live t Hwt d Hd) as (od & _ & _ & _ & -> & _). eauto. }
    rewrite Hrun. destruct found as [m|].
    - destruct Hspec as (Hi0 & Hi & Hn & _). rewrite Z.sub_0_r in Hi.
      assert (Hct : c ∈ roster t) by (by rewrite Hrt).
      apply list_elem_of_lookup in Hct as [j Hj].
      assert (Z.to_nat i = j) as Hij by (by eapply (Hut (Z.to_nat i) j m c v)).
      assert (m = c) as ->.
      { rewrite Hij in Hi. change (roster t !! j = Some m) in Hi. congruence. }
      by exists i.
    - destruct Hspec as [_ Hnone]. exfalso. apply (Hnone c); [by rewrite <- Hrt in Hc|done]. }
  subst r s'. unfold result, exec.
  destruct (String.eqb_spec v "") as [->|Hv].
  { assert (E : Client_set_nickname c "" s = (Raise ValueError, s)) by done.
    rewrite E. cbn [fst snd].
    split; [done|]. split; [done|].
    split. { split; [discriminate|]. intros [H _]. by destruct H. }
    split; [done|]. discriminate. }
  destruct (decide (c_nickname o = Some v)) as [Hsame|Hdiff].
  { rewrite (Client_set_nickname_same s c v o Ho Hv Hsame). cbn [fst snd].
    split; [done|]. split; [done|]. split.
    - split; [discriminate|]. intros (_ & d & Hd & Hdc & Hn). exfalso.
      apply list_elem_of_lookup in Hd as [j Hj].
      pose proof Hc as [i Hi]%list_elem_of_lookup.
      apply Hdc. assert (j = i); [|congruence].
      eapply (Hu j i d c v); try done. by rewrite (nickname_of_Some _ _ _ Ho).
    - split; [done|]. intros _. split; [by rewrite (nickname_of_Some _ _ _ Ho)|].
      split; [done|]. apply Hfound; try done. by rewrite (nickname_of_Some _ _ _ Ho). }
  destruct (Client_set_nickname_cases s c v o Hwf Hc Ho Hv Hdiff)
    as [[(d & Hd & Hn) E]|[Hfree E]]; rewrite E; cbn [fst snd].
  { split; [done|]. split; [done|]. split.
    - split; [|done]. intros _. split; [done|]. exists d. split; [done|]. split; [|done].
      intros ->. rewrite (nickname_of_Some _ _ _ Ho) in Hn. done.
    - split; [done|]. discriminate. }
  pose proof (nick_unique_set s c v o (roster_NoDup s (wf_roster_bound s Hwf)) Hu Ho Hfree)
    as Hu'.
  split; [done|]. split; [done|]. split.
  - split; [discriminate|]. intros (_ & d & Hd & _ & Hn). exfalso. apply Hfree. by exists d.
  - split; [done|]. intros _. split; [by apply (nickname_of_set_same s c v o)|].
    split. { intros d Hd. cbn. by rewrite list_lookup_alter_ne. }
    apply Hfound; try done.
    + by apply (Client_set_nickname_wf s c v).
    + by apply (nickname_of_set_same s c v o).
Qed.

Lemma nick_unique_joined : nick_unique joined.
Proof.
  intros i j a b n Hi Hj Ha Hb. change (roster joined) with [alice; bob] in Hi, Hj.
  destruct i as [|[|i]], j as [|[|j]]; try done; cbn in Hi, Hj;
    injection Hi as <-; injection Hj as <-; vm_compute in Ha, Hb; congruence.
Qed.

Lemma set_nickname_keeps_nicknames_apart_witness :
  nick_unique (exec (Client_set_nickname bob "robert") joined).
Proof.
  apply (set_nickname_keeps_nicknames_apart joined bob "robert" wf_joined nick_unique_joined).
  change (roster joined) with [alice; bob]. apply elem_of_cons. right. by left.
Defined.


(* ================================================================== *)
(** ** The branches of the dispatcher *)
(* ================================================================== *)

(** *** A round, once the member is looked up *)

Lemma handle_round_try sty socket received s :
  handle_round sty socket received s
  = if negb (group_bound s) then (Ok Break, s)
    else match Group_get_index_of socket s with
         | (Raise e, s1) => (Raise e, s1)
         | (Ok None, s1) => (Ok Break, s1)
         | (Ok (Some index), s1) =>
             match g_clients (group s1) !! index with
             | None => (Raise IndexError, s1)
             | Some client => handle_try sty client received s1
             end
         end.
Proof. reflexivity. Qed.

Lemma handle_round_serves sty s socket idx client received :
  wf s -> group_bound s = true ->
  roster s !! idx = Some client -> socket_of s client = Some socket ->
  handle_round sty socket received s = handle_try sty client received s.
Proof.
  intros Hwf Hb Hidx Hsk. rewrite handle_round_try, Hb. cbn [negb].
  rewrite (Group_get_index_of_spec s socket idx client Hwf Hidx Hsk).
  fold (roster s). by rewrite Hidx.
Qed.

Lemma handle_round_body sty s socket idx client message c s' :
  wf s -> group_bound s = true ->
  roster s !! idx = Some client -> socket_of s client = Some socket ->
  handle_body sty client message s = (Ok c, s') ->
  handle_round sty socket (Some message) s = (Ok c, s').
Proof.
  intros Hwf Hb Hidx Hsk E.
  rewrite (handle_round_serves sty s socket idx client _ Hwf Hb Hidx Hsk).
  unfold handle_try. by rewrite E.
Qed.

(** *** Which branch a line takes *)

Lemma dispatch_kick sty client message rest :
  lower (strip message) = ("/kick " ++ rest)%string ->
  handle_body sty client message = do_kick sty client (strip message).
Proof.
  intros H. unfold handle_body. cbv zeta. rewrite H.
  destruct (String.eqb_spec (strip message) "") as [E|_].
  { rewrite E in H. discriminate. }
  reflexivity.
Qed.

Lemma dispatch_ban sty client message rest :
  lower (strip message) = ("/ban " ++ rest)%string ->
  handle_body sty client message = do_ban sty client (strip message).
Proof.
  intros H. unfold handle_body. cbv zeta. rewrite H.
  destruct (String.eqb_spec (strip message) "") as [E|_].
  { rewrite E in H. discriminate. }
  reflexivity.
Qed.

Lemma dispatch_nick sty client message rest :
  lower (strip message) = ("/nick " ++ rest)%string ->
  handle_body sty client message = do_nick sty client (strip message).
Proof.
  intros H. unfold handle_body. cbv zeta. rewrite H.
  destruct (String.eqb_spec (strip message) "") as [E|_].
  { rewrite E in H. discriminate. }
  reflexivity.
Qed.

Lemma dispatch_setowner sty client message rest :
  lower (strip message) = ("/setowner " ++ rest)%string ->
  handle_body sty client message = do_setowner sty client (strip message).
Proof.
  intros H. unfold handle_body. cbv zeta. rewrite H.
  destruct (String.eqb_spec (strip message) "") as [E|_].
  { rewrite E in H. discriminate. }
  reflexivity.
Qed.

(** *** The tests shared by [/kick] and [/ban] *)

Lemma first_with_nickname_unique s nm i i' t t' :
  roster s !! i = Some t -> nickname_of s t = Some nm ->
  (forall j c, j < i -> roster s !! j = Some c -> nickname_of s c <> Some nm) ->
  roster s !! i' = Some t' -> nickname_of s t' = Some nm ->
  (forall j c, j < i' -> roster s !! j = Some c -> nickname_of s c <> Some nm) ->
  i = i' /\ t = t'.
Proof.
  intros Hi Hn Hf Hi' Hn' Hf'.
  assert (i = i') as <-.
  { destruct (Nat.lt_trichotomy i i') as [Hlt|[E|Hgt]]; [|done|].
    - by destruct (Hf' i t Hlt Hi).
    - by destruct (Hf i' t' Hgt Hi'). }
  split; [done|congruence].
Qed.

Lemma search_member_wf s nm :
  wf s -> group_bound s = true ->
  exists i found,
    on_group (Group_search_member nm) s = (Ok (i, found), s)
    /\ match found with
       | Some m =>
           roster s !! Z.to_nat i = Some m /\ nickname_of s m = Some nm
           /\ forall j c, j < Z.to_nat i -> roster s !! j = Some c ->
                          nickname_of s c <> Some nm
       | None => forall c, c ∈ roster s -> nickname_of s c <> Some nm
       end.
Proof.
  intros Hwf Hb. unfold on_group. rewrite Hb. unfold Group_search_member, bind, get_group.
  destruct (search_from_spec nm s (g_clients (group s)) 0) as (i & found & Hrun & Hspec).
  { intros c Hc. destruct (wf_live s Hwf c Hc) as (o & _ & _ & _ & -> & _). eauto. }
  exists i, found. split; [done|]. destruct found as [m|].
  - destruct Hspec as (_ & Hi & Hn & Hf). rewrite Z.sub_0_r in Hi, Hf. done.
  - by destruct Hspec.
Qed.

Lemma mk_value (x : Permissions) : mkPermissions (value x) = x.
Proof. by destruct x. Qed.

Lemma looked_up_cases sty s client oc nm (flag : Permissions -> bool)
      miss m1 m2 m3 (k : nat -> M ctl) :
  wf s -> group_bound s = true -> client ∈ roster s ->
  client_objs s !! client = Some oc ->
  all_space miss = false -> all_space m1 = false ->
  all_space m2 = false -> all_space m3 = false ->
  exists r sf,
    (p <- permissions_of client ;;
     if negb (flag p) then reply client (red sty "Permission denied!")
     else
       found <- on_group (Group_search_member nm) ;;
       match snd found with
       | None => reply client (red sty miss)
       | Some member =>
           r <- target_checks client member m1 m2 m3 ;;
           match r with
           | Some t => reply client (red sty t)
           | None => k member
           end
       end) s = (r, sf)
    /\ ((r = Ok Continue /\ complained sty s sf (c_socket oc)
         /\ ~ exists i target, removal_accepted flag s client nm i target)
        \/ (exists i target, removal_accepted flag s client nm i target
                             /\ k target s = (r, sf))).
Proof.
  intros Hwf Hb Hin Hoc Hmiss Hm1 Hm2 Hm3.
  destruct (wf_live s Hwf client Hin) as (oc' & pc & xc & nc & Hoc' & _ & Hpc & Hxc & _).
  assert (oc' = oc) as -> by congruence. clear Hoc'.
  assert (Hcv : permission_value s client = Some (value xc)).
  { apply permission_value_Some. by exists oc, pc, xc. }
  assert (Hrej : forall msg, all_space msg = false ->
            (~ exists i target, removal_accepted flag s client nm i target) ->
            exists r sf, reply client (red sty msg) s = (r, sf)
              /\ ((r = Ok Continue /\ complained sty s sf (c_socket oc)
                   /\ ~ exists i target, removal_accepted flag s client nm i target)
                  \/ (exists i target, removal_accepted flag s client nm i target
                                       /\ k target s = (r, sf)))).
  { intros msg Hm Hno.
    rewrite (reply_red sty s client oc msg Hoc Hm).
    eexists _, _. split; [reflexivity|]. left. split; [done|]. split; [|done].
    by exists msg. }
  mstep (permissions_of_live s client oc pc xc Hoc Hpc Hxc).
  destruct (flag xc) eqn:Hflag; cbn [negb].
  2:{ apply Hrej; [done|]. intros (i & t & cv & tv & H1 & H2 & _).
      assert (cv = value xc) as -> by congruence. rewrite mk_value in H2. congruence. }
  destruct (search_member_wf s nm Hwf Hb) as (i & found & Hrun & Hspec).
  mstep Hrun. cbn [snd].
  destruct found as [target|].
  2:{ apply Hrej; [done|]. intros (j & t & cv & tv & _ & _ & Hj & Hn & _).
      apply (Hspec t); [by eapply list_elem_of_lookup_2|done]. }
  destruct Hspec as (Hi & Hnick & Hfirst).
  assert (Htin : target ∈ roster s) by (by eapply list_elem_of_lookup_2).
  destruct (wf_live s Hwf target Htin) as (ot & pt & xt & nt & Hot & _ & Hpt & Hxt & _).
  assert (Htv : permission_value s target = Some (value xt)).
  { apply permission_value_Some. by exists ot, pt, xt. }
  pose proof (Client_is_owner_wf s target Hwf Htin) as Hown.
  mstep (target_checks_eval s client target oc ot pc pt xc xt _ m1 m2 m3
           Hoc Hpc Hxc Hot Hpt Hxt Hown).
  assert (Hsame : forall j t, removal_accepted flag s client nm j t ->
                              j = Z.to_nat i /\ t = target).
  { intros j t (cv & tv & _ & _ & Hj & Hn & Hf & _).
    by apply (first_with_nickname_unique s nm j (Z.to_nat i) t target). }
  destruct (Nat.eqb_spec (c_socket oc) (c_socket ot)) as [Hsock|Hsock].
  { apply Hrej; [done|]. intros (j & t & Hacc).
    destruct (Hsame j t Hacc) as [-> ->].
    destruct Hacc as (cv & tv & _ & _ & _ & _ & _ & Hne & _). apply Hne.
    apply (wf_socket_inj s); [done..|]. unfold socket_of. rewrite Hoc, Hot. cbn.
    by rewrite Hsock. }
  destruct (bool_decide (g_owner (group s) = Some target)) eqn:Howner.
  { apply Hrej; [done|]. intros (j & t & Hacc).
    destruct (Hsame j t Hacc) as [-> ->].
    destruct Hacc as (cv & tv & _ & _ & _ & _ & _ & _ & Hno & _). apply Hno.
    by apply bool_decide_eq_true_1 in Howner. }
  destruct (le xt xc) eqn:Hle; cbn [negb].
  2:{ apply Hrej; [done|]. intros (j & t & Hacc).
      destruct (Hsame j t Hacc) as [-> ->].
      destruct Hacc as (cv & tv & H1 & _ & _ & _ & _ & _ & _ & H2 & H3).
      assert (cv = value xc) as -> by congruence.
      assert (tv = value xt) as -> by congruence.
      rewrite !mk_value in H3. congruence. }
  destruct (k target s) as [r sf] eqn:Hk. exists r, sf. split; [done|]. right.
  exists (Z.to_nat i), target. split; [|done].
  exists (value xc), (value xt). rewrite !mk_value.
  split; [done|]. split; [done|]. split; [done|]. split; [done|]. split; [done|].
  split. { intros ->. apply Hsock. congruence. }
  split; [by apply bool_decide_eq_false_1 in Howner|]. done.
Qed.

(** *** Sending *)

Lemma wf_sent f s : wf s -> wf (set_sent f s).
Proof. intros H. by apply (wf_frame s). Qed.

Lemma broadcast_eval message exc s :
  wf s -> group_bound s = true ->
  match exc with Some e => is_Some (client_objs s !! e) | None => True end ->
  all_space message = false ->
  broadcast message exc s
  = (Ok tt, set_sent (fun l => l ++ deliveries s message exc) s).
Proof.
  intros Hwf Hb He Hm. unfold broadcast, on_group. rewrite Hb. unfold bind, get_group.
  rewrite (broadcast_loop_spec message exc (g_clients (group s)) s (wf_live s Hwf) He).
  destruct (String.eqb_spec (strip message) "") as [E|_]; [|done].
  apply strip_empty in E. congruence.
Qed.

Lemma send_eval c o message s :
  client_objs s !! c = Some o -> all_space message = false ->
  Client_send c message s = (Ok tt, set_sent (fun l => l ++ [(c_socket o, message)]) s).
Proof.
  intros Ho Hm. apply send_text; [|done]. intros E. apply strip_empty in E. congruence.
Qed.

Lemma all_space_framed a w b : all_space w = false -> all_space (a ++ w ++ b) = false.
Proof. intros H. rewrite !all_space_append, H. by destruct (all_space a). Qed.

Lemma all_space_tail a w : all_space w = false -> all_space (a ++ w) = false.
Proof. intros H. rewrite all_space_append, H. by destruct (all_space a). Qed.

Lemma red_bold_text sty t : all_space t = false -> all_space (red_bold sty t) = false.
Proof. intros H. unfold red_bold. by apply all_space_tail, all_space_framed. Qed.

Lemma blue_bold_text sty t : all_space t = false -> all_space (blue_bold sty t) = false.
Proof. intros H. unfold blue_bold. by apply all_space_tail, all_space_framed. Qed.

(** *** [/kick] and [/ban] *)

Lemma removal_target s flag client nm i target :
  wf s -> removal_accepted flag s client nm i target ->
  exists ot, client_objs s !! target = Some ot /\ c_nickname ot = Some nm
             /\ target ∈ roster s
             /\ Client_is_owner target s = (Ok false, s).
Proof.
  intros Hwf (cv & tv & _ & _ & Hi & Hn & _ & _ & Hno & _).
  assert (Hin : target ∈ roster s) by (by eapply list_elem_of_lookup_2).
  destruct (wf_live s Hwf target Hin) as (ot & _ & _ & _ & Hot & _).
  exists ot. split; [done|]. split; [by rewrite (nickname_of_Some _ _ _ Hot) in Hn|].
  split; [done|]. rewrite (Client_is_owner_wf s target Hwf Hin).
  by rewrite bool_decide_eq_false_2.
Qed.

Lemma kick_tail sty s client oc nc i target ot nm :
  wf s -> group_bound s = true ->
  client ∈ roster s -> client_objs s !! client = Some oc -> c_nickname oc = Some nc ->
  roster s !! i = Some target -> client_objs s !! target = Some ot ->
  c_nickname ot = Some nm -> target <> client ->
  Client_is_owner target s = (Ok false, s) ->
  (nickname <- nickname_slot target ;;
   Client_send target "/kick" ;;;
   Client_kick target ;;;
   actor <- nickname_slot client ;;
   broadcast (red_bold sty (fmt nickname ++ " was kicked by " ++ fmt actor ++ ".")) None ;;;
   ret Continue) s
  = (Ok Continue,
     set_sent (fun l => l ++ (c_socket ot, "/kick")
                          :: deliveries (after_kill i target s)
                               (red_bold sty (nm ++ " was kicked by " ++ nc ++ ".")) None)
              (after_kill i target s)).
Proof.
  intros Hwf Hb Hin Hoc Hnc Hi Hot Hnm Hne Hown.
  mstep (nickname_slot_eval s target ot Hot). rewrite Hnm. cbn [fmt].
  mstep (send_eval target ot "/kick" s Hot eq_refl).
  set (s0 := set_sent _ s).
  assert (Hwf0 : wf s0) by (by apply wf_sent).
  assert (Hown0 : Client_is_owner target s0 = (Ok false, s0))
    by (by apply (owner_test_sent target false _ s)).
  mstep (Client_kick_spec s0 i target Hwf0 Hi Hown0).
  assert (Hno : g_owner (group s0) <> Some target).
  { apply (not_owner_address s0); [done| |done]. by eapply list_elem_of_lookup_2. }
  pose proof (wf_after_kill s0 i target Hwf0 Hi Hno) as Hwf1.
  set (s1 := after_kill i target s0) in *.
  assert (Hoc1 : client_objs s1 !! client = Some oc).
  { unfold s1, after_kill. cbn. by rewrite list_lookup_alter_ne. }
  mstep (nickname_slot_eval s1 client oc Hoc1). rewrite Hnc. cbn [fmt].
  assert (Htext : all_space (red_bold sty (nm ++ " was kicked by " ++ nc ++ ".")) = false).
  { apply red_bold_text. by apply all_space_framed. }
  mstep (broadcast_eval _ None s1 Hwf1 Hb I Htext).
  unfold ret. f_equal. unfold s1, s0, after_kill, set_sent, set_client_objs, set_group. cbn.
  f_equal. by rewrite <- app_assoc.
Qed.

Lemma ban_tail sty s client oc nc i target ot nm :
  wf s -> group_bound s = true ->
  client ∈ roster s -> client_objs s !! client = Some oc -> c_nickname oc = Some nc ->
  roster s !! i = Some target -> client_objs s !! target = Some ot ->
  c_nickname ot = Some nm -> target <> client ->
  Client_is_owner target s = (Ok false, s) ->
  (nickname <- nickname_slot target ;;
   Client_send target "/ban" ;;;
   Client_ban target ;;;
   actor <- nickname_slot client ;;
   broadcast (red_bold sty (fmt nickname ++ " was banned by " ++ fmt actor ++ ".")) None ;;;
   ret Continue) s
  = (Ok Continue,
     set_sent (fun l => l ++ (c_socket ot, "/ban")
                          :: deliveries (after_kill i target s)
                               (red_bold sty (nm ++ " was banned by " ++ nc ++ ".")) None)
              (set_group (fun g => g_set_bans ({[ c_id ot ]} ∪ g_bans g) g)
                         (after_kill i target s))).
Proof.
  intros Hwf Hb Hin Hoc Hnc Hi Hot Hnm Hne Hown.
  mstep (nickname_slot_eval s target ot Hot). rewrite Hnm. cbn [fmt].
  mstep (send_eval target ot "/ban" s Hot eq_refl).
  set (s0 := set_sent _ s).
  assert (Hwf0 : wf s0) by (by apply wf_sent).
  assert (Hown0 : Client_is_owner target s0 = (Ok false, s0))
    by (by apply (owner_test_sent target false _ s)).
  assert (Hot0 : client_objs s0 !! target = Some ot) by done.
  pose proof (Client_ban_spec s0 i target ot Hwf0 Hi Hown0 Hot0) as Hban.
  mstep Hban.
  assert (Hwf1 : wf (set_group (fun g => g_set_bans ({[ c_id ot ]} ∪ g_bans g) g)
                               (after_kill i target s0))).
  { apply (Client_ban_wf s0 target); [done| |done]. by eapply list_elem_of_lookup_2. }
  set (s1 := set_group _ (after_kill i target s0)) in *.
  assert (Hoc1 : client_objs s1 !! client = Some oc).
  { unfold s1, after_kill. cbn. by rewrite list_lookup_alter_ne. }
  mstep (nickname_slot_eval s1 client oc Hoc1). rewrite Hnc. cbn [fmt].
  assert (Htext : all_space (red_bold sty (nm ++ " was banned by " ++ nc ++ ".")) = false).
  { apply red_bold_text. by apply all_space_framed. }
  mstep (broadcast_eval _ None s1 Hwf1 Hb I Htext).
  unfold ret. f_equal. unfold s1, s0, after_kill, set_sent, set_client_objs, set_group. cbn.
  f_equal. by rewrite <- app_assoc.
Qed.

(** Property X10.  The [/kick] branch.  On a well-formed state a line that lowers to
    [/kick] followed by a space ends the round normally.  When the tests of
    the code pass for the nickname on the line, the target is sent [/kick],
    is removed by [_kill], and the members left who read messages are told;
    nothing else changes.  In every other case the actor is sent one
    complaint and nothing else happens. *)
Theorem kick_line_removes_or_complains
  (sty : Sty) (s : State) (socket idx client : nat) (message rest : string) :
  wf s -> group_bound s = true ->
  roster s !! idx = Some client -> socket_of s client = Some socket ->
  lower (strip message) = ("/kick " ++ rest)%string ->
  let nm := slice_from 6 (strip message) in
  let s' := exec (handle_round sty socket (Some message)) s in
  result (handle_round sty socket (Some message)) s = Ok Continue
  /\ ((complained sty s s' socket
       /\ ~ exists i target, removal_accepted kick_members s client nm i target)
      \/ exists i target tsock actor,
           removal_accepted kick_members s client nm i target
           /\ socket_of s target = Some tsock
           /\ nickname_of s client = Some actor
           /\ s' = set_sent
                     (fun l => l ++ (tsock, "/kick")
                                 :: deliveries (after_kill i target s)
                                      (red_bold sty (nm ++ " was kicked by " ++ actor ++ "."))
                                      None)
                     (after_kill i target s)).
Proof.
  intros Hwf Hb Hidx Hsk Hline nm s'.
  assert (Hin : client ∈ roster s) by (by eapply list_elem_of_lookup_2).
  destruct (wf_live s Hwf client Hin) as (oc & _ & _ & nc & Hoc & _ & _ & _ & Hnc).
  assert (Hk : c_socket oc = socket).
  { unfold socket_of in Hsk. rewrite Hoc in Hsk. by injection Hsk. }
  destruct (looked_up_cases sty s client oc nm kick_members
              "Member not found!"
              "You cannot kick yourself! Please use /quit to quit the group."
              "Cannot kick user as they own the group!"
              "Cannot kick user as they have permissions you do not have!"
              (fun member =>
                 nickname <- nickname_slot member ;;
                 Client_send member "/kick" ;;;
                 Client_kick member ;;;
                 actor <- nickname_slot client ;;
                 broadcast (red_bold sty (fmt nickname ++ " was kicked by "
                                          ++ fmt actor ++ ".")) None ;;;
                 ret Continue)
              Hwf Hb Hin Hoc eq_refl eq_refl eq_refl eq_refl)
    as (r & sf & Hrun & Hcases).
  change (do_kick sty client (strip message) s = (r, sf)) in Hrun.
  assert (Hr : r = Ok Continue /\
               handle_round sty socket (Some message) s = (Ok Continue, sf)).
  { assert (r = Ok Continue) as ->.
    { destruct Hcases as [[-> _]|(i & target & Hacc & Htail)]; [done|].
      destruct (removal_target s _ _ _ _ _ Hwf Hacc) as (ot & Hot & Hnt & Htin & Hown).
      destruct Hacc as (cv & tv & _ & _ & Hi & _ & _ & Hne & _).
      rewrite (kick_tail sty s client oc nc i target ot nm) in Htail by done. congruence. }
    split; [done|]. apply (handle_round_body sty s socket idx client); try done.
    by rewrite (dispatch_kick sty client message rest Hline). }
  destruct Hr as [-> E]. subst s'. unfold result, exec. rewrite E. cbn [fst snd].
  split; [done|]. destruct Hcases as [(_ & Hrej & Hno)|(i & target & Hacc & Htail)].
  - left. by rewrite <- Hk.
  - right. destruct (removal_target s _ _ _ _ _ Hwf Hacc) as (ot & Hot & Hnt & Htin & Hown).
    exists i, target, (c_socket ot), nc. split; [done|].
    split; [unfold socket_of; by rewrite Hot|].
    split; [by rewrite (nickname_of_Some _ _ _ Hoc)|].
    destruct Hacc as (cv & tv & _ & _ & Hi & _ & _ & Hne & _).
    rewrite (kick_tail sty s client oc nc i target ot nm) in Htail by done. congruence.
Qed.

Lemma kick_line_removes_or_complains_witness :
  roster (exec (handle_round ansi 1 (Some "/kick bob")) joined) = [alice].
Proof.
  assert (Hidx : roster joined !! 0 = Some alice) by (vm_compute; reflexivity).
  assert (Hsk : socket_of joined alice = Some 1) by (vm_compute; reflexivity).
  assert (Hline : lower (strip "/kick bob") = ("/kick " ++ "bob")%string)
    by (vm_compute; reflexivity).
  destruct (kick_line_removes_or_complains ansi joined 1 0 alice "/kick bob" "bob"
              wf_joined eq_refl Hidx Hsk Hline) as [_ [[(msg & _ & Hs) _]|H]].
  - exfalso. apply (f_equal roster) in Hs. vm_compute in Hs. discriminate.
  - destruct H as (i & target & tsock & actor & _ & _ & _ & _). vm_compute. reflexivity.
Defined.

(** Property X11.  The [/ban] branch.  As for [/kick], and in the accepting case the
    identity of the target is added to the ban set. *)
Theorem ban_line_removes_or_complains
  (sty : Sty) (s : State) (socket idx client : nat) (message rest : string) :
  wf s -> group_bound s = true ->
  roster s !! idx = Some client -> socket_of s client = Some socket ->
  lower (strip message) = ("/ban " ++ rest)%string ->
  let nm := slice_from 5 (strip message) in
  let s' := exec (handle_round sty socket (Some message)) s in
  result (handle_round sty socket (Some message)) s = Ok Continue
  /\ ((complained sty s s' socket
       /\ ~ exists i target, removal_accepted ban_members s client nm i target)
      \/ exists i target ot actor,
           removal_accepted ban_members s client nm i target
           /\ client_objs s !! target = Some ot
           /\ nickname_of s client = Some actor
           /\ s' = set_sent
                     (fun l => l ++ (c_socket ot, "/ban")
                                 :: deliveries (after_kill i target s)
                                      (red_bold sty (nm ++ " was banned by " ++ actor ++ "."))
                                      None)
                     (set_group (fun g => g_set_bans ({[ c_id ot ]} ∪ g_bans g) g)
                                (after_kill i target s))).
Proof.
  intros Hwf Hb Hidx Hsk Hline nm s'.
  assert (Hin : client ∈ roster s) by (by eapply list_elem_of_lookup_2).
  destruct (wf_live s Hwf client Hin) as (oc & _ & _ & nc & Hoc & _ & _ & _ & Hnc).
  assert (Hk : c_socket oc = socket).
  { unfold socket_of in Hsk. rewrite Hoc in Hsk. by injection Hsk. }
  destruct (looked_up_cases sty s client oc nm ban_members
              "Member not found!"
              "You cannot ban yourself!"
              "Cannot ban user as they own the group!"
              "Cannot ban user as they have permissions you do not have!"
              (fun member =>
                 nickname <- nickname_slot member ;;
                 Client_send member "/ban" ;;;
                 Client_ban member ;;;
                 actor <- nickname_slot client ;;
                 broadcast (red_bold sty (fmt nickname ++ " was banned by "
                                          ++ fmt actor ++ ".")) None ;;;
                 ret Continue)
              Hwf Hb Hin Hoc eq_refl eq_refl eq_refl eq_refl)
    as (r & sf & Hrun & Hcases).
  change (do_ban sty client (strip message) s = (r, sf)) in Hrun.
  assert (Hr : r = Ok Continue /\
               handle_round sty socket (Some message) s = (Ok Continue, sf)).
  { assert (r = Ok Continue) as ->.
    { destruct Hcases as [[-> _]|(i & target & Hacc & Htail)]; [done|].
      destruct (removal_target s _ _ _ _ _ Hwf Hacc) as (ot & Hot & Hnt & Htin & Hown).
      destruct Hacc as (cv & tv & _ & _ & Hi & _ & _ & Hne & _).
      rewrite (ban_tail sty s client oc nc i target ot nm) in Htail by done. congruence. }
    split; [done|]. apply (handle_round_body sty s socket idx client); try done.
    by rewrite (dispatch_ban sty client message rest Hline). }
  destruct Hr as [-> E]. subst s'. unfold result, exec. rewrite E. cbn [fst snd].
  split; [done|]. destruct Hcases as [(_ & Hrej & Hno)|(i & target & Hacc & Htail)].
  - left. by rewrite <- Hk.
  - right. destruct (removal_target s _ _ _ _ _ Hwf Hacc) as (ot & Hot & Hnt & Htin & Hown).
    exists i, target, ot, nc. split; [done|]. split; [done|].
    split; [by rewrite (nickname_of_Some _ _ _ Hoc)|].
    destruct Hacc as (cv & tv & _ & _ & Hi & _ & _ & Hne & _).
    rewrite (ban_tail sty s client oc nc i target ot nm) in Htail by done. congruence.
Qed.

Lemma ban_line_removes_or_complains_witness :
  result (handle_round ansi 1 (Some "/ban bob")) joined = Ok Continue.
Proof.
  assert (Hidx : roster joined !! 0 = Some alice) by (vm_compute; reflexivity).
  assert (Hsk : socket_of joined alice = Some 1) by (vm_compute; reflexivity).
  assert (Hline : lower (strip "/ban bob") = ("/ban " ++ "bob")%string)
    by (vm_compute; reflexivity).
  exact (proj1 (ban_line_removes_or_complains ansi joined 1 0 alice "/ban bob" "bob"
                  wf_joined eq_refl Hidx Hsk Hline)).
Defined.

(** *** [/nick] *)

Lemma alter_same {A} (f : A -> A) (l : list A) i x :
  l !! i = Some x -> f x = x -> alter f i l = l.
Proof.
  intros Hi Hf. apply list_eq. intros j. destruct (decide (i = j)) as [<-|Hne].
  - by rewrite list_lookup_alter_eq, Hi; cbn; rewrite Hf.
  - by rewrite list_lookup_alter_ne.
Qed.

Lemma set_nickname_same_state s c o v :
  client_objs s !! c = Some o -> c_nickname o = Some v ->
  set_client_objs (fun l => alter (c_set_nickname (Some v)) c l) s = s.
Proof.
  intros Ho Hn. destruct s as [ps cs g b src n snt]. unfold set_client_objs. cbn in *.
  f_equal. apply (alter_same _ _ _ o); [done|]. destruct o. cbn in *. by rewrite Hn.
Qed.

Lemma try_set_nickname s c v o :
  wf s -> c ∈ roster s -> client_objs s !! c = Some o -> v <> "" ->
  (c_nickname o = Some v \/ forall d, d ∈ roster s -> nickname_of s d <> Some v) ->
  try_except (Client_set_nickname c v ;;; ret true) Forbidden (ret false) s
  = (Ok true, set_client_objs (fun l => alter (c_set_nickname (Some v)) c l) s).
Proof.
  intros Hwf Hc Ho Hv Hfree. unfold try_except, bind.
  destruct (decide (c_nickname o = Some v)) as [Hsame|Hdiff].
  - rewrite (Client_set_nickname_same s c v o Ho Hv Hsame).
    by rewrite (set_nickname_same_state s c o v Ho Hsame).
  - destruct Hfree as [?|Hfree]; [done|].
    destruct (Client_set_nickname_cases s c v o Hwf Hc Ho Hv Hdiff)
      as [[(d & Hd & Hn) _]|[_ E]]; [by destruct (Hfree d Hd)|]. by rewrite E.
Qed.

Lemma try_set_nickname_taken s c v o d :
  wf s -> c ∈ roster s -> client_objs s !! c = Some o -> v <> "" ->
  c_nickname o <> Some v -> d ∈ roster s -> nickname_of s d = Some v ->
  try_except (Client_set_nickname c v ;;; ret true) Forbidden (ret false) s
  = (Ok false, s).
Proof.
  intros Hwf Hc Ho Hv Hdiff Hd Hn. unfold try_except, bind.
  destruct (Client_set_nickname_cases s c v o Hwf Hc Ho Hv Hdiff)
    as [[_ E]|[Hfree _]]; [|destruct Hfree; by exists d].
  rewrite E. by rewrite decide_True.
Qed.

Lemma nick_tail sty s1 client oc old new :
  wf s1 -> group_bound s1 = true -> client_objs s1 !! client = Some oc ->
  (broadcast (blue_bold sty (old ++ " has now changed his nickname to " ++ new ++ "."))
             (Some client) ;;;
   reply client (blue_bold sty ("You have changed your nickname to " ++ new ++ "."))) s1
  = (Ok Continue,
     set_sent (fun l => l ++ deliveries s1
                              (blue_bold sty (old ++ " has now changed his nickname to "
                                              ++ new ++ "."))
                              (Some client)
                      ++ [(c_socket oc, blue_bold sty ("You have changed your nickname to "
                                                      ++ new ++ "."))])
              s1).
Proof.
  intros Hwf Hb Hoc.
  assert (Htext : all_space (blue_bold sty (old ++ " has now changed his nickname to "
                                            ++ new ++ ".")) = false).
  { apply blue_bold_text. by apply all_space_framed. }
  mstep (broadcast_eval _ (Some client) s1 Hwf Hb (ex_intro _ oc Hoc) Htext).
  assert (Htext2 : all_space (blue_bold sty ("You have changed your nickname to "
                                             ++ new ++ ".")) = false).
  { apply blue_bold_text.
    by apply (all_space_framed "" "You have changed your nickname to "). }
  unfold reply. unfold bind at 1.
  match goal with |- context [Client_send client ?m ?t] =>
    assert (Hsend : Client_send client m t
                    = (Ok tt, set_sent (fun l => l ++ [(c_socket oc, m)]) t))
      by (by apply send_eval) end.
  rewrite Hsend. unfold ret, set_sent. cbn. f_equal. f_equal. by rewrite <- app_assoc.
Qed.

(** Property X12.  The [/nick] branch.  On a well-formed state a line that lowers to
    [/nick] followed by a space ends the round normally.  When the actor
    holds [change_nickname] and the new nickname is the actor's own or that
    of no member, the nickname is set, the other members who read messages
    are told, and the actor is answered; nothing else changes.  In every
    other case the actor is sent one complaint and nothing else happens. *)
Theorem nick_line_renames_or_complains
  (sty : Sty) (s : State) (socket idx client : nat) (message rest : string) :
  wf s -> group_bound s = true ->
  roster s !! idx = Some client -> socket_of s client = Some socket ->
  lower (strip message) = ("/nick " ++ rest)%string ->
  let new := slice_from 6 (strip message) in
  let s' := exec (handle_round sty socket (Some message)) s in
  result (handle_round sty socket (Some message)) s = Ok Continue
  /\ ((complained sty s s' socket /\ ~ rename_accepted s client new)
      \/ exists old,
           rename_accepted s client new
           /\ nickname_of s client = Some old
           /\ let s1 := set_client_objs
                          (fun l => alter (c_set_nickname (Some new)) client l) s in
              nickname_of s1 client = Some new
              /\ s' = set_sent
                        (fun l => l ++ deliveries s1
                                         (blue_bold sty (old ++ " has now changed his nickname to "
                                                         ++ new ++ "."))
                                         (Some client)
                                 ++ [(socket, blue_bold sty ("You have changed your nickname to "
                                                            ++ new ++ "."))])
                        s1).
Proof.
  intros Hwf Hb Hidx Hsk Hline new s'.
  assert (Hin : client ∈ roster s) by (by eapply list_elem_of_lookup_2).
  destruct (wf_live s Hwf client Hin) as (oc & pc & xc & nc & Hoc & _ & Hpc & Hxc & Hnc).
  assert (Hk : c_socket oc = socket).
  { unfold socket_of in Hsk. rewrite Hoc in Hsk. by injection Hsk. }
  assert (Hcv : permission_value s client = Some (value xc)).
  { apply permission_value_Some. by exists oc, pc, xc. }
  assert (Hnick : nickname_of s client = Some nc) by (by rewrite (nickname_of_Some _ _ _ Hoc)).
  set (Post := fun sf : State =>
    (complained sty s sf socket /\ ~ rename_accepted s client new)
    \/ exists old,
         rename_accepted s client new
         /\ nickname_of s client = Some old
         /\ let s1 := set_client_objs
                        (fun l => alter (c_set_nickname (Some new)) client l) s in
            nickname_of s1 client = Some new
            /\ sf = set_sent
                      (fun l => l ++ deliveries s1
                                       (blue_bold sty (old ++ " has now changed his nickname to "
                                                       ++ new ++ "."))
                                       (Some client)
                               ++ [(socket, blue_bold sty ("You have changed your nickname to "
                                                          ++ new ++ "."))])
                      s1).
  assert (Hrej : forall msg, all_space msg = false -> ~ rename_accepted s client new ->
            exists sf, reply client (red sty msg) s = (Ok Continue, sf) /\ Post sf).
  { intros msg Hm Hno. rewrite (reply_red sty s client oc msg Hoc Hm).
    eexists. split; [reflexivity|]. left. split; [|done]. exists msg. by rewrite Hk. }
  assert (Hgoal : exists sf, do_nick sty client (strip message) s = (Ok Continue, sf)
                             /\ Post sf).
  { unfold do_nick. fold new.
    mstep (permissions_of_live s client oc pc xc Hoc Hpc Hxc).
    destruct (change_nickname xc) eqn:Hflag; cbn [negb].
    2:{ apply Hrej; [done|]. intros (cv & H1 & H2 & _).
        assert (cv = value xc) as -> by congruence. rewrite mk_value in H2. congruence. }
    mstep (nickname_slot_eval s client oc Hoc). rewrite Hnc. cbn [fmt].
    destruct (String.eqb_spec new "") as [Hempty|Hnew].
    { apply Hrej; [done|]. by intros (cv & _ & _ & H & _). }
    assert (Happly : (c_nickname oc = Some new
                      \/ forall d, d ∈ roster s -> nickname_of s d <> Some new) ->
              exists sf,
                (changed <- try_except (Client_set_nickname client new ;;; ret true)
                                       Forbidden (ret false) ;;
                 if negb changed
                 then reply client (red sty "Nickname is already taken by someone else!")
                 else
                   broadcast (blue_bold sty (nc ++ " has now changed his nickname to "
                                             ++ new ++ ".")) (Some client) ;;;
                   reply client (blue_bold sty ("You have changed your nickname to "
                                                ++ new ++ "."))) s
                = (Ok Continue, sf) /\ Post sf).
    { intros Hfree.
      pose proof (try_set_nickname s client new oc Hwf Hin Hoc Hnew Hfree) as Htry.
      mstep Htry. cbn [negb].
      set (s1 := set_client_objs (fun l => alter (c_set_nickname (Some new)) client l) s).
      assert (Hwf1 : wf s1).
      { destruct (decide (c_nickname oc = Some new)) as [Hsame|Hdiff].
        - unfold s1. by rewrite (set_nickname_same_state s client oc new Hoc Hsame).
        - destruct Hfree as [?|Hfree]; [done|].
          apply (Client_set_nickname_wf s client new); [done|].
          destruct (Client_set_nickname_cases s client new oc Hwf Hin Hoc Hnew Hdiff)
            as [[(d & Hd & Hn) _]|[_ E]]; [by destruct (Hfree d Hd)|]. exact E. }
      assert (Hoc1 : client_objs s1 !! client = Some (c_set_nickname (Some new) oc)).
      { unfold s1. cbn. by rewrite list_lookup_alter_eq, Hoc. }
      rewrite (nick_tail sty s1 client _ nc new Hwf1 Hb Hoc1).
      eexists. split; [reflexivity|]. right. exists nc. split.
      { exists (value xc). rewrite mk_value. repeat split; try done.
        destruct Hfree as [Hsame|Hfree]; [left|by right].
        by rewrite (nickname_of_Some _ _ _ Hoc). }
      split; [done|]. cbv zeta. fold s1. split.
      - by rewrite (nickname_of_Some _ _ _ Hoc1).
      - cbn [c_socket c_set_nickname]. by rewrite Hk. }
    destruct (decide (c_nickname oc = Some new)) as [Hsame|Hdiff]; [apply Happly; by left|].
    destruct (nickname_taken_spec new s (roster s)) as (b & _ & Htaken).
    { intros d Hd. destruct (wf_live s Hwf d Hd) as (od & _ & _ & _ & -> & _). eauto. }
    destruct b.
    - destruct (proj1 Htaken eq_refl) as (d & Hd & Hn).
      mstep (try_set_nickname_taken s client new oc d Hwf Hin Hoc Hnew Hdiff Hd Hn).
      cbn [negb]. apply Hrej; [done|].
      intros (cv & _ & _ & _ & [Hsame|Hfree]).
      + rewrite (nickname_of_Some _ _ _ Hoc) in Hsame. done.
      + by destruct (Hfree d Hd).
    - apply Happly. right. intros d Hd Hn.
      assert (false = true); [|done]. apply Htaken. by exists d. }
  destruct Hgoal as (sf & Hrun & Hcases).
  assert (E : handle_round sty socket (Some message) s = (Ok Continue, sf)).
  { apply (handle_round_body sty s socket idx client); try done.
    by rewrite (dispatch_nick sty client message rest Hline). }
  subst s'. unfold result, exec. rewrite E. cbn [fst snd]. split; [done|]. exact Hcases.
Qed.

Lemma nick_line_renames_or_complains_witness :
  result (handle_round ansi 2 (Some "/nick robert")) joined = Ok Continue.
Proof.
  assert (Hidx : roster joined !! 1 = Some bob) by (vm_compute; reflexivity).
  assert (Hsk : socket_of joined bob = Some 2) by (vm_compute; reflexivity).
  assert (Hline : lower (strip "/nick robert") = ("/nick " ++ "robert")%string)
    by (vm_compute; reflexivity).
  exact (proj1 (nick_line_renames_or_complains ansi joined 2 1 bob "/nick robert" "robert"
                  wf_joined eq_refl Hidx Hsk Hline)).
Defined.

(** *** [/setowner] *)

(** Property X13.  The [/setowner] branch.  On a well-formed state a line that lowers to
    [/setowner] followed by a space ends the round normally.  When the
    actor is the owner and the nickname on the line is that of another
    member, that member is made the owner with a new all-bits
    [Permissions] object, the other members who read messages are told and
    the new owner is answered; no test is made on permissions.  In every
    other case the actor is sent one complaint and nothing else happens. *)
Theorem setowner_line_hands_over_or_complains
  (sty : Sty) (s : State) (socket idx client : nat) (message rest : string) :
  wf s -> group_bound s = true ->
  roster s !! idx = Some client -> socket_of s client = Some socket ->
  lower (strip message) = ("/setowner " ++ rest)%string ->
  let nm := slice_from 10 (strip message) in
  let s' := exec (handle_round sty socket (Some message)) s in
  result (handle_round sty socket (Some message)) s = Ok Continue
  /\ ((complained sty s s' socket
       /\ ~ exists i target, handover_accepted s client nm i target)
      \/ exists i target tsock,
           handover_accepted s client nm i target
           /\ socket_of s target = Some tsock
           /\ let s1 := after_transfer target s in
              s' = set_sent
                     (fun l => l ++ deliveries s1
                                      (blue_bold sty (nm ++ " is now the new group owner!"))
                                      (Some target)
                              ++ [(tsock, blue_bold sty "You are now the group owner!")])
                     s1).
Proof.
  intros Hwf Hb Hidx Hsk Hline nm s'.
  assert (Hin : client ∈ roster s) by (by eapply list_elem_of_lookup_2).
  destruct (wf_live s Hwf client Hin) as (oc & _ & _ & _ & Hoc & _).
  assert (Hk : c_socket oc = socket).
  { unfold socket_of in Hsk. rewrite Hoc in Hsk. by injection Hsk. }
  set (Post := fun sf : State =>
    (complained sty s sf socket
     /\ ~ exists i target, handover_accepted s client nm i target)
    \/ exists i target tsock,
         handover_accepted s client nm i target
         /\ socket_of s target = Some tsock
         /\ let s1 := after_transfer target s in
            sf = set_sent
                   (fun l => l ++ deliveries s1
                                    (blue_bold sty (nm ++ " is now the new group owner!"))
                                    (Some target)
                            ++ [(tsock, blue_bold sty "You are now the group owner!")])
                   s1).
  assert (Hrej : forall msg, all_space msg = false ->
            (~ exists i target, handover_accepted s client nm i target) ->
            exists sf, reply client (red sty msg) s = (Ok Continue, sf) /\ Post sf).
  { intros msg Hm Hno. rewrite (reply_red sty s client oc msg Hoc Hm).
    eexists. split; [reflexivity|]. left. split; [|done]. exists msg. by rewrite Hk. }
  assert (Hgoal : exists sf, do_setowner sty client (strip message) s = (Ok Continue, sf)
                             /\ Post sf).
  { unfold do_setowner. fold nm.
    mstep (Client_is_owner_wf s client Hwf Hin).
    destruct (bool_decide (g_owner (group s) = Some client)) eqn:Hown; cbn [negb].
    2:{ apply Hrej; [done|]. intros (i & t & Ho & _).
        apply bool_decide_eq_false_1 in Hown. done. }
    apply bool_decide_eq_true_1 in Hown.
    destruct (search_member_wf s nm Hwf Hb) as (i & found & Hrun & Hspec).
    mstep Hrun. cbn [snd]. destruct found as [target|].
    2:{ apply Hrej; [done|]. intros (j & t & _ & Hj & Hn & _).
        apply (Hspec t); [by eapply list_elem_of_lookup_2|done]. }
    destruct Hspec as (Hi & Hnick & Hfirst).
    assert (Htin : target ∈ roster s) by (by eapply list_elem_of_lookup_2).
    destruct (wf_live s Hwf target Htin) as (ot & _ & _ & nt & Hot & _ & _ & _ & Hnt).
    assert (Hsame : forall j t, handover_accepted s client nm j t ->
                                j = Z.to_nat i /\ t = target).
    { intros j t (_ & Hj & Hn & Hf & _).
      by apply (first_with_nickname_unique s nm j (Z.to_nat i) t target). }
    mstep (client_at_Some s client oc Hoc).
    mstep (User_eq_client s (c_socket oc) target ot Hot).
    destruct (Nat.eqb_spec (c_socket oc) (c_socket ot)) as [Hsock|Hsock].
    { apply Hrej; [done|]. intros (j & t & Hacc).
      destruct (Hsame j t Hacc) as [-> ->].
      destruct Hacc as (_ & _ & _ & _ & Hne). apply Hne.
      apply (wf_socket_inj s); [done..|]. unfold socket_of. rewrite Hoc, Hot. cbn.
      by rewrite Hsock. }
    assert (Hne : target <> client) by (intros ->; apply Hsock; congruence).
    assert (Htr : on_group (Group_transfer_ownership (PClient target)) s
                  = (Ok tt, after_transfer target s)).
    { unfold on_group. rewrite Hb.
      apply (Group_transfer_ownership_eval s client target oc ot); done. }
    mstep Htr.
    set (s1 := after_transfer target s).
    assert (Hwf1 : wf s1).
    { apply (Group_transfer_ownership_wf s target); [done|done|].
      apply (Group_transfer_ownership_eval s client target oc ot); done. }
    assert (Hot1 : client_objs s1 !! target
                   = Some (c_set_permissions (Some (length (perm_objs s))) ot)).
    { unfold s1, after_transfer. cbn. by rewrite list_lookup_alter_eq, Hot. }
    mstep (nickname_slot_eval s1 target _ Hot1). cbn [c_nickname c_set_permissions].
    rewrite Hnt. cbn [fmt].
    assert (nt = nm) as ->.
    { rewrite (nickname_of_Some _ _ _ Hot) in Hnick. congruence. }
    assert (Htext : all_space (blue_bold sty (nm ++ " is now the new group owner!")) = false).
    { apply blue_bold_text. by apply all_space_tail. }
    mstep (broadcast_eval _ (Some target) s1 Hwf1 Hb (ex_intro _ _ Hot1) Htext).
    unfold bind at 1.
    match goal with |- context [Client_send target ?m ?t] =>
      assert (Hsend : Client_send target m t
                      = (Ok tt, set_sent (fun l => l ++ [(c_socket ot, m)]) t))
        by (apply (send_eval target _ m t Hot1); by apply blue_bold_text) end.
    rewrite Hsend. eexists. split; [reflexivity|]. right.
    exists (Z.to_nat i), target, (c_socket ot).
    split; [done|]. split; [unfold socket_of; by rewrite Hot|].
    cbv zeta. fold s1. unfold set_sent. cbn. f_equal. by rewrite <- app_assoc. }
  destruct Hgoal as (sf & Hrun & Hcases).
  assert (E : handle_round sty socket (Some message) s = (Ok Continue, sf)).
  { apply (handle_round_body sty s socket idx client); try done.
    by rewrite (dispatch_setowner sty client message rest Hline). }
  subst s'. unfold result, exec. rewrite E. cbn [fst snd]. split; [done|]. exact Hcases.
Qed.

Lemma setowner_line_hands_over_or_complains_witness :
  result (handle_round ansi 1 (Some "/setowner bob")) joined = Ok Continue.
Proof.
  assert (Hidx : roster joined !! 0 = Some alice) by (vm_compute; reflexivity).
  assert (Hsk : socket_of joined alice = Some 1) by (vm_compute; reflexivity).
  assert (Hline : lower (strip "/setowner bob") = ("/setowner " ++ "bob")%string)
    by (vm_compute; reflexivity).
  exact (proj1 (setowner_line_hands_over_or_complains ansi joined 1 0 alice "/setowner bob"
                  "bob" wf_joined eq_refl Hidx Hsk Hline)).
Defined.

(** *** Chat *)

Lemma eqb_no_slash c r w :
  Ascii.eqb "/" c = false -> String.eqb (String c r) (String "/" w) = false.
Proof. intros H. cbn [String.eqb]. by rewrite Ascii.eqb_sym, H. Qed.

Lemma startswith_no_slash c r w :
  Ascii.eqb "/" c = false -> startswith (String "/" w) (String c r) = false.
Proof. intros H. cbn [startswith]. by rewrite H. Qed.

Lemma is_command_no_slash c r w :
  Ascii.eqb "/" c = false -> is_command (String "/" w) (String c r) = false.
Proof.
  intros H. unfold is_command. rewrite append_String.
  by rewrite eqb_no_slash, startswith_no_slash.
Qed.

Lemma dispatch_chat sty client message :
  strip message <> "" ->
  startswith "/" (lower (strip message)) = false \/ lower (strip message) = "/" ->
  handle_body sty client message
  = (p <- permissions_of client ;;
     if send_messages p then
       nick <- nickname_slot client ;;
       match nick with
       | None => raise TypeError
       | Some n =>
           broadcast (fg_blue sty ++ ef_bold sty ++ n ++ ef_rs sty ++ fg_rs sty
                      ++ ": " ++ message) (Some client) ;;;
           ret Continue
       end
     else reply client (red sty "No permission to send messages!")).
Proof.
  intros Hne Hl. unfold handle_body. cbv zeta.
  rewrite (proj2 (String.eqb_neq (strip message) "") Hne).
  destruct Hl as [Hl| ->]; [|reflexivity].
  destruct (lower (strip message)) as [|c r]; [reflexivity|].
  cbn [startswith] in Hl. rewrite andb_true_r in Hl.
  rewrite !is_command_no_slash, !eqb_no_slash, !startswith_no_slash by done.
  reflexivity.
Qed.

(** Property X14.  An ordinary line, one that is not blank and does not begin with a
    slash (or is the slash alone).  On a well-formed state the round ends
    normally.  If the actor holds [send_messages], the line as received,
    with the actor's nickname in front, is sent to the other members who
    read messages, and to nobody else; if not, the actor is sent a
    complaint.  Nothing else changes. *)
Theorem chat_line_reaches_the_other_readers
  (sty : Sty) (s : State) (socket idx client : nat) (message : string) :
  wf s -> group_bound s = true ->
  roster s !! idx = Some client -> socket_of s client = Some socket ->
  strip message <> "" ->
  startswith "/" (lower (strip message)) = false \/ lower (strip message) = "/" ->
  exists cv nick,
    permission_value s client = Some cv
    /\ nickname_of s client = Some nick
    /\ handle_round sty socket (Some message) s
       = (Ok Continue,
          if send_messages (mkPermissions cv)
          then set_sent
                 (fun l => l ++ deliveries s
                                  (fg_blue sty ++ ef_bold sty ++ nick ++ ef_rs sty
                                   ++ fg_rs sty ++ ": " ++ message)
                                  (Some client)) s
          else set_sent
                 (fun l => l ++ [(socket, red sty "No permission to send messages!")]) s).
Proof.
  intros Hwf Hb Hidx Hsk Hne Hl.
  assert (Hin : client ∈ roster s) by (by eapply list_elem_of_lookup_2).
  destruct (wf_live s Hwf client Hin) as (oc & pc & xc & nc & Hoc & _ & Hpc & Hxc & Hnc).
  assert (Hk : c_socket oc = socket).
  { unfold socket_of in Hsk. rewrite Hoc in Hsk. by injection Hsk. }
  exists (value xc), nc. rewrite mk_value.
  split. { apply permission_value_Some. by exists oc, pc, xc. }
  split; [by rewrite (nickname_of_Some _ _ _ Hoc)|].
  apply (handle_round_body sty s socket idx client); try done.
  rewrite (dispatch_chat sty client message Hne Hl).
  mstep (permissions_of_live s client oc pc xc Hoc Hpc Hxc).
  destruct (send_messages xc).
  - mstep (nickname_slot_eval s client oc Hoc). rewrite Hnc.
    assert (Htext : all_space (fg_blue sty ++ ef_bold sty ++ nc ++ ef_rs sty ++ fg_rs sty
                               ++ ": " ++ message) = false).
    { do 5 apply all_space_tail. by apply (all_space_framed "" ": " message). }
    by mstep (broadcast_eval _ (Some client) s Hwf Hb (ex_intro _ oc Hoc) Htext).
  - rewrite (reply_red sty s client oc "No permission to send messages!" Hoc eq_refl).
    by rewrite Hk.
Qed.

Lemma chat_line_reaches_the_other_readers_witness :
  exists cv nick,
    permission_value joined bob = Some cv /\ nickname_of joined bob = Some nick
    /\ result (handle_round ansi 2 (Some "hello ")) joined = Ok Continue.
Proof.
  assert (Hidx : roster joined !! 1 = Some bob) by (vm_compute; reflexivity).
  assert (Hsk : socket_of joined bob = Some 2) by (vm_compute; reflexivity).
  assert (Hne : strip "hello " <> "") by (vm_compute; discriminate).
  assert (Hl : startswith "/" (lower (strip "hello ")) = false \/ lower (strip "hello ") = "/")
    by (left; vm_compute; reflexivity).
  destruct (chat_line_reaches_the_other_readers ansi joined 2 1 bob "hello "
              wf_joined eq_refl Hidx Hsk Hne Hl) as (cv & nick & H1 & H2 & H3).
  exists cv, nick. split; [done|]. split; [done|]. unfold result. by rewrite H3.
Defined.

(** Property X15.  A blank line, one that is empty once stripped, is ignored: the round
    goes on and nothing changes. *)
Theorem blank_line_is_ignored
  (sty : Sty) (s : State) (socket idx client : nat) (message : string) :
  wf s -> group_bound s = true ->
  roster s !! idx = Some client -> socket_of s client = Some socket ->
  all_space message = true ->
  handle_round sty socket (Some message) s = (Ok Continue, s).
Proof.
  intros Hwf Hb Hidx Hsk Hblank.
  apply (handle_round_body sty s socket idx client); try done.
  unfold handle_body. cbv zeta. apply strip_empty in Hblank. by rewrite Hblank.
Qed.

Lemma blank_line_is_ignored_witness :
  handle_round ansi 2 (Some "   ") joined = (Ok Continue, joined).
Proof.
  apply (blank_line_is_ignored ansi joined 2 1 bob "   " wf_joined eq_refl);
    vm_compute; reflexivity.
Defined.

(** *** Leaving: [/quit] and a lost connection *)

Lemma dispatch_quit sty client message :
  lower (strip message) = "/quit" \/ (exists rest, lower (strip message) = ("/quit " ++ rest)%string) ->
  handle_body sty client message
  = (own <- Client_is_owner client ;;
     if own
     then reply client (red sty "You cannot quit the group as you are the owner! Please transfer ownership before quitting.")
     else
       nickname <- nickname_slot client ;;
       Client_send client "/quit" ;;;
       Client_kill client ;;;
       broadcast (red_bold sty (fmt nickname ++ " left the chat!")) None ;;;
       ret Break).
Proof.
  intros H. unfold handle_body. cbv zeta.
  destruct (String.eqb_spec (strip message) "") as [E|_].
  { rewrite E in H. by destruct H as [H|[rest H]]. }
  destruct H as [->|[rest ->]]; reflexivity.
Qed.

Lemma leave_tail sty s idx client oc nc :
  wf s -> group_bound s = true ->
  roster s !! idx = Some client -> client_objs s !! client = Some oc ->
  g_owner (group s) <> Some client ->
  (Client_kill client ;;;
   broadcast (red_bold sty (nc ++ " left the chat!")) None) s
  = (Ok tt,
     set_sent (fun l => l ++ deliveries (after_kill idx client s)
                              (red_bold sty (nc ++ " left the chat!")) None)
              (after_kill idx client s)).
Proof.
  intros Hwf Hb Hidx Hoc Hno.
  destruct (wf_kill_spec s idx client Hwf Hidx) as (o & _ & Hkill).
  mstep Hkill.
  pose proof (wf_after_kill s idx client Hwf Hidx Hno) as Hwf1.
  assert (Htext : all_space (red_bold sty (nc ++ " left the chat!")) = false).
  { apply red_bold_text. by apply all_space_tail. }
  by rewrite (broadcast_eval _ None _ Hwf1 Hb I Htext).
Qed.

(** Property X16.  The [/quit] branch.  The owner cannot quit: the owner is sent a
    complaint and nothing else happens.  Any other member is sent [/quit]
    and removed by [_kill], the members left who read messages are told,
    and the loop of [handle] is left. *)
Theorem quit_line_leaves_or_complains
  (sty : Sty) (s : State) (socket idx client : nat) (message : string) :
  wf s -> group_bound s = true ->
  roster s !! idx = Some client -> socket_of s client = Some socket ->
  lower (strip message) = "/quit" \/ (exists rest, lower (strip message) = ("/quit " ++ rest)%string) ->
  let r := result (handle_round sty socket (Some message)) s in
  let s' := exec (handle_round sty socket (Some message)) s in
  (g_owner (group s) = Some client /\ r = Ok Continue /\ complained sty s s' socket)
  \/ (g_owner (group s) <> Some client /\ r = Ok Break
      /\ exists nick,
           nickname_of s client = Some nick
           /\ s' = set_sent
                     (fun l => l ++ (socket, "/quit")
                                 :: deliveries (after_kill idx client s)
                                      (red_bold sty (nick ++ " left the chat!")) None)
                     (after_kill idx client s)).
Proof.
  intros Hwf Hb Hidx Hsk Hline r s'.
  assert (Hin : client ∈ roster s) by (by eapply list_elem_of_lookup_2).
  destruct (wf_live s Hwf client Hin) as (oc & _ & _ & nc & Hoc & _ & _ & _ & Hnc).
  assert (Hk : c_socket oc = socket).
  { unfold socket_of in Hsk. rewrite Hoc in Hsk. by injection Hsk. }
  pose proof (dispatch_quit sty client message Hline) as Hd.
  destruct (decide (g_owner (group s) = Some client)) as [Hown|Hno].
  - left. split; [done|].
    assert (E : handle_round sty socket (Some message) s
                = (Ok Continue,
                   set_sent (fun l => l ++ [(socket, red sty "You cannot quit the group as you are the owner! Please transfer ownership before quitting.")]) s)).
    { apply (handle_round_body sty s socket idx client); try done. rewrite Hd.
      mstep (Client_is_owner_wf s client Hwf Hin). rewrite bool_decide_eq_true_2 by done.
      rewrite (reply_red sty s client oc _ Hoc); [by rewrite Hk|done]. }
    subst r s'. unfold result, exec. rewrite E. cbn [fst snd]. split; [done|].
    eexists. split; [|reflexivity]. done.
  - right. split; [done|].
    assert (E : handle_round sty socket (Some message) s
                = (Ok Break,
                   set_sent (fun l => l ++ (socket, "/quit")
                                        :: deliveries (after_kill idx client s)
                                             (red_bold sty (nc ++ " left the chat!")) None)
                            (after_kill idx client s))).
    { apply (handle_round_body sty s socket idx client); try done. rewrite Hd.
      mstep (Client_is_owner_wf s client Hwf Hin). rewrite bool_decide_eq_false_2 by done.
      mstep (nickname_slot_eval s client oc Hoc). rewrite Hnc. cbn [fmt].
      mstep (send_eval client oc "/quit" s Hoc eq_refl).
      set (s0 := set_sent _ s).
      assert (Hwf0 : wf s0) by (by apply wf_sent).
      pose proof (leave_tail sty s0 idx client oc nc Hwf0 Hb Hidx Hoc Hno) as Htail.
      unfold bind in Htail |- *. destruct (Client_kill client s0) as [[[]|e] t]; [|done].
      rewrite Htail. unfold ret. f_equal.
      unfold s0, after_kill, set_sent, set_client_objs, set_group. cbn.
      f_equal. rewrite Hk. by rewrite <- app_assoc. }
    subst r s'. unfold result, exec. rewrite E. cbn [fst snd]. split; [done|].
    exists nc. split; [by rewrite (nickname_of_Some _ _ _ Hoc)|done].
Qed.

Lemma quit_line_leaves_or_complains_witness :
  result (handle_round ansi 2 (Some "/quit")) joined = Ok Break.
Proof.
  assert (Hidx : roster joined !! 1 = Some bob) by (vm_compute; reflexivity).
  assert (Hsk : socket_of joined bob = Some 2) by (vm_compute; reflexivity).
  destruct (quit_line_leaves_or_complains ansi joined 2 1 bob "/quit"
              wf_joined eq_refl Hidx Hsk (or_introl eq_refl))
    as [[Hown _]|(_ & H & _)]; [|exact H].
  vm_compute in Hown. discriminate.
Defined.

(** *** Deleting the group: [/delete] and the owner's lost connection *)

Lemma Client_kill_sent m s r s' : Client_kill m s = (r, s') -> sent s' = sent s.
Proof.
  unfold Client_kill, bind, client_at. destruct (client_objs s !! m) as [o|]; [|by intros [= _ <-]].
  destruct (c_group o); [|by intros [= _ <-]]. unfold get_group.
  destruct (list_remove (c_socket o) (g_clients (group s)) s) as [[l|e] t] eqn:Hl.
  - apply list_remove_inv in Hl as [-> _].
    unfold update_group, update_client, modify. by intros [= _ <-].
  - apply list_remove_inv in Hl as [-> _]. by intros [= _ <-].
Qed.

Lemma kill_loop_sent b : forall i s r s', kill_loop b i s = (r, s') -> sent s' = sent s.
Proof.
  induction b as [|b IH]; intros i s r s'; cbn [kill_loop].
  - destruct (g_clients (group s) !! i); by intros [= _ <-].
  - destruct (g_clients (group s) !! i) as [m|]; [|by intros [= _ <-]].
    unfold bind. destruct (Client_kill m s) as [[[]|e] t] eqn:Hk.
    + intros H. rewrite (IH _ _ _ _ H). by apply (Client_kill_sent m s (Ok tt)).
    + intros [= _ <-]. by apply (Client_kill_sent m s (Raise e)).
Qed.

Lemma Group_delete_sent s s' : Group_delete s = (Ok tt, s') -> sent s' = sent s.
Proof.
  set (s0 := set_group (g_set_owner None)
               (set_group (g_set_default_perms None)
                  (set_group (g_set_name None)
                     (set_group (g_set_id 0)
                        (set_group (g_set_is_public false) s))))).
  change (Group_delete s)
    with (match kill_loop (length (roster s0)) 0 s0 with
          | (Ok _, t) => (Ok tt, set_group (g_set_bans ∅) (set_group (g_set_clients []) t))
          | (Raise e, t) => (Raise e, t)
          end).
  destruct (kill_loop (length (roster s0)) 0 s0) as [[[]|e] t] eqn:Hk; [|done].
  intros [= <-]. cbn. by rewrite (kill_loop_sent _ _ _ _ _ Hk).
Qed.

Lemma teardown_eval s :
  wf s -> group_bound s = true ->
  exists s',
    (broadcast "/delete" None ;;; on_group Group_delete ;;;
     modify (set_group_bound false)) s = (Ok tt, s')
    /\ group_bound s' = false /\ roster s' = [] /\ g_bans (group s') = ∅
    /\ sent s' = sent s ++ deliveries s "/delete" None.
Proof.
  intros Hwf Hb.
  mstep (broadcast_eval "/delete" None s Hwf Hb I eq_refl).
  set (s0 := set_sent _ s).
  assert (Hwf0 : wf s0) by (by apply wf_sent).
  destruct (Group_delete_returns s0 Hwf0) as (s1 & Hdel & Hb1).
  assert (Hon : on_group Group_delete s0 = (Ok tt, s1)).
  { unfold on_group. change (group_bound s0) with (group_bound s). by rewrite Hb. }
  mstep Hon. eexists. split; [reflexivity|]. cbn.
  destruct (Group_delete_clears s0 s1 Hdel) as [Hr Hbans].
  split; [done|]. split; [done|]. split; [done|].
  by rewrite (Group_delete_sent s0 s1 Hdel).
Qed.

Lemma dispatch_delete sty client message :
  lower (strip message) = "/delete"
  \/ (exists rest, lower (strip message) = ("/delete " ++ rest)%string) ->
  handle_body sty client message
  = (own <- Client_is_owner client ;;
     if negb own then reply client (red sty "Permission denied!")
     else
       broadcast "/delete" None ;;;
       on_group Group_delete ;;;
       modify (set_group_bound false) ;;;
       ret Break).
Proof.
  intros H. unfold handle_body. cbv zeta.
  destruct (String.eqb_spec (strip message) "") as [E|_].
  { rewrite E in H. by destruct H as [H|[rest H]]. }
  destruct H as [->|[rest ->]]; reflexivity.
Qed.

(** Property X17.  The [/delete] branch.  A member who is not the owner is sent a
    complaint and nothing else happens.  For the owner, [/delete] is sent
    to the members who read messages, the group is deleted, the global
    [group] is set to [None], and the loop of [handle] is left: the roster
    and the ban set end empty. *)
Theorem delete_line_ends_the_group_or_complains
  (sty : Sty) (s : State) (socket idx client : nat) (message : string) :
  wf s -> group_bound s = true ->
  roster s !! idx = Some client -> socket_of s client = Some socket ->
  lower (strip message) = "/delete"
  \/ (exists rest, lower (strip message) = ("/delete " ++ rest)%string) ->
  let r := result (handle_round sty socket (Some message)) s in
  let s' := exec (handle_round sty socket (Some message)) s in
  (g_owner (group s) <> Some client /\ r = Ok Continue /\ complained sty s s' socket)
  \/ (g_owner (group s) = Some client /\ r = Ok Break
      /\ group_bound s' = false /\ roster s' = [] /\ g_bans (group s') = ∅
      /\ sent s' = sent s ++ deliveries s "/delete" None).
Proof.
  intros Hwf Hb Hidx Hsk Hline r s'.
  assert (Hin : client ∈ roster s) by (by eapply list_elem_of_lookup_2).
  destruct (wf_live s Hwf client Hin) as (oc & _ & _ & nc & Hoc & _ & _ & _ & Hnc).
  assert (Hk : c_socket oc = socket).
  { unfold socket_of in Hsk. rewrite Hoc in Hsk. by injection Hsk. }
  pose proof (dispatch_delete sty client message Hline) as Hd.
  destruct (decide (g_owner (group s) = Some client)) as [Hown|Hno].
  - right. split; [done|].
    destruct (teardown_eval s Hwf Hb) as (sf & Hrun & Hfacts).
    assert (E : handle_round sty socket (Some message) s = (Ok Break, sf)).
    { apply (handle_round_body sty s socket idx client); try done. rewrite Hd.
      mstep (Client_is_owner_wf s client Hwf Hin). rewrite bool_decide_eq_true_2 by done.
      cbn [negb]. unfold bind in Hrun |- *.
      destruct (broadcast "/delete" None s) as [[[]|e] t]; [|done].
      destruct (on_group Group_delete t) as [[[]|e] t']; [|done].
      destruct (modify (set_group_bound false) t') as [[[]|e] t'']; [|done].
      by injection Hrun as ->. }
    subst r s'. unfold result, exec. rewrite E. cbn [fst snd]. done.
  - left. split; [done|].
    assert (E : handle_round sty socket (Some message) s
                = (Ok Continue,
                   set_sent (fun l => l ++ [(socket, red sty "Permission denied!")]) s)).
    { apply (handle_round_body sty s socket idx client); try done. rewrite Hd.
      mstep (Client_is_owner_wf s client Hwf Hin). rewrite bool_decide_eq_false_2 by done.
      cbn [negb]. rewrite (reply_red sty s client oc _ Hoc); [by rewrite Hk|done]. }
    subst r s'. unfold result, exec. rewrite E. cbn [fst snd]. split; [done|].
    eexists. split; [|reflexivity]. done.
Qed.

Lemma delete_line_ends_the_group_or_complains_witness :
  roster (exec (handle_round ansi 1 (Some "/delete")) joined) = [].
Proof.
  assert (Hidx : roster joined !! 0 = Some alice) by (vm_compute; reflexivity).
  assert (Hsk : socket_of joined alice = Some 1) by (vm_compute; reflexivity).
  destruct (delete_line_ends_the_group_or_complains ansi joined 1 0 alice "/delete"
              wf_joined eq_refl Hidx Hsk (or_introl eq_refl))
    as [[Hno _]|(_ & _ & _ & H & _)]; [|exact H].
  exfalso. apply Hno. vm_compute. reflexivity.
Defined.

(** Property X18.  A lost connection: [recv] raises, and the [except] clause runs.  The
    round always leaves the loop.  For the owner the group is deleted as by
    [/delete].  Any other member is removed by [_kill] and the members
    left who read messages are told. *)
Theorem lost_connection_removes_the_member_or_the_group
  (sty : Sty) (s : State) (socket idx client : nat) :
  wf s -> group_bound s = true ->
  roster s !! idx = Some client -> socket_of s client = Some socket ->
  let s' := exec (handle_round sty socket None) s in
  result (handle_round sty socket None) s = Ok Break
  /\ ((g_owner (group s) = Some client
       /\ group_bound s' = false /\ roster s' = [] /\ g_bans (group s') = ∅
       /\ sent s' = sent s ++ deliveries s "/delete" None)
      \/ (g_owner (group s) <> Some client
          /\ exists nick,
               nickname_of s client = Some nick
               /\ s' = set_sent
                         (fun l => l ++ deliveries (after_kill idx client s)
                                          (red_bold sty (nick ++ " left the chat!")) None)
                         (after_kill idx client s))).
Proof.
  intros Hwf Hb Hidx Hsk s'.
  assert (Hin : client ∈ roster s) by (by eapply list_elem_of_lookup_2).
  destruct (wf_live s Hwf client Hin) as (oc & _ & _ & nc & Hoc & _ & _ & _ & Hnc).
  pose proof (handle_round_serves sty s socket idx client None Hwf Hb Hidx Hsk) as E.
  assert (Hp : handle_except sty client s
               = (Ok Break,
                  snd (if bool_decide (g_owner (group s) = Some client)
                       then (broadcast "/delete" None ;;; on_group Group_delete ;;;
                             modify (set_group_bound false)) s
                       else (Client_kill client ;;;
                             broadcast (red_bold sty (nc ++ " left the chat!")) None) s))).
  { unfold handle_except, exec. f_equal.
    mstep (nickname_slot_eval s client oc Hoc). rewrite Hnc. cbn [fmt].
    mstep (Client_is_owner_wf s client Hwf Hin).
    by destruct (bool_decide (g_owner (group s) = Some client)). }
  subst s'. unfold result, exec. rewrite E. unfold handle_try. rewrite Hp. cbn [fst snd].
  split; [done|].
  destruct (decide (g_owner (group s) = Some client)) as [Hown|Hno].
  - left. split; [done|]. rewrite bool_decide_eq_true_2 by done.
    destruct (teardown_eval s Hwf Hb) as (sf & Hrun & Hfacts). by rewrite Hrun.
  - right. split; [done|]. rewrite bool_decide_eq_false_2 by done.
    rewrite (leave_tail sty s idx client oc nc Hwf Hb Hidx Hoc Hno). cbn [snd].
    exists nc. split; [by rewrite (nickname_of_Some _ _ _ Hoc)|done].
Qed.

Lemma lost_connection_removes_the_member_or_the_group_witness :
  result (handle_round ansi 2 None) joined = Ok Break.
Proof.
  assert (Hidx : roster joined !! 1 = Some bob) by (vm_compute; reflexivity).
  assert (Hsk : socket_of joined bob = Some 2) by (vm_compute; reflexivity).
  exact (proj1 (lost_connection_removes_the_member_or_the_group ansi joined 2 1 bob
                  wf_joined eq_refl Hidx Hsk)).
Defined.

(** *** [/info] *)

Lemma dispatch_info sty client message :
  lower (strip message) = "/info"
  \/ (exists rest, lower (strip message) = ("/info " ++ rest)%string) ->
  handle_body sty client message
  = (Client_send client ("===============" ++ String "010" "") ;;;
     g <- on_group get_group ;;
     info_lines sty client (g_clients g) ;;;
     reply client ("===============" ++ String "010" (String "010" ""))).
Proof.
  intros H. unfold handle_body. cbv zeta.
  destruct (String.eqb_spec (strip message) "") as [E|_].
  { rewrite E in H. by destruct H as [H|[rest H]]. }
  destruct H as [->|[rest ->]]; reflexivity.
Qed.

Lemma info_lines_eval sty s client oc l :
  wf s -> group_bound s = true -> client_objs s !! client = Some oc ->
  all_space (ef_bold sty) = false ->
  (forall m, m ∈ l -> m ∈ roster s) ->
  forall f,
    info_lines sty client l (set_sent f s)
    = (Ok tt, set_sent (fun x => f x ++ ((fun m => (c_socket oc, info_line sty s m)) <$> l)) s).
Proof.
  intros Hwf Hb Hoc Hbold. induction l as [|m r IH]; intros Hl f.
  - cbn. unfold ret, set_sent. cbn. by rewrite app_nil_r.
  - assert (Hm : m ∈ roster s) by (apply Hl; left).
    destruct (wf_live s Hwf m Hm) as (om & pm & xm & nm & Hom & _ & Hpm & Hxm & Hnm).
    destruct (wf_default s Hwf) as (d & xd & Hd & Hxd).
    set (t := set_sent f s).
    assert (Hwt : wf t) by (by apply wf_sent).
    cbn [info_lines].
    mstep (Client_is_owner_wf t m Hwt Hm). change (group t) with (group s).
    assert (Hline : forall prefix,
              (nick <- nickname_slot m ;;
               match nick with
               | None => raise TypeError
               | Some n =>
                   Client_send client (prefix ++ ef_bold sty ++ n ++ ef_rs sty
                                       ++ String "010" "") ;;;
                   info_lines sty client r
               end) t
              = (Ok tt,
                 set_sent (fun x => f x ++ (c_socket oc,
                                            (prefix ++ ef_bold sty ++ nm ++ ef_rs sty
                                             ++ String "010" "")%string)
                                   :: ((fun m => (c_socket oc, info_line sty s m)) <$> r)) s)).
    { intros prefix. mstep (nickname_slot_eval t m om Hom). rewrite Hnm.
      assert (Htext : all_space (prefix ++ ef_bold sty ++ nm ++ ef_rs sty
                                 ++ String "010" "") = false)
        by (by apply all_space_framed).
      mstep (send_eval client oc _ t Hoc Htext).
      unfold t. rewrite set_sent_set_sent. rewrite IH by (intros; apply Hl; by right).
      unfold set_sent. cbn. f_equal. by rewrite <- app_assoc. }
    assert (Hnick : fmt (nickname_of s m) = nm).
    { by rewrite (nickname_of_Some _ _ _ Hom), Hnm. }
    rewrite fmap_cons.
    destruct (bool_decide (g_owner (group s) = Some m)) eqn:Hown.
    + assert (E : info_line sty s m
                  = (crown sty ++ ef_bold sty ++ nm ++ ef_rs sty ++ String "010" "")%string).
      { unfold info_line. by rewrite Hown, Hnick. }
      rewrite E. unfold bind at 1. unfold ret at 1. apply Hline.
    + assert (Hdv : default_value s = Some (value xd)).
      { unfold default_value. rewrite Hd. cbn. by rewrite Hxd. }
      assert (Hpv : permission_value s m = Some (value xm)).
      { apply permission_value_Some. by exists om, pm, xm. }
      assert (E : info_line sty s m
                  = ((if lt xd xm then star sty else "      ")
                     ++ ef_bold sty ++ nm ++ ef_rs sty ++ String "010" "")%string).
      { unfold info_line. by rewrite Hown, Hnick, Hdv, Hpv, !mk_value. }
      rewrite E.
      unfold bind at 1. unfold bind at 1. unfold on_group, get_group.
      change (group_bound t) with (group_bound s). rewrite Hb.
      change (group t) with (group s). rewrite Hd.
      mstep (permissions_slot_eval t m om Hom). rewrite Hpm. cbn [slot_lt perm_operand].
      unfold Permissions_lt. unfold bind at 1.
      mstep (perm_at_Some t d xd Hxd). mstep (perm_at_Some t pm xm Hxm).
      unfold ret at 1. cbv beta iota. unfold ret at 1. apply Hline.
Qed.

(** Property X19.  The [/info] branch.  With terminal codes that are not blank, the actor
    is sent a rule, one line for each member in roster order, and a closing
    rule; a line bears the crown for the owner and the star for a member
    whose permissions are strictly above the default ones.  Nothing else
    changes. *)
Theorem info_line_lists_the_roster
  (sty : Sty) (s : State) (socket idx client : nat) (message : string) :
  wf s -> group_bound s = true ->
  roster s !! idx = Some client -> socket_of s client = Some socket ->
  all_space (ef_bold sty) = false ->
  lower (strip message) = "/info"
  \/ (exists rest, lower (strip message) = ("/info " ++ rest)%string) ->
  handle_round sty socket (Some message) s
  = (Ok Continue,
     set_sent (fun l => l ++ (socket, ("===============" ++ String "010" "")%string)
                          :: ((fun m => (socket, info_line sty s m)) <$> roster s)
                          ++ [(socket, ("===============" ++ String "010" (String "010" ""))%string)])
              s).
Proof.
  intros Hwf Hb Hidx Hsk Hbold Hline.
  assert (Hin : client ∈ roster s) by (by eapply list_elem_of_lookup_2).
  destruct (wf_live s Hwf client Hin) as (oc & _ & _ & _ & Hoc & _).
  assert (Hk : c_socket oc = socket).
  { unfold socket_of in Hsk. rewrite Hoc in Hsk. by injection Hsk. }
  apply (handle_round_body sty s socket idx client); try done.
  rewrite (dispatch_info sty client message Hline).
  mstep (send_eval client oc ("===============" ++ String "010" "") s Hoc eq_refl).
  unfold bind at 1. unfold on_group at 1. cbn [group_bound set_sent]. rewrite Hb.
  unfold get_group at 1. cbv beta iota.
  unfold bind at 1. cbn [group set_sent].
  rewrite (info_lines_eval sty s client oc (g_clients (group s)) Hwf Hb Hoc Hbold
             (fun m Hm => Hm)).
  unfold reply. unfold bind at 1.
  match goal with |- context [Client_send client ?m ?t] =>
    assert (Hsend : Client_send client m t
                    = (Ok tt, set_sent (fun l => l ++ [(c_socket oc, m)]) t))
      by (by apply send_eval) end.
  rewrite Hsend.
  unfold ret, set_sent. cbn. f_equal. f_equal. rewrite Hk. rewrite <- !app_assoc. done.
Qed.

Lemma info_line_lists_the_roster_witness :
  result (handle_round ansi 2 (Some "/info")) joined = Ok Continue.
Proof.
  assert (Hidx : roster joined !! 1 = Some bob) by (vm_compute; reflexivity).
  assert (Hsk : socket_of joined bob = Some 2) by (vm_compute; reflexivity).
  unfold result.
  by rewrite (info_line_lists_the_roster ansi joined 2 1 bob "/info" wf_joined eq_refl
                Hidx Hsk eq_refl (or_introl eq_refl)).
Defined.

(** *** [/setperms] and shared [Permissions] objects *)

(** Property X20.  An accepted [/setperms] line writes the value into the target's
    [Permissions] object, so it sets the value of every member whose slot
    holds that object (the members made by [add] share the group's default
    object) and of nobody else. *)
Theorem setperms_changes_every_holder_of_the_object
  (sty : Sty) (s : State) (socket idx client target : nat) (message rest : string)
  (v : Z) (ot : Client) :
  wf s -> group_bound s = true ->
  roster s !! idx = Some client -> socket_of s client = Some socket ->
  lower (strip message) = ("/setperms " ++ rest)%string ->
  setperms_accepts s client (strip message) v target ->
  client_objs s !! target = Some ot ->
  let s' := exec (handle_round sty socket (Some message)) s in
  result (handle_round sty socket (Some message)) s = Ok Continue
  /\ roster s' = roster s
  /\ forall m om, m ∈ roster s -> client_objs s !! m = Some om ->
       permission_value s' m
       = if decide (c_permissions om = c_permissions ot) then Some v
         else permission_value s m.
Proof.
  intros Hwf Hb Hidx Hsk Hline Hacc Hot s'.
  destruct Hacc as (cv & tok & more & i & tv & Hcv & Hup & Hsplit & Hint & Hv & Hge
                    & Hsearch & Hne & Hown & Htv & Hle).
  assert (Hin : client ∈ roster s) by (by eapply list_elem_of_lookup_2).
  apply permission_value_Some in Hcv as (oc & pc & xc & Hoc & Hpc & Hxc & <-).
  apply permission_value_Some in Htv as (ot' & pt & xt & Hot' & Hpt & Hxt & <-).
  assert (ot' = ot) as -> by congruence. clear Hot'.
  rewrite mk_value in Hup. rewrite !mk_value in Hle. rewrite mk_value in Hge.
  assert (Htin : target ∈ roster s).
  { unfold Group_search_member, bind, get_group in Hsearch.
    by destruct (search_from_found _ _ _ _ _ _ Hsearch). }
  assert (Hsock : c_socket oc <> c_socket ot).
  { intros E. apply Hne. symmetry. apply (wf_socket_inj s); [done..|].
    unfold socket_of. rewrite Hoc, Hot. cbn. by rewrite E. }
  set (s1 := set_perm_objs (fun l => l ++ [mkPermissions v]) s).
  assert (Hxc1 : perm_objs s1 !! pc = Some xc) by (by apply lookup_app_l_Some).
  assert (Hxt1 : perm_objs s1 !! pt = Some xt) by (by apply lookup_app_l_Some).
  assert (Hq1 : perm_objs s1 !! length (perm_objs s) = Some (mkPermissions v))
    by (by apply list_lookup_middle).
  assert (Hown1 : Client_is_owner target s1 = (Ok false, s1))
    by (by apply (Client_is_owner_frame target s s1)).
  assert (Hlive1 : forall c, c ∈ roster s1 -> live s1 c).
  { intros c Hc. apply (live_frame s s1); [done| |by apply (wf_live s Hwf)].
    intros p [x Hx]. exists x. by apply lookup_app_l_Some. }
  destruct (setperms_tail sty s1 target ot pt xt v Hlive1 Hb Hot Hpt Hxt1 Hown1 Hv)
    as (sf & f & Hrun & Hvf & Hcf & Hgf & Hbf & _ & Hpf).
  assert (E : do_setperms sty client (strip message) s = (Ok Continue, sf)).
  { unfold do_setperms.
    mstep (permissions_of_live s client oc pc xc Hoc Hpc Hxc).
    rewrite Hup. cbn [negb]. rewrite Hsplit, Hint.
    assert (Hr : ((v <? 0)%Z || (v >? PermissionValues.ALL)%Z) = false).
    { unfold PermissionValues.ALL. apply orb_false_iff. split; [lia|].
      destruct (Z.gtb_spec v 255); [lia|done]. }
    rewrite Hr.
    mstep (permissions_slot_eval s client oc Hoc). rewrite Hpc.
    mstep (Permissions_init_eval s v Hv). fold s1.
    mstep (Permissions_ge_eval s1 pc (length (perm_objs s)) xc (mkPermissions v) Hxc1 Hq1).
    rewrite Hge. cbn [negb].
    assert (Hs1 : on_group (Group_search_member
                              (slice_from (11 + len (py_str v)) (strip message))) s1
                  = (Ok (i, Some target), s1)).
    { unfold on_group. change (group_bound s1) with (group_bound s). rewrite Hb.
      by apply (Group_search_member_frame _ s s1). }
    mstep Hs1. cbn [snd].
    mstep (target_checks_pass s1 client target oc ot pc pt xc xt
             "You cannot change yourself permissions!"
             "Owner cannot be changed permissions!"
             "Cannot set these permissions for member as they have permissions you do not have!"
             Hoc Hpc Hxc1 Hot Hpt Hxt1 Hsock Hown1 Hle).
    exact Hrun. }
  assert (E' : handle_round sty socket (Some message) s = (Ok Continue, sf)).
  { apply (handle_round_body sty s socket idx client); try done.
    by rewrite (dispatch_setperms sty client message rest Hline). }
  subst s'. unfold result, exec. rewrite E'. cbn [fst snd].
  split; [done|]. split; [unfold roster; by rewrite Hgf|].
  intros m om Hm Hom.
  apply permission_value_Some in Hvf as (ot2 & pt2 & xt2 & Hot2 & Hpt2 & Hxt2 & Hval).
  rewrite Hcf in Hot2. change (client_objs s1) with (client_objs s) in Hot2.
  assert (ot2 = ot) as -> by congruence. assert (pt2 = pt) as -> by congruence.
  destruct (decide (c_permissions om = c_permissions ot)) as [Hshare|Hown'].
  - apply permission_value_Some. exists om, pt, xt2.
    split; [by rewrite Hcf|]. split; [congruence|]. done.
  - destruct (wf_live s Hwf m Hm) as (om' & pm & xm & _ & Hom' & _ & Hpm & Hxm & _).
    assert (om' = om) as -> by congruence.
    rewrite (proj2 (permission_value_Some s m (value xm))) by (by exists om, pm, xm).
    apply permission_value_Some. exists om, pm, xm.
    split; [by rewrite Hcf|]. split; [done|]. split; [|done].
    apply Hpf; [by apply lookup_app_l_Some|]. congruence.
Qed.

Lemma wf_three : wf three.
Proof.
  split.
  - intros c Hc. change (roster three) with [0; 1; 2] in Hc.
    apply elem_of_cons in Hc as [->|Hc]; [|apply elem_of_cons in Hc as [->|Hc];
      [|apply list_elem_of_singleton in Hc as ->]].
    + eexists _, 0, _, _. split; [vm_compute; reflexivity|]. cbn. split; [done|].
      split; [done|]. split; [|done]. vm_compute. reflexivity.
    + eexists _, 1, _, _. split; [vm_compute; reflexivity|]. cbn. split; [done|].
      split; [done|]. split; [|done]. vm_compute. reflexivity.
    + eexists _, 1, _, _. split; [vm_compute; reflexivity|]. cbn. split; [done|].
      split; [done|]. split; [|done]. vm_compute. reflexivity.
  - change (NoDup [Some 1; Some 2; Some 3]). repeat (apply NoDup_cons; split).
    + intros [H|H]%elem_of_cons; [discriminate|]. by apply list_elem_of_singleton in H.
    + intros H. apply list_elem_of_singleton in H. discriminate.
    + intros H. by apply elem_of_nil in H.
    + apply NoDup_nil_2.
  - exists 1, (mkPermissions 19). split; vm_compute; reflexivity.
  - exists 0. split; [vm_compute; reflexivity|]. change (0 ∈ [0; 1; 2]). by left.
Qed.

Lemma setperms_changes_every_holder_of_the_object_witness :
  permission_value (exec (handle_round ansi 1 (Some "/setperms 7 bob")) three) carol
  = Some 7%Z.
Proof.
  pose proof wf_three as Hwf.
  assert (Hidx : roster three !! 0 = Some alice) by (vm_compute; reflexivity).
  assert (Hsk : socket_of three alice = Some 1) by (vm_compute; reflexivity).
  assert (Hline : lower (strip "/setperms 7 bob") = ("/setperms " ++ "7 bob")%string)
    by (vm_compute; reflexivity).
  assert (Hot : client_objs three !! bob
                = Some (mkClient "bob" 1004 2 (Some the_group) (Some 1) (Some "bob")))
    by (vm_compute; reflexivity).
  assert (Hoc : client_objs three !! carol
                = Some (mkClient "carol" 1006 3 (Some the_group) (Some 1) (Some "carol")))
    by (vm_compute; reflexivity).
  assert (Hacc : setperms_accepts three alice (strip "/setperms 7 bob") 7 bob).
  { exists 255%Z, "7", ["bob"], 1%Z, 19%Z.
    repeat (split; [first [vm_compute; reflexivity | lia | discriminate]|]).
    vm_compute; reflexivity. }
  destruct (setperms_changes_every_holder_of_the_object ansi three 1 0 alice bob
              "/setperms 7 bob" "7 bob" 7 _ Hwf eq_refl Hidx Hsk Hline Hacc Hot)
    as (_ & _ & H).
  rewrite (H carol _ ltac:(apply list_elem_of_lookup; exists 2; vm_compute; reflexivity) Hoc).
  reflexivity.
Defined.


(* ================================================================== *)
(** ** What every round of the dispatcher keeps *)
(* ================================================================== *)

(** *** Rules for [keeps] *)

Lemma keeps_ret {A} I (a : A) : keeps I (ret a).
Proof. by intros s H. Qed.

Lemma keeps_raise {A} I e : keeps I (@raise A e).
Proof. by intros s H. Qed.

Lemma keeps_bind {A B} I (m : M A) (k : A -> M B) :
  keeps I m -> (forall a, keeps I (k a)) -> keeps I (bind m k).
Proof.
  intros Hm Hk s H. unfold bind. specialize (Hm s H).
  destruct (m s) as [[a|e] t]; cbn in *; [by apply Hk|done].
Qed.

Lemma keeps_try {A} I (m h : M A) e :
  keeps I m -> keeps I h -> keeps I (try_except m e h).
Proof.
  intros Hm Hh s H. unfold try_except. specialize (Hm s H).
  destruct (m s) as [[a|e'] t]; cbn in *; [done|].
  destruct (decide (e' = e)); [by apply Hh|done].
Qed.

Lemma keeps_on_group {A} I (m : M A) : keeps I m -> keeps I (on_group m).
Proof. intros Hm s H. unfold on_group. destruct (group_bound s); [by apply Hm|done]. Qed.

(** A method that reads only. *)
Lemma keeps_reads {A} I (m : M A) : (forall s, snd (m s) = s) -> keeps I m.
Proof. intros Hm s H. by rewrite Hm. Qed.

Lemma client_at_reads c s : snd (client_at c s) = s.
Proof. unfold client_at. by destruct (client_objs s !! c). Qed.

Lemma perm_at_reads p s : snd (perm_at p s) = s.
Proof. unfold perm_at. by destruct (perm_objs s !! p). Qed.

Lemma bind_reads {A B} (m : M A) (k : A -> M B) :
  (forall s, snd (m s) = s) -> (forall a s, snd (k a s) = s) ->
  forall s, snd (bind m k s) = s.
Proof.
  intros Hm Hk s. unfold bind. specialize (Hm s).
  destruct (m s) as [[a|e] t]; cbn in *; subst; [apply Hk|done].
Qed.

Ltac reads :=
  repeat first
    [ progress intros
    | apply bind_reads
    | apply client_at_reads
    | apply perm_at_reads
    | reflexivity
    | match goal with
      | |- snd ((if ?b then _ else _) _) = _ => destruct b
      | |- snd ((match ?x with _ => _ end) _) = _ => destruct x
      end ].

Lemma User_eq_reads k x s : snd (User_eq k x s) = s.
Proof. unfold User_eq. reads. Qed.

Lemma slot_eq_reads a x s : snd (slot_eq a x s) = s.
Proof. unfold slot_eq. destruct a; [|done]. apply bind_reads; [apply client_at_reads|].
  intros. apply User_eq_reads. Qed.

Lemma Client_is_owner_reads c s : snd (Client_is_owner c s) = s.
Proof.
  unfold Client_is_owner. apply bind_reads; [apply client_at_reads|]. intros o t.
  destruct (c_group o); [|done]. apply bind_reads; [done|]. intros. apply slot_eq_reads.
Qed.

Lemma permissions_of_reads c s : snd (permissions_of c s) = s.
Proof. unfold permissions_of. reads. Qed.

Lemma permissions_slot_reads c s : snd (permissions_slot c s) = s.
Proof. unfold permissions_slot. reads. Qed.

Lemma nickname_slot_reads c s : snd (nickname_slot c s) = s.
Proof. unfold nickname_slot. reads. Qed.

Lemma Permissions_le_reads a x s : snd (Permissions_le a x s) = s.
Proof. unfold Permissions_le. reads. Qed.

Lemma Permissions_ge_reads a x s : snd (Permissions_ge a x s) = s.
Proof. unfold Permissions_ge. reads. Qed.

Lemma Permissions_lt_reads a x s : snd (Permissions_lt a x s) = s.
Proof. unfold Permissions_lt. reads. Qed.

Lemma slot_le_reads a b s : snd (slot_le a b s) = s.
Proof. unfold slot_le. destruct a; [apply Permissions_le_reads|done]. Qed.

Lemma slot_lt_reads a b s : snd (slot_lt a b s) = s.
Proof. unfold slot_lt. destruct a; [apply Permissions_lt_reads|done]. Qed.

Lemma search_from_reads nm l : forall k s, snd (search_from nm k l s) = s.
Proof.
  induction l as [|x r IH]; intros k s; [done|]. cbn [search_from].
  apply bind_reads; [apply client_at_reads|]. intros o t.
  destruct (decide (c_nickname o = Some nm)); [done|apply IH].
Qed.

Lemma Group_search_member_reads nm s : snd (Group_search_member nm s) = s.
Proof.
  unfold Group_search_member. apply bind_reads; [done|]. intros. apply search_from_reads.
Qed.

Lemma index_of_socket_reads k l : forall n s, snd (index_of_socket k n l s) = s.
Proof.
  induction l as [|x r IH]; intros n s; [done|]. cbn [index_of_socket].
  apply bind_reads; [apply client_at_reads|]. intros o t.
  destruct (c_socket o =? k); [done|apply IH].
Qed.

Lemma Group_get_index_of_reads k s : snd (Group_get_index_of k s) = s.
Proof.
  unfold Group_get_index_of. apply bind_reads; [done|]. intros. apply index_of_socket_reads.
Qed.

Lemma nickname_taken_reads v l : forall s, snd (nickname_taken v l s) = s.
Proof.
  induction l as [|x r IH]; intros s; [done|]. cbn [nickname_taken].
  apply bind_reads; [apply client_at_reads|]. intros o t.
  destruct (decide (c_nickname o = Some v)); [done|apply IH].
Qed.

Lemma target_checks_reads c m m1 m2 m3 s : snd (target_checks c m m1 m2 m3 s) = s.
Proof.
  unfold target_checks. apply bind_reads; [apply client_at_reads|]. intros o t.
  apply bind_reads; [apply User_eq_reads|]. intros same t'. destruct same; [done|].
  apply bind_reads; [apply Client_is_owner_reads|]. intros own t''. destruct own; [done|].
  apply bind_reads; [apply permissions_slot_reads|]. intros mp u.
  apply bind_reads; [apply permissions_slot_reads|]. intros cp u'.
  apply bind_reads; [apply slot_le_reads|]. intros below u''. by destruct (negb below).
Qed.

Lemma list_remove_reads k l : forall s, snd (list_remove k l s) = s.
Proof.
  induction l as [|x r IH]; intros s; [done|]. cbn [list_remove].
  apply bind_reads; [apply client_at_reads|]. intros o t.
  destruct (c_socket o =? k); [done|]. apply bind_reads; [apply IH|done].
Qed.

Create HintDb reads.
#[local] Hint Resolve client_at_reads perm_at_reads User_eq_reads slot_eq_reads
  Client_is_owner_reads permissions_of_reads permissions_slot_reads nickname_slot_reads
  Permissions_le_reads Permissions_ge_reads Permissions_lt_reads slot_le_reads slot_lt_reads
  Group_search_member_reads Group_get_index_of_reads nickname_taken_reads
  target_checks_reads list_remove_reads : reads.

(** *** What every round keeps *)

Section Keeping.

Variable I : State -> Prop.

Hypothesis I_sent : forall f s, I s -> I (set_sent f s).
Hypothesis I_perm_new : forall v s,
  (0 <= v <= 255)%Z -> I s -> I (set_perm_objs (fun l => l ++ [mkPermissions v]) s).
Hypothesis I_perm_write : forall p v s,
  (0 <= v <= 255)%Z -> is_Some (perm_objs s !! p) -> I s ->
  I (set_perm_objs (fun l => <[p := mkPermissions v]> l) s).
Hypothesis I_group : forall f s,
  g_clients (f (group s)) = g_clients (group s) ->
  g_bans (f (group s)) ⊆ g_bans (group s) ->
  I s -> I (set_group f s).
Hypothesis I_ban : forall c, keeps I (Client_ban c).
Hypothesis I_clear : forall s, I s -> I (set_group (g_set_clients []) s).
Hypothesis I_kill : forall c, keeps I (Client_kill c).
Hypothesis I_nick : forall c v, keeps I (Client_set_nickname c v).
Hypothesis I_slot : forall c p s,
  I s -> I (set_client_objs (fun l => alter (c_set_permissions (Some p)) c l) s).
Hypothesis I_unbind : forall s, I s -> I (set_group_bound false s).

Lemma keeps_get_group : keeps I get_group.
Proof. by intros s H. Qed.

Lemma keeps_send c t : keeps I (Client_send c t).
Proof.
  unfold Client_send. destruct (String.eqb (strip t) ""); [apply keeps_ret|].
  apply keeps_bind; [apply keeps_reads, client_at_reads|]. intros o s H. by apply I_sent.
Qed.

Lemma keeps_Permissions_init v : keeps I (Permissions_init v).
Proof.
  unfold Permissions_init. destruct (Z.ltb_spec v 0) as [Hneg|Hlo]; [apply keeps_raise|].
  unfold PermissionValues.ALL. destruct (Z.gtb_spec v 255) as [Hbig|Hhi]; [apply keeps_raise|].
  intros s H. apply I_perm_new; [lia|done].
Qed.

Lemma keeps_Permissions_update p v : keeps I (Permissions_update p v).
Proof.
  unfold Permissions_update. destruct (Z.ltb_spec v 0) as [Hneg|Hlo]; [apply keeps_raise|].
  unfold PermissionValues.ALL. destruct (Z.gtb_spec v 255) as [Hbig|Hhi]; [apply keeps_raise|].
  intros s H. unfold bind, perm_at. destruct (perm_objs s !! p) as [x|] eqn:E; [|done].
  cbn. apply I_perm_write; [lia|by rewrite E|done].
Qed.

Ltac keep_with known :=
  repeat first
    [ known
    | apply keeps_ret
    | apply keeps_raise
    | apply keeps_get_group
    | apply keeps_send
    | apply keeps_Permissions_init
    | apply keeps_Permissions_update
    | apply I_kill
    | apply I_nick
    | solve [apply keeps_reads; intros; auto with reads]
    | apply keeps_on_group
    | apply keeps_try
    | apply keeps_bind; [|intros ?]
    | match goal with
      | |- keeps _ (if ?b then _ else _) => destruct b
      | |- keeps _ (match ?x with _ => _ end) => destruct x
      end ].

Ltac keep := keep_with fail.

Lemma keeps_reply c t : keeps I (reply c t).
Proof. unfold reply. keep. Qed.

Lemma keeps_broadcast_loop message exc l : keeps I (broadcast_loop message exc l).
Proof. induction l as [|c r IH]; cbn [broadcast_loop]; keep. exact IH. Qed.

Lemma keeps_broadcast message exc : keeps I (broadcast message exc).
Proof. unfold broadcast. keep. apply keeps_broadcast_loop. Qed.

Lemma keeps_set_permissions c v : keeps I (Client_set_permissions c v).
Proof. unfold Client_set_permissions. keep. Qed.

Lemma keeps_kick c : keeps I (Client_kick c).
Proof. unfold Client_kick. keep. Qed.

Lemma keeps_transfer x : keeps I (Group_transfer_ownership x).
Proof.
  unfold Group_transfer_ownership. destruct x; keep.
  - intros s H. by apply I_slot.
  - intros s H. apply I_group; [done|cbn; set_solver|done].
Qed.

Lemma keeps_kill_loop b : forall i, keeps I (kill_loop b i).
Proof.
  induction b as [|b IH]; intros i s H; cbn [kill_loop].
  - by destruct (g_clients (group s) !! i).
  - destruct (g_clients (group s) !! i) as [m|]; [|done].
    revert s H. apply keeps_bind; [apply I_kill|]. intros _. apply IH.
Qed.

Lemma keeps_delete : keeps I Group_delete.
Proof.
  unfold Group_delete.
  repeat (apply keeps_bind;
            [intros s H; apply I_group; [done|cbn; set_solver|done]|]; intros _).
  apply keeps_bind; [apply keeps_get_group|]. intros g.
  apply keeps_bind; [apply keeps_kill_loop|]. intros _.
  apply keeps_bind; [intros s H; by apply I_clear|]. intros _.
  intros s H. apply I_group; [done|cbn; set_solver|done].
Qed.

Lemma keeps_info_lines sty c l : keeps I (info_lines sty c l).
Proof. induction l as [|m r IH]; cbn [info_lines]; keep. exact IH. Qed.

Ltac keep_all :=
  keep_with ltac:(first
    [ apply keeps_reply | apply keeps_broadcast | apply keeps_broadcast_loop
    | apply keeps_set_permissions | apply keeps_kick | apply I_ban
    | apply keeps_transfer | apply keeps_delete | apply keeps_info_lines
    | (intros ? ?; apply I_unbind; assumption) ]).

Lemma keeps_do_setperms sty c decoded : keeps I (do_setperms sty c decoded).
Proof. unfold do_setperms. keep_all. Qed.

Lemma keeps_do_kick sty c decoded : keeps I (do_kick sty c decoded).
Proof. unfold do_kick. keep_all. Qed.

Lemma keeps_do_ban sty c decoded : keeps I (do_ban sty c decoded).
Proof. unfold do_ban. keep_all. Qed.

Lemma keeps_do_nick sty c decoded : keeps I (do_nick sty c decoded).
Proof. unfold do_nick. cbv zeta. keep_all. Qed.

Lemma keeps_do_setowner sty c decoded : keeps I (do_setowner sty c decoded).
Proof. unfold do_setowner. keep_all. Qed.

Lemma keeps_handle_body sty c message : keeps I (handle_body sty c message).
Proof.
  unfold handle_body, bare. cbv zeta.
  keep_with ltac:(first
    [ apply keeps_do_nick | apply keeps_do_kick | apply keeps_do_ban
    | apply keeps_do_setperms | apply keeps_do_setowner
    | apply keeps_reply | apply keeps_broadcast | apply keeps_info_lines
    | apply keeps_delete
    | (intros ? ?; apply I_unbind; assumption) ]).
Qed.

Lemma keeps_handle_except sty c : keeps I (handle_except sty c).
Proof.
  intros s H. unfold handle_except, exec. cbn [snd]. revert s H. keep_all.
Qed.

Lemma keeps_handle_round sty socket received : keeps I (handle_round sty socket received).
Proof.
  intros s H. unfold handle_round. destruct (negb (group_bound s)); [done|].
  pose proof (Group_get_index_of_reads socket s) as Hr.
  destruct (Group_get_index_of socket s) as [[[index|]|e] t]; cbn in Hr; subst t; [|done..].
  destruct (g_clients (group s) !! index) as [client|]; [|done].
  destruct received as [message|]; [|by apply keeps_handle_except].
  pose proof (keeps_handle_body sty client message s H) as Hbody.
  destruct (handle_body sty client message s) as [[c|e] t]; cbn in Hbody; [done|].
  by apply keeps_handle_except.
Qed.

End Keeping.

(** *** The shape of what [_kill] and [set_nickname] do *)

Lemma list_remove_sublist k l : forall s l' t,
  list_remove k l s = (Ok l', t) -> l' `sublist_of` l.
Proof.
  induction l as [|x r IH]; intros s l' t; cbn [list_remove]; [done|].
  unfold bind, client_at. destruct (client_objs s !! x) as [o|]; [|done].
  destruct (c_socket o =? k).
  - intros [= <- _]. by apply sublist_cons.
  - destruct (list_remove k r s) as [[l1|e] s1] eqn:E; [|done].
    intros [= <- _]. apply sublist_skip. by eapply IH.
Qed.

Lemma Client_kill_shape c s :
  snd (Client_kill c s) = s
  \/ exists l', l' `sublist_of` roster s
                /\ snd (Client_kill c s)
                   = set_client_objs (fun l => alter killed c l)
                                     (set_group (g_set_clients l') s).
Proof.
  unfold Client_kill, bind, client_at. destruct (client_objs s !! c) as [o|]; [|by left].
  destruct (c_group o); [|by left]. unfold get_group.
  destruct (list_remove (c_socket o) (g_clients (group s)) s) as [[l'|e] t] eqn:E.
  - pose proof (list_remove_sublist _ _ _ _ _ E) as Hsub.
    apply list_remove_inv in E as [-> _]. right. exists l'. split; [done|].
    unfold update_group, update_client, modify, set_client_objs, set_group. cbn.
    f_equal. unfold killed. by rewrite !list_alter_alter_eq.
  - apply list_remove_inv in E as [-> _]. by left.
Qed.

Lemma nickname_taken_false v l : forall s t,
  nickname_taken v l s = (Ok false, t) ->
  forall d, d ∈ l -> nickname_of s d <> Some v.
Proof.
  induction l as [|x r IH]; intros s t H d Hd; [by apply elem_of_nil in Hd|].
  cbn [nickname_taken] in H. unfold bind, client_at in H.
  destruct (client_objs s !! x) as [o|] eqn:Ho; [|done].
  destruct (decide (c_nickname o = Some v)); [done|].
  apply elem_of_cons in Hd as [->|Hd]; [by rewrite (nickname_of_Some _ _ _ Ho)|].
  by eapply IH.
Qed.

Lemma Client_set_nickname_shape c v s :
  snd (Client_set_nickname c v s) = s
  \/ (exists o, client_objs s !! c = Some o)
     /\ (forall d, d ∈ roster s -> nickname_of s d <> Some v)
     /\ v <> ""
     /\ snd (Client_set_nickname c v s)
        = set_client_objs (fun l => alter (c_set_nickname (Some v)) c l) s.
Proof.
  destruct (Client_set_nickname c v s) as [r t] eqn:E. cbn [snd].
  unfold Client_set_nickname in E.
  destruct (String.eqb_spec v "") as [|Hv]; [left; by injection E|].
  unfold bind at 1 in E. unfold client_at in E.
  destruct (client_objs s !! c) as [o|] eqn:Ho; [|left; by injection E].
  destruct (decide (c_nickname o = Some v)); [left; by injection E|].
  destruct (c_group o); [|left; by injection E]. unfold bind at 1 in E. unfold get_group in E.
  unfold bind at 1 in E.
  pose proof (nickname_taken_reads v (g_clients (group s)) s) as Hr.
  destruct (nickname_taken v (g_clients (group s)) s) as [[taken|e] t'] eqn:Et;
    cbn in Hr; subst t'; [|left; by injection E].
  destruct taken; [left; by injection E|]. right. split; [by exists o|].
  split; [exact (nickname_taken_false _ _ _ _ Et)|]. split; [done|].
  by injection E.
Qed.

Lemma Client_ban_shape c s :
  snd (Client_ban c s) = s
  \/ snd (Client_ban c s) = snd (Client_kill c s)
  \/ exists o, client_objs s !! c = Some o
               /\ snd (Client_ban c s)
                  = set_group (fun g => g_set_bans ({[ c_id o ]} ∪ g_bans g) g)
                              (snd (Client_kill c s)).
Proof.
  destruct (Client_ban c s) as [r t] eqn:E. cbn [snd].
  unfold Client_ban in E. unfold bind at 1 in E. unfold client_at in E.
  destruct (client_objs s !! c) as [o|] eqn:Ho; [|left; by injection E].
  unfold bind at 1 in E. unfold Client_kick in E. unfold bind at 1 in E.
  pose proof (Client_is_owner_reads c s) as Hr.
  destruct (Client_is_owner c s) as [[own|e] t'] eqn:Eo; cbn in Hr; subst t';
    [|left; by injection E].
  destruct own; [left; by injection E|].
  destruct (Client_kill c s) as [[[]|e] t'] eqn:Ek; cbn [snd];
    [|right; left; by injection E].
  destruct (c_group o); [|right; left; by injection E].
  right. right. exists o. split; [done|]. by injection E.
Qed.

(** *** Permission values stay in range *)

Lemma perms_in_range_frame s s' :
  perm_objs s' = perm_objs s -> perms_in_range s -> perms_in_range s'.
Proof. intros E H p x. rewrite E. apply H. Qed.

Lemma Client_kill_perms c s : perm_objs (snd (Client_kill c s)) = perm_objs s.
Proof. destruct (Client_kill_shape c s) as [->|(l' & _ & ->)]; done. Qed.

Lemma Client_set_nickname_perms c v s :
  perm_objs (snd (Client_set_nickname c v s)) = perm_objs s.
Proof. destruct (Client_set_nickname_shape c v s) as [->|(_ & _ & _ & ->)]; done. Qed.

(** Property X21.  Every [Permissions] object holds a value in [0..255], whatever a round
    of [handle] receives: [Permissions.__init__] and [update] are the only
    writers of a value, and both refuse a value out of range. *)
Theorem rounds_keep_permission_values_in_range
  (sty : Sty) (socket : nat) (received : option string) (s : State) :
  perms_in_range s -> perms_in_range (exec (handle_round sty socket received) s).
Proof.
  apply (keeps_handle_round perms_in_range); clear s.
  - intros f s. by apply perms_in_range_frame.
  - intros v s Hv H p x Hp. cbn in Hp. apply lookup_app_Some in Hp as [Hp|[_ Hp]].
    + by apply (H p).
    + apply list_lookup_singleton_Some in Hp as [_ <-]. exact Hv.
  - intros p v s Hv _ H q x Hq. cbn in Hq.
    destruct (decide (p = q)) as [<-|Hne].
    + apply list_lookup_insert_Some in Hq as [(_ & <- & _)|[? _]]; [exact Hv|done].
    + rewrite list_lookup_insert_ne in Hq by done. by apply (H q).
  - intros f s _ _. by apply perms_in_range_frame.
  - intros c s. apply perms_in_range_frame.
    destruct (Client_ban_shape c s) as [->|[->|(o & _ & ->)]];
      [done|apply Client_kill_perms..].
  - intros s. by apply perms_in_range_frame.
  - intros c s. apply perms_in_range_frame, Client_kill_perms.
  - intros c v s. apply perms_in_range_frame, Client_set_nickname_perms.
  - intros c p s. by apply perms_in_range_frame.
  - intros s. by apply perms_in_range_frame.
Qed.

Lemma perms_in_range_joined : perms_in_range joined.
Proof.
  intros p x Hp. change (perm_objs joined) with [mkPermissions 255; mkPermissions 19] in Hp.
  destruct p as [|[|p]]; cbn in Hp; [| |done]; injection Hp as <-; cbn;
    unfold PermissionValues.ALL; lia.
Qed.

Lemma rounds_keep_permission_values_in_range_witness :
  perms_in_range (exec (handle_round ansi 1 (Some "/setperms 7 bob")) joined).
Proof.
  apply rounds_keep_permission_values_in_range. exact perms_in_range_joined.
Defined.

(** *** Nicknames stay apart *)

Lemma nicknames_apart_frame s s' :
  roster s' = roster s -> client_objs s' = client_objs s ->
  nicknames_apart s -> nicknames_apart s'.
Proof.
  intros Hr Hc [Hnd Hu]. split; [by rewrite Hr|].
  intros i j a b n. unfold nickname_of. rewrite Hr, Hc. apply Hu.
Qed.

Lemma nicknames_apart_kill c s : nicknames_apart s -> nicknames_apart (snd (Client_kill c s)).
Proof.
  intros [Hnd Hu]. destruct (Client_kill_shape c s) as [->|(l' & Hsub & ->)]; [done|].
  assert (Hnd' : NoDup l') by (eapply sublist_NoDup; eassumption).
  split; [exact Hnd'|].
  intros i j a b n Hi Hj Ha Hb. change (l' !! i = Some a) in Hi. change (l' !! j = Some b) in Hj.
  assert (Hold : forall d, nickname_of (set_client_objs (fun l => alter killed c l)
                                          (set_group (g_set_clients l') s)) d = Some n ->
                           nickname_of s d = Some n).
  { intros d. unfold nickname_of. cbn. destruct (decide (c = d)) as [<-|Hne].
    - rewrite list_lookup_alter_eq. by destruct (client_objs s !! c).
    - by rewrite list_lookup_alter_ne. }
  apply Hold in Ha, Hb.
  assert (Hin : forall d, d ∈ l' -> d ∈ roster s).
  { intros d Hd. by eapply elem_of_sublist. }
  assert (Har : a ∈ roster s) by (apply Hin; by eapply list_elem_of_lookup_2).
  assert (Hbr : b ∈ roster s) by (apply Hin; by eapply list_elem_of_lookup_2).
  apply list_elem_of_lookup in Har as [i' Hi'], Hbr as [j' Hj'].
  assert (i' = j') as <- by (by eapply (Hu i' j' a b n)).
  assert (a = b) as <- by congruence.
  by eapply NoDup_lookup.
Qed.

Lemma nicknames_apart_set_nickname c v s :
  nicknames_apart s -> nicknames_apart (snd (Client_set_nickname c v s)).
Proof.
  intros [Hnd Hu].
  destruct (Client_set_nickname_shape c v s) as [->|([o Ho] & Hfree & _ & ->)]; [done|].
  split; [exact Hnd|]. apply (nick_unique_set s c v o); try done.
  intros (d & Hd & Hn). by apply (Hfree d).
Qed.

(** Property X22.  The nicknames of the roster stay all different, whatever a round of
    [handle] receives: a nickname changes through [set_nickname] only,
    which refuses one that a member holds, and a roster entry goes only
    through [_kill]. *)
Theorem rounds_keep_nicknames_apart
  (sty : Sty) (socket : nat) (received : option string) (s : State) :
  nicknames_apart s -> nicknames_apart (exec (handle_round sty socket received) s).
Proof.
  apply (keeps_handle_round nicknames_apart); clear s.
  - intros f s. by apply nicknames_apart_frame.
  - intros v s _. by apply nicknames_apart_frame.
  - intros p v s _ _. by apply nicknames_apart_frame.
  - intros f s Hf _. by apply nicknames_apart_frame.
  - intros c s H.
    destruct (Client_ban_shape c s) as [->|[->|(o & _ & ->)]];
      [done|by apply nicknames_apart_kill|].
    apply (nicknames_apart_frame (snd (Client_kill c s))); [done..|].
    by apply nicknames_apart_kill.
  - intros s _. split; [apply NoDup_nil_2|]. intros i j a b n Hi. done.
  - intros c s. apply nicknames_apart_kill.
  - intros c v s. apply nicknames_apart_set_nickname.
  - intros c p s [Hnd Hu]. split; [exact Hnd|].
    intros i j a b n Hi Hj Ha Hb. apply (Hu i j a b n Hi Hj).
    + revert Ha. unfold nickname_of. cbn. destruct (decide (c = a)) as [<-|Hne].
      * rewrite list_lookup_alter_eq. by destruct (client_objs s !! c).
      * by rewrite list_lookup_alter_ne.
    + revert Hb. unfold nickname_of. cbn. destruct (decide (c = b)) as [<-|Hne].
      * rewrite list_lookup_alter_eq. by destruct (client_objs s !! c).
      * by rewrite list_lookup_alter_ne.
  - intros s. by apply nicknames_apart_frame.
Qed.

Lemma rounds_keep_nicknames_apart_witness :
  nicknames_apart (exec (handle_round ansi 2 (Some "/nick alice")) joined).
Proof.
  apply rounds_keep_nicknames_apart. split; [|exact nick_unique_joined].
  change (NoDup [alice; bob]). apply NoDup_cons. split; [|apply NoDup_singleton].
  intros H. apply list_elem_of_singleton in H. discriminate.
Defined.

(** *** Identities are never touched *)

Lemma same_identities_refl s : same_identities s s.
Proof. intros c o Ho. by exists o. Qed.

Lemma same_identities_frame s0 s s' :
  client_objs s' = client_objs s -> same_identities s0 s -> same_identities s0 s'.
Proof. intros E H c o Ho. rewrite E. by apply H. Qed.

Lemma same_identities_alter s0 s s' c (f : Client -> Client) :
  (forall o, c_id (f o) = c_id o /\ c_socket (f o) = c_socket o /\ c_name (f o) = c_name o) ->
  client_objs s' = alter f c (client_objs s) ->
  same_identities s0 s -> same_identities s0 s'.
Proof.
  intros Hf E H d o Ho. destruct (H d o Ho) as (o' & Ho' & Hid & Hso & Hna). rewrite E.
  destruct (decide (c = d)) as [<-|Hne].
  - exists (f o'). rewrite list_lookup_alter_eq, Ho'. split; [done|].
    destruct (Hf o') as (-> & -> & ->). done.
  - exists o'. by rewrite list_lookup_alter_ne.
Qed.

(** Property X23.  Whatever a round of [handle] receives, every [Client] object keeps
    its [_id], its [_socket] and its [_name]: the identity a ban records
    and the socket that comparisons use are fixed when the object is
    made. *)
Theorem rounds_keep_identities
  (sty : Sty) (socket : nat) (received : option string) (s : State) :
  same_identities s (exec (handle_round sty socket received) s).
Proof.
  apply (keeps_handle_round (same_identities s)); [..|apply same_identities_refl].
  - intros f t. by apply same_identities_frame.
  - intros v t _. by apply same_identities_frame.
  - intros p v t _ _. by apply same_identities_frame.
  - intros f t _ _. by apply same_identities_frame.
  - intros c t H.
    assert (Hk : same_identities s (snd (Client_kill c t))).
    { destruct (Client_kill_shape c t) as [->|(l' & _ & ->)]; [done|].
      by apply (same_identities_alter s t _ c killed). }
    destruct (Client_ban_shape c t) as [->|[->|(o & _ & ->)]]; [done|done|].
    by apply (same_identities_frame s (snd (Client_kill c t))).
  - intros t. by apply same_identities_frame.
  - intros c t H. destruct (Client_kill_shape c t) as [->|(l' & _ & ->)]; [done|].
    by apply (same_identities_alter s t _ c killed).
  - intros c v t H.
    destruct (Client_set_nickname_shape c v t) as [->|(_ & _ & _ & ->)]; [done|].
    by apply (same_identities_alter s t _ c (c_set_nickname (Some v))).
  - intros c p t. by apply (same_identities_alter s t _ c (c_set_permissions (Some p))).
  - intros t. by apply same_identities_frame.
Qed.

(** *** Identities come from [uuid4] *)

Lemma ids_drawn_frame s s' :
  client_objs s' = client_objs s -> g_bans (group s') ⊆ g_bans (group s) ->
  uuid_src s' = uuid_src s -> uuid_drawn s' = uuid_drawn s ->
  ids_drawn s -> ids_drawn s'.
Proof.
  intros Hc Hb Hs Hd [H1 H2]. unfold ids_drawn, drawn in *. split.
  - intros c o. rewrite Hc, Hs, Hd. apply H1.
  - intros i Hi. rewrite Hs, Hd. apply H2. by apply Hb.
Qed.

Lemma ids_drawn_alter s s' c (f : Client -> Client) :
  (forall o, c_id (f o) = c_id o) ->
  client_objs s' = alter f c (client_objs s) -> g_bans (group s') ⊆ g_bans (group s) ->
  uuid_src s' = uuid_src s -> uuid_drawn s' = uuid_drawn s ->
  ids_drawn s -> ids_drawn s'.
Proof.
  intros Hf Hc Hb Hs Hd [H1 H2]. unfold ids_drawn, drawn in *. split.
  - intros d o. rewrite Hc, Hs, Hd. destruct (decide (c = d)) as [<-|Hne].
    + rewrite list_lookup_alter_eq. destruct (client_objs s !! c) as [o'|] eqn:Ho; [|done].
      intros [= <-]. rewrite Hf. by apply (H1 c).
    + rewrite list_lookup_alter_ne by done. apply H1.
  - intros i Hi. rewrite Hs, Hd. apply H2. by apply Hb.
Qed.

Lemma ids_drawn_kill c s : ids_drawn s -> ids_drawn (snd (Client_kill c s)).
Proof.
  intros H. destruct (Client_kill_shape c s) as [->|(l' & _ & ->)]; [done|].
  by apply (ids_drawn_alter s _ c killed).
Qed.

Lemma Client_kill_uuid c s :
  uuid_src (snd (Client_kill c s)) = uuid_src s
  /\ uuid_drawn (snd (Client_kill c s)) = uuid_drawn s.
Proof. destruct (Client_kill_shape c s) as [->|(l' & _ & ->)]; done. Qed.

(** Property X24.  Whatever a round of [handle] receives, every identity in a [Client]
    object or in the ban set stays one that [uuid4] has given: [ban]
    records the [_id] of a member, and nothing else writes an identity. *)
Theorem rounds_keep_identities_drawn
  (sty : Sty) (socket : nat) (received : option string) (s : State) :
  ids_drawn s -> ids_drawn (exec (handle_round sty socket received) s).
Proof.
  apply (keeps_handle_round ids_drawn); clear s.
  - intros f s. by apply ids_drawn_frame.
  - intros v s _. by apply ids_drawn_frame.
  - intros p v s _ _. by apply ids_drawn_frame.
  - intros f s _ Hb. by apply ids_drawn_frame.
  - intros c s H. pose proof (ids_drawn_kill c s H) as Hk.
    destruct (Client_ban_shape c s) as [->|[->|(o & Ho & ->)]]; [done|done|].
    destruct (Client_kill_uuid c s) as [Hs Hd].
    destruct Hk as [H1 H2]. split; [exact H1|].
    intros i [->%elem_of_singleton|Hi]%elem_of_union; [|by apply H2].
    destruct H as [H _]. destruct (H c o Ho) as (k & Hk & Hv).
    exists k. cbn. rewrite Hs, Hd. by split.
  - intros s. by apply ids_drawn_frame.
  - intros c s. apply ids_drawn_kill.
  - intros c v s H.
    destruct (Client_set_nickname_shape c v s) as [->|(_ & _ & _ & ->)]; [done|].
    by apply (ids_drawn_alter s _ c (c_set_nickname (Some v))).
  - intros c p s. by apply (ids_drawn_alter s _ c (c_set_permissions (Some p))).
  - intros s. by apply ids_drawn_frame.
Qed.

Lemma ids_drawn_joined : ids_drawn joined.
Proof.
  split.
  - intros c o Ho.
    change (client_objs joined)
      with [mkClient "alice" 1001 1 (Some the_group) (Some 0) (Some "alice");
            mkClient "bob" 1004 2 (Some the_group) (Some 1) (Some "bob")] in Ho.
    destruct c as [|[|c]]; cbn in Ho; [| |done]; injection Ho as <-.
    + exists 1. split; [vm_compute; lia|reflexivity].
    + exists 4. split; [vm_compute; lia|reflexivity].
  - intros i Hi. change (g_bans (group joined)) with (∅ : gset Z) in Hi.
    by apply elem_of_empty in Hi.
Qed.

Lemma rounds_keep_identities_drawn_witness :
  ids_drawn (exec (handle_round ansi 1 (Some "/ban bob")) joined).
Proof. apply rounds_keep_identities_drawn. exact ids_drawn_joined. Defined.


(* ================================================================== *)
(** ** The handler of a removed member *)
(* ================================================================== *)

(** *** Messages to one socket *)

Lemma set_sent_ext f g s : f (sent s) = g (sent s) -> set_sent f s = set_sent g s.
Proof. unfold set_sent. by intros ->. Qed.

Lemma answered_refl k s : answered k s s.
Proof.
  exists []. split; [constructor|]. destruct s. unfold set_sent. cbn. by rewrite app_nil_r.
Qed.

Lemma answered_trans k s t u : answered k s t -> answered k t u -> answered k s u.
Proof.
  intros (a & Ha & ->) (b & Hb & ->). exists (a ++ b). split; [by apply Forall_app|].
  rewrite set_sent_set_sent. apply set_sent_ext. by rewrite app_assoc.
Qed.

Lemma answered_one k msg s : answered k s (set_sent (fun l => l ++ [(k, msg)]) s).
Proof. exists [(k, msg)]. split; [by repeat constructor|done]. Qed.

Lemma answered_client k s t c : answered k s t -> client_objs t !! c = client_objs s !! c.
Proof. by intros (a & _ & ->). Qed.

Lemma answers_reads {A} c o (m : M A) : (forall s, snd (m s) = s) -> answers_only c o m.
Proof. intros Hm s _. rewrite Hm. apply answered_refl. Qed.

Lemma answers_bind {A B} c o (m : M A) (f : A -> M B) :
  answers_only c o m -> (forall a, answers_only c o (f a)) -> answers_only c o (bind m f).
Proof.
  intros Hm Hf s Ho. unfold bind. specialize (Hm s Ho).
  destruct (m s) as [[a|e] t]; cbn in *; [|exact Hm].
  eapply answered_trans; [exact Hm|]. apply Hf.
  by rewrite (answered_client _ _ _ c Hm).
Qed.

Lemma answers_send c o msg : answers_only c o (Client_send c msg).
Proof.
  intros s Ho. unfold Client_send. destruct (String.eqb (strip msg) "").
  - apply answered_refl.
  - unfold bind. rewrite (client_at_Some _ _ _ Ho). apply answered_one.
Qed.

Lemma answers_reply c o text : answers_only c o (reply c text).
Proof.
  unfold reply. apply answers_bind; [apply answers_send|]. intros _.
  by apply answers_reads.
Qed.

Lemma on_group_reads {A} (m : M A) :
  (forall s, snd (m s) = s) -> forall s, snd (on_group m s) = s.
Proof. intros Hm s. unfold on_group. by destruct (group_bound s). Qed.

Lemma answers_info_lines sty c o l : answers_only c o (info_lines sty c l).
Proof.
  induction l as [|x r IH]; [by apply answers_reads|]. cbn [info_lines].
  apply answers_bind; [apply answers_reads, Client_is_owner_reads|]. intros own.
  apply answers_bind.
  { apply answers_reads. destruct own; [done|].
    apply bind_reads; [by apply on_group_reads|]. intros g.
    apply bind_reads; [apply permissions_slot_reads|]. intros ps.
    apply bind_reads; [apply slot_lt_reads|]. by intros above. }
  intros prefix. apply answers_bind; [apply answers_reads, nickname_slot_reads|].
  intros [n|]; [|by apply answers_reads].
  apply answers_bind; [apply answers_send|]. intros _. exact IH.
Qed.

(** *** A round on a [Client] object that [_kill] has emptied *)

Lemma answered_raise {A B} k (m : M A) (f : A -> M B) s e :
  m s = (Raise e, s) -> answered k s (snd (bind m f s)).
Proof. intros E. unfold bind. rewrite E. apply answered_refl. Qed.

Section Emptied.

Variable sty : Sty.
Variables (c : loc) (o : Client) (s : State).
Hypothesis Ho : client_objs s !! c = Some o.
Hypothesis Hg : c_group o = None.
Hypothesis Hp : c_permissions o = None.

Lemma emptied_is_owner : Client_is_owner c s = (Raise AttributeError, s).
Proof. unfold Client_is_owner, bind. by rewrite (client_at_Some _ _ _ Ho), Hg. Qed.

Lemma emptied_permissions : permissions_of c s = (Raise AttributeError, s).
Proof. unfold permissions_of, bind. by rewrite (client_at_Some _ _ _ Ho), Hp. Qed.

Lemma emptied_flag (f : Permissions -> bool) :
  (p <- permissions_of c ;; ret (f p)) s = (Raise AttributeError, s).
Proof. unfold bind. by rewrite emptied_permissions. Qed.

Lemma emptied_except : handle_except sty c s = (Ok Break, s).
Proof.
  unfold handle_except, exec. f_equal.
  unfold bind at 1. unfold nickname_slot, bind at 1. rewrite (client_at_Some _ _ _ Ho).
  unfold ret at 1. cbv beta iota. unfold bind at 1. by rewrite emptied_is_owner.
Qed.

Lemma emptied_body message :
  answered (c_socket o) s (snd (handle_body sty c message s)).
Proof.
  unfold handle_body. cbv zeta.
  destruct (String.eqb (strip message) ""); [apply answered_refl|].
  destruct (is_command "/id" _).
  { apply (answers_bind c o); [apply answers_reads, client_at_reads| |exact Ho].
    intros me. apply answers_reply. }
  destruct (is_command "/info" _).
  { apply (answers_bind c o); [apply answers_send| |exact Ho]. intros _.
    apply answers_bind; [by apply answers_reads, on_group_reads|]. intros g.
    apply answers_bind; [apply answers_info_lines|]. intros _. apply answers_reply. }
  destruct (is_command "/quit" _); [apply (answered_raise _ _ _ _ _ emptied_is_owner)|].
  destruct (is_command "/delete" _); [apply (answered_raise _ _ _ _ _ emptied_is_owner)|].
  destruct (String.eqb _ "/nick"); [apply (answered_raise _ _ _ _ _ (emptied_flag _))|].
  destruct (String.eqb _ "/kick"); [apply (answered_raise _ _ _ _ _ (emptied_flag _))|].
  destruct (String.eqb _ "/ban"); [apply (answered_raise _ _ _ _ _ (emptied_flag _))|].
  destruct (String.eqb _ "/setperms"); [apply (answered_raise _ _ _ _ _ (emptied_flag _))|].
  destruct (String.eqb _ "/setowner"); [apply (answered_raise _ _ _ _ _ emptied_is_owner)|].
  destruct (startswith "/nick " _); [apply (answered_raise _ _ _ _ _ emptied_permissions)|].
  destruct (startswith "/kick " _); [apply (answered_raise _ _ _ _ _ emptied_permissions)|].
  destruct (startswith "/ban " _); [apply (answered_raise _ _ _ _ _ emptied_permissions)|].
  destruct (startswith "/setperms " _); [apply (answered_raise _ _ _ _ _ emptied_permissions)|].
  destruct (startswith "/setowner " _); [apply (answered_raise _ _ _ _ _ emptied_is_owner)|].
  destruct (startswith "/" _ && negb (String.eqb _ "/")).
  { by apply (answers_reply c o). }
  apply (answered_raise _ _ _ _ _ emptied_permissions).
Qed.

End Emptied.

Lemma emptied_try sty c o s received :
  client_objs s !! c = Some o -> c_group o = None -> c_permissions o = None ->
  exists r t, handle_try sty c received s = (Ok r, t)
              /\ answered (c_socket o) s t
              /\ (received = None -> r = Break /\ t = s).
Proof.
  intros Ho Hg Hp. unfold handle_try. destruct received as [message|].
  - pose proof (emptied_body sty c o s Ho Hg Hp message) as Hb.
    destruct (handle_body sty c message s) as [[r|e] t]; cbn in Hb.
    + exists r, t. split; [done|]. split; [done|]. intros [=].
    + assert (Ho' : client_objs t !! c = Some o)
        by (by rewrite (answered_client _ _ _ c Hb)).
      rewrite (emptied_except sty c o t Ho' Hg). exists Break, t.
      split; [done|]. split; [done|]. intros [=].
  - rewrite (emptied_except sty c o s Ho Hg). exists Break, s.
    split; [done|]. split; [apply answered_refl|done].
Qed.

(** *** After [kick] and [ban] *)

Lemma get_index_of_after_removal s i m o socket t :
  wf s -> roster s !! i = Some m -> client_objs s !! m = Some o -> c_socket o = socket ->
  client_objs t = client_objs (after_kill i m s) ->
  roster t = roster (after_kill i m s) ->
  Group_get_index_of socket t = (Ok None, t).
Proof.
  intros Hwf Hi Ho Hso Hc Hr. unfold Group_get_index_of, bind, get_group.
  apply index_of_socket_none.
  intros c Hin. change (c ∈ roster t) in Hin. rewrite Hr in Hin. rewrite Hc.
  by apply (after_kill_misses s i m o socket).
Qed.

Lemma no_index_after_removal sty s i m o socket t :
  wf s -> roster s !! i = Some m -> client_objs s !! m = Some o -> c_socket o = socket ->
  client_objs t = client_objs (after_kill i m s) ->
  roster t = roster (after_kill i m s) ->
  group_bound t = true ->
  forall next, handle_round sty socket next t = (Ok Break, t).
Proof.
  intros Hwf Hi Ho Hso Hc Hr Hb next. unfold handle_round. rewrite Hb. cbn [negb].
  by rewrite (get_index_of_after_removal s i m o socket t).
Qed.

Lemma id_text sty (i : Z) : all_space (bold sty ("Your id is " ++ py_str i ++ ".")) = false.
Proof. unfold bold. by apply all_space_framed. Qed.

Lemma emptied_id sty c o s message :
  client_objs s !! c = Some o ->
  strip message <> "" -> is_command "/id" (lower (strip message)) = true ->
  handle_try sty c (Some message) s
  = (Ok Continue,
     set_sent (fun l => l ++ [(c_socket o, bold sty ("Your id is " ++ py_str (c_id o) ++ "."))]) s).
Proof.
  intros Ho Hne Hid. unfold handle_try, handle_body. cbv zeta.
  rewrite (proj2 (String.eqb_neq _ _) Hne), Hid.
  unfold bind at 1. rewrite (client_at_Some _ _ _ Ho).
  unfold reply, Client_send.
  destruct (String.eqb_spec (strip (bold sty ("Your id is " ++ py_str (c_id o) ++ "."))) "")
    as [E|_].
  { apply strip_empty in E. by rewrite id_text in E. }
  unfold bind. by rewrite (client_at_Some _ _ _ Ho).
Qed.

(** Property X8.  A member that [kick] or [ban] has removed, and the handler thread of
    its connection.  The [Client] object is emptied, and [get_index_of]
    finds no index for its socket.  So a round of [handle] that begins then
    leaves the loop at the test of the index, before [recv] is called:
    [next], the text [recv] would give, plays no part.  The round that was
    waiting in [recv] when the member was removed has looked the member up
    already, and runs its [try] statement on the emptied object.  Whatever
    it receives, it ends normally and changes nothing but the messages
    sent, which all go to the removed member's own socket; [/id] is still
    answered with the member's identity.  When [recv] raises it leaves the
    loop with nothing sent.  The round after it leaves the loop. *)
Theorem removed_member_gets_answers_only
  (sty : Sty) (s : State) (i m socket : nat) (o : Client) (received : option string) :
  wf s -> group_bound s = true ->
  roster s !! i = Some m -> client_objs s !! m = Some o -> c_socket o = socket ->
  Client_is_owner m s = (Ok false, s) ->
  result (Client_kick m) s = Ok tt
  /\ result (Client_ban m) s = Ok tt
  /\ forall t, t = exec (Client_kick m) s \/ t = exec (Client_ban m) s ->
       destroyed t m
       /\ Group_get_index_of socket t = (Ok None, t)
       /\ (forall next, handle_round sty socket next t = (Ok Break, t))
       /\ exists r t',
            handle_try sty m received t = (Ok r, t')
            /\ answered socket t t'
            /\ (received = None -> r = Break /\ t' = t)
            /\ (forall message,
                  received = Some message -> strip message <> "" ->
                  is_command "/id" (lower (strip message)) = true ->
                  r = Continue
                  /\ t' = set_sent
                            (fun l => l ++ [(socket, bold sty ("Your id is " ++ py_str (c_id o) ++ "."))])
                            t)
            /\ forall next, handle_round sty socket next t' = (Ok Break, t').
Proof.
  intros Hwf Hb Hi Ho Hso Hown.
  pose proof (Client_kick_spec s i m Hwf Hi Hown) as E1.
  pose proof (Client_ban_spec s i m o Hwf Hi Hown Ho) as E2.
  unfold result, exec. rewrite E1, E2. cbn [fst snd].
  split; [done|]. split; [done|]. intros t Ht.
  assert (Hc : client_objs t = client_objs (after_kill i m s)) by (by destruct Ht as [->| ->]).
  assert (Hr : roster t = roster (after_kill i m s)) by (by destruct Ht as [->| ->]).
  assert (Hbt : group_bound t = true) by (by destruct Ht as [->| ->]).
  assert (Hk : client_objs t !! m = Some (killed o)).
  { rewrite Hc. unfold after_kill. cbn. by rewrite list_lookup_alter_eq, Ho. }
  split; [by apply (killed_destroyed t m o)|].
  split; [by apply (get_index_of_after_removal s i m o socket t)|].
  split; [by apply (no_index_after_removal sty s i m o socket t)|].
  destruct (emptied_try sty m (killed o) t received Hk eq_refl eq_refl)
    as (r & t' & Hrun & Hans & Hnone).
  change (c_socket (killed o)) with (c_socket o) in Hans. rewrite Hso in Hans.
  exists r, t'. split; [exact Hrun|]. split; [exact Hans|]. split; [exact Hnone|].
  split.
  - intros message -> Hne Hid.
    rewrite (emptied_id sty m (killed o) t message Hk Hne Hid) in Hrun.
    change (c_socket (killed o)) with (c_socket o) in Hrun.
    change (c_id (killed o)) with (c_id o) in Hrun. rewrite Hso in Hrun.
    by injection Hrun as <- <-.
  - destruct Hans as (msgs & _ & ->).
    by apply (no_index_after_removal sty s i m o socket).
Qed.

Lemma removed_member_gets_answers_only_witness :
  exists r t',
    handle_try ansi bob (Some "/id") (exec (Client_kick bob) joined) = (Ok r, t')
    /\ answered 2 (exec (Client_kick bob) joined) t'.
Proof.
  assert (Hi : roster joined !! 1 = Some bob) by (vm_compute; reflexivity).
  assert (Ho : client_objs joined !! bob
               = Some (mkClient "bob" 1004 2 (Some the_group) (Some 1) (Some "bob")))
    by (vm_compute; reflexivity).
  assert (Hown : Client_is_owner bob joined = (Ok false, joined)) by (vm_compute; reflexivity).
  destruct (removed_member_gets_answers_only ansi joined 1 bob 2 _ (Some "/id")
              wf_joined eq_refl Hi Ho eq_refl Hown) as (_ & _ & H).
  destruct (H _ (or_introl eq_refl)) as (_ & _ & _ & r & t' & Hrun & Hans & _).
  by exists r, t'.
Defined.


(* ================================================================== *)
(** ** The loop of receive *)
(* ================================================================== *)

(** *** The first connection *)

Lemma Group_init_eval s name u :
  name <> "" -> u_name u <> "" ->
  Group_init name (PUser u) s = (Ok tt, after_init name u s).
Proof.
  intros Hn Hu. unfold Group_init.
  rewrite (proj2 (String.eqb_neq name "") Hn).
  unfold bind at 1. unfold Permissions_all, Permissions_init. cbn [Z.ltb Z.gtb Z.compare].
  unfold new_perm at 1. cbv beta iota.
  unfold bind at 1. unfold Client_init, bind at 1, User_init.
  rewrite (proj2 (String.eqb_neq (u_name u) "") Hu).
  unfold bind, uuid4, ret, new_client, update_group, modify, Permissions_default,
    Permissions_init, new_perm. cbn.
  rewrite length_app. cbn [length]. rewrite Nat.add_1_r. f_equal.
Qed.

Lemma wf_after_init name u s : name <> "" -> u_name u <> "" -> wf (after_init name u s).
Proof.
  intros Hn Hu. destruct (Group_init_wf s name u Hn Hu) as [_ H].
  unfold exec in H. by rewrite (Group_init_eval s name u Hn Hu) in H.
Qed.

Lemma receive_round_founds sty s client nickname rest :
  group_bound s = false -> nickname <> "" ->
  let u := mkUser nickname (uuid_src s (uuid_drawn s)) client in
  receive_round sty client (nickname :: rest) s
  = (Ok (Started (Some (length (client_objs s)))),
     set_sent (fun l => l ++ [(client, "/nick");
                              (client, green_bold sty "Connected to the server!")])
       (set_group_bound true
          (after_init "Default" u (set_uuid_drawn (S (uuid_drawn s)) s)))).
Proof.
  intros Hb Hn u. unfold receive_round.
  unfold bind at 1. unfold socket_send at 1, modify at 1. cbv beta iota.
  unfold bind at 1. unfold get at 1. cbv beta iota.
  change (group_bound (set_sent _ s)) with (group_bound s). rewrite Hb. cbn [negb].
  unfold bind at 1. unfold found_group.
  unfold bind at 1. unfold User_init. rewrite (proj2 (String.eqb_neq nickname "") Hn).
  unfold bind at 1. unfold uuid4 at 1. unfold ret at 1. cbv beta iota.
  unfold bind at 1. fold u.
  rewrite (Group_init_eval _ "Default" u ltac:(discriminate) Hn).
  unfold bind at 1. unfold modify at 1. cbv beta iota.
  unfold bind at 1. unfold on_group at 1.
  cbn [group_bound set_group_bound]. unfold get_group at 1. cbv beta iota.
  unfold ret at 1. cbv beta iota.
  match goal with |- _ ?t = _ => set (s2 := t) end.
  change (g_owner (group s2)) with (Some (length (client_objs s))).
  set (msg := yellow_bold sty (nickname ++ " joined the chat!")).
  assert (Hwf2 : wf s2).
  { apply (wf_frame (after_init "Default" u
                       (set_uuid_drawn (S (uuid_drawn s))
                          (set_sent (fun l => l ++ [(client, "/nick")]) s)))); try done.
    by apply wf_after_init. }
  assert (Hbc : broadcast msg (Some (length (client_objs s))) s2 = (Ok tt, s2)).
  { unfold broadcast, on_group. cbn [group_bound s2 set_group_bound]. unfold bind, get_group.
    rewrite (broadcast_loop_spec msg (Some (length (client_objs s))) (g_clients (group s2)) s2
               (wf_live s2 Hwf2)).
    2:{ eexists. unfold s2. cbn. by apply list_lookup_middle. }
    change (g_clients (group s2)) with [length (client_objs s)].
    assert (Hf : List.filter (receives s2 (Some (length (client_objs s))))
                             [length (client_objs s)] = []).
    { cbn [List.filter]. unfold receives.
      rewrite bool_decide_eq_true_2 by done. cbn [negb]. by rewrite andb_false_r. }
    rewrite Hf. cbn [omap]. destruct (String.eqb (strip msg) "");
      unfold set_sent; destruct s2; cbn; by rewrite app_nil_r. }
  unfold bind at 1. rewrite Hbc. unfold bind, socket_send, modify, ret. f_equal.
  unfold s2, set_sent, set_group_bound, after_init, set_uuid_drawn. cbn.
  f_equal. by rewrite <- app_assoc.
Qed.

Lemma receive_round_no_name sty s client rest :
  group_bound s = false ->
  receive_round sty client ("" :: rest) s
  = (Raise ValueError, set_sent (fun l => l ++ [(client, "/nick")]) s).
Proof.
  intros Hb. unfold receive_round.
  unfold bind at 1. unfold socket_send at 1, modify at 1. cbv beta iota.
  unfold bind at 1. unfold get at 1. cbv beta iota.
  change (group_bound (set_sent _ s)) with (group_bound s). rewrite Hb. cbn [negb].
  unfold bind at 1. unfold found_group.
  unfold bind at 1. unfold User_init. cbn [String.eqb]. reflexivity.
Qed.

(** Property X28.  A round of [receive] while the global [group] is [None].  An empty
    nickname makes [User(...)] raise [ValueError], which nothing catches:
    the loop of [receive] ends there.  Any other nickname, blank ones
    included, founds the group: the connection is its owner and only
    member, with all permissions and that nickname; the default permissions
    have the value 19 and nobody is banned; the connection is sent [/nick]
    and the greeting, and a handler is started for it. *)
Theorem first_connection_founds_the_group
  (sty : Sty) (s : State) (client : nat) (nickname : string) (rest : list string) :
  group_bound s = false ->
  let r := result (receive_round sty client (nickname :: rest)) s in
  let s' := exec (receive_round sty client (nickname :: rest)) s in
  (nickname = "" ->
   r = Raise ValueError /\ s' = set_sent (fun l => l ++ [(client, "/nick")]) s)
  /\ (nickname <> "" ->
      exists owner,
        r = Ok (Started (Some owner))
        /\ running ∅ s' /\ nicknames_apart s'
        /\ roster s' = [owner] /\ g_owner (group s') = Some owner
        /\ g_bans (group s') = ∅
        /\ socket_of s' owner = Some client
        /\ nickname_of s' owner = Some nickname
        /\ permission_value s' owner = Some PermissionValues.ALL
        /\ default_value s' = Some 19%Z
        /\ sent s' = sent s ++ [(client, "/nick");
                                (client, green_bold sty "Connected to the server!")]).
Proof.
  intros Hb r s'. split.
  - intros ->. subst r s'. unfold result, exec.
    by rewrite (receive_round_no_name sty s client rest Hb).
  - intros Hn. subst r s'. unfold result, exec.
    rewrite (receive_round_founds sty s client nickname rest Hb Hn). cbn [fst snd].
    set (u := mkUser nickname (uuid_src s (uuid_drawn s)) client).
    set (s1 := after_init "Default" u (set_uuid_drawn (S (uuid_drawn s)) s)).
    assert (Hwf1 : wf s1) by (by apply wf_after_init).
    exists (length (client_objs s)). split; [done|].
    assert (Hown : client_objs s1 !! length (client_objs s)
                   = Some (mkClient nickname (uuid_src s (S (uuid_drawn s))) client
                                    (Some the_group) (Some (length (perm_objs s)))
                                    (Some nickname))).
    { unfold s1, after_init. cbn. by apply list_lookup_middle. }
    split.
    { split; [by apply (wf_frame s1)|]. split; [done|]. intros z Hz.
      by apply elem_of_empty in Hz. }
    split.
    { split.
      - change (NoDup [length (client_objs s)]). apply NoDup_singleton.
      - intros i j a b n Hi Hj _ _.
        change ([length (client_objs s)] !! i = Some a) in Hi.
        change ([length (client_objs s)] !! j = Some b) in Hj.
        destruct i as [|i], j as [|j]; try done; by destruct i || by destruct j. }
    split; [reflexivity|]. split; [reflexivity|]. split; [reflexivity|].
    split. { unfold socket_of. cbn [client_objs set_sent set_group_bound]. by rewrite Hown. }
    split. { unfold nickname_of. cbn [client_objs set_sent set_group_bound]. by rewrite Hown. }
    split.
    { apply permission_value_Some.
      eexists _, (length (perm_objs s)), (mkPermissions PermissionValues.ALL).
      split; [exact Hown|]. split; [done|]. split; [|done].
      unfold s1, after_init. cbn. rewrite <- app_assoc. by apply list_lookup_middle. }
    split; [|done].
    unfold default_value. cbn.
    rewrite (list_lookup_middle (perm_objs s ++ [mkPermissions PermissionValues.ALL]) []
               (mkPermissions 19) (S (length (perm_objs s)))); [done|].
    rewrite length_app. cbn. lia.
Qed.

Lemma first_connection_founds_the_group_witness :
  roster (exec (receive_round ansi 1 ["alice"]) (boot uuids)) = [0].
Proof.
  destruct (first_connection_founds_the_group ansi (boot uuids) 1 "alice" [] eq_refl)
    as [_ H].
  destruct (H ltac:(discriminate)) as (owner & _ & _ & _ & Hr & _).
  rewrite Hr. f_equal.
  assert (E : roster (exec (receive_round ansi 1 ["alice"]) (boot uuids)) = [0])
    by (vm_compute; reflexivity).
  congruence.
Defined.

(** *** A later connection *)

Lemma yellow_bold_text sty t : all_space t = false -> all_space (yellow_bold sty t) = false.
Proof. intros H. unfold yellow_bold. by apply all_space_tail, all_space_framed. Qed.

Lemma ask_nickname_spec sty client inputs s :
  wf s -> group_bound s = true ->
  forall pre, exists r cs,
    ask_nickname sty client inputs (set_sent (fun l => l ++ pre) s)
    = (Ok r, set_sent (fun l => l ++ pre ++ cs) s)
    /\ Forall (fun p => p.1 = client) cs
    /\ forall n, r = Some n ->
                 n ∈ inputs /\ strip n <> ""
                 /\ forall c, c ∈ roster s -> nickname_of s c <> Some n.
Proof.
  intros Hwf Hb. induction inputs as [|nickname rest IH]; intros pre; cbn [ask_nickname].
  - exists None, []. split; [by rewrite app_nil_r|]. split; [constructor|]. intros n [=].
  - assert (Hnext : forall x, x.1 = client ->
      exists r cs,
        ask_nickname sty client rest
          (set_sent (fun l => l ++ [x]) (set_sent (fun l => l ++ pre) s))
        = (Ok r, set_sent (fun l => l ++ pre ++ cs) s)
        /\ Forall (fun p => p.1 = client) cs
        /\ forall n, r = Some n ->
                     n ∈ nickname :: rest /\ strip n <> ""
                     /\ forall c, c ∈ roster s -> nickname_of s c <> Some n).
    { intros x Hx. destruct (IH (pre ++ [x])) as (r & cs & Hrun & Hcs & Hspec).
      exists r, (x :: cs). split.
      - rewrite set_sent_set_sent.
        rewrite (set_sent_ext _ (fun l => l ++ pre ++ [x]) s) by (by rewrite <- app_assoc).
        rewrite Hrun. f_equal. apply set_sent_ext. by rewrite <- !app_assoc.
      - split; [by constructor|]. intros n Hn.
        destruct (Hspec n Hn) as (Hin & Hrest). split; [by right|done]. }
    destruct (String.eqb_spec (strip nickname) "") as [Hblank|Hne].
    + unfold bind at 1. unfold socket_send at 1, modify at 1. cbv beta iota.
      by apply Hnext.
    + destruct (search_member_wf (set_sent (fun l => l ++ pre) s) nickname
                  (wf_sent _ s Hwf) Hb) as (i & found & Hrun & Hspec).
      unfold bind at 1. rewrite Hrun. cbn [snd]. destruct found as [m|].
      * unfold bind at 1. unfold socket_send at 1, modify at 1. cbv beta iota.
        by apply Hnext.
      * exists (Some nickname), []. split; [by rewrite app_nil_r|].
        split; [constructor|]. intros n [= <-].
        split; [by left|]. split; [done|]. exact Hspec.
Qed.

Lemma permission_value_after_add_old u s c :
  c < length (client_objs s) -> permission_value (after_add u s) c = permission_value s c.
Proof. intros Hc. unfold permission_value, after_add. cbn. by rewrite lookup_app_l. Qed.

Lemma nickname_of_after_add_old u s c :
  c < length (client_objs s) -> nickname_of (after_add u s) c = nickname_of s c.
Proof. intros Hc. unfold nickname_of, after_add. cbn. by rewrite lookup_app_l. Qed.

Lemma roster_in_store s c : wf s -> c ∈ roster s -> c < length (client_objs s).
Proof.
  intros Hwf Hc. destruct (wf_live s Hwf c Hc) as (o & _ & _ & _ & Ho & _).
  by apply lookup_lt_Some in Ho.
Qed.

(** The announcement of a new member goes to the members there were. *)
Lemma deliveries_after_add u s message :
  wf s ->
  (forall c, c ∈ roster s -> socket_of s c <> Some (u_socket u)) ->
  deliveries (after_add u s) message (Some (length (client_objs s)))
  = deliveries s message None.
Proof.
  intros Hwf Hfresh. unfold deliveries, recipients.
  change (roster (after_add u s)) with (roster s ++ [length (client_objs s)]).
  rewrite List.filter_app.
  assert (Hnew : List.filter (receives (after_add u s) (Some (length (client_objs s))))
                             [length (client_objs s)] = []).
  { cbn [List.filter]. unfold receives.
    rewrite bool_decide_eq_true_2 by done. cbn [negb]. by rewrite andb_false_r. }
  rewrite Hnew, app_nil_r.
  assert (Hold : forall l, (forall c, c ∈ l -> c ∈ roster s) ->
            omap (fun c => (fun k => (k, message)) <$> socket_of (after_add u s) c)
                 (List.filter (receives (after_add u s) (Some (length (client_objs s)))) l)
            = omap (fun c => (fun k => (k, message)) <$> socket_of s c)
                   (List.filter (receives s None) l)).
  { induction l as [|c l IHl]; intros Hl; [done|]. cbn [List.filter].
    assert (Hc : c ∈ roster s) by (apply Hl; by left).
    assert (Hlt : c < length (client_objs s)) by (by apply roster_in_store).
    assert (Hsame : receives (after_add u s) (Some (length (client_objs s))) c
                    = receives s None c).
    { unfold receives. rewrite (permission_value_after_add_old u s c Hlt).
      rewrite socket_of_after_add_new, (socket_of_after_add_old u s c Hlt).
      rewrite bool_decide_eq_false_2; [done|]. intros E. by apply (Hfresh c Hc). }
    rewrite Hsame. specialize (IHl (fun d Hd => Hl d (list_elem_of_further _ _ _ Hd))).
    destruct (receives s None c); [|exact IHl].
    cbn [omap list_omap]. rewrite (socket_of_after_add_old u s c Hlt).
    change (list_omap ?f ?l) with (omap f l). by rewrite IHl. }
  apply Hold. by intros c Hc.
Qed.

Lemma receive_round_joins sty s client inputs :
  wf s -> group_bound s = true ->
  (forall c, c ∈ roster s -> socket_of s c <> Some client) ->
  exists r cs s',
    receive_round sty client inputs s = (Ok r, s')
    /\ Forall (fun p => p.1 = client) cs
    /\ match r with
       | Waiting => s' = set_sent (fun l => l ++ (client, "/nick") :: cs) s
       | Turned_away =>
           uuid_src s (uuid_drawn s) ∈ g_bans (group s)
           /\ s' = set_sent
                     (fun l => l ++ (client, "/nick") :: cs
                                 ++ [(client, red_bold sty "You have been banned from this group and cannot rejoin it!")])
                     (set_uuid_drawn (S (uuid_drawn s)) s)
       | Started cur =>
           exists nickname,
             cur = Some (length (client_objs s))
             /\ nickname ∈ inputs /\ strip nickname <> ""
             /\ (forall c, c ∈ roster s -> nickname_of s c <> Some nickname)
             /\ (uuid_src s (uuid_drawn s) ∉ g_bans (group s))
             /\ s' = set_sent
                       (fun l => l ++ (client, "/nick") :: cs
                                   ++ deliveries s (yellow_bold sty (nickname ++ " joined the chat!")) None
                                   ++ [(client, green_bold sty "Connected to the server!")])
                       (after_add (mkUser nickname (uuid_src s (uuid_drawn s)) client)
                                  (set_uuid_drawn (S (uuid_drawn s)) s))
       end.
Proof.
  intros Hwf Hb Hfresh. unfold receive_round.
  unfold bind at 1. unfold socket_send at 1, modify at 1. cbv beta iota.
  unfold bind at 1. unfold get at 1. cbv beta iota.
  change (group_bound (set_sent _ s)) with (group_bound s). rewrite Hb. cbn [negb].
  unfold bind at 1. unfold join_group.
  destruct (ask_nickname_spec sty client inputs s Hwf Hb [(client, "/nick")])
    as (r & cs & Hask & Hcs & Hspec).
  unfold bind at 1. rewrite Hask. destruct r as [nickname|].
  2:{ exists Waiting, cs. eexists. split; [reflexivity|]. split; [done|]. reflexivity. }
  destruct (Hspec nickname eq_refl) as (Hin & Hne & Hfree).
  assert (Hn : nickname <> "") by (intros ->; by apply Hne).
  set (u := mkUser nickname (uuid_src s (uuid_drawn s)) client).
  set (s1 := set_sent (fun l => l ++ [(client, "/nick")] ++ cs) s).
  set (s2 := set_uuid_drawn (S (uuid_drawn s)) s1).
  assert (Huser : User_init nickname client s1 = (Ok u, s2)).
  { unfold User_init. by rewrite (proj2 (String.eqb_neq nickname "") Hn). }
  assert (Hmiss : forall c, c ∈ roster s2 ->
            exists oc, client_objs s2 !! c = Some oc /\ c_socket oc <> u_socket u).
  { intros c Hc. destruct (wf_live s Hwf c Hc) as (oc & _ & _ & _ & Hoc & _).
    exists oc. split; [done|]. intros E. apply (Hfresh c Hc).
    unfold socket_of. rewrite Hoc. cbn. by rewrite E. }
  unfold try_except. unfold bind at 1. rewrite Huser.
  unfold bind at 1. unfold on_group at 1. change (group_bound s2) with (group_bound s).
  rewrite Hb.
  destruct (decide (u_id u ∈ g_bans (group s))) as [Hban|Hok].
  - rewrite (Group_add_banned s2 u Hmiss Hban). rewrite decide_True by done.
    unfold bind, socket_send, modify, ret.
    exists Turned_away, cs. eexists. split; [reflexivity|]. split; [done|].
    split; [done|].
    transitivity
      (set_sent
         (fun l => (l ++ [(client, "/nick")] ++ cs)
                     ++ [(client, red_bold sty "You have been banned from this group and cannot rejoin it!")])
         (set_uuid_drawn (S (uuid_drawn s)) s)); [reflexivity|].
    apply set_sent_ext. cbn. by rewrite <- app_assoc.
  - destruct (wf_default s Hwf) as (d & x & Hd & Hx).
    rewrite (Group_add_spec s2 u d Hmiss Hok Hn Hd).
    unfold ret at 1. cbv beta iota.
    set (s3 := after_add u s2).
    assert (Hwf2 : wf s2) by (by apply (wf_frame s)).
    assert (Hwf3 : wf s3) by (by apply wf_after_add).
    assert (Hm : is_Some (client_objs s3 !! length (client_objs s2))).
    { eexists. unfold s3, after_add. cbn. by apply list_lookup_middle. }
    assert (Htext : all_space (yellow_bold sty (nickname ++ " joined the chat!")) = false).
    { apply yellow_bold_text. by apply all_space_tail. }
    unfold bind at 1.
    rewrite (broadcast_eval _ (Some (length (client_objs s2))) s3 Hwf3 Hb Hm Htext).
    unfold bind, socket_send, modify, ret.
    exists (Started (Some (length (client_objs s)))), cs. eexists.
    split; [reflexivity|]. split; [done|].
    exists nickname. split; [done|]. split; [done|]. split; [done|].
    split; [done|]. split; [done|].
    assert (Hdel : deliveries s3 (yellow_bold sty (nickname ++ " joined the chat!"))
                     (Some (length (client_objs s2)))
                   = deliveries s (yellow_bold sty (nickname ++ " joined the chat!")) None).
    { transitivity
        (deliveries (after_add u (set_uuid_drawn (S (uuid_drawn s)) s))
           (yellow_bold sty (nickname ++ " joined the chat!"))
           (Some (length (client_objs s)))); [reflexivity|].
      apply (deliveries_after_add u (set_uuid_drawn (S (uuid_drawn s)) s));
        [by apply (wf_frame s)|exact Hfresh]. }
    rewrite Hdel.
    transitivity
      (set_sent
         (fun l => ((l ++ [(client, "/nick")] ++ cs)
                      ++ deliveries s (yellow_bold sty (nickname ++ " joined the chat!")) None)
                     ++ [(client, green_bold sty "Connected to the server!")])
         (after_add u (set_uuid_drawn (S (uuid_drawn s)) s))); [reflexivity|].
    apply set_sent_ext. cbn. by rewrite <- !app_assoc.
Qed.

Lemma nickname_of_after_add_new u s :
  nickname_of (after_add u s) (length (client_objs s)) = Some (u_name u).
Proof. unfold nickname_of, after_add. cbn. by rewrite list_lookup_middle. Qed.

Lemma permission_value_after_add_new u s :
  permission_value (after_add u s) (length (client_objs s)) = default_value s.
Proof.
  unfold permission_value, default_value, after_add. cbn.
  by rewrite list_lookup_middle.
Qed.

Lemma nicknames_apart_after_add u s :
  wf s -> nicknames_apart s ->
  (forall c, c ∈ roster s -> nickname_of s c <> Some (u_name u)) ->
  nicknames_apart (after_add u s).
Proof.
  intros Hwf [Hnd Hu] Hfree.
  assert (Hnew : forall i a, (roster s ++ [length (client_objs s)]) !! i = Some a ->
            (roster s !! i = Some a /\ a < length (client_objs s)
             /\ nickname_of (after_add u s) a = nickname_of s a)
            \/ (i = length (roster s) /\ a = length (client_objs s)
                /\ nickname_of (after_add u s) a = Some (u_name u))).
  { intros i a Hi. apply lookup_app_Some in Hi as [Hi|[Hle Hi]].
    - left. split; [done|].
      assert (Hlt : a < length (client_objs s)).
      { apply roster_in_store; [done|]. by eapply list_elem_of_lookup_2. }
      split; [done|]. by apply nickname_of_after_add_old.
    - right. destruct (i - length (roster s)) as [|k] eqn:Hk; [|done].
      injection Hi as <-. split; [lia|]. split; [done|]. apply nickname_of_after_add_new. }
  split.
  - change (roster (after_add u s)) with (roster s ++ [length (client_objs s)]).
    apply NoDup_app. split; [done|]. split; [|apply NoDup_singleton].
    intros c Hc ->%list_elem_of_singleton.
    pose proof (roster_in_store s _ Hwf Hc). lia.
  - intros i j a b n Hi Hj Ha Hb.
    change (roster (after_add u s)) with (roster s ++ [length (client_objs s)]) in Hi, Hj.
    destruct (Hnew i a Hi) as [(Hi' & _ & Ea)|(-> & -> & Ea)],
             (Hnew j b Hj) as [(Hj' & _ & Eb)|(-> & -> & Eb)].
    + rewrite Ea in Ha. rewrite Eb in Hb. by apply (Hu i j a b n).
    + rewrite Ea in Ha. rewrite Eb in Hb. injection Hb as <-.
      exfalso. apply (Hfree a); [by eapply list_elem_of_lookup_2|done].
    + rewrite Ea in Ha. rewrite Eb in Hb. injection Ha as <-.
      exfalso. apply (Hfree b); [by eapply list_elem_of_lookup_2|done].
    + done.
Qed.

(** Property X29.  A round of [receive] while the group is running, for a connection whose
    socket no member holds ([accept] gives a new socket).  The round ends
    normally.  Until a nickname is neither blank nor the nickname of a
    member, the connection alone is sent complaints [cs].  Then either
    [recv] gives nothing more, and only [/nick] and the complaints were
    sent; or the identity drawn for the new [User] is banned, and the
    connection is told so and stays outside; or the connection is a new
    member at the end of the roster, with that nickname and the default
    permission value, every earlier member who reads messages is sent the
    announcement, and the connection the greeting.  The group keeps
    running, nicknames stay apart, and the earlier members keep their
    nicknames and permission values. *)
Theorem later_connection_joins_or_waits
  (sty : Sty) (B : gset Z) (s : State) (client : nat) (inputs : list string) :
  running B s -> nicknames_apart s ->
  (forall c, c ∈ roster s -> socket_of s c <> Some client) ->
  exists r cs s',
    receive_round sty client inputs s = (Ok r, s')
    /\ Forall (fun p => p.1 = client) cs
    /\ running B s' /\ nicknames_apart s'
    /\ (forall c, c ∈ roster s ->
          nickname_of s' c = nickname_of s c
          /\ permission_value s' c = permission_value s c)
    /\ match r with
       | Waiting =>
           roster s' = roster s
           /\ sent s' = sent s ++ (client, "/nick") :: cs
       | Turned_away =>
           uuid_src s (uuid_drawn s) ∈ g_bans (group s)
           /\ roster s' = roster s
           /\ sent s' = sent s ++ (client, "/nick") :: cs
                          ++ [(client, red_bold sty "You have been banned from this group and cannot rejoin it!")]
       | Started cur =>
           exists member nickname,
             cur = Some member
             /\ nickname ∈ inputs /\ strip nickname <> ""
             /\ roster s' = roster s ++ [member]
             /\ socket_of s' member = Some client
             /\ nickname_of s' member = Some nickname
             /\ permission_value s' member = default_value s
             /\ sent s' = sent s ++ (client, "/nick") :: cs
                            ++ deliveries s (yellow_bold sty (nickname ++ " joined the chat!")) None
                            ++ [(client, green_bold sty "Connected to the server!")]
       end.
Proof.
  intros Hr Hapart Hfresh. pose proof Hr as (Hwf & Hb & HB).
  destruct (receive_round_joins sty s client inputs Hwf Hb Hfresh)
    as (r & cs & s' & Hrun & Hcs & Hcase).
  exists r, cs, s'. split; [exact Hrun|]. split; [exact Hcs|].
  destruct r as [cur| |].
  - destruct Hcase as (nickname & -> & Hin & Hne & Hfree & Hok & ->).
    set (u := mkUser nickname (uuid_src s (uuid_drawn s)) client).
    set (t := set_uuid_drawn (S (uuid_drawn s)) s).
    assert (Hwft : wf t) by (by apply (wf_frame s)).
    assert (Hmiss : forall c, c ∈ roster t ->
              exists oc, client_objs t !! c = Some oc /\ c_socket oc <> u_socket u).
    { intros c Hc. destruct (wf_live s Hwf c Hc) as (oc & _ & _ & _ & Hoc & _).
      exists oc. split; [done|]. intros E. apply (Hfresh c Hc).
      unfold socket_of. rewrite Hoc. cbn. by rewrite E. }
    split.
    { apply running_sent. split; [by apply wf_after_add|]. split; [done|exact HB]. }
    split.
    { apply (nicknames_apart_frame (after_add u t)); [done|done|].
      apply nicknames_apart_after_add; [done| |exact Hfree].
      by apply (nicknames_apart_frame s). }
    split.
    { intros c Hc. pose proof (roster_in_store s c Hwf Hc) as Hlt. split.
      - exact (nickname_of_after_add_old u t c Hlt).
      - exact (permission_value_after_add_old u t c Hlt). }
    exists (length (client_objs s)), nickname.
    split; [done|]. split; [done|]. split; [done|]. split; [reflexivity|].
    split; [exact (socket_of_after_add_new u t)|].
    split; [exact (nickname_of_after_add_new u t)|].
    split; [exact (permission_value_after_add_new u t)|]. reflexivity.
  - destruct Hcase as (Hban & ->).
    split.
    { apply running_sent. split; [by apply (wf_frame s)|]. split; [done|exact HB]. }
    split; [by apply (nicknames_apart_frame s)|]. split; [done|].
    split; [done|]. split; reflexivity.
  - subst s'. split; [by apply running_sent|].
    split; [by apply (nicknames_apart_frame s)|]. split; [done|]. split; reflexivity.
Qed.

Lemma nicknames_apart_joined : nicknames_apart joined.
Proof.
  split; [|exact nick_unique_joined].
  change (NoDup [0; 1]). apply NoDup_cons. split; [|apply NoDup_singleton].
  intros H. apply list_elem_of_singleton in H. discriminate.
Qed.

Lemma running_joined : running ∅ joined.
Proof.
  split; [exact wf_joined|]. split; [vm_compute; reflexivity|].
  intros z Hz. by apply elem_of_empty in Hz.
Qed.

Lemma sockets_of_joined c : c ∈ roster joined -> socket_of joined c <> Some 3.
Proof.
  change (roster joined) with [0; 1].
  intros Hc. apply elem_of_cons in Hc as [->|Hc];
    [|apply list_elem_of_singleton in Hc as ->]; vm_compute; discriminate.
Qed.

Lemma later_connection_joins_or_waits_witness :
  exists r s',
    receive_round ansi 3 [""; "bob"; "carol"] joined = (Ok r, s')
    /\ running ∅ s' /\ nicknames_apart s'.
Proof.
  destruct (later_connection_joins_or_waits ansi ∅ joined 3 [""; "bob"; "carol"]
              running_joined nicknames_apart_joined sockets_of_joined)
    as (r & cs & s' & Hrun & _ & Hr & Ha & _).
  by exists r, s'.
Defined.

(** *** Bans and new connections *)

Lemma drawn_more s s' i :
  uuid_src s' = uuid_src s -> uuid_drawn s <= uuid_drawn s' -> drawn s i -> drawn s' i.
Proof. intros Hs Hd (k & Hk & E). exists k. rewrite Hs. split; [lia|done]. Qed.

Lemma ids_drawn_more s s' :
  client_objs s' = client_objs s -> g_bans (group s') = g_bans (group s) ->
  uuid_src s' = uuid_src s -> uuid_drawn s <= uuid_drawn s' ->
  ids_drawn s -> ids_drawn s'.
Proof.
  intros Hc Hb Hs Hd [H1 H2]. split.
  - intros c o. rewrite Hc. intros Ho. by apply (drawn_more s), (H1 c).
  - intros i. rewrite Hb. intros Hi. by apply (drawn_more s), H2.
Qed.

Lemma ids_drawn_after_add u s : ids_drawn s -> ids_drawn (after_add u s).
Proof.
  intros [H1 H2]. split.
  - intros c o Ho. unfold after_add in Ho. cbn in Ho.
    apply lookup_app_Some in Ho as [Ho|[_ Ho]].
    + apply (drawn_more s); [done|cbn; lia|]. by apply (H1 c).
    + destruct (c - length (client_objs s)); [|done]. injection Ho as <-.
      exists (uuid_drawn s). split; [cbn; lia|done].
  - intros i Hi. apply (drawn_more s); [done|cbn; lia|]. by apply H2.
Qed.

(** Property X30.  Assume [uuid4] never repeats a value and every banned identity is one
    that [uuid4] has given.  Then a round of [receive] for a new connection
    never takes the [except Forbidden] branch, whatever nickname the
    connection gives: the identity of the [User] it builds is a new value,
    which the ban set cannot hold.  The round keeps the assumption. *)
Theorem new_connection_is_never_turned_away
  (sty : Sty) (B : gset Z) (s : State) (client : nat) (inputs : list string) :
  running B s ->
  (forall c, c ∈ roster s -> socket_of s c <> Some client) ->
  Inj (=) (=) (uuid_src s) ->
  ids_drawn s ->
  result (receive_round sty client inputs) s <> Ok Turned_away
  /\ ids_drawn (exec (receive_round sty client inputs) s).
Proof.
  intros (Hwf & Hb & HB) Hfresh Hinj Hids.
  destruct (receive_round_joins sty s client inputs Hwf Hb Hfresh)
    as (r & cs & s' & Hrun & _ & Hcase).
  unfold result, exec. rewrite Hrun. cbn [fst snd].
  destruct r as [cur| |].
  - split; [discriminate|].
    destruct Hcase as (nickname & _ & _ & _ & _ & _ & ->).
    apply (ids_drawn_frame (after_add (mkUser nickname (uuid_src s (uuid_drawn s)) client)
                                      (set_uuid_drawn (S (uuid_drawn s)) s)));
      [done|done|done|done|].
    apply ids_drawn_after_add. apply (ids_drawn_more s); [done|done|done|cbn; lia|done].
  - exfalso. destruct Hcase as (Hban & _).
    destruct Hids as [_ H2]. destruct (H2 _ Hban) as (k & Hk & E).
    apply Hinj in E. lia.
  - split; [discriminate|]. subst s'. by apply (ids_drawn_frame s).
Qed.

Lemma running_bob_banned : running ∅ bob_banned.
Proof.
  split; [|split; [vm_compute; reflexivity|intros z Hz; by apply elem_of_empty in Hz]].
  split.
  - intros c Hc. change (roster bob_banned) with [0] in Hc.
    apply list_elem_of_singleton in Hc as ->.
    eexists _, 0, _, _. split; [vm_compute; reflexivity|]. cbn. split; [done|].
    split; [done|]. split; [|done]. vm_compute. reflexivity.
  - change (NoDup [Some 1]). apply NoDup_singleton.
  - exists 1, (mkPermissions 19). split; vm_compute; reflexivity.
  - exists 0. split; [vm_compute; reflexivity|]. change (0 ∈ [0]). by left.
Qed.

Lemma ids_drawn_bob_banned : ids_drawn bob_banned.
Proof.
  split.
  - intros c o Ho.
    change (client_objs bob_banned)
      with [mkClient "alice" 1001 1 (Some the_group) (Some 0) (Some "alice");
            mkClient "bob" 1004 2 None None None] in Ho.
    destruct c as [|[|c]]; cbn in Ho; [| |done]; injection Ho as <-.
    + exists 1. split; [vm_compute; lia|reflexivity].
    + exists 4. split; [vm_compute; lia|reflexivity].
  - intros i Hi. change (g_bans (group bob_banned)) with ({[ 1004%Z ]} ∪ (∅ : gset Z)) in Hi.
    apply elem_of_union in Hi as [Hi|Hi]; [|by apply elem_of_empty in Hi].
    apply elem_of_singleton in Hi as ->. exists 4. split; [vm_compute; lia|reflexivity].
Qed.

Lemma sockets_of_bob_banned c : c ∈ roster bob_banned -> socket_of bob_banned c <> Some 5.
Proof.
  change (roster bob_banned) with [0].
  intros Hc. apply list_elem_of_singleton in Hc as ->. vm_compute. discriminate.
Qed.

Lemma new_connection_is_never_turned_away_witness :
  result (receive_round ansi 5 ["bob"]) bob_banned <> Ok Turned_away.
Proof.
  exact (proj1 (new_connection_is_never_turned_away ansi ∅ bob_banned 5 ["bob"]
                  running_bob_banned sockets_of_bob_banned uuids_inj ids_drawn_bob_banned)).
Defined.

